(** * Sparse Image Format (SIF) I/O library: a shallow embedding of sif-io.c

    The development follows the layout of [sif-io.c]: bit macros, the hash,
    the byte-order adapter, the packed integer codec, the tile-header table,
    the meta-data store, tile-slice and raster-window I/O, the defragmenter
    and the life cycle (create / open / flush / close).

    Modelling conventions.
    - A byte ([u_char]) is a [Z] in [0, 256); a buffer is a [list Z].
    - [long] is the 32-bit type the code assumes ("writes the 32 most
      significant bits"); the only place where its width is observable, the
      decoding of packed integers, wraps explicitly ([wrap32]).  Where
      [long] has 64 bits the decoder returns the unsigned value instead
      ([packed_bytes_to_long]): a result that reads a negative number back
      from a file (a block number -1, a negative header field) is a result
      about a build with a 32-bit [long], and says so.  Geometry arithmetic
      is done in [Z] (signed overflow is undefined in C).
    - [malloc], [realloc] and [fopen] succeed: the branches that follow a
      failed allocation are not part of the model.  A result about what a
      call returns or stores takes the successful call as a hypothesis
      ([sif_create]) and keeps sizes positive ([_sif_set_meta_data_len]).
    - A pointer that the code tests against 0 is an [option].
    - The underlying stdio file is a byte list with a position.  Seeking to
      a negative offset fails, reading past the end is a short read, writing
      past the end extends the file with zero bytes, and writes succeed.
    - An access outside an array is undefined in C; the model reads 0 there
      and drops the write.
    - [sys_error_no], [error_line_no] and the scratch [ubuf] are diagnostic
      or temporary and are not part of the state. *)

From Stdlib Require Import Sorted.
From stdpp Require Import list numbers.

Local Open Scope Z_scope.

(** ** Arrays indexed by C integers *)

Definition arr_get (a : list Z) (i : Z) : Z :=
  if i <? 0 then 0 else default 0 (a !! Z.to_nat i).

Definition arr_set (a : list Z) (i : Z) (v : Z) : list Z :=
  if i <? 0 then a else <[Z.to_nat i := v]> a.

(** [sub_bytes a off n]: the [n] bytes found at [a + off]. *)
Definition sub_bytes (a : list Z) (off n : Z) : list Z :=
  if off <? 0 then replicate (Z.to_nat n) 0
  else resize (Z.to_nat n) 0 (drop (Z.to_nat off) a).

(** [poke dst off src]: store the bytes [src] at [dst + off]. *)
Fixpoint poke (dst : list Z) (off : nat) (src : list Z) : list Z :=
  match src with
  | [] => dst
  | b :: src' => poke (<[off := b]> dst) (S off) src'
  end.

(** [memcpy(dst + doff, src + soff, n)] *)
Definition memcpy (dst : list Z) (doff : Z) (src : list Z) (soff n : Z) : list Z :=
  if doff <? 0 then dst else poke dst (Z.to_nat doff) (sub_bytes src soff n).

(** [memset(dst + doff, c, n)] *)
Definition memset (dst : list Z) (doff : Z) (c n : Z) : list Z :=
  if doff <? 0 then dst else poke dst (Z.to_nat doff) (replicate (Z.to_nat n) (Z.land c 255)).

(** [bzero(dst, n)] *)
Definition bzero (dst : list Z) (n : Z) : list Z := memset dst 0 0 n.

(** [memcmp(a + aoff, b + boff, n) == 0] *)
Definition memcmp_eq (a : list Z) (aoff : Z) (b : list Z) (boff n : Z) : bool :=
  bool_decide (sub_bytes a aoff n = sub_bytes b boff n).

(** C strings: the bytes before the first NUL. *)
Fixpoint cstr (s : list Z) : list Z :=
  match s with
  | [] => []
  | c :: s' => if c =? 0 then [] else c :: cstr s'
  end.

Definition strlen (s : list Z) : Z := Z.of_nat (length (cstr s)).

Definition strcmp_eq (a b : list Z) : bool := bool_decide (cstr a = cstr b).

Definition MAX (x y : Z) : Z := if x >? y then x else y.
Definition MIN (x y : Z) : Z := if x <? y then x else y.

(** [CEIL_DIV] compares the real quotient with the truncated one; for the
    32-bit operands of the library the comparison in [double] is exact, so
    the test is divisibility. *)
Definition CEIL_DIV (x y : Z) : Z :=
  if Z.rem x y =? 0 then Z.quot x y else Z.quot x y + 1.

Definition SIF_VERSION : Z := 2.
Definition SIF_HASH_TABLE_SIZE : Z := 128.

(** ** Error codes (sif-io.h) *)

Definition SIF_ERROR_NONE : Z := 0.
Definition SIF_ERROR_MEM : Z := 1.
Definition SIF_ERROR_NULL_FP : Z := 2.
Definition SIF_ERROR_NULL_HDR : Z := 3.
Definition SIF_ERROR_INVALID_BN : Z := 4.
Definition SIF_ERROR_INVALID_TN : Z := 5.
Definition SIF_ERROR_READ : Z := 6.
Definition SIF_ERROR_WRITE : Z := 7.
Definition SIF_ERROR_SEEK : Z := 8.
Definition SIF_ERROR_TRUNCATE : Z := 9.
Definition SIF_ERROR_INVALID_FILE_MODE : Z := 10.
Definition SIF_ERROR_INCOMPATIBLE_VERSION : Z := 11.
Definition SIF_ERROR_META_DATA_KEY : Z := 12.
Definition SIF_ERROR_META_DATA_VALUE : Z := 13.
Definition SIF_ERROR_CANNOT_WRITE_VERSION : Z := 14.
Definition SIF_ERROR_INVALID_BAND : Z := 15.
Definition SIF_ERROR_INVALID_COORD : Z := 16.
Definition SIF_ERROR_INVALID_TILE_SIZE : Z := 17.
Definition SIF_ERROR_INVALID_REGION_SIZE : Z := 18.
Definition SIF_ERROR_INVALID_BUFFER : Z := 19.

Definition SIF_SIMPLE_LITTLE_ENDIAN : Z := 0.
Definition SIF_SIMPLE_BIG_ENDIAN : Z := 1.

(** ** Bit flags, most significant bit first *)

Definition SIF_GET_BIT (uca : list Z) (i : Z) : Z :=
  Z.land (Z.shiftr (arr_get uca (Z.quot i 8)) (7 - Z.rem i 8)) 1.

Definition SIF_SET_BIT (uca : list Z) (i : Z) : list Z :=
  arr_set uca (Z.quot i 8)
    (Z.land (Z.lor (arr_get uca (Z.quot i 8)) (Z.shiftl 1 (7 - Z.rem i 8))) 255).

Definition SIF_CLEAR_BIT (uca : list Z) (i : Z) : list Z :=
  arr_set uca (Z.quot i 8)
    (Z.land (Z.land (arr_get uca (Z.quot i 8)) (Z.lnot (Z.shiftl 1 (7 - Z.rem i 8)))) 255).

(** ** Dan Bernstein's hash, on [unsigned long] *)

Fixpoint _sif_hash_from (hash : Z) (str : list Z) : Z :=
  match str with
  | [] => hash
  | c :: str' =>
      if c =? 0 then hash
      else _sif_hash_from ((Z.shiftl hash 5 + hash + c) mod 2 ^ 32) str'
  end.

Definition _sif_hash (str : list Z) : Z := _sif_hash_from 5381 str.

(** ** Byte-order adapter *)

Inductive byte_order := LITTLE_ENDIAN | BIG_ENDIAN.

(** One turn of the inner loop body of [_sif_swap_bytes]:
    [tmp = buffer[k]; buffer[k] = buffer[i]; buffer[i] = tmp;] *)
Definition swap_step (buffer : list Z) (i k : Z) : list Z :=
  let tmp := arr_get buffer k in
  let buffer := arr_set buffer k (arr_get buffer i) in
  arr_set buffer i tmp.

(** [for (j = i, k = m; k < n_bytes; j += elem_size, k += elem_size)] *)
Fixpoint _sif_swap_bytes_inner (fuel : nat) (buffer : list Z)
    (n_bytes elem_size i j k : Z) : list Z :=
  match fuel with
  | O => buffer
  | S fuel' =>
      if k <? n_bytes
      then _sif_swap_bytes_inner fuel' (swap_step buffer i k)
             n_bytes elem_size i (j + elem_size) (k + elem_size)
      else buffer
  end.

(** [for (i = 0; i < esz_h; i++)] *)
Definition _sif_swap_bytes (buffer : list Z) (n_bytes elem_size : Z) : list Z :=
  let esz_h := Z.quot elem_size 2 in
  foldl (fun buffer i =>
           let m := esz_h - i - 1 in
           _sif_swap_bytes_inner (Z.to_nat n_bytes) buffer n_bytes elem_size i i m)
        buffer (seqZ 0 esz_h).

Section ByteOrder.
(** The byte order of the machine the library is compiled for. *)
Variable host : byte_order.

Definition _sif_buffer_host_to_big (buffer : list Z) (n_bytes elem_size : Z) : list Z :=
  match host with
  | LITTLE_ENDIAN => _sif_swap_bytes buffer n_bytes elem_size
  | BIG_ENDIAN => buffer
  end.

Definition _sif_buffer_host_to_little (buffer : list Z) (n_bytes elem_size : Z) : list Z :=
  match host with
  | LITTLE_ENDIAN => buffer
  | BIG_ENDIAN => _sif_swap_bytes buffer n_bytes elem_size
  end.

Definition _sif_buffer_host_to_code (buffer : list Z) (n_bytes elem_size : Z)
    (simple_endian_code : Z) : list Z :=
  let buffer :=
    if simple_endian_code =? SIF_SIMPLE_BIG_ENDIAN
    then _sif_buffer_host_to_big buffer n_bytes elem_size else buffer in
  if simple_endian_code =? SIF_SIMPLE_LITTLE_ENDIAN
  then _sif_buffer_host_to_little buffer n_bytes elem_size else buffer.

Definition _sif_buffer_little_to_host (buffer : list Z) (n_bytes elem_size : Z) : list Z :=
  match host with
  | LITTLE_ENDIAN => buffer
  | BIG_ENDIAN => _sif_swap_bytes buffer n_bytes elem_size
  end.

Definition _sif_buffer_big_to_host (buffer : list Z) (n_bytes elem_size : Z) : list Z :=
  match host with
  | LITTLE_ENDIAN => _sif_swap_bytes buffer n_bytes elem_size
  | BIG_ENDIAN => buffer
  end.

Definition _sif_buffer_code_to_host (buffer : list Z) (n_bytes elem_size : Z)
    (simple_endian_code : Z) : list Z :=
  let buffer :=
    if simple_endian_code =? SIF_SIMPLE_BIG_ENDIAN
    then _sif_buffer_big_to_host buffer n_bytes elem_size else buffer in
  if simple_endian_code =? SIF_SIMPLE_LITTLE_ENDIAN
  then _sif_buffer_little_to_host buffer n_bytes elem_size else buffer.

(** The code of the host's own order ([SIF_SIMPLE_NATIVE_ENDIAN]). *)
Definition SIF_SIMPLE_NATIVE_ENDIAN : Z :=
  match host with
  | LITTLE_ENDIAN => SIF_SIMPLE_LITTLE_ENDIAN
  | BIG_ENDIAN => SIF_SIMPLE_BIG_ENDIAN
  end.
End ByteOrder.

(** What the adapter is documented to do to a buffer of [count] elements of
    [elem_size] bytes: reverse the bytes of every element. *)
Fixpoint reverse_elements (count elem_size : nat) (buffer : list Z) : list Z :=
  match count with
  | O => buffer
  | S count' =>
      reverse (take elem_size buffer)
        ++ reverse_elements count' elem_size (drop elem_size buffer)
  end.

(** ** The underlying file *)

Record FILE := mkFILE { contents : list Z; position : Z }.

(** [fopen64(filename, "wb+")]: a fresh, empty file. *)
Definition fopen_wb : FILE := mkFILE [] 0.

(** [fopen64(filename, "rb")] or ["r+b"] on a file holding [bytes]. *)
Definition fopen_rb (bytes : list Z) : FILE := mkFILE bytes 0.

(** [fseek(fp, loc, SEEK_SET) == 0] *)
Definition fseek (fp : FILE) (loc : Z) : option FILE :=
  if loc <? 0 then None else Some (mkFILE (contents fp) loc).

(** Store [data] at offset [pos], padding a gap with zero bytes. *)
Definition pwrite (c : list Z) (pos : Z) (data : list Z) : list Z :=
  let p := Z.to_nat pos in
  resize p 0 c ++ data ++ drop (p + length data) c.

(** [fwrite(buf, els, nel, fp)]: the number of elements written, and the file.
    With a zero size or count nothing is written and 0 is returned. *)
Definition fwrite (buf : list Z) (els nel : Z) (fp : FILE) : Z * FILE :=
  if (els <=? 0) || (nel <=? 0) then (0, fp)
  else
    let data := sub_bytes buf 0 (els * nel) in
    (nel, mkFILE (pwrite (contents fp) (position fp) data)
                 (position fp + Z.of_nat (length data))).

(** [fread(buf, els, nel, fp)]: the bytes obtained, the number of complete
    elements among them, and the file. *)
Definition fread (els nel : Z) (fp : FILE) : list Z * Z * FILE :=
  if (els <=? 0) || (nel <=? 0) then ([], 0, fp)
  else
    let data := take (Z.to_nat (els * nel)) (drop (Z.to_nat (position fp)) (contents fp)) in
    let got := Z.of_nat (length data) in
    (data, Z.quot got els, mkFILE (contents fp) (position fp + got)).

(** [ftruncate(fileno(fp), pos) == 0] *)
Definition ftruncate (fp : FILE) (pos : Z) : option FILE :=
  if pos <? 0 then None
  else Some (mkFILE (resize (Z.to_nat pos) 0 (contents fp)) (position fp)).

(** ** Data structures (sif-io.h) *)

(** A [double] is kept as its eight bytes in host memory order. *)
Definition double := list Z.

Record sif_header := mk_header {
  magic_number : list Z;
  version : Z;
  width : Z;
  height : Z;
  bands : Z;
  n_keys : Z;
  n_tiles : Z;
  tile_width : Z;
  tile_height : Z;
  tile_bytes : Z;
  n_tiles_across : Z;
  data_unit_size : Z;
  user_data_type : Z;
  defragment : Z;
  consolidate : Z;
  intrinsic_write : Z;
  tile_header_bytes : Z;
  n_uniform_flags : Z;
  affine_geo_transform : list double
}.

Record sif_tile := mk_tile {
  uniform_flags : list Z;
  uniform_pixel_values : list Z;
  block_num : Z
}.

(** A node of a collision chain; [next] is the tail of the chain it sits in. *)
Record sif_meta_data := mk_meta_data {
  key : list Z;
  value : list Z;
  key_length : Z;
  value_length : Z
}.

Record sif_file := mk_file {
  fp : FILE;
  header : option sif_header;
  tiles : list sif_tile;
  meta_data : list (list sif_meta_data);
  read_only : Z;
  blocks_to_tiles : list Z;
  dirty_tiles : list Z;
  buffer0 : list Z;
  buffer1 : list Z;
  base_location : Z;
  error : Z;
  units_per_slice : Z;
  units_per_tile : Z;
  header_bytes : Z;
  use_file_version : Z
}.

(** Field assignments. *)

Definition set_fp (f : sif_file) (x : FILE) : sif_file :=
  mk_file x (header f) (tiles f) (meta_data f) (read_only f) (blocks_to_tiles f)
    (dirty_tiles f) (buffer0 f) (buffer1 f) (base_location f) (error f)
    (units_per_slice f) (units_per_tile f) (header_bytes f) (use_file_version f).

Definition set_header (f : sif_file) (x : option sif_header) : sif_file :=
  mk_file (fp f) x (tiles f) (meta_data f) (read_only f) (blocks_to_tiles f)
    (dirty_tiles f) (buffer0 f) (buffer1 f) (base_location f) (error f)
    (units_per_slice f) (units_per_tile f) (header_bytes f) (use_file_version f).

Definition set_tiles (f : sif_file) (x : list sif_tile) : sif_file :=
  mk_file (fp f) (header f) x (meta_data f) (read_only f) (blocks_to_tiles f)
    (dirty_tiles f) (buffer0 f) (buffer1 f) (base_location f) (error f)
    (units_per_slice f) (units_per_tile f) (header_bytes f) (use_file_version f).

Definition set_meta_data (f : sif_file) (x : list (list sif_meta_data)) : sif_file :=
  mk_file (fp f) (header f) (tiles f) x (read_only f) (blocks_to_tiles f)
    (dirty_tiles f) (buffer0 f) (buffer1 f) (base_location f) (error f)
    (units_per_slice f) (units_per_tile f) (header_bytes f) (use_file_version f).

Definition set_blocks_to_tiles (f : sif_file) (x : list Z) : sif_file :=
  mk_file (fp f) (header f) (tiles f) (meta_data f) (read_only f) x
    (dirty_tiles f) (buffer0 f) (buffer1 f) (base_location f) (error f)
    (units_per_slice f) (units_per_tile f) (header_bytes f) (use_file_version f).

Definition set_dirty_tiles (f : sif_file) (x : list Z) : sif_file :=
  mk_file (fp f) (header f) (tiles f) (meta_data f) (read_only f) (blocks_to_tiles f)
    x (buffer0 f) (buffer1 f) (base_location f) (error f)
    (units_per_slice f) (units_per_tile f) (header_bytes f) (use_file_version f).

Definition set_buffer0 (f : sif_file) (x : list Z) : sif_file :=
  mk_file (fp f) (header f) (tiles f) (meta_data f) (read_only f) (blocks_to_tiles f)
    (dirty_tiles f) x (buffer1 f) (base_location f) (error f)
    (units_per_slice f) (units_per_tile f) (header_bytes f) (use_file_version f).

Definition set_buffer1 (f : sif_file) (x : list Z) : sif_file :=
  mk_file (fp f) (header f) (tiles f) (meta_data f) (read_only f) (blocks_to_tiles f)
    (dirty_tiles f) (buffer0 f) x (base_location f) (error f)
    (units_per_slice f) (units_per_tile f) (header_bytes f) (use_file_version f).

Definition set_base_location (f : sif_file) (x : Z) : sif_file :=
  mk_file (fp f) (header f) (tiles f) (meta_data f) (read_only f) (blocks_to_tiles f)
    (dirty_tiles f) (buffer0 f) (buffer1 f) x (error f)
    (units_per_slice f) (units_per_tile f) (header_bytes f) (use_file_version f).

Definition set_error (f : sif_file) (x : Z) : sif_file :=
  mk_file (fp f) (header f) (tiles f) (meta_data f) (read_only f) (blocks_to_tiles f)
    (dirty_tiles f) (buffer0 f) (buffer1 f) (base_location f) x
    (units_per_slice f) (units_per_tile f) (header_bytes f) (use_file_version f).

Definition set_units (f : sif_file) (per_slice per_tile : Z) : sif_file :=
  mk_file (fp f) (header f) (tiles f) (meta_data f) (read_only f) (blocks_to_tiles f)
    (dirty_tiles f) (buffer0 f) (buffer1 f) (base_location f) (error f)
    per_slice per_tile (header_bytes f) (use_file_version f).

Definition set_header_bytes (f : sif_file) (x : Z) : sif_file :=
  mk_file (fp f) (header f) (tiles f) (meta_data f) (read_only f) (blocks_to_tiles f)
    (dirty_tiles f) (buffer0 f) (buffer1 f) (base_location f) (error f)
    (units_per_slice f) (units_per_tile f) x (use_file_version f).

Definition set_use_file_version (f : sif_file) (x : Z) : sif_file :=
  mk_file (fp f) (header f) (tiles f) (meta_data f) (read_only f) (blocks_to_tiles f)
    (dirty_tiles f) (buffer0 f) (buffer1 f) (base_location f) (error f)
    (units_per_slice f) (units_per_tile f) (header_bytes f) x.

(** [bzero]-ed structures, as [_sif_alloc_header] and [_sif_alloc_fp] leave them. *)
Definition zero_double : double := replicate 8%nat 0.

Definition zero_header : sif_header :=
  mk_header (replicate 8%nat 0) 0 0 0 0 0 0 0 0 0 0 0 0 0 0 0 0 0
            (replicate 6%nat zero_double).

Definition zero_tile : sif_tile := mk_tile [] [] 0.

(** The header behind [file->header]; internal functions run after
    [SIF_CHECK_FILE] and dereference it without a test. *)
Definition hdr (f : sif_file) : sif_header := default zero_header (header f).

Definition upd_header (f : sif_file) (g : sif_header -> sif_header) : sif_file :=
  set_header f (Some (g (hdr f))).

Definition hd_set_version (x : Z) (h : sif_header) : sif_header :=
  mk_header (magic_number h) x (width h) (height h) (bands h) (n_keys h) (n_tiles h)
    (tile_width h) (tile_height h) (tile_bytes h) (n_tiles_across h) (data_unit_size h)
    (user_data_type h) (defragment h) (consolidate h) (intrinsic_write h)
    (tile_header_bytes h) (n_uniform_flags h) (affine_geo_transform h).

Definition hd_set_n_keys (x : Z) (h : sif_header) : sif_header :=
  mk_header (magic_number h) (version h) (width h) (height h) (bands h) x (n_tiles h)
    (tile_width h) (tile_height h) (tile_bytes h) (n_tiles_across h) (data_unit_size h)
    (user_data_type h) (defragment h) (consolidate h) (intrinsic_write h)
    (tile_header_bytes h) (n_uniform_flags h) (affine_geo_transform h).

Definition hd_set_defragment (x : Z) (h : sif_header) : sif_header :=
  mk_header (magic_number h) (version h) (width h) (height h) (bands h) (n_keys h) (n_tiles h)
    (tile_width h) (tile_height h) (tile_bytes h) (n_tiles_across h) (data_unit_size h)
    (user_data_type h) x (consolidate h) (intrinsic_write h)
    (tile_header_bytes h) (n_uniform_flags h) (affine_geo_transform h).

Definition hd_set_consolidate (x : Z) (h : sif_header) : sif_header :=
  mk_header (magic_number h) (version h) (width h) (height h) (bands h) (n_keys h) (n_tiles h)
    (tile_width h) (tile_height h) (tile_bytes h) (n_tiles_across h) (data_unit_size h)
    (user_data_type h) (defragment h) x (intrinsic_write h)
    (tile_header_bytes h) (n_uniform_flags h) (affine_geo_transform h).

Definition hd_set_intrinsic_write (x : Z) (h : sif_header) : sif_header :=
  mk_header (magic_number h) (version h) (width h) (height h) (bands h) (n_keys h) (n_tiles h)
    (tile_width h) (tile_height h) (tile_bytes h) (n_tiles_across h) (data_unit_size h)
    (user_data_type h) (defragment h) (consolidate h) x
    (tile_header_bytes h) (n_uniform_flags h) (affine_geo_transform h).

Definition hd_set_tile_header_sizes (thb nuf : Z) (h : sif_header) : sif_header :=
  mk_header (magic_number h) (version h) (width h) (height h) (bands h) (n_keys h) (n_tiles h)
    (tile_width h) (tile_height h) (tile_bytes h) (n_tiles_across h) (data_unit_size h)
    (user_data_type h) (defragment h) (consolidate h) (intrinsic_write h)
    thb nuf (affine_geo_transform h).

(** Tile table access: [file->tiles + i]. *)
Definition tile_at (f : sif_file) (i : Z) : sif_tile :=
  if i <? 0 then zero_tile else default zero_tile (tiles f !! Z.to_nat i).

Definition put_tile (f : sif_file) (i : Z) (t : sif_tile) : sif_file :=
  if i <? 0 then f else set_tiles f (<[Z.to_nat i := t]> (tiles f)).

Definition tile_set_flags (t : sif_tile) (x : list Z) : sif_tile :=
  mk_tile x (uniform_pixel_values t) (block_num t).
Definition tile_set_pixel_values (t : sif_tile) (x : list Z) : sif_tile :=
  mk_tile (uniform_flags t) x (block_num t).
Definition tile_set_block_num (t : sif_tile) (x : Z) : sif_tile :=
  mk_tile (uniform_flags t) (uniform_pixel_values t) x.

(** ** Error-recording macros

    [SIF_ERROR_CHECK_RETURN(cond, code, retcode)] records the code and leaves
    the enclosing function.  The rest of the function is the continuation
    [k]; [ret] builds the function's result on the early exit ([void_ret]
    for the [..V] macros, [int_ret 0] for the others). *)

Definition void_ret : sif_file -> sif_file := fun file => file.
Definition int_ret (retcode : Z) : sif_file -> sif_file * Z := fun file => (file, retcode).

Definition FSEEK64_ {A} (ret : sif_file -> A) (file : sif_file) (loc : Z)
    (k : sif_file -> A) : A :=
  match fseek (fp file) loc with
  | Some fp' => k (set_fp file fp')
  | None => ret (set_error file SIF_ERROR_SEEK)
  end.

Definition FWRITE64_ {A} (ret : sif_file -> A) (file : sif_file) (buf : list Z)
    (els nel : Z) (k : sif_file -> A) : A :=
  let '(n, fp') := fwrite buf els nel (fp file) in
  if n =? nel then k (set_fp file fp')
  else ret (set_error (set_fp file fp') SIF_ERROR_WRITE).

(** On a short read the destination is left as it was. *)
Definition FREAD64_ {A} (ret : sif_file -> A) (file : sif_file) (els nel : Z)
    (k : sif_file -> list Z -> A) : A :=
  let '(data, n, fp') := fread els nel (fp file) in
  if n =? nel then k (set_fp file fp') data
  else ret (set_error (set_fp file fp') SIF_ERROR_READ).

(** [for (...) body], where the body may leave the function. *)
Fixpoint for_each {A} (l : list Z) (body : Z -> sif_file -> (sif_file -> A) -> A)
    (file : sif_file) (k : sif_file -> A) : A :=
  match l with
  | [] => k file
  | i :: l' => body i file (fun file => for_each l' body file k)
  end.

(** ** Packed big-endian integers and doubles *)

(** A [long] of [bits] bits holds an integer modulo [2 ^ bits], as a signed
    number. *)
Definition wrap_long (bits z : Z) : Z :=
  (z + 2 ^ (bits - 1)) mod 2 ^ bits - 2 ^ (bits - 1).

Definition wrap32 (z : Z) : Z := (z + 2 ^ 31) mod 2 ^ 32 - 2 ^ 31.

Definition _sif_int32_to_packed_bytes (val : Z) : list Z :=
  [ Z.land (Z.shiftr val 24) 255; Z.land (Z.shiftr val 16) 255;
    Z.land (Z.shiftr val 8) 255; Z.land val 255 ].

(** [return ((long)ptr[0] << 24) | ((long)ptr[1] << 16) | ((long)ptr[2] << 8)
    | (long)ptr[3];] where [long] has 32 bits, the width the codec is written
    for: the four bytes fill the [long], and a first byte of 128 or more
    gives a negative number.  Everything that reads an integer from a file
    goes through this function, so the readers of this development are those
    of a build with a 32-bit [long]. *)
Definition _sif_packed_bytes_to_int32 (ptr : list Z) : Z :=
  wrap32 (Z.lor (Z.lor (Z.lor (Z.shiftl (arr_get ptr 0) 24) (Z.shiftl (arr_get ptr 1) 16))
                       (Z.shiftl (arr_get ptr 2) 8))
                (arr_get ptr 3)).

(** The same expression where [long] has [bits] bits.  With more than 32
    bits the four bytes do not reach the sign bit. *)
Definition packed_bytes_to_long (bits : Z) (ptr : list Z) : Z :=
  wrap_long bits
    (Z.lor (Z.lor (Z.lor (Z.shiftl (arr_get ptr 0) 24) (Z.shiftl (arr_get ptr 1) 16))
                  (Z.shiftl (arr_get ptr 2) 8))
           (arr_get ptr 3)).

Definition _sif_swap_double64 (val : double) : double :=
  map (fun i => arr_get val (7 - i)) (seqZ 0 8).

Definition _sif_hton_double64 (host : byte_order) (val : double) : double :=
  match host with
  | LITTLE_ENDIAN => _sif_swap_double64 val
  | BIG_ENDIAN => val
  end.

Definition _sif_ntoh_double64 (host : byte_order) (val : double) : double :=
  match host with
  | LITTLE_ENDIAN => _sif_swap_double64 val
  | BIG_ENDIAN => val
  end.

Definition _sif_write_double64 (host : byte_order) (file : sif_file) (val : double)
    : sif_file * Z :=
  let net := _sif_hton_double64 host val in
  let '(n, fp') := fwrite net 1 8 (fp file) in
  if n =? 8 then (set_fp file fp', 1) else (set_fp file fp', 0).

Definition _sif_read_double64 (host : byte_order) (file : sif_file)
    : sif_file * Z * double :=
  let '(net, n, fp') := fread 1 8 (fp file) in
  if n =? 8 then (set_fp file fp', 1, _sif_ntoh_double64 host net)
  else (set_fp file fp', 0, zero_double).

Definition _sif_write_int32 (file : sif_file) (val : Z) : sif_file * Z :=
  let '(n, fp') := fwrite (_sif_int32_to_packed_bytes val) 1 4 (fp file) in
  if n =? 4 then (set_fp file fp', 1) else (set_fp file fp', 0).

Definition _sif_read_int32 (file : sif_file) : sif_file * Z * Z :=
  let '(ubuf, n, fp') := fread 1 4 (fp file) in
  if n =? 4 then (set_fp file fp', 1, _sif_packed_bytes_to_int32 ubuf)
  else (set_fp file fp', 0, 0).

Definition FWRITE64INT32_ {A} (ret : sif_file -> A) (file : sif_file) (vv : Z)
    (k : sif_file -> A) : A :=
  let '(file, ok) := _sif_write_int32 file vv in
  if ok =? 0 then ret (set_error file SIF_ERROR_WRITE) else k file.

Definition FREAD64INT32_ {A} (ret : sif_file -> A) (file : sif_file)
    (k : sif_file -> Z -> A) : A :=
  let '(file, ok, vv) := _sif_read_int32 file in
  if ok =? 0 then ret (set_error file SIF_ERROR_READ) else k file vv.

Definition FWRITE64DOUBLE64_ {A} (host : byte_order) (ret : sif_file -> A)
    (file : sif_file) (vv : double) (k : sif_file -> A) : A :=
  let '(file, ok) := _sif_write_double64 host file vv in
  if ok =? 0 then ret (set_error file SIF_ERROR_WRITE) else k file.

Definition FREAD64DOUBLE64_ {A} (host : byte_order) (ret : sif_file -> A)
    (file : sif_file) (k : sif_file -> double -> A) : A :=
  let '(file, ok, vv) := _sif_read_double64 host file in
  if ok =? 0 then ret (set_error file SIF_ERROR_READ) else k file vv.

(** A run of [FWRITE64INT32CNT] lines, in order. *)
Fixpoint write_int32s {A} (ret : sif_file -> A) (file : sif_file) (vs : list Z)
    (k : sif_file -> A) : A :=
  match vs with
  | [] => k file
  | v :: vs' => FWRITE64INT32_ ret file v (fun file => write_int32s ret file vs' k)
  end.

(** A run of [n] [FREAD64INT32CNT] lines, in order. *)
Fixpoint read_int32s {A} (ret : sif_file -> A) (file : sif_file) (n : nat)
    (k : sif_file -> list Z -> A) : A :=
  match n with
  | O => k file []
  | S n' => FREAD64INT32_ ret file (fun file v =>
              read_int32s ret file n' (fun file vs => k file (v :: vs)))
  end.

Fixpoint write_raw_doubles {A} (ret : sif_file -> A) (file : sif_file)
    (ds : list double) (k : sif_file -> A) : A :=
  match ds with
  | [] => k file
  | d :: ds' => FWRITE64_ ret file d 8 1 (fun file => write_raw_doubles ret file ds' k)
  end.

Fixpoint write_net_doubles {A} (host : byte_order) (ret : sif_file -> A)
    (file : sif_file) (ds : list double) (k : sif_file -> A) : A :=
  match ds with
  | [] => k file
  | d :: ds' => FWRITE64DOUBLE64_ host ret file d
                  (fun file => write_net_doubles host ret file ds' k)
  end.

Fixpoint read_raw_doubles {A} (ret : sif_file -> A) (file : sif_file) (n : nat)
    (k : sif_file -> list double -> A) : A :=
  match n with
  | O => k file []
  | S n' => FREAD64_ ret file 8 1 (fun file d =>
              read_raw_doubles ret file n' (fun file ds => k file (d :: ds)))
  end.

Fixpoint read_net_doubles {A} (host : byte_order) (ret : sif_file -> A)
    (file : sif_file) (n : nat) (k : sif_file -> list double -> A) : A :=
  match n with
  | O => k file []
  | S n' => FREAD64DOUBLE64_ host ret file (fun file d =>
              read_net_doubles host ret file n' (fun file ds => k file (d :: ds)))
  end.

(** ** Tile-header helpers *)

Definition _sif_completely_uniform_shallow (file : sif_file) (i : Z) : sif_file * bool :=
  let tile := tile_at file i in
  let hd := hdr file in
  let last := n_uniform_flags hd - 1 in
  let flags :=
    arr_set (uniform_flags tile) last
      (Z.lor (Z.land (Z.shiftr 255 (8 - Z.rem (bands hd) 8)) 255)
             (arr_get (uniform_flags tile) last)) in
  let file := put_tile file i (tile_set_flags tile flags) in
  let retval :=
    foldl (fun retval j =>
             if retval =? 255 then Z.land retval (arr_get flags j) else retval)
          255 (seqZ 0 (n_uniform_flags hd)) in
  (file, retval =? 255).

Definition _sif_band_of_tile_is_uniform_shallow (file : sif_file) (i b : Z) : Z :=
  SIF_GET_BIT (uniform_flags (tile_at file i)) b.

(** The source asserts [block_num >= 0]. *)
Definition _sif_get_block_location (file : sif_file) (block_num : Z) : Z :=
  base_location file + tile_bytes (hdr file) * block_num.

Definition _sif_alloc_meta_data_table : list (list sif_meta_data) :=
  replicate (Z.to_nat SIF_HASH_TABLE_SIZE) [].

Definition _sif_alloc_header : sif_header := zero_header.

Definition _sif_alloc_fp (fp : FILE) : sif_file :=
  mk_file fp None [] [] 0 [] [] [] [] 0 0 0 0 0 0.

(** The flags and the pixel values of all tiles live in two master arrays;
    each tile owns its own stretch, kept here as the tile's own lists. *)
Definition _sif_alloc_tile_headers (file : sif_file) : sif_file :=
  let hd := hdr file in
  let s := CEIL_DIV (bands hd) 8 in
  let tile :=
    mk_tile (replicate (Z.to_nat s) 255)
            (replicate (Z.to_nat (bands hd * data_unit_size hd)) 0) (-1) in
  let file := set_tiles file (replicate (Z.to_nat (n_tiles hd)) tile) in
  upd_header file
    (hd_set_tile_header_sizes (bands hd * data_unit_size hd + s + 4) s).

(** ** Header codec *)

Definition header_ints (hd : sif_header) : list Z :=
  [ width hd; height hd; bands hd; n_keys hd; n_tiles hd; tile_width hd;
    tile_height hd; tile_bytes hd; n_tiles_across hd; data_unit_size hd;
    user_data_type hd; defragment hd; consolidate hd; intrinsic_write hd;
    tile_header_bytes hd; n_uniform_flags hd ].

Definition _sif_write_header (host : byte_order) (file : sif_file) : sif_file * Z :=
  let ret := int_ret 0 in
  let hd := hdr file in
  let dummy := 0 in
  FSEEK64_ ret file 0 (fun file =>
  FWRITE64INT32_ ret file dummy (fun file =>
  FWRITE64_ ret file (magic_number hd) 8 1 (fun file =>
  FWRITE64INT32_ ret file (use_file_version file) (fun file =>
  let file := upd_header file (hd_set_version (use_file_version file)) in
  write_int32s ret file (header_ints hd) (fun file =>
  let cnt := 4 + 8 + 4 + 4 * 16 in
  let doubles k :=
    if (version (hdr file) <? 2) || (use_file_version file <? 2)
    then write_raw_doubles ret file (affine_geo_transform hd) k
    else write_net_doubles host ret file (affine_geo_transform hd) k in
  doubles (fun file =>
  let cnt := cnt + 8 * 6 in
  FSEEK64_ ret file 0 (fun file =>
  FWRITE64INT32_ ret file cnt (fun file =>
  (set_header_bytes file cnt, 1))))))))).

Definition header_of_ints (magic : list Z) (ver : Z) (vs : list Z)
    (geo : list double) : sif_header :=
  mk_header magic ver (arr_get vs 0) (arr_get vs 1) (arr_get vs 2) (arr_get vs 3)
    (arr_get vs 4) (arr_get vs 5) (arr_get vs 6) (arr_get vs 7) (arr_get vs 8)
    (arr_get vs 9) (arr_get vs 10) (arr_get vs 11) (arr_get vs 12) (arr_get vs 13)
    (arr_get vs 14) (arr_get vs 15) geo.

Definition _sif_read_header (host : byte_order) (file : sif_file) : sif_file * Z :=
  let ret := int_ret 0 in
  FSEEK64_ ret file 0 (fun file =>
  FREAD64INT32_ ret file (fun file hb =>
  let file := set_header_bytes file hb in
  FREAD64_ ret file 8 1 (fun file magic =>
  FREAD64INT32_ ret file (fun file ver =>
  let file := set_use_file_version file ver in
  read_int32s ret file 16 (fun file vs =>
  let file := set_header file
                (Some (header_of_ints magic ver vs (affine_geo_transform (hdr file)))) in
  let finish file geo :=
    (set_header file (Some (header_of_ints magic ver vs geo)), 1) in
  if ver <? 2 then read_raw_doubles ret file 6 finish
  else read_net_doubles host ret file 6 finish))))).

(** ** Tile-header table *)

Definition write_tile_record {A} (ret : sif_file -> A) (file : sif_file)
    (tile : sif_tile) (k : sif_file -> A) : A :=
  let hd := hdr file in
  FWRITE64_ ret file (uniform_pixel_values tile) (data_unit_size hd) (bands hd) (fun file =>
  FWRITE64_ ret file (uniform_flags tile) 1 (n_uniform_flags hd) (fun file =>
  FWRITE64INT32_ ret file (block_num tile) k)).

Definition _sif_write_tile_headers (file : sif_file) : sif_file * Z :=
  let ret := int_ret 0 in
  let base := header_bytes file in
  let hd := hdr file in
  FSEEK64_ ret file base (fun file =>
  for_each (seqZ 0 (n_tiles hd))
    (fun i file k => write_tile_record ret file (tile_at file i) k)
    file (fun file => (file, 0))).

Definition read_tile_record {A} (ret : sif_file -> A) (file : sif_file) (i : Z)
    (k : sif_file -> A) : A :=
  let hd := hdr file in
  FREAD64_ ret file (data_unit_size hd) (bands hd) (fun file upv =>
  let file := put_tile file i
                (tile_set_pixel_values (tile_at file i)
                   (poke (uniform_pixel_values (tile_at file i)) 0 upv)) in
  FREAD64_ ret file 1 (n_uniform_flags hd) (fun file uf =>
  let file := put_tile file i
                (tile_set_flags (tile_at file i)
                   (poke (uniform_flags (tile_at file i)) 0 uf)) in
  FREAD64INT32_ ret file (fun file bn =>
  k (put_tile file i (tile_set_block_num (tile_at file i) bn))))).

Definition _sif_read_tile_headers (file : sif_file) : sif_file * Z :=
  let ret := int_ret 0 in
  let j := 1 in
  let base := header_bytes file in
  let hd := hdr file in
  FSEEK64_ ret file base (fun file =>
  for_each (seqZ 0 (n_tiles hd)) (fun i file k => read_tile_record ret file i k)
    file (fun file => (file, j))).

Definition _sif_write_tile_header (file : sif_file) (tile : sif_tile) (tile_num : Z)
    : sif_file * Z :=
  let ret := int_ret 0 in
  let hd := hdr file in
  let loc := header_bytes file + tile_num * tile_header_bytes hd in
  FSEEK64_ ret file loc (fun file =>
  write_tile_record ret file tile (fun file => (file, 1))).

(** ** Meta-data store *)

(** [SIF_CHECK_FILE(fp)]: a null header or a version newer than the
    library's makes the function return; nothing else is examined.  (The
    first branch, a null handle, returns without touching anything.) *)
Definition SIF_CHECK_FILE_ {A} (ret : sif_file -> A) (file : sif_file)
    (k : sif_header -> A) : A :=
  match header file with
  | None => ret (set_error file SIF_ERROR_NULL_HDR)
  | Some hd =>
      if version hd >? SIF_VERSION
      then ret (set_error file SIF_ERROR_INCOMPATIBLE_VERSION)
      else k hd
  end.

(** A pointer to a node: its chain and its place in the chain. *)
Definition md_ptr : Type := Z * nat.

Definition chain (file : sif_file) (hash : Z) : list sif_meta_data :=
  default [] (meta_data file !! Z.to_nat hash).

Definition md_deref (file : sif_file) (p : md_ptr) : option sif_meta_data :=
  chain file (fst p) !! snd p.

Definition md_store (file : sif_file) (p : md_ptr) (r : sif_meta_data) : sif_file :=
  set_meta_data file
    (<[Z.to_nat (fst p) := <[snd p := r]> (chain file (fst p))]> (meta_data file)).

(** [for (r = q; r != 0; r = r->next) if (strcmp(key, r->key) == 0) break;] *)
Fixpoint chain_find (k : list Z) (q : list sif_meta_data) : option nat :=
  match q with
  | [] => None
  | r :: q' => if strcmp_eq k (key r) then Some 0%nat else S <$> chain_find k q'
  end.

Definition _sif_get_meta_data_pair (file : sif_file) (k : list Z)
    : sif_file * option md_ptr :=
  SIF_CHECK_FILE_ (fun file => (file, None)) file (fun hd =>
  let hash := Z.rem (_sif_hash k) SIF_HASH_TABLE_SIZE in
  let q := chain file hash in
  let r := chain_find k q in
  (file, (fun n => (hash, n)) <$> r)).

Definition _sif_unlink_meta_data_pair (file : sif_file) (k : list Z)
    : sif_file * option sif_meta_data :=
  SIF_CHECK_FILE_ (fun file => (file, None)) file (fun hd =>
  let hash := Z.rem (_sif_hash k) SIF_HASH_TABLE_SIZE in
  let q := chain file hash in
  match chain_find k q with
  | Some n =>
      (set_meta_data file (<[Z.to_nat hash := delete n q]> (meta_data file)), q !! n)
  | None => (file, None)
  end).

Definition _sif_insert_meta_data_pair (file : sif_file) (k : list Z)
    (to_insert : sif_meta_data) : sif_file :=
  SIF_CHECK_FILE_ void_ret file (fun hd =>
  let hash := Z.rem (_sif_hash k) SIF_HASH_TABLE_SIZE in
  let file := set_meta_data file
                (<[Z.to_nat hash := to_insert :: chain file hash]> (meta_data file)) in
  upd_header file (hd_set_n_keys (n_keys (hdr file) + 1))).

(** [for (i = 0; i < n; i++) if (v[0] == 0x00) return 1;  return 0;] *)
Definition _sif_null_terminator_check (v : list Z) (n : Z) : Z :=
  if existsb (fun i => arr_get v 0 =? 0) (seqZ 0 n) then 1 else 0.

(** Result: the handle, the returned pointer and [*n_bytes]. *)
Definition sif_get_meta_data_binary (file : sif_file) (k : list Z) (n_bytes : Z)
    : sif_file * option (list Z) * Z :=
  SIF_CHECK_FILE_ (fun file => (file, None, n_bytes)) file (fun hd =>
  let '(file, q) := _sif_get_meta_data_pair file k in
  match q ≫= md_deref file with
  | None => (set_error file SIF_ERROR_META_DATA_KEY, None, 0)
  | Some q => (file, Some (value q), value_length q)
  end).

Definition sif_get_meta_data (file : sif_file) (k : list Z)
    : sif_file * option (list Z) :=
  SIF_CHECK_FILE_ (fun file => (file, None)) file (fun hd =>
  let '(file, q) := _sif_get_meta_data_pair file k in
  match q ≫= md_deref file with
  | None => (set_error file SIF_ERROR_META_DATA_KEY, None)
  | Some q =>
      let retval := value q in
      if _sif_null_terminator_check retval (value_length q) =? 0
      then (set_error file SIF_ERROR_META_DATA_VALUE, Some retval)
      else (file, Some retval)
  end).

(** [malloc(value_len)] and [realloc(i->value, value_len)] are taken to
    succeed, which is the source for [0 < value_len].  For a negative
    [value_len] the source's allocation fails ([SIF_ERROR_MEM], nothing
    stored), and for 0 it depends on the allocator: what a set stores is
    stated for positive lengths only. *)
Definition _sif_set_meta_data_len (file : sif_file) (k v : list Z) (value_len : Z)
    : sif_file :=
  let '(file, i) := _sif_get_meta_data_pair file k in
  match i with
  | None =>
      let key_len := strlen k + 1 in
      let i := mk_meta_data (sub_bytes k 0 key_len) (sub_bytes v 0 value_len)
                            key_len value_len in
      _sif_insert_meta_data_pair file k i
  | Some p =>
      match md_deref file p with
      | None => file
      | Some i =>
          if negb (value_len =? value_length i)
          then md_store file p
                 (mk_meta_data (key i) (sub_bytes v 0 value_len) (key_length i) value_len)
          else file
      end
  end.

Definition sif_set_meta_data (file : sif_file) (k v : list Z) : sif_file :=
  SIF_CHECK_FILE_ void_ret file (fun hd =>
  _sif_set_meta_data_len file k v (strlen v + 1)).

Definition sif_set_meta_data_binary (file : sif_file) (k buffer : list Z) (n_bytes : Z)
    : sif_file :=
  SIF_CHECK_FILE_ void_ret file (fun hd =>
  _sif_set_meta_data_len file k buffer n_bytes).

Definition _sif_get_last_used_block_index (file : sif_file) : Z :=
  foldl (fun last_known_used_block i =>
           if negb (arr_get (blocks_to_tiles file) i =? -1) then i
           else last_known_used_block)
        (-1) (seqZ 0 (n_tiles (hdr file))).

Definition _sif_truncate (file : sif_file) (pos : Z) : sif_file :=
  match ftruncate (fp file) pos with
  | Some fp' => set_fp file fp'
  | None => set_error file SIF_ERROR_TRUNCATE
  end.

Definition _sif_free_meta_data (file : sif_file) : sif_file := set_meta_data file [].

(** One turn of the loop of [_sif_read_meta_data]: read a record and set it. *)
Definition read_meta_record (i : Z) (file : sif_file) (k : sif_file -> sif_file)
    : sif_file :=
  let fail file code := set_error (_sif_free_meta_data file) code in
  let '(file, ok, val) := _sif_read_int32 file in
  if ok =? 0 then fail file SIF_ERROR_READ else
  let md_key_length := val in
  let '(md_key, n, fp') := fread 1 md_key_length (fp file) in
  let file := set_fp file fp' in
  if negb (n =? md_key_length) then fail file SIF_ERROR_READ else
  let '(file, ok, val) := _sif_read_int32 file in
  if ok =? 0 then fail file SIF_ERROR_READ else
  let md_value_length := val in
  let '(md_value, n, fp') := fread 1 md_value_length (fp file) in
  let file := set_fp file fp' in
  if n =? 0 then fail file SIF_ERROR_READ else
  let file := sif_set_meta_data_binary file md_key md_value md_value_length in
  if negb (error file =? 0) then file else k file.

Definition _sif_read_meta_data (file : sif_file) : sif_file :=
  let n_keys := n_keys (hdr file) in
  let file := upd_header file (hd_set_n_keys 0) in
  let loc := _sif_get_block_location file (_sif_get_last_used_block_index file + 1) in
  FSEEK64_ void_ret file loc (fun file =>
  for_each (seqZ 0 n_keys) read_meta_record file (fun file => file)).

(** The body of the inner loop of [_sif_write_meta_data]; [eofpos] is
    advanced after each successful write. *)
Definition write_meta_record {A} (ret : sif_file -> A) (i : sif_meta_data)
    (file : sif_file) (eofpos : Z) (k : sif_file -> Z -> A) : A :=
  FWRITE64INT32_ ret file (key_length i) (fun file =>
  let eofpos := eofpos + 4 in
  FWRITE64_ ret file (key i) (key_length i) 1 (fun file =>
  let eofpos := eofpos + key_length i in
  FWRITE64INT32_ ret file (value_length i) (fun file =>
  let eofpos := eofpos + 4 in
  FWRITE64_ ret file (value i) (value_length i) 1 (fun file =>
  let eofpos := eofpos + value_length i in
  k file eofpos)))).

Fixpoint write_meta_records {A} (ret : sif_file -> A) (l : list sif_meta_data)
    (file : sif_file) (eofpos : Z) (k : sif_file -> Z -> A) : A :=
  match l with
  | [] => k file eofpos
  | i :: l' =>
      write_meta_record ret i file eofpos (fun file eofpos =>
        write_meta_records ret l' file eofpos k)
  end.

(** The records in the order the two nested loops visit them:
    [for (j = 0; j < SIF_HASH_TABLE_SIZE; j++) for (i = file->meta_data[j]; i != 0; i = i->next)]. *)
Definition meta_records (file : sif_file) : list sif_meta_data :=
  concat (map (chain file) (seqZ 0 SIF_HASH_TABLE_SIZE)).

Definition _sif_write_meta_data (file : sif_file) : sif_file * Z :=
  let ret := int_ret 0 in
  let loc := _sif_get_block_location file (_sif_get_last_used_block_index file + 1) in
  let eofpos := loc in
  FSEEK64_ ret file loc (fun file =>
  write_meta_records ret (meta_records file) file eofpos (fun file eofpos =>
  let eofpos := eofpos + 1 in
  let file := _sif_truncate file eofpos in
  (file, 1))).

(** The size of the meta-data region: key and value lengths with their two
    32-bit length fields, summed over the [n_keys] records. *)
Definition meta_record_bytes (i : sif_meta_data) : Z :=
  4 + key_length i + 4 + value_length i.

Definition meta_data_bytes (file : sif_file) : Z :=
  foldr (fun i acc => meta_record_bytes i + acc) 0 (meta_records file).

(** ** Tile-slice I/O *)

(** [for (i = 0, data = buffer; i < units_per_slice; i++, data += size) memcpy(data, upv, size);] *)
Definition fill_units (buffer : list Z) (boff : Z) (upv : list Z) (uoff : Z)
    (size count : Z) : list Z :=
  foldl (fun buffer i => memcpy buffer (boff + i * size) upv uoff size)
        buffer (seqZ 0 count).

(** Result: the handle and the caller's buffer. *)
Definition sif_get_tile_slice (file : sif_file) (buffer : option (list Z))
    (tx ty band : Z) : sif_file * option (list Z) :=
  SIF_CHECK_FILE_ (fun file => (file, buffer)) file (fun hd =>
  if (tx <? 0) || (ty <? 0) || (tx >=? n_tiles_across hd)
  then (set_error file SIF_ERROR_INVALID_TN, buffer) else
  if (band <? 0) || (band >=? bands hd)
  then (set_error file SIF_ERROR_INVALID_BAND, buffer) else
  match buffer with
  | None => (set_error file SIF_ERROR_INVALID_BUFFER, buffer)
  | Some buffer =>
      let tile_num := n_tiles_across hd * ty + tx in
      let tile := tile_at file tile_num in
      let buffer := bzero buffer (data_unit_size hd * units_per_slice file) in
      if negb (_sif_band_of_tile_is_uniform_shallow file tile_num band =? 0) then
        let upv := data_unit_size hd * band in
        if data_unit_size hd >? 1
        then (file, Some (fill_units buffer 0 (uniform_pixel_values tile) upv
                            (data_unit_size hd) (units_per_slice file)))
        else (file, Some (memset buffer 0 (arr_get (uniform_pixel_values tile) upv)
                            (units_per_slice file)))
      else
        let pos := _sif_get_block_location file (block_num tile)
                   + data_unit_size hd * units_per_slice file * band in
        FSEEK64_ (fun file => (file, Some buffer)) file pos (fun file =>
        FREAD64_ (fun file => (file, Some buffer)) file
          (data_unit_size hd) (units_per_slice file) (fun file data =>
        (file, Some (poke buffer 0 data))))
  end).

(** The tail shared by the writers: once the flag of [band] is set, free the
    block of a tile that tests completely uniform. *)
Definition release_if_uniform (file : sif_file) (tile_num : Z) : sif_file :=
  let '(file, all) := _sif_completely_uniform_shallow file tile_num in
  if all && negb (block_num (tile_at file tile_num) =? -1) then
    let file := set_blocks_to_tiles file
                  (arr_set (blocks_to_tiles file) (block_num (tile_at file tile_num)) (-1)) in
    put_tile file tile_num (tile_set_block_num (tile_at file tile_num) (-1))
  else file.

(** [memcpy(tile->uniform_pixel_values + size * band, value, size); SIF_SET_BIT(tile->uniform_flags, band);] *)
Definition mark_band_uniform (file : sif_file) (tile_num band : Z) (v : list Z)
    : sif_file :=
  let hd := hdr file in
  let tile := tile_at file tile_num in
  let tile := tile_set_pixel_values tile
                (memcpy (uniform_pixel_values tile) (data_unit_size hd * band)
                        v 0 (data_unit_size hd)) in
  let tile := tile_set_flags tile (SIF_SET_BIT (uniform_flags tile) band) in
  put_tile file tile_num tile.

Definition sif_fill_tile_slice (file : sif_file) (tx ty band : Z)
    (v : option (list Z)) : sif_file :=
  SIF_CHECK_FILE_ void_ret file (fun hd =>
  if (tx <? 0) || (ty <? 0) || (tx >=? n_tiles_across hd)
  then set_error file SIF_ERROR_INVALID_TN else
  if (band <? 0) || (band >=? bands hd)
  then set_error file SIF_ERROR_INVALID_BAND else
  match v with
  | None => set_error file SIF_ERROR_INVALID_BUFFER
  | Some v =>
      let tile_num := n_tiles_across hd * ty + tx in
      if negb (read_only file =? 0)
      then set_error file SIF_ERROR_INVALID_FILE_MODE else
      let file := mark_band_uniform file tile_num band v in
      let file := release_if_uniform file tile_num in
      fst (_sif_write_tile_header file (tile_at file tile_num) tile_num)
  end).

Definition sif_fill_tiles (file : sif_file) (band : Z) (v : option (list Z))
    : sif_file :=
  SIF_CHECK_FILE_ void_ret file (fun hd =>
  if (band <? 0) || (band >=? bands hd)
  then set_error file SIF_ERROR_INVALID_BAND else
  match v with
  | None => set_error file SIF_ERROR_INVALID_BUFFER
  | Some v =>
      if negb (read_only file =? 0)
      then set_error file SIF_ERROR_INVALID_FILE_MODE else
      let file :=
        foldl (fun file tile_num =>
                 release_if_uniform (mark_band_uniform file tile_num band v) tile_num)
              file (seqZ 0 (n_tiles hd)) in
      fst (_sif_write_tile_headers file)
  end).

(** The three variants of [_sif_is_uniform] walk the same pixels: the first
    [extentX] units of each of the first [extentY] rows of [tile_width]. *)
Definition scan_units (hd : sif_header) (extentX extentY : Z) (same : Z -> bool) : bool :=
  let num_units := extentY * tile_width hd in
  forallb (fun r =>
             let i := r * tile_width hd in
             if i <? num_units
             then forallb (fun k => same (i + k)) (seqZ 0 extentX)
             else true)
          (seqZ 0 extentY).

Definition _sif_is_uniform (file : sif_file) (data : list Z) (extentX extentY : Z) : bool :=
  let hd := hdr file in
  let data_unit_size := data_unit_size hd in
  if data_unit_size =? 1 then
    let first := arr_get data 0 in
    scan_units hd extentX extentY (fun j => first =? arr_get data j)
  else if data_unit_size =? 2 then
    let first := arr_get data 0 in
    let second := arr_get data 1 in
    scan_units hd extentX extentY
      (fun j => (first =? arr_get data (j * 2)) && (second =? arr_get data (j * 2 + 1)))
  else
    scan_units hd extentX extentY
      (fun j => memcmp_eq data 0 data (data_unit_size * j) data_unit_size).

(** [for (i = 0; i < n_tiles; i++) if (blocks_to_tiles[i] == -1) { free_b = i; break; }] *)
Definition first_free_block (file : sif_file) : Z :=
  let free_b := 0 in
  default free_b
    (list_find (fun i => arr_get (blocks_to_tiles file) i = -1)
               (seqZ 0 (n_tiles (hdr file))) ≫= (fun p => Some (snd p))).

Definition sif_set_tile_slice (file : sif_file) (buffer : option (list Z))
    (tx ty band : Z) : sif_file :=
  SIF_CHECK_FILE_ void_ret file (fun hd =>
  if (tx <? 0) || (ty <? 0) || (tx >=? n_tiles_across hd)
  then set_error file SIF_ERROR_INVALID_TN else
  if (band <? 0) || (band >=? bands hd)
  then set_error file SIF_ERROR_INVALID_BAND else
  match buffer with
  | None => set_error file SIF_ERROR_INVALID_BUFFER
  | Some buffer =>
      if negb (read_only file =? 0)
      then set_error file SIF_ERROR_INVALID_FILE_MODE else
      let extentX := MIN (tile_width hd) (width hd - tx * tile_width hd) in
      let extentY := MIN (tile_height hd) (height hd - ty * tile_height hd) in
      let tile_num := n_tiles_across hd * ty + tx in
      if negb (intrinsic_write hd =? 0) && _sif_is_uniform file buffer extentX extentY then
        let file := mark_band_uniform file tile_num band buffer in
        let file := release_if_uniform file tile_num in
        fst (_sif_write_tile_header file (tile_at file tile_num) tile_num)
      else
        let slice_bytes := data_unit_size hd * units_per_slice file in
        let materialize (file : sif_file) (k : sif_file -> sif_file) : sif_file :=
          if block_num (tile_at file tile_num) =? -1 then
            let free_b := first_free_block file in
            let file := put_tile file tile_num
                          (tile_set_block_num (tile_at file tile_num) free_b) in
            let file := set_blocks_to_tiles file
                          (arr_set (blocks_to_tiles file) free_b tile_num) in
            let loc := _sif_get_block_location file (block_num (tile_at file tile_num)) in
            FSEEK64_ void_ret file loc (fun file =>
            for_each (seqZ 0 (bands hd))
              (fun i file k =>
                 FWRITE64_ void_ret file buffer (data_unit_size hd) (units_per_slice file) k)
              file k)
          else k file in
        materialize file (fun file =>
        let file :=
          if intrinsic_write hd =? 0
          then set_dirty_tiles file (arr_set (dirty_tiles file) tile_num 1)
          else file in
        let loc := _sif_get_block_location file (block_num (tile_at file tile_num))
                   + data_unit_size hd * units_per_slice file * band in
        FSEEK64_ void_ret file loc (fun file =>
        FWRITE64_ void_ret file buffer (data_unit_size hd) (units_per_slice file) (fun file =>
        let tile := tile_at file tile_num in
        let file := put_tile file tile_num
                      (tile_set_flags tile (SIF_CLEAR_BIT (uniform_flags tile) band)) in
        fst (_sif_write_tile_header file (tile_at file tile_num) tile_num))))
  end).

(** ** Block swap, raster windows, whole tiles *)

(** Result: the handle and the two block buffers [da] and [db]. *)
Definition _sif_swap_blocks (file : sif_file) (a b : Z) (da db : list Z) (assign : bool)
    : sif_file * list Z * list Z :=
  let tb := tile_bytes (hdr file) in
  if a =? b then (file, da, db) else
  let pos_a := _sif_get_block_location file a in
  let pos_b := _sif_get_block_location file b in
  let read_a (file : sif_file) (da : list Z) (k : sif_file -> list Z -> _) :=
    if negb (a =? -1) && negb assign then
      FSEEK64_ (fun file => (file, da, db)) file pos_a (fun file =>
      FREAD64_ (fun file => (file, da, db)) file 1 tb (fun file data =>
      k file (poke da 0 data)))
    else k file da in
  let read_b (file : sif_file) (da db : list Z) (k : sif_file -> list Z -> _) :=
    if negb (b =? -1) then
      FSEEK64_ (fun file => (file, da, db)) file pos_b (fun file =>
      FREAD64_ (fun file => (file, da, db)) file 1 tb (fun file data =>
      k file (poke db 0 data)))
    else k file db in
  let write_a (file : sif_file) (da db : list Z) (k : sif_file -> _) :=
    if negb (a =? -1) && negb assign then
      FSEEK64_ (fun file => (file, da, db)) file pos_b (fun file =>
      FWRITE64_ (fun file => (file, da, db)) file da 1 tb k)
    else k file in
  let write_b (file : sif_file) (da db : list Z) (k : sif_file -> _) :=
    if negb (b =? -1) then
      FSEEK64_ (fun file => (file, da, db)) file pos_a (fun file =>
      FWRITE64_ (fun file => (file, da, db)) file db 1 tb k)
    else k file in
  read_a file da (fun file da =>
  read_b file da db (fun file db =>
  write_a file da db (fun file =>
  write_b file da db (fun file => (file, da, db))))).

(** The window arithmetic shared by [sif_set_raster] and [sif_get_raster]. *)
Record window := mk_window { sxt : Z; syt : Z; ext : Z; eyt : Z; sxd : Z; syd : Z }.

Definition tile_window (tw th x y w h tx ty : Z) : window :=
  let sxt := MAX 0 (x - tx * tw) in
  let syt := MAX 0 (y - ty * th) in
  let ext := MIN (tw - 1) (x + w - 1 - tx * tw) in
  let eyt := MIN (th - 1) (y + h - 1 - ty * th) in
  let sxd := (tx * tw + sxt) - x in
  let syd := (ty * th + syt) - y in
  mk_window sxt syt ext eyt sxd syd.

Definition sif_set_raster (file : sif_file) (data : list Z) (x y w h band : Z)
    : sif_file :=
  SIF_CHECK_FILE_ void_ret file (fun hd =>
  if negb (read_only file =? 0) then file else
  if (x <? 0) || (y <? 0) then set_error file SIF_ERROR_INVALID_COORD else
  if (w <? 1) || (h <? 1) || (x + w >? width hd) || (y + h >? height hd)
  then set_error file SIF_ERROR_INVALID_REGION_SIZE else
  if (band <? 0) || (band >=? bands hd)
  then set_error file SIF_ERROR_INVALID_BAND else
  let tw := tile_width hd in
  let th := tile_height hd in
  let trs := n_tiles_across hd in
  let dus := data_unit_size hd in
  let wdus := dus * w in
  let tnx1 := Z.quot x tw in
  let tny1 := Z.quot y th in
  let tnx2 := Z.quot (x + w - 1) tw in
  let tny2 := Z.quot (y + h - 1) th in
  for_each (seqZ tny1 (tny2 - tny1 + 1)) (fun ty file next_row =>
    for_each (seqZ tnx1 (tnx2 - tnx1 + 1)) (fun tx file next_tile =>
      let '(file, got) := sif_get_tile_slice file (Some (buffer0 file)) tx ty band in
      let file := set_buffer0 file (default (buffer0 file) got) in
      let win := tile_window tw th x y w h tx ty in
      let buffer :=
        foldl (fun buffer r =>
                 let cyd := syd win + r in
                 let cyt := syt win + r in
                 memcpy buffer (cyt * trs + sxt win * dus)
                        data (cyd * wdus + sxd win * dus)
                        ((ext win - sxt win + 1) * dus))
              (buffer0 file) (seqZ 0 (eyt win - syt win + 1)) in
      let file := set_buffer0 file buffer in
      let file := sif_set_tile_slice file (Some (buffer0 file)) tx ty band in
      if negb (error file =? 0) then file else next_tile file)
      file next_row)
    file (fun file => file)).

(** Result: the handle and the caller's buffer [data]. *)
Definition _sif_get_tile (file : sif_file) (tile_no : Z) (data : list Z)
    : sif_file * list Z :=
  let hd := hdr file in
  let data := bzero data (tile_bytes hd) in
  let slice := units_per_slice file * data_unit_size hd in
  (fix bands_loop (l : list Z) (file : sif_file) (data : list Z) : sif_file * list Z :=
     match l with
     | [] => (file, data)
     | i :: l' =>
         let buffer := slice * i in
         let '(file, all) := _sif_completely_uniform_shallow file tile_no in
         let tile := tile_at file tile_no in
         if all then
           let upv := i * data_unit_size hd in
           if data_unit_size hd =? 1
           then bands_loop l' file
                  (fill_units data buffer (uniform_pixel_values tile) upv
                     (data_unit_size hd) (units_per_slice file))
           else bands_loop l' file
                  (memset data buffer (arr_get (uniform_pixel_values tile) upv)
                     (units_per_slice file))
         else
           let pos := _sif_get_block_location file (block_num tile) + slice * i in
           FSEEK64_ (fun file => (file, data)) file pos (fun file =>
           FREAD64_ (fun file => (file, data)) file 1 (tile_bytes hd) (fun file got =>
           bands_loop l' file (poke data (Z.to_nat buffer) got)))
     end) (seqZ 0 (bands hd)) file data.

(** Result: the handle and the caller's raster [data]. *)
Definition sif_get_raster (file : sif_file) (data : list Z) (x y w h band : Z)
    : sif_file * list Z :=
  SIF_CHECK_FILE_ (fun file => (file, data)) file (fun hd =>
  if (x <? 0) || (y <? 0) then (set_error file SIF_ERROR_INVALID_COORD, data) else
  if (w <? 1) || (h <? 1) || (x + w >? width hd) || (y + h >? height hd)
  then (set_error file SIF_ERROR_INVALID_REGION_SIZE, data) else
  if (band <? 0) || (band >=? bands hd)
  then (set_error file SIF_ERROR_INVALID_BAND, data) else
  let tw := tile_width hd in
  let th := tile_height hd in
  let trs := n_tiles_across hd in
  let dus := data_unit_size hd in
  let wdus := dus * w in
  let tnx1 := Z.quot x tw in
  let tny1 := Z.quot y th in
  let tnx2 := Z.quot (x + w - 1) tw in
  let tny2 := Z.quot (y + h - 1) th in
  foldl (fun '(file, data) ty =>
    foldl (fun '(file, data) tx =>
      let win := tile_window tw th x y w h tx ty in
      let '(file, got) := sif_get_tile_slice file (Some (buffer0 file)) tx ty band in
      let file := set_buffer0 file (default (buffer0 file) got) in
      let data :=
        foldl (fun data r =>
                 let cyd := syd win + r in
                 let cyt := syt win + r in
                 memcpy data (cyd * wdus + sxd win * dus)
                        (buffer0 file) (cyt * trs + sxt win * dus)
                        ((ext win - sxt win + 1) * dus))
              data (seqZ 0 (eyt win - syt win + 1)) in
      (file, data))
      (file, data) (seqZ tnx1 (tnx2 - tnx1 + 1)))
    (file, data) (seqZ tny1 (tny2 - tny1 + 1))).

(** ** Uniformity scan and consolidation *)

(** Result: the handle, the tile buffer [data] and the return value. *)
Definition _sif_uniform_check (file : sif_file) (tile_no : Z) (data : list Z)
    : sif_file * list Z * Z :=
  let uniform := 1 in
  let hd := hdr file in
  let row := Z.quot tile_no (n_tiles_across hd) in
  let col := Z.rem tile_no (n_tiles_across hd) in
  if block_num (tile_at file tile_no) =? -1 then (file, data, 1) else
  let '(file, data) := _sif_get_tile file tile_no data in
  if negb (error file =? 0) then (file, data, -1) else
  let extentX := MIN (tile_width hd) (width hd - col * tile_width hd) in
  let extentY := MIN (tile_height hd) (height hd - row * tile_height hd) in
  let file :=
    foldl (fun file i =>
             let tile := tile_at file tile_no in
             let datau := drop (Z.to_nat (i * units_per_slice file * data_unit_size hd)) data in
             if (SIF_GET_BIT (uniform_flags tile) i =? 0)
                && _sif_is_uniform file datau extentX extentY
                && negb (block_num tile =? -1)
             then mark_band_uniform file tile_no i datau
             else file)
          file (seqZ 0 (bands hd)) in
  let file := release_if_uniform file tile_no in
  let file := fst (_sif_write_tile_header file (tile_at file tile_no) tile_no) in
  (file, data, uniform).

(** Result: the handle and the tile buffer. *)
Definition _sif_mark_uniform_tiles (file : sif_file) (buffer : list Z)
    : sif_file * list Z :=
  let hd := hdr file in
  if negb (read_only file =? 0) || (consolidate hd =? 0) then (file, buffer) else
  (fix tiles_loop (l : list Z) (file : sif_file) (buffer : list Z) : sif_file * list Z :=
     match l with
     | [] => (file, buffer)
     | i :: l' =>
         if negb (block_num (tile_at file i) =? -1)
            && negb (arr_get (dirty_tiles file) i =? 0)
         then
           let '(file, buffer, _) := _sif_uniform_check file i buffer in
           if negb (error file =? 0) then (file, buffer) else
           tiles_loop l' (set_dirty_tiles file (arr_set (dirty_tiles file) i 0)) buffer
         else tiles_loop l' file buffer
     end) (seqZ 0 (n_tiles hd)) file buffer.

Definition sif_consolidate (file : sif_file) : sif_file :=
  if negb (read_only file =? 0) || (consolidate (hdr file) =? 0) then file else
  let '(file, buffer) := _sif_mark_uniform_tiles file (buffer0 file) in
  let file := set_buffer0 file buffer in
  fst (_sif_write_meta_data file).

(** ** Defragmenter *)

(** The body of the loop of [sif_defragment] for tile [i] with the write
    cursor at [bn1]; [k] continues the loop with the new cursor. *)
Definition defragment_step (file : sif_file) (i bn1 : Z)
    (k : sif_file -> Z -> sif_file) : sif_file :=
  if negb (block_num (tile_at file i) =? -1) then
    let bn2 := block_num (tile_at file i) in
    let tn1 := arr_get (blocks_to_tiles file) bn1 in
    let tn2 := i in
    let file := put_tile file tn2 (tile_set_block_num (tile_at file tn2) bn1) in
    let file := set_blocks_to_tiles file (arr_set (blocks_to_tiles file) bn1 tn2) in
    let swap (file : sif_file) : sif_file :=
      let '(file, buf1, buf2) :=
        _sif_swap_blocks file bn1 bn2 (buffer0 file) (buffer1 file) (tn1 =? -1) in
      let file := set_buffer1 (set_buffer0 file buf1) buf2 in
      if negb (error file =? 0) then file else
      let file := fst (_sif_write_tile_header file (tile_at file tn2) tn2) in
      if negb (error file =? 0) then file else
      k file (bn1 + 1) in
    if negb (tn1 =? -1) then
      let file := put_tile file tn1 (tile_set_block_num (tile_at file tn1) bn2) in
      let file := set_blocks_to_tiles file (arr_set (blocks_to_tiles file) bn2 tn1) in
      let file := fst (_sif_write_tile_header file (tile_at file tn1) tn1) in
      if negb (error file =? 0) then file else swap file
    else
      swap (set_blocks_to_tiles file (arr_set (blocks_to_tiles file) bn2 (-1)))
  else k file bn1.

Fixpoint defragment_loop (l : list Z) (file : sif_file) (bn1 : Z)
    (k : sif_file -> sif_file) : sif_file :=
  match l with
  | [] => k file
  | i :: l' => defragment_step file i bn1 (fun file bn1 => defragment_loop l' file bn1 k)
  end.

Definition sif_defragment (file : sif_file) : sif_file :=
  SIF_CHECK_FILE_ void_ret file (fun hd =>
  if negb (read_only file =? 0) || (defragment hd =? 0) then file else
  defragment_loop (seqZ 0 (n_tiles hd)) file 0 (fun file =>
  if negb (error file =? 0) then file else
  fst (_sif_write_meta_data file))).

(** ** Life cycle *)

Definition SIF_MAGIC_NUMBER : list Z := [33; 42; 42; 83; 73; 70; 42; 42].
Definition SIF_MAGIC_NUMBER_SIZE : Z := 8.

Definition sif_get_version : Z := SIF_VERSION.

Definition sif_use_file_format_version (file : sif_file) (version : Z) : sif_file :=
  if version <? 1 then set_error file SIF_ERROR_CANNOT_WRITE_VERSION
  else set_use_file_version file version.

(** [for (i = 0; i < n_tiles; i++) if (tiles[i].block_num != -1) blocks_to_tiles[tiles[i].block_num] = i;] *)
Definition rebuild_blocks_to_tiles (file : sif_file) : sif_file :=
  let n := n_tiles (hdr file) in
  let file := set_blocks_to_tiles file (replicate (Z.to_nat n) (-1)) in
  foldl (fun file i =>
           if negb (block_num (tile_at file i) =? -1)
           then set_blocks_to_tiles file
                  (arr_set (blocks_to_tiles file) (block_num (tile_at file i)) i)
           else file)
        file (seqZ 0 n).

(** [disk] is the content of the named file, [None] when it cannot be
    opened.  A null result is [None].  After a failed [_sif_read_meta_data]
    the source frees the handle and, having no [return 0] there, returns the
    freed pointer; a freed handle has no value in the model, which gives
    [None] on that path too.  Block numbers and header fields are decoded by
    [_sif_packed_bytes_to_int32], that is with a 32-bit [long]. *)
Definition sif_open (host : byte_order) (disk : option (list Z)) (read_only : Z)
    : option sif_file :=
  match disk with
  | None => None
  | Some bytes =>
      let retval := _sif_alloc_fp (fopen_rb bytes) in
      let retval := set_error retval 0 in
      let retval := set_header retval (Some _sif_alloc_header) in
      let retval := set_tiles retval [] in
      let retval := set_meta_data retval _sif_alloc_meta_data_table in
      let retval :=
        mk_file (fp retval) (header retval) (tiles retval) (meta_data retval) read_only
          (blocks_to_tiles retval) (dirty_tiles retval) (buffer0 retval) (buffer1 retval)
          (base_location retval) (error retval) (units_per_slice retval)
          (units_per_tile retval) (header_bytes retval) (use_file_version retval) in
      let '(retval, ok) := _sif_read_header host retval in
      if negb (ok =? 1)
         || (version (hdr retval) >? SIF_VERSION)
         || negb (bool_decide (sub_bytes (magic_number (hdr retval)) 0 SIF_MAGIC_NUMBER_SIZE
                               = SIF_MAGIC_NUMBER))
      then None else
      let retval := _sif_alloc_tile_headers retval in
      let header := hdr retval in
      let retval := set_base_location retval
                      (header_bytes retval + tile_header_bytes header * n_tiles header) in
      let retval := set_units retval
                      (tile_width header * tile_height header)
                      (tile_width header * tile_height header * bands header) in
      let '(retval, ok) := _sif_read_tile_headers retval in
      if negb (ok =? 1) then None else
      let retval := set_buffer0 retval (replicate (Z.to_nat (tile_bytes header)) 0) in
      let retval := set_buffer1 retval (replicate (Z.to_nat (tile_bytes header)) 0) in
      let retval := set_dirty_tiles retval (replicate (Z.to_nat (n_tiles header)) 0) in
      let retval := rebuild_blocks_to_tiles retval in
      let retval := _sif_read_meta_data retval in
      if negb (error retval =? 0) then None else Some retval
  end.

Definition sif_flush (host : byte_order) (file : sif_file) : sif_file * Z :=
  if read_only file =? 0 then
    let file := fst (_sif_write_header host file) in
    let file := fst (_sif_write_tile_headers file) in
    let file := fst (_sif_write_meta_data file) in
    let file := if negb (consolidate (hdr file) =? 0) then sif_consolidate file else file in
    let file := if negb (defragment (hdr file) =? 0) then sif_defragment file else file in
    (file, 0)
  else (file, 0).

(** Result: the status and the bytes left in the file. *)
Definition sif_close (host : byte_order) (file : sif_file) : Z * list Z :=
  let status := 0 in
  let file := fst (sif_flush host file) in
  if negb (error file =? 0) then (-1, contents (fp file))
  else (status, contents (fp file)).

(** The assignments of [sif_create] to the geometry fields of the header. *)
Definition hd_set_geometry (version width height bands n_keys n_tiles tile_width
    tile_height tile_bytes n_tiles_across data_unit_size user_data_type : Z)
    (h : sif_header) : sif_header :=
  mk_header (magic_number h) version width height bands n_keys n_tiles tile_width
    tile_height tile_bytes n_tiles_across data_unit_size user_data_type
    (defragment h) (consolidate h) (intrinsic_write h)
    (tile_header_bytes h) (n_uniform_flags h) (affine_geo_transform h).

Definition hd_set_magic_number (x : list Z) (h : sif_header) : sif_header :=
  mk_header x (version h) (width h) (height h) (bands h) (n_keys h) (n_tiles h)
    (tile_width h) (tile_height h) (tile_bytes h) (n_tiles_across h) (data_unit_size h)
    (user_data_type h) (defragment h) (consolidate h) (intrinsic_write h)
    (tile_header_bytes h) (n_uniform_flags h) (affine_geo_transform h).

(** [filename] is [None] for a null pointer; the file itself is created
    empty.  A null result is [None].  [fopen64] and the allocations are
    taken to succeed, and the sizes are computed in [Z]: [Some file] stands
    for a call that returned a handle, with arguments whose products fit a
    [long]. *)
Definition sif_create (host : byte_order) (filename : option (list Z))
    (width height bands data_unit_size user_data_type consolidate_on_close
     defragment_on_close tile_width tile_height intrinsic_write : Z)
    : option sif_file :=
  let tb := tile_width * tile_height * bands * data_unit_size in
  if (bands <? 1) || (width <? 1) || (height <? 1) || (tile_width <? 1)
     || (tile_height <? 1) || (data_unit_size <? 1) || bool_decide (filename = None)
  then None else
  let retval := _sif_alloc_fp fopen_wb in
  let hd := _sif_alloc_header in
  let retval := set_buffer0 retval (replicate (Z.to_nat tb) 0) in
  let retval := set_buffer1 retval (replicate (Z.to_nat tb) 0) in
  let hd := hd_set_consolidate consolidate_on_close hd in
  let hd := hd_set_intrinsic_write intrinsic_write hd in
  let hd := hd_set_defragment defragment_on_close hd in
  let hd := hd_set_intrinsic_write 1 hd in
  let retval := set_units retval (tile_width * tile_height)
                  (tile_width * tile_height * bands) in
  let across := CEIL_DIV width tile_width in
  let hd :=
    hd_set_geometry SIF_VERSION width height bands 0
      (across * CEIL_DIV height tile_height) tile_width tile_height
      (tile_width * tile_height * bands * data_unit_size) across
      data_unit_size user_data_type hd in
  let retval := set_header retval (Some hd) in
  let retval := set_meta_data retval _sif_alloc_meta_data_table in
  let retval := _sif_alloc_tile_headers retval in
  let count := Z.to_nat (across * CEIL_DIV height tile_height) in
  let retval := set_dirty_tiles retval (replicate count 0) in
  let retval := set_blocks_to_tiles retval (replicate count (-1)) in
  let retval := upd_header retval (hd_set_magic_number SIF_MAGIC_NUMBER) in
  let retval := fst (_sif_write_header host retval) in
  let retval := set_base_location retval
                  (header_bytes retval
                   + tile_header_bytes (hdr retval) * (across * CEIL_DIV height tile_height)) in
  if negb (error retval =? 0) then None else
  let retval := fst (_sif_write_tile_headers retval) in
  if negb (error retval =? 0) then None else
  let retval := sif_use_file_format_version retval sif_get_version in
  Some retval.

(** ** Policy flags *)

Definition sif_set_intrinsic_write (file : sif_file) : sif_file :=
  SIF_CHECK_FILE_ void_ret file (fun hd => upd_header file (hd_set_intrinsic_write 1)).

Definition sif_is_intrinsic_write_set (file : sif_file) : sif_file * Z :=
  SIF_CHECK_FILE_ (int_ret 0) file (fun hd => (file, intrinsic_write hd)).

Definition sif_unset_intrinsic_write (file : sif_file) : sif_file :=
  SIF_CHECK_FILE_ void_ret file (fun hd => upd_header file (hd_set_intrinsic_write 0)).

Definition sif_set_defragment (file : sif_file) : sif_file :=
  SIF_CHECK_FILE_ void_ret file (fun hd => upd_header file (hd_set_defragment 1)).

Definition sif_unset_defragment (file : sif_file) : sif_file :=
  SIF_CHECK_FILE_ void_ret file (fun hd => upd_header file (hd_set_defragment 0)).

Definition sif_set_consolidate (file : sif_file) : sif_file :=
  SIF_CHECK_FILE_ void_ret file (fun hd => upd_header file (hd_set_consolidate 1)).

Definition sif_unset_consolidate (file : sif_file) : sif_file :=
  SIF_CHECK_FILE_ void_ret file (fun hd => upd_header file (hd_set_consolidate 0)).

(** ** Scenarios and specification-level definitions *)

(** The round trip of the raster-window test: create, write every band with
    [sif_set_raster(0, 0, width, height, b)], close, reopen read-only, and
    read every band back with [sif_get_raster] over the same window. *)
Definition raster_round_trip (host : byte_order)
    (width height bands tile_width tile_height data_unit_size
     consolidate_on_close defragment_on_close : Z)
    (B : list (list Z)) : option (list (list Z)) :=
  file ← sif_create host (Some [102]) width height bands data_unit_size 0
           consolidate_on_close defragment_on_close tile_width tile_height 1;
  let file :=
    foldl (fun file b => sif_set_raster file (default [] (B !! Z.to_nat b))
                            0 0 width height b)
          file (seqZ 0 bands) in
  let '(status, disk) := sif_close host file in
  file ← sif_open host (Some disk) 1;
  let blank := replicate (Z.to_nat (width * height * data_unit_size)) 0 in
  Some (map (fun b => snd (sif_get_raster file blank 0 0 width height b))
            (seqZ 0 bands)).

(** A fresh 2 x 1 image of [bands] one-byte bands held in a single tile. *)
Definition one_tile_file (bands : Z) : option sif_file :=
  sif_create LITTLE_ENDIAN (Some [102]) 2 1 bands 1 0 0 0 2 1 1.

(** A fresh 8 x 1 image of one one-byte band in four 2 x 1 tiles, with the
    defragment flag set.  Tiles 2, 3, 0 and 1 are given non-uniform slices in
    this order, so they hold blocks 0, 1, 2 and 3; then tile 2 is made
    uniform again, which frees block 0. *)
Definition fragmented_file : option sif_file :=
  file ← sif_create LITTLE_ENDIAN (Some [102]) 8 1 1 1 0 0 1 2 1 1;
  let file := sif_set_tile_slice file (Some [1; 2]) 2 0 0 in
  let file := sif_set_tile_slice file (Some [3; 4]) 3 0 0 in
  let file := sif_set_tile_slice file (Some [5; 6]) 0 0 0 in
  let file := sif_set_tile_slice file (Some [7; 8]) 1 0 0 in
  let file := sif_fill_tile_slice file 2 0 0 (Some [9]) in
  Some file.

(** The tiles that hold a block, in tile-index order. *)
Definition live_tiles (file : sif_file) : list Z :=
  filter (fun t => block_num (tile_at file t) ≠ -1) (seqZ 0 (n_tiles (hdr file))).

(** The header describes a usable geometry and the tables have [n_tiles] entries. *)
Definition geometry_ok (file : sif_file) : bool :=
  let hd := hdr file in
  (0 <? bands hd) && (0 <? data_unit_size hd) && (0 <? n_uniform_flags hd)
  && (0 <? tile_bytes hd) && (0 <=? tile_header_bytes hd)
  && (0 <=? header_bytes file) && (0 <=? base_location file) && (0 <=? n_tiles hd)
  && (Z.of_nat (length (tiles file)) =? n_tiles hd)
  && (Z.of_nat (length (blocks_to_tiles file)) =? n_tiles hd).

(** The two block maps are inverse to each other:
    [block_num >= 0] means the allocator maps the block back to the tile,
    and a used block belongs to the tile it names. *)
Definition blocks_consistent (file : sif_file) : bool :=
  let n := n_tiles (hdr file) in
  forallb (fun t =>
             let b := block_num (tile_at file t) in
             (b =? -1)
             || ((0 <=? b) && (b <? n) && (arr_get (blocks_to_tiles file) b =? t)))
          (seqZ 0 n)
  && forallb (fun b =>
                let t := arr_get (blocks_to_tiles file) b in
                (t =? -1)
                || ((0 <=? t) && (t <? n) && (block_num (tile_at file t) =? b)))
             (seqZ 0 n).

(** Every used block lies inside the file. *)
Definition blocks_on_disk (file : sif_file) : bool :=
  forallb (fun b =>
             (arr_get (blocks_to_tiles file) b =? -1)
             || (base_location file + (b + 1) * tile_bytes (hdr file)
                 <=? Z.of_nat (length (contents (fp file)))))
          (seqZ 0 (n_tiles (hdr file))).



(** Writers, for sequences of writes through a handle. *)
Inductive write_op :=
| SetTileSlice (buffer : option (list Z)) (tx ty band : Z)
| SetRaster (data : list Z) (x y w h band : Z)
| FillTileSlice (tx ty band : Z) (v : option (list Z))
| FillTiles (band : Z) (v : option (list Z)).

Definition run_write (file : sif_file) (op : write_op) : sif_file :=
  match op with
  | SetTileSlice buffer tx ty band => sif_set_tile_slice file buffer tx ty band
  | SetRaster data x y w h band => sif_set_raster file data x y w h band
  | FillTileSlice tx ty band v => sif_fill_tile_slice file tx ty band v
  | FillTiles band v => sif_fill_tiles file band v
  end.

Definition run_writes (file : sif_file) (ops : list write_op) : sif_file :=
  foldl run_write file ops.

(** [f'] has the header and the dirty flags of [f]. *)
Definition keeps_policy (f f' : sif_file) : Prop :=
  header f' = header f /\ dirty_tiles f' = dirty_tiles f.

(** The handle has a header whose [intrinsic_write] flag is 1. *)
Definition has_intrinsic_write (f : sif_file) : Prop :=
  exists hd, header f = Some hd /\ intrinsic_write hd = 1.

(** The record of a tile once [sif_fill_tile_slice] has stored the value [v]
    for [band]: the value is copied, the flag set, the last flag byte padded,
    and the block given up when the whole-byte test succeeds. *)
Definition filled_tile (hd : sif_header) (band : Z) (v : list Z) (t : sif_tile)
    : sif_tile :=
  let upv := memcpy (uniform_pixel_values t) (data_unit_size hd * band)
                    v 0 (data_unit_size hd) in
  let flags := SIF_SET_BIT (uniform_flags t) band in
  let last := n_uniform_flags hd - 1 in
  let flags :=
    arr_set flags last
      (Z.lor (Z.land (Z.shiftr 255 (8 - Z.rem (bands hd) 8)) 255) (arr_get flags last)) in
  let retval :=
    foldl (fun retval j =>
             if retval =? 255 then Z.land retval (arr_get flags j) else retval)
          255 (seqZ 0 (n_uniform_flags hd)) in
  mk_tile flags upv
    (if (retval =? 255) && negb (block_num t =? -1) then -1 else block_num t).

(** The argument and mode checks of [sif_fill_tile_slice]: the header and the
    value when the call gets through to the tile. *)
Definition fill_guard (file : sif_file) (tx ty band : Z) (v : option (list Z))
    : option (sif_header * list Z) :=
  match header file, v with
  | Some hd, Some v =>
      if (version hd >? SIF_VERSION)
         || ((tx <? 0) || (ty <? 0) || (tx >=? n_tiles_across hd))
         || ((band <? 0) || (band >=? bands hd))
         || negb (read_only file =? 0)
      then None else Some (hd, v)
  | _, _ => None
  end.

(** [f'] has the header and the access mode of [f]. *)
Definition same_mode (f f' : sif_file) : Prop :=
  header f' = header f /\ read_only f' = read_only f.

(** [f'] has the header, the access mode and the tile table of [f]. *)
Definition same_tiles (f f' : sif_file) : Prop :=
  header f' = header f /\ read_only f' = read_only f /\ tiles f' = tiles f.

(** The outcome [re] of a call entered with the error field at [e], against
    the outcome [r0] of the same call entered with the field cleared. *)
Definition resumes (e : Z) (r0 re : sif_file) : Prop :=
  re = if error r0 =? 0 then set_error r0 e else r0.

(** The same for a call that also returns a value. *)
Definition resumes_with {B} (e : Z) (r0 re : sif_file * B) : Prop :=
  resumes e (fst r0) (fst re) /\ snd re = snd r0.


(** The block of a tile and the tile of a block. *)
Definition block_of (f : sif_file) (t : Z) : Z := block_num (tile_at f t).
Definition tile_of (f : sif_file) (b : Z) : Z := arr_get (blocks_to_tiles f) b.

(** A tile-to-block map [B] and a block-to-tile map [T] over [n] tiles that
    are inverse to each other. *)
Definition tiles_to_blocks_ok (B T : Z -> Z) (n : Z) : Prop :=
  forall t, 0 <= t < n -> B t = -1 \/ (0 <= B t < n /\ T (B t) = t).

Definition blocks_to_tiles_ok (B T : Z -> Z) (n : Z) : Prop :=
  forall b, 0 <= b < n -> T b = -1 \/ (0 <= T b < n /\ B (T b) = b).



(** The data unit [j] of a buffer of units of [size] bytes. *)
Definition unit_at (size : Z) (data : list Z) (j : Z) : list Z :=
  sub_bytes data (size * j) size.

(** ** Further operations on the meta-data store *)

Definition sif_get_meta_data_num_items (file : sif_file) : Z := n_keys (hdr file).

(** The unlinked pair is freed; the header is not touched. *)
Definition sif_remove_meta_data_item (file : sif_file) (k : list Z) : sif_file :=
  SIF_CHECK_FILE_ void_ret file (fun hd =>
  fst (_sif_unlink_meta_data_pair file k)).

(** The string literals ["_sif_proj"], ["_sif_agree"], ["simple"] and [""]. *)
Definition str_sif_proj : list Z := [95; 115; 105; 102; 95; 112; 114; 111; 106; 0].
Definition str_sif_agree : list Z := [95; 115; 105; 102; 95; 97; 103; 114; 101; 101; 0].
Definition str_simple : list Z := [115; 105; 109; 112; 108; 101; 0].
Definition str_empty : list Z := [0].

(** [sif_get_projection] and [sif_get_agreement]: a missing key reads as the
    empty string, and the error recorded by the lookup is cleared. *)
Definition get_string_or_empty (file : sif_file) (k : list Z)
    : sif_file * option (list Z) :=
  SIF_CHECK_FILE_ (fun file => (file, None)) file (fun hd =>
  let '(file, result) := sif_get_meta_data file k in
  match result with
  | None =>
      if error file =? SIF_ERROR_META_DATA_KEY
      then (set_error file SIF_ERROR_NONE, Some str_empty)
      else (file, None)
  | Some _ => (file, result)
  end).

Definition sif_get_projection (file : sif_file) : sif_file * option (list Z) :=
  get_string_or_empty file str_sif_proj.

Definition sif_set_projection (file : sif_file) (proj : list Z) : sif_file :=
  SIF_CHECK_FILE_ void_ret file (fun hd => sif_set_meta_data file str_sif_proj proj).

Definition sif_get_agreement (file : sif_file) : sif_file * option (list Z) :=
  get_string_or_empty file str_sif_agree.

Definition sif_set_agreement (file : sif_file) (proj : list Z) : sif_file :=
  SIF_CHECK_FILE_ void_ret file (fun hd => sif_set_meta_data file str_sif_agree proj).

(** The handle passes [SIF_CHECK_FILE]. *)
Definition passes_check (file : sif_file) : Prop :=
  match header file with
  | Some hd => version hd <= SIF_VERSION
  | None => False
  end.

(** The hash table has its [SIF_HASH_TABLE_SIZE] chains. *)
Definition table_allocated (file : sif_file) : Prop :=
  length (meta_data file) = Z.to_nat SIF_HASH_TABLE_SIZE.

(** The record a key leads to: the first one of its chain with this key. *)
Definition stored (file : sif_file) (k : list Z) : option sif_meta_data :=
  let q := chain file (Z.rem (_sif_hash k) SIF_HASH_TABLE_SIZE) in
  chain_find k q ≫= (fun n => q !! n).

(** The header counts the records of the table. *)
Definition meta_count_ok (file : sif_file) : Prop :=
  n_keys (hdr file) = Z.of_nat (length (meta_records file)).

(** ** The header as a sequence of bytes *)

(** A value that fits the 32-bit [long] of the packed codec. *)
Definition int32 (v : Z) : Prop := - 2 ^ 31 <= v < 2 ^ 31.

(** The bytes [_sif_write_header] produces, in file order: the size of the
    header, the magic number, the version, the sixteen integer fields and
    the six doubles of the transform (in host order before version 2, in
    network order from version 2 on). *)
Definition header_image (host : byte_order) (ver : Z) (hd : sif_header) : list Z :=
  _sif_int32_to_packed_bytes (4 + 8 + 4 + 4 * 16 + 8 * 6)
  ++ magic_number hd
  ++ _sif_int32_to_packed_bytes ver
  ++ concat (map _sif_int32_to_packed_bytes (header_ints hd))
  ++ concat (if ver <? 2 then affine_geo_transform hd
             else map (_sif_hton_double64 host) (affine_geo_transform hd)).

(** The header has arrays of the declared sizes and fields that fit 32 bits. *)
Definition header_fits (ver : Z) (hd : sif_header) : Prop :=
  length (magic_number hd) = 8%nat
  /\ length (affine_geo_transform hd) = 6%nat
  /\ Forall (fun d => length d = 8%nat) (affine_geo_transform hd)
  /\ Forall int32 (ver :: header_ints hd).


(** ** The tile-header table as a sequence of bytes *)

(** The bytes of one tile header in file order: the uniform pixel values of
    all bands, the flag bytes, and the packed block number. *)
Definition tile_image (t : sif_tile) : list Z :=
  uniform_pixel_values t ++ uniform_flags t ++ _sif_int32_to_packed_bytes (block_num t).

(** The arrays of the tile have the sizes the header declares. *)
Definition tile_fits (hd : sif_header) (t : sif_tile) : Prop :=
  Z.of_nat (length (uniform_pixel_values t)) = data_unit_size hd * bands hd
  /\ Z.of_nat (length (uniform_flags t)) = n_uniform_flags hd.


(** ** A new file *)

(** The header of a tile that no slice has been written to: every band
    uniform with value zero, and no block. *)
Definition blank_tile (hd : sif_header) : sif_tile :=
  mk_tile (replicate (Z.to_nat (CEIL_DIV (bands hd) 8)) 255)
          (replicate (Z.to_nat (bands hd * data_unit_size hd)) 0) (-1).


(** The arguments of [sif_create] are values of their C types and the
    sizes it computes from them fit a 32-bit [long]: the bytes of a tile
    (the two tile buffers) and the bytes of the table of tile headers (its
    master arrays of flags and pixel values). *)
Definition create_sizes_fit (w h nb dus udt con defrag tw th iw : Z) : Prop :=
  Forall int32 [w; h; nb; dus; udt; con; defrag; tw; th; iw]
  /\ tw * th * nb * dus < 2 ^ 31
  /\ CEIL_DIV w tw * CEIL_DIV h th * (nb * dus + CEIL_DIV nb 8 + 4) < 2 ^ 31.

(** ** Handles in a consistent state *)

(** What [sif_create] and [sif_open] establish and the slice writers rely
    on: a checkable header with a usable geometry, block maps that agree,
    used blocks that lie inside the file, tile headers of the declared size
    laid out between the file header and the first block, and tile arrays of
    the declared sizes. *)
Record well_formed (file : sif_file) : Prop := {
  wf_check : passes_check file;
  wf_geometry : geometry_ok file = true;
  wf_blocks : blocks_consistent file = true;
  wf_on_disk : blocks_on_disk file = true;
  wf_units : units_per_slice file = tile_width (hdr file) * tile_height (hdr file);
  wf_slice : 0 < units_per_slice file;
  wf_tile_bytes :
    tile_bytes (hdr file)
    = data_unit_size (hdr file) * units_per_slice file * bands (hdr file);
  wf_record :
    tile_header_bytes (hdr file)
    = data_unit_size (hdr file) * bands (hdr file) + n_uniform_flags (hdr file) + 4;
  wf_flags : bands (hdr file) <= 8 * n_uniform_flags (hdr file);
  wf_base :
    base_location file
    = header_bytes file + tile_header_bytes (hdr file) * n_tiles (hdr file);
  wf_length : base_location file <= Z.of_nat (length (contents (fp file)));
  wf_tiles : Forall (tile_fits (hdr file)) (tiles file)
}.

(** Where the slice of [band] of the tile [tile_num] lies in the file. *)
Definition slice_location (file : sif_file) (tile_num band : Z) : Z :=
  _sif_get_block_location file (block_num (tile_at file tile_num))
  + data_unit_size (hdr file) * units_per_slice file * band.

(** The slice of [band] of the tile [tile_num] is marked as stored in the
    file, lies inside the file and holds the bytes [data]. *)
Definition slice_holds (g : sif_file) (tile_num band : Z) (data : list Z) : Prop :=
  SIF_GET_BIT (uniform_flags (tile_at g tile_num)) band = 0
  /\ 0 <= slice_location g tile_num band
  /\ slice_location g tile_num band + Z.of_nat (length data)
     <= Z.of_nat (length (contents (fp g)))
  /\ take (length data)
       (drop (Z.to_nat (slice_location g tile_num band)) (contents (fp g))) = data.


(** ** User data type and the simple type codes (sif-io.h) *)

Definition hd_set_user_data_type (x : Z) (h : sif_header) : sif_header :=
  mk_header (magic_number h) (version h) (width h) (height h) (bands h) (n_keys h) (n_tiles h)
    (tile_width h) (tile_height h) (tile_bytes h) (n_tiles_across h) (data_unit_size h)
    x (defragment h) (consolidate h) (intrinsic_write h)
    (tile_header_bytes h) (n_uniform_flags h) (affine_geo_transform h).

Definition sif_set_user_data_type (file : sif_file) (user_data_type : Z) : sif_file :=
  SIF_CHECK_FILE_ void_ret file (fun hd =>
  upd_header file (hd_set_user_data_type user_data_type)).

Definition sif_get_user_data_type (file : sif_file) : sif_file * Z :=
  SIF_CHECK_FILE_ (int_ret 0) file (fun hd => (file, user_data_type hd)).

Definition SIF_SIMPLE_ERROR_UNDEFINED_DT : Z := 100.
Definition SIF_SIMPLE_ERROR_UNDEFINED_ENDIAN : Z := 102.

(** [(int)x]: the conversion of a [long] to the 32-bit [int] keeps the low
    32 bits. *)
Definition int_of_long (x : Z) : Z := wrap32 x.

(** [((int)t)/10] and [((int)x)%10]: C division truncates.  The sums the
    two setters below form from these are [int] sums; signed overflow is
    undefined in C, and the results about the setters bound the operands so
    that none occurs. *)
Definition SIF_SIMPLE_ENDIAN (t : Z) : Z := Z.quot (int_of_long t) 10.
Definition SIF_SIMPLE_BASE_TYPE_CODE (x : Z) : Z := Z.rem (int_of_long x) 10.

Definition sif_simple_set_endian (file : sif_file) (endian : Z) : sif_file :=
  if (endian <? 0) || (endian >? 1)
  then set_error file SIF_SIMPLE_ERROR_UNDEFINED_ENDIAN else
  SIF_CHECK_FILE_ void_ret file (fun hd =>
  let simple_data_type := SIF_SIMPLE_BASE_TYPE_CODE (user_data_type hd) in
  upd_header file (hd_set_user_data_type (simple_data_type + 10 * endian))).

Definition sif_simple_get_endian (file : sif_file) : sif_file * Z :=
  SIF_CHECK_FILE_ (int_ret 0) file (fun hd =>
  (file, SIF_SIMPLE_ENDIAN (user_data_type hd))).

Definition sif_simple_set_data_type (file : sif_file) (data_type_code : Z) : sif_file :=
  if (data_type_code <? 0) || (data_type_code >? 9)
  then set_error file SIF_SIMPLE_ERROR_UNDEFINED_DT else
  SIF_CHECK_FILE_ void_ret file (fun hd =>
  let simple_endian := SIF_SIMPLE_ENDIAN (user_data_type hd) in
  upd_header file (hd_set_user_data_type (data_type_code + 10 * simple_endian))).

Definition sif_simple_get_data_type (file : sif_file) : sif_file * Z :=
  SIF_CHECK_FILE_ (int_ret 0) file (fun hd =>
  (file, SIF_SIMPLE_BASE_TYPE_CODE (user_data_type hd))).

(** ** Shallow uniformity of a slice *)

(** Result: the handle, the answer and the caller's [uniform_value]. *)
Definition sif_is_slice_shallow_uniform (file : sif_file) (tx ty band : Z)
    (uniform_value : list Z) : sif_file * Z * list Z :=
  SIF_CHECK_FILE_ (fun file => (file, 0, uniform_value)) file (fun hd =>
  let tile_num := n_tiles_across hd * ty + tx in
  let tile := tile_at file tile_num in
  let upv := band * data_unit_size hd in
  if negb (SIF_GET_BIT (uniform_flags tile) band =? 0)
  then (file, 1, memcpy uniform_value 0 (uniform_pixel_values tile) upv (data_unit_size hd))
  else (file, 0, uniform_value)).

(** [g] is [f] but for the error field. *)
Definition same_but_error (f g : sif_file) : Prop := g = set_error f (error g).


(** The block that holds the slices of a tile once [sif_set_tile_slice] has
    stored one: the block the tile has, or the first free block. *)
Definition block_for (file : sif_file) (tile_num : Z) : Z :=
  if block_num (tile_at file tile_num) =? -1 then first_free_block file
  else block_num (tile_at file tile_num).

(** The bytes of the file once [sif_set_tile_slice] has stored [data] for
    [band] of the tile [tile_num]: a tile without a block has its new block
    filled with copies of the slice, and the slice goes to its place in the
    block. *)
Definition slice_stored (file : sif_file) (tile_num band : Z) (data : list Z)
    : list Z :=
  let hd := hdr file in
  let size := data_unit_size hd * units_per_slice file in
  let slice := sub_bytes data 0 size in
  let block := _sif_get_block_location file (block_for file tile_num) in
  let c :=
    if block_num (tile_at file tile_num) =? -1
    then pwrite (contents (fp file)) block (concat (replicate (Z.to_nat (bands hd)) slice))
    else contents (fp file) in
  pwrite c (block + size * band) slice.


(** ** The meta-data region as a sequence of bytes *)







(** ** Handles that can be stored and reopened *)




(** * Properties *)

(** ** Byte-order adapter *)

Lemma host_to_code_native_untouched (host : byte_order) (buffer : list Z)
    (n_bytes elem_size : Z) :
  _sif_buffer_host_to_code host buffer n_bytes elem_size (SIF_SIMPLE_NATIVE_ENDIAN host)
  = buffer.
Proof. destruct host; reflexivity. Qed.

Lemma code_to_host_native_untouched (host : byte_order) (buffer : list Z)
    (n_bytes elem_size : Z) :
  _sif_buffer_code_to_host host buffer n_bytes elem_size (SIF_SIMPLE_NATIVE_ENDIAN host)
  = buffer.
Proof. destruct host; reflexivity. Qed.

(** The inner loop always exchanges with [buffer[i]], and [m] is counted from
    the middle of the element: on one two-byte element nothing moves. *)
Lemma swap_bytes_one_pair (a b : Z) : _sif_swap_bytes [a; b] 2 2 = [a; b].
Proof. reflexivity. Qed.

(** C5 (code_bug).  The adapter is to reverse the [S] bytes of every element
    when the file order differs from the host order.  On a little-endian
    host and a big-endian file, [_sif_buffer_host_to_code] returns the
    two-byte element [01 02] as it is, and [_sif_buffer_code_to_host] maps
    two four-byte elements to a buffer that is not their byte reversal. *)
Theorem swap_bytes_does_not_reverse_elements :
  SIF_SIMPLE_BIG_ENDIAN <> SIF_SIMPLE_NATIVE_ENDIAN LITTLE_ENDIAN
  /\ _sif_buffer_host_to_code LITTLE_ENDIAN [1; 2] 2 2 SIF_SIMPLE_BIG_ENDIAN = [1; 2]
  /\ reverse_elements 1 2 [1; 2] = [2; 1]
  /\ _sif_buffer_code_to_host LITTLE_ENDIAN [1; 2; 3; 4; 5; 6; 7; 8] 8 4
       SIF_SIMPLE_BIG_ENDIAN = [1; 5; 3; 4; 6; 2; 7; 8]
  /\ reverse_elements 2 4 [1; 2; 3; 4; 5; 6; 7; 8] = [4; 3; 2; 1; 8; 7; 6; 5].
Proof. repeat split; try reflexivity. discriminate. Qed.

(** ** Meta-data store *)

Lemma null_terminator_check_first_byte (v : list Z) (n : Z) :
  _sif_null_terminator_check v n = 1 <-> 0 < n /\ arr_get v 0 = 0.
Proof.
  unfold _sif_null_terminator_check.
  destruct (existsb _ _) eqn:E.
  - apply existsb_exists in E as (i & Hi & Hz).
    apply list_elem_of_In, elem_of_seqZ in Hi.
    split; [intros _; split; lia | reflexivity].
  - split; [discriminate |]. intros [Hn Hz].
    assert (existsb (fun _ : Z => arr_get v 0 =? 0) (seqZ 0 n) = true) as E'.
    { apply existsb_exists. exists 0. split.
      - apply list_elem_of_In, elem_of_seqZ. lia.
      - lia. }
    congruence.
Qed.

(** C7 (code_bug).  [sif_get_meta_data] is to raise
    [SIF_ERROR_META_DATA_VALUE] exactly when the stored value does not end in
    a NUL byte.  The check looks at the first byte only: the value ["abc\0"]
    written by [sif_set_meta_data] raises the error although it is
    null-terminated, and the binary value [00 FF], which has no terminator,
    raises none. *)
Theorem get_meta_data_tests_first_byte :
  (file ← one_tile_file 1;
   let file := sif_set_meta_data file [107; 0] [97; 98; 99; 0] in
   let '(file, retval) := sif_get_meta_data file [107; 0] in
   Some (retval, error file))
  = Some (Some [97; 98; 99; 0], SIF_ERROR_META_DATA_VALUE)
  /\ (file ← one_tile_file 1;
      let file := sif_set_meta_data_binary file [107; 0] [0; 255] 2 in
      let '(file, retval) := sif_get_meta_data file [107; 0] in
      Some (retval, error file))
     = Some (Some [0; 255], SIF_ERROR_NONE).
Proof. split; vm_compute; reflexivity. Qed.

(** A set on an existing key with a value of the stored length changes
    nothing: the copy sits inside the test on the lengths. *)
Lemma set_meta_data_len_same_length (file : sif_file) (k v : list Z) (value_len : Z)
    (p : md_ptr) (i : sif_meta_data) :
  _sif_get_meta_data_pair file k = (file, Some p) ->
  md_deref file p = Some i ->
  value_length i = value_len ->
  _sif_set_meta_data_len file k v value_len = file.
Proof.
  intros Hp Hi Hl. unfold _sif_set_meta_data_len. rewrite Hp, Hi.
  subst value_len. rewrite Z.eqb_refl. reflexivity.
Qed.

(** C3 (code_bug).  A set on an existing key is to replace the stored value,
    also when the new value has the length of the old one.  After
    [sif_set_meta_data_binary("raw", [01 02 03], 3)] and then
    [sif_set_meta_data_binary("raw", [04 05 06], 3)] the store still returns
    [01 02 03]; with a new value of another length the last write wins. *)
Theorem set_meta_data_same_length_keeps_old_value :
  (file ← one_tile_file 1;
   let file := sif_set_meta_data_binary file [114; 97; 119; 0] [1; 2; 3] 3 in
   let file := sif_set_meta_data_binary file [114; 97; 119; 0] [4; 5; 6] 3 in
   let '(file, retval, n_bytes) := sif_get_meta_data_binary file [114; 97; 119; 0] 0 in
   Some (retval, n_bytes, error file))
  = Some (Some [1; 2; 3], 3, SIF_ERROR_NONE)
  /\ (file ← one_tile_file 1;
      let file := sif_set_meta_data_binary file [114; 97; 119; 0] [1; 2; 3] 3 in
      let file := sif_set_meta_data_binary file [114; 97; 119; 0] [4; 5] 2 in
      let '(file, retval, n_bytes) := sif_get_meta_data_binary file [114; 97; 119; 0] 0 in
      Some (retval, n_bytes, error file))
     = Some (Some [4; 5], 2, SIF_ERROR_NONE).
Proof. split; vm_compute; reflexivity. Qed.

(** ** Raster windows *)

(** C1 (code_bug).  Writing a buffer with [sif_set_raster] over the whole
    image, closing, reopening and reading it back with [sif_get_raster] is to
    return the buffer.  Both functions step through the rows of the tile
    buffer by [n_tiles_across] bytes instead of a tile row: for a 2 x 2 image
    of one one-byte band in one 2 x 2 tile, the buffer [01 02 03 04] comes
    back as [01 03 03 04], on either host and with or without consolidation
    and defragmentation on close. *)
Theorem raster_round_trip_loses_bytes :
  raster_round_trip LITTLE_ENDIAN 2 2 1 2 2 1 0 0 [[1; 2; 3; 4]] = Some [[1; 3; 3; 4]]
  /\ raster_round_trip BIG_ENDIAN 2 2 1 2 2 1 0 0 [[1; 2; 3; 4]] = Some [[1; 3; 3; 4]]
  /\ raster_round_trip LITTLE_ENDIAN 2 2 1 2 2 1 1 1 [[1; 2; 3; 4]] = Some [[1; 3; 3; 4]].
Proof. repeat split; vm_compute; reflexivity. Qed.

(** ** Uniformity flags *)

(** C2 (code_bug).  The whole-byte test is to decide "all bands uniform" for
    every number of bands, and a block is to be freed only when every band of
    the tile is uniform.  The padding mask is [0xFF >> (8 - bands % 8)], the
    low [bands % 8] bits, while the bands sit in the high bits: with five
    bands the mask covers the flags of bands 3 and 4.  After a non-uniform
    write to band 4 (flags [F7], block 0), filling band 0 makes the test
    succeed: band 4 is flagged uniform, the block is freed, and band 4 reads
    back as [00 00] instead of [01 02]. *)
Theorem uniform_test_sets_band_flags :
  (file ← one_tile_file 5;
   let file := sif_set_tile_slice file (Some [1; 2]) 0 0 4 in
   let before := (uniform_flags (tile_at file 0),
                  _sif_band_of_tile_is_uniform_shallow file 0 4,
                  block_num (tile_at file 0),
                  snd (sif_get_tile_slice file (Some [0; 0]) 0 0 4),
                  snd (_sif_completely_uniform_shallow file 0)) in
   let file := sif_fill_tile_slice file 0 0 0 (Some [9]) in
   let after := (uniform_flags (tile_at file 0),
                 _sif_band_of_tile_is_uniform_shallow file 0 4,
                 block_num (tile_at file 0),
                 snd (sif_get_tile_slice file (Some [0; 0]) 0 0 4),
                 error file) in
   Some (before, after))
  = Some (([247], 0, 0, Some [1; 2], true), ([255], 1, -1, Some [0; 0], 0)).
Proof. vm_compute. reflexivity. Qed.

(** ** The file layer *)

Lemma sub_bytes_length (a : list Z) (off n : Z) :
  length (sub_bytes a off n) = Z.to_nat n.
Proof.
  unfold sub_bytes. destruct (off <? 0).
  - apply length_replicate.
  - apply length_resize.
Qed.

Lemma pwrite_length (c : list Z) (pos : Z) (data : list Z) :
  length (pwrite c pos data) = (length c `max` (Z.to_nat pos + length data))%nat.
Proof.
  unfold pwrite. rewrite !length_app, length_resize, length_drop. lia.
Qed.

Lemma fwrite_contents_length (buf : list Z) (els nel : Z) (f : FILE) :
  (length (contents f) <= length (contents (snd (fwrite buf els nel f))))%nat.
Proof.
  unfold fwrite. destruct (_ || _); simpl; [lia |].
  rewrite pwrite_length. lia.
Qed.

Lemma FSEEK64_ok {A} (ret : sif_file -> A) (file : sif_file) (loc : Z)
    (k : sif_file -> A) :
  0 <= loc ->
  FSEEK64_ ret file loc k = k (set_fp file (mkFILE (contents (fp file)) loc)).
Proof.
  intros H. unfold FSEEK64_, fseek.
  destruct (loc <? 0) eqn:E; [lia | reflexivity].
Qed.

Lemma FWRITE64_ok {A} (ret : sif_file -> A) (file : sif_file) (buf : list Z)
    (els nel : Z) (k : sif_file -> A) :
  0 < els -> 0 < nel ->
  FWRITE64_ ret file buf els nel k = k (set_fp file (snd (fwrite buf els nel (fp file)))).
Proof.
  intros H1 H2. unfold FWRITE64_, fwrite.
  destruct (els <=? 0) eqn:E1; [lia |]. destruct (nel <=? 0) eqn:E2; [lia |].
  simpl. rewrite Z.eqb_refl. reflexivity.
Qed.

Lemma FWRITE64INT32_ok {A} (ret : sif_file -> A) (file : sif_file) (vv : Z)
    (k : sif_file -> A) :
  FWRITE64INT32_ ret file vv k
  = k (set_fp file (snd (fwrite (_sif_int32_to_packed_bytes vv) 1 4 (fp file)))).
Proof. reflexivity. Qed.

Lemma fwrite_position (buf : list Z) (els nel : Z) (f : FILE) :
  0 < els -> 0 < nel ->
  position (snd (fwrite buf els nel f)) = position f + els * nel.
Proof.
  intros H1 H2. unfold fwrite.
  destruct (els <=? 0) eqn:E1; [lia |]. destruct (nel <=? 0) eqn:E2; [lia |].
  simpl. rewrite sub_bytes_length. lia.
Qed.

(** Properties kept by everything the I/O macros do to a handle: moving or
    rewriting the file and recording an error. *)
Section Frame.
Variable R : sif_file -> sif_file -> Prop.
Hypothesis R_fp : forall f f' x, R f f' -> R f (set_fp f' x).
Hypothesis R_error : forall f f' e, R f f' -> R f (set_error f' e).

Lemma FSEEK64_frame {A} (P : A -> Prop) (ret : sif_file -> A) (f0 file : sif_file)
    (loc : Z) (k : sif_file -> A) :
  R f0 file ->
  (forall f', R f0 f' -> P (ret f')) ->
  (forall f', R f0 f' -> P (k f')) ->
  P (FSEEK64_ ret file loc k).
Proof.
  intros H Hret Hk. unfold FSEEK64_. destruct (fseek _ _); auto.
Qed.

Lemma FWRITE64_frame {A} (P : A -> Prop) (ret : sif_file -> A) (f0 file : sif_file)
    (buf : list Z) (els nel : Z) (k : sif_file -> A) :
  R f0 file ->
  (forall f', R f0 f' -> P (ret f')) ->
  (forall f', R f0 f' -> P (k f')) ->
  P (FWRITE64_ ret file buf els nel k).
Proof.
  intros H Hret Hk. unfold FWRITE64_. destruct (fwrite _ _ _ _) as [n x].
  destruct (n =? nel); auto.
Qed.

Lemma FREAD64_frame {A} (P : A -> Prop) (ret : sif_file -> A) (f0 file : sif_file)
    (els nel : Z) (k : sif_file -> list Z -> A) :
  R f0 file ->
  (forall f', R f0 f' -> P (ret f')) ->
  (forall f' data, R f0 f' -> P (k f' data)) ->
  P (FREAD64_ ret file els nel k).
Proof.
  intros H Hret Hk. unfold FREAD64_. destruct (fread _ _ _) as [[data n] x].
  destruct (n =? nel); auto.
Qed.

Lemma FWRITE64INT32_frame {A} (P : A -> Prop) (ret : sif_file -> A)
    (f0 file : sif_file) (vv : Z) (k : sif_file -> A) :
  R f0 file ->
  (forall f', R f0 f' -> P (ret f')) ->
  (forall f', R f0 f' -> P (k f')) ->
  P (FWRITE64INT32_ ret file vv k).
Proof.
  intros H Hret Hk. unfold FWRITE64INT32_, _sif_write_int32.
  destruct (fwrite _ _ _ _) as [n x]. destruct (n =? 4); simpl; auto.
Qed.

Lemma for_each_frame {A} (P : A -> Prop) (l : list Z)
    (body : Z -> sif_file -> (sif_file -> A) -> A) (f0 : sif_file) :
  (forall i file k, R f0 file -> (forall f', R f0 f' -> P (k f')) -> P (body i file k)) ->
  forall file k, R f0 file -> (forall f', R f0 f' -> P (k f')) ->
  P (for_each l body file k).
Proof.
  intros Hbody. induction l as [| i l IH]; intros file k H Hk; simpl.
  - auto.
  - apply Hbody; [assumption |]. intros f' H'. apply IH; assumption.
Qed.

Lemma write_tile_record_frame {A} (P : A -> Prop) (ret : sif_file -> A)
    (f0 file : sif_file) (tile : sif_tile) (k : sif_file -> A) :
  R f0 file ->
  (forall f', R f0 f' -> P (ret f')) ->
  (forall f', R f0 f' -> P (k f')) ->
  P (write_tile_record ret file tile k).
Proof.
  intros H Hret Hk. unfold write_tile_record.
  apply FWRITE64_frame with (f0 := f0); auto. intros f1 H1.
  apply FWRITE64_frame with (f0 := f0); auto. intros f2 H2.
  apply FWRITE64INT32_frame with (f0 := f0); auto.
Qed.

Lemma _sif_write_tile_header_frame (f0 file : sif_file) (tile : sif_tile) (tile_num : Z) :
  R f0 file -> R f0 (fst (_sif_write_tile_header file tile tile_num)).
Proof.
  intros H. unfold _sif_write_tile_header, int_ret.
  apply FSEEK64_frame with (f0 := f0); auto. intros f1 H1.
  apply write_tile_record_frame with (f0 := f0); auto.
Qed.

Lemma _sif_write_tile_headers_frame (f0 file : sif_file) :
  R f0 file -> R f0 (fst (_sif_write_tile_headers file)).
Proof.
  intros H. unfold _sif_write_tile_headers, int_ret.
  apply FSEEK64_frame with (f0 := f0); auto. intros f1 H1.
  apply for_each_frame with (f0 := f0); auto.
  intros i f2 k H2 Hk. apply write_tile_record_frame with (f0 := f0); auto.
Qed.


End Frame.

(** ** Truncation after the meta-data region *)

Lemma write_meta_records_ok {A} (ret : sif_file -> A) (l : list sif_meta_data) :
  Forall (fun i => 0 < key_length i /\ 0 < value_length i) l ->
  forall (file : sif_file) (eofpos : Z) (k : sif_file -> Z -> A),
  exists x,
    write_meta_records ret l file eofpos k
    = k (set_fp file x) (eofpos + foldr (fun i acc => meta_record_bytes i + acc) 0 l).
Proof.
  induction 1 as [| i l [Hk Hv] Hl IH]; intros file eofpos k;
    cbn [write_meta_records foldr].
  - exists (fp file). destruct file. f_equal. lia.
  - unfold write_meta_record.
    rewrite FWRITE64INT32_ok, FWRITE64_ok by lia.
    rewrite FWRITE64INT32_ok, FWRITE64_ok by lia.
    match goal with |- context [write_meta_records ret l ?f ?e k] =>
      destruct (IH f e k) as [x Hx]; rewrite Hx end.
    exists x. f_equal.
    change (meta_record_bytes i) with (4 + key_length i + 4 + value_length i). lia.
Qed.

Lemma meta_records_nonneg (l : list sif_meta_data) :
  Forall (fun i => 0 < key_length i /\ 0 < value_length i) l ->
  0 <= foldr (fun i acc => meta_record_bytes i + acc) 0 l.
Proof.
  induction 1 as [| i l [Hk Hv] Hl IH]; cbn [foldr]; [lia |].
  change (meta_record_bytes i) with (4 + key_length i + 4 + value_length i). lia.
Qed.

(** Whenever the records can be written, the file ends one byte after the
    last meta-data byte: [eofpos] is advanced once more before the call of
    [_sif_truncate]. *)
Lemma write_meta_data_truncates_one_past_end (file : sif_file) :
  let loc := _sif_get_block_location file (_sif_get_last_used_block_index file + 1) in
  0 <= loc ->
  Forall (fun i => 0 < key_length i /\ 0 < value_length i) (meta_records file) ->
  Z.of_nat (length (contents (fp (fst (_sif_write_meta_data file)))))
  = loc + meta_data_bytes file + 1
  /\ error (fst (_sif_write_meta_data file)) = error file.
Proof.
  intros loc Hloc Hrec. unfold _sif_write_meta_data.
  fold loc. rewrite FSEEK64_ok by assumption.
  match goal with |- context [write_meta_records ?r ?l ?f ?e ?k] =>
    change l with (meta_records file);
    destruct (write_meta_records_ok r (meta_records file) Hrec f e k) as [x Hx];
    rewrite Hx end.
  pose proof (meta_records_nonneg _ Hrec) as Hnn.
  fold (meta_data_bytes file) in *.
  cbn [fst]. unfold _sif_truncate, ftruncate. cbn [fp set_fp].
  destruct (loc + meta_data_bytes file + 1 <? 0) eqn:E; [lia |].
  cbn. rewrite length_resize. split; [lia | reflexivity].
Qed.

(** C8 (code_bug).  After the meta-data is written the file is to end right
    after the last meta-data byte.  [_sif_write_meta_data] adds one to the end
    position before it truncates: with the single record ["k" -> "abc\0"]
    (14 bytes) behind a data region that starts at offset 134 and holds no
    block, the file is 149 bytes long, not 148; after [sif_defragment] of a
    file with three two-byte blocks from offset 152 and no meta-data it is
    159 bytes long, not 158. *)
Theorem meta_data_truncation_is_one_byte_late :
  (file ← one_tile_file 1;
   let file := sif_set_meta_data file [107; 0] [97; 98; 99; 0] in
   let start := _sif_get_block_location file (_sif_get_last_used_block_index file + 1) in
   let file' := fst (_sif_write_meta_data file) in
   Some (start, meta_data_bytes file, Z.of_nat (length (contents (fp file'))), error file'))
  = Some (134, 14, 134 + 14 + 1, 0)
  /\ (file ← fragmented_file;
      let file' := sif_defragment file in
      Some (base_location file', Z.of_nat (length (live_tiles file')),
            tile_bytes (hdr file'), meta_data_bytes file',
            Z.of_nat (length (contents (fp file'))), error file'))
     = Some (152, 3, 2, 0, 152 + 3 * 2 + 0 + 1, 0).
Proof. split; vm_compute; reflexivity. Qed.

(** ** Intrinsic write *)

Section FrameMore.
Variable R : sif_file -> sif_file -> Prop.
Hypothesis R_fp : forall f f' x, R f f' -> R f (set_fp f' x).
Hypothesis R_error : forall f f' e, R f f' -> R f (set_error f' e).

Lemma write_int32s_frame {A} (P : A -> Prop) (ret : sif_file -> A) (f0 : sif_file)
    (vs : list Z) :
  (forall f', R f0 f' -> P (ret f')) ->
  forall file k, R f0 file -> (forall f', R f0 f' -> P (k f')) ->
  P (write_int32s ret file vs k).
Proof.
  intros Hret. induction vs as [| v vs IH]; intros file k H Hk; simpl; [auto |].
  apply FWRITE64INT32_frame with (R := R) (f0 := f0); auto.
Qed.

Lemma write_raw_doubles_frame {A} (P : A -> Prop) (ret : sif_file -> A)
    (f0 : sif_file) (ds : list double) :
  (forall f', R f0 f' -> P (ret f')) ->
  forall file k, R f0 file -> (forall f', R f0 f' -> P (k f')) ->
  P (write_raw_doubles ret file ds k).
Proof.
  intros Hret. induction ds as [| d ds IH]; intros file k H Hk; simpl; [auto |].
  apply FWRITE64_frame with (R := R) (f0 := f0); auto.
Qed.

Lemma write_net_doubles_frame {A} (host : byte_order) (P : A -> Prop)
    (ret : sif_file -> A) (f0 : sif_file) (ds : list double) :
  (forall f', R f0 f' -> P (ret f')) ->
  forall file k, R f0 file -> (forall f', R f0 f' -> P (k f')) ->
  P (write_net_doubles host ret file ds k).
Proof.
  intros Hret. induction ds as [| d ds IH]; intros file k H Hk; simpl; [auto |].
  unfold FWRITE64DOUBLE64_, _sif_write_double64.
  destruct (fwrite _ _ _ _) as [n x]. destruct (n =? 8); simpl; auto.
Qed.

Hypothesis R_version : forall f f' v, R f f' -> R f (upd_header f' (hd_set_version v)).
Hypothesis R_header_bytes : forall f f' x, R f f' -> R f (set_header_bytes f' x).

Lemma _sif_write_header_frame (host : byte_order) (f0 file : sif_file) :
  R f0 file -> R f0 (fst (_sif_write_header host file)).
Proof.
  intros H. unfold _sif_write_header, int_ret.
  apply FSEEK64_frame with (R := R) (f0 := f0); auto. intros f1 H1.
  apply FWRITE64INT32_frame with (R := R) (f0 := f0); auto. intros f2 H2.
  apply FWRITE64_frame with (R := R) (f0 := f0); auto. intros f3 H3.
  apply FWRITE64INT32_frame with (R := R) (f0 := f0); auto. intros f4 H4.
  apply write_int32s_frame with (f0 := f0); auto. intros f5 H5.
  assert (forall f', R f0 f' ->
            R f0 (fst (FSEEK64_ (fun file => (file, 0)) f' 0 (fun file =>
                      FWRITE64INT32_ (fun file => (file, 0)) file (4 + 8 + 4 + 4 * 16 + 8 * 6)
                        (fun file => (set_header_bytes file (4 + 8 + 4 + 4 * 16 + 8 * 6), 1)))))) as Hend.
  { intros f' H'.
    apply FSEEK64_frame with (R := R) (f0 := f0); auto. intros f6 H6.
    apply FWRITE64INT32_frame with (R := R) (f0 := f0); auto.
    intros f7 H7. cbn [fst]. auto. }
  destruct (_ || _).
  - apply write_raw_doubles_frame with (f0 := f0); auto.
  - apply write_net_doubles_frame with (f0 := f0); auto.
Qed.
End FrameMore.

Lemma keeps_refl (f : sif_file) : keeps_policy f f.
Proof. split; reflexivity. Qed.

Lemma keeps_fp (f f' : sif_file) (x : FILE) :
  keeps_policy f f' -> keeps_policy f (set_fp f' x).
Proof. intros H. exact H. Qed.

Lemma keeps_error (f f' : sif_file) (e : Z) :
  keeps_policy f f' -> keeps_policy f (set_error f' e).
Proof. intros H. exact H. Qed.

Lemma keeps_put_tile (f f' : sif_file) (i : Z) (t : sif_tile) :
  keeps_policy f f' -> keeps_policy f (put_tile f' i t).
Proof. intros H. unfold put_tile. destruct (i <? 0); exact H. Qed.

Lemma keeps_blocks_to_tiles (f f' : sif_file) (x : list Z) :
  keeps_policy f f' -> keeps_policy f (set_blocks_to_tiles f' x).
Proof. intros H. exact H. Qed.

Lemma keeps_buffer0 (f f' : sif_file) (x : list Z) :
  keeps_policy f f' -> keeps_policy f (set_buffer0 f' x).
Proof. intros H. exact H. Qed.

Lemma keeps_mark_band_uniform (f f' : sif_file) (tile_num band : Z) (v : list Z) :
  keeps_policy f f' -> keeps_policy f (mark_band_uniform f' tile_num band v).
Proof. intros H. unfold mark_band_uniform. apply keeps_put_tile, H. Qed.

Lemma keeps_release_if_uniform (f f' : sif_file) (tile_num : Z) :
  keeps_policy f f' -> keeps_policy f (release_if_uniform f' tile_num).
Proof.
  intros H. unfold release_if_uniform, _sif_completely_uniform_shallow.
  destruct (_ && _).
  - apply keeps_put_tile, keeps_blocks_to_tiles, keeps_put_tile, H.
  - apply keeps_put_tile, H.
Qed.

Lemma keeps_get_tile_slice (f f' : sif_file) (buffer : option (list Z)) (tx ty band : Z) :
  keeps_policy f f' -> keeps_policy f (fst (sif_get_tile_slice f' buffer tx ty band)).
Proof.
  intros H. unfold sif_get_tile_slice, SIF_CHECK_FILE_.
  destruct (header f') as [hd |]; [| exact H].
  destruct (version hd >? SIF_VERSION); [exact H |].
  destruct (_ || _); [exact H |]. destruct (_ || _); [exact H |].
  destruct buffer as [buffer |]; [| exact H].
  destruct (negb _).
  - destruct (data_unit_size hd >? 1); exact H.
  - apply FSEEK64_frame with (R := keeps_policy) (f0 := f); auto using keeps_fp, keeps_error.
    intros f1 H1.
    apply FREAD64_frame with (R := keeps_policy) (f0 := f); auto using keeps_fp, keeps_error.
Qed.

Lemma keeps_set_tile_slice (f f' : sif_file) (buffer : option (list Z)) (tx ty band : Z) :
  intrinsic_write (hdr f) <> 0 ->
  keeps_policy f f' -> keeps_policy f (sif_set_tile_slice f' buffer tx ty band).
Proof.
  intros Hiw H. unfold sif_set_tile_slice, SIF_CHECK_FILE_, void_ret.
  destruct (header f') as [hd |] eqn:Hhd; [| exact H].
  assert ((intrinsic_write hd =? 0) = false) as Hz.
  { destruct H as [Hh _]. unfold hdr in Hiw. rewrite <- Hh, Hhd in Hiw. simpl in Hiw. lia. }
  destruct (version hd >? SIF_VERSION); [exact H |].
  destruct (_ || _); [exact H |]. destruct (_ || _); [exact H |].
  destruct buffer as [buffer |]; [| exact H].
  destruct (negb (read_only f' =? 0)); [exact H |].
  rewrite Hz. cbn [negb andb].
  destruct (_sif_is_uniform _ _ _ _).
  - apply _sif_write_tile_header_frame; auto using keeps_fp, keeps_error.
    apply keeps_release_if_uniform, keeps_mark_band_uniform, H.
  - assert (forall g, keeps_policy f g ->
              keeps_policy f
                (FSEEK64_ (fun file => file) g
                   (_sif_get_block_location g
                      (block_num (tile_at g (n_tiles_across hd * ty + tx)))
                    + data_unit_size hd * units_per_slice g * band)
                   (fun file =>
                      FWRITE64_ (fun file => file) file buffer (data_unit_size hd)
                        (units_per_slice file)
                        (fun file =>
                           fst (_sif_write_tile_header
                                  (put_tile file (n_tiles_across hd * ty + tx)
                                     (tile_set_flags
                                        (tile_at file (n_tiles_across hd * ty + tx))
                                        (SIF_CLEAR_BIT
                                           (uniform_flags
                                              (tile_at file (n_tiles_across hd * ty + tx)))
                                           band)))
                                  (tile_at
                                     (put_tile file (n_tiles_across hd * ty + tx)
                                        (tile_set_flags
                                           (tile_at file (n_tiles_across hd * ty + tx))
                                           (SIF_CLEAR_BIT
                                              (uniform_flags
                                                 (tile_at file (n_tiles_across hd * ty + tx)))
                                              band)))
                                     (n_tiles_across hd * ty + tx))
                                  (n_tiles_across hd * ty + tx)))))) as Htail.
    { intros g Hg.
      apply FSEEK64_frame with (R := keeps_policy) (f0 := f); auto using keeps_fp, keeps_error.
      intros f1 H1.
      apply FWRITE64_frame with (R := keeps_policy) (f0 := f); auto using keeps_fp, keeps_error.
      intros f2 H2.
      apply _sif_write_tile_header_frame; auto using keeps_fp, keeps_error.
      apply keeps_put_tile, H2. }
    destruct (block_num _ =? -1).
    + apply FSEEK64_frame with (R := keeps_policy) (f0 := f); auto using keeps_fp, keeps_error.
      { apply keeps_blocks_to_tiles, keeps_put_tile, H. }
      intros f1 H1.
      apply for_each_frame with (R := keeps_policy) (f0 := f); auto.
      intros i f2 k H2 Hk.
      apply FWRITE64_frame with (R := keeps_policy) (f0 := f); auto using keeps_fp, keeps_error.
    + apply Htail, H.
Qed.

Lemma keeps_set_raster (f f' : sif_file) (data : list Z) (x y w h band : Z) :
  intrinsic_write (hdr f) <> 0 ->
  keeps_policy f f' -> keeps_policy f (sif_set_raster f' data x y w h band).
Proof.
  intros Hiw H. unfold sif_set_raster, SIF_CHECK_FILE_, void_ret.
  destruct (header f') as [hd |]; [| exact H].
  destruct (version hd >? SIF_VERSION); [exact H |].
  destruct (negb _); [exact H |].
  destruct (_ || _); [exact H |]. destruct (_ || _); [exact H |].
  destruct (_ || _); [exact H |].
  apply for_each_frame with (R := keeps_policy) (f0 := f); auto.
  intros ty f1 next_row H1 Hrow.
  apply for_each_frame with (R := keeps_policy) (f0 := f); auto.
  intros tx f2 next_tile H2 Htile.
  pose proof (keeps_get_tile_slice f f2 (Some (buffer0 f2)) tx ty band H2) as Hg.
  destruct (sif_get_tile_slice f2 (Some (buffer0 f2)) tx ty band) as [f3 got].
  cbn [fst] in Hg.
  match goal with |- keeps_policy f (if negb (error ?g =? 0) then _ else _) =>
    assert (keeps_policy f g) as Hs
      by (apply keeps_set_tile_slice; [exact Hiw |]; apply keeps_buffer0, keeps_buffer0, Hg);
    destruct (negb (error g =? 0)); [exact Hs | apply Htile, Hs]
  end.
Qed.

Lemma keeps_fill_tile_slice (f f' : sif_file) (tx ty band : Z) (v : option (list Z)) :
  keeps_policy f f' -> keeps_policy f (sif_fill_tile_slice f' tx ty band v).
Proof.
  intros H. unfold sif_fill_tile_slice, SIF_CHECK_FILE_, void_ret.
  destruct (header f') as [hd |]; [| exact H].
  destruct (version hd >? SIF_VERSION); [exact H |].
  destruct (_ || _); [exact H |]. destruct (_ || _); [exact H |].
  destruct v as [v |]; [| exact H].
  destruct (negb _); [exact H |].
  apply _sif_write_tile_header_frame; auto using keeps_fp, keeps_error.
  apply keeps_release_if_uniform, keeps_mark_band_uniform, H.
Qed.

Lemma keeps_fill_tiles (f f' : sif_file) (band : Z) (v : option (list Z)) :
  keeps_policy f f' -> keeps_policy f (sif_fill_tiles f' band v).
Proof.
  intros H. unfold sif_fill_tiles, SIF_CHECK_FILE_, void_ret.
  destruct (header f') as [hd |]; [| exact H].
  destruct (version hd >? SIF_VERSION); [exact H |].
  destruct (_ || _); [exact H |].
  destruct v as [v |]; [| exact H].
  destruct (negb _); [exact H |].
  apply _sif_write_tile_headers_frame; auto using keeps_fp, keeps_error.
  generalize (seqZ 0 (n_tiles hd)). intros l. revert f' H.
  induction l as [| i l IH]; intros f' H; simpl; [exact H |].
  apply IH, keeps_release_if_uniform, keeps_mark_band_uniform, H.
Qed.

Lemma keeps_run_writes (ops : list write_op) (f f' : sif_file) :
  intrinsic_write (hdr f) <> 0 ->
  keeps_policy f f' -> keeps_policy f (run_writes f' ops).
Proof.
  intros Hiw. revert f'. induction ops as [| op ops IH]; intros f' H; simpl; [exact H |].
  apply IH. destruct op; simpl.
  - apply keeps_set_tile_slice; assumption.
  - apply keeps_set_raster; assumption.
  - apply keeps_fill_tile_slice; assumption.
  - apply keeps_fill_tiles; assumption.
Qed.

(** With the flag set, a uniform slice goes to the tile header: the inline
    check is made and no block is touched. *)
Lemma set_tile_slice_checks_uniformity (file : sif_file) (hd : sif_header)
    (buffer : list Z) (tx ty band : Z) :
  header file = Some hd -> version hd <= SIF_VERSION ->
  intrinsic_write hd <> 0 -> read_only file = 0 ->
  0 <= tx < n_tiles_across hd -> 0 <= ty -> 0 <= band < bands hd ->
  _sif_is_uniform file buffer
    (MIN (tile_width hd) (width hd - tx * tile_width hd))
    (MIN (tile_height hd) (height hd - ty * tile_height hd)) = true ->
  let tile_num := n_tiles_across hd * ty + tx in
  let marked := release_if_uniform (mark_band_uniform file tile_num band buffer) tile_num in
  sif_set_tile_slice file (Some buffer) tx ty band
  = fst (_sif_write_tile_header marked (tile_at marked tile_num) tile_num).
Proof.
  intros Hhd Hv Hiw Hro Htx Hty Hband Hu tile_num marked.
  unfold sif_set_tile_slice, SIF_CHECK_FILE_, void_ret. rewrite Hhd.
  destruct (version hd >? SIF_VERSION) eqn:E; [lia |].
  destruct (tx <? 0) eqn:E1; [lia |]. destruct (ty <? 0) eqn:E2; [lia |].
  destruct (tx >=? n_tiles_across hd) eqn:E3; [lia |].
  destruct (band <? 0) eqn:E4; [lia |]. destruct (band >=? bands hd) eqn:E5; [lia |].
  cbn [orb]. rewrite Hro. cbn [Z.eqb negb].
  destruct (intrinsic_write hd =? 0) eqn:E6; [lia |].
  cbn [negb andb]. rewrite Hu. reflexivity.
Qed.

(** The handle [sif_create] returns. *)
Lemma create_has_intrinsic_write (host : byte_order) (filename : option (list Z))
    (width height bands data_unit_size user_data_type consolidate_on_close
     defragment_on_close tile_width tile_height intrinsic_write : Z) (file : sif_file) :
  sif_create host filename width height bands data_unit_size user_data_type
    consolidate_on_close defragment_on_close tile_width tile_height intrinsic_write
  = Some file ->
  has_intrinsic_write file /\ Forall (fun d => d = 0) (dirty_tiles file).
Proof.
  unfold sif_create. destruct (_ || _); [discriminate |].
  set (P := fun f : sif_file =>
              has_intrinsic_write f /\ Forall (fun d => d = 0) (dirty_tiles f)).
  assert (forall f x, P f -> P (set_fp f x)) as Pfp by (intros f x H; exact H).
  assert (forall f e, P f -> P (set_error f e)) as Perr by (intros f e H; exact H).
  assert (forall f v, P f -> P (upd_header f (hd_set_version v))) as Pver.
  { intros f v [(hd & Hh & Hi) Hd]. split; [| exact Hd].
    exists (hd_set_version v hd). split; [| exact Hi].
    unfold upd_header, hdr. rewrite Hh. reflexivity. }
  assert (forall f x, P f -> P (set_header_bytes f x)) as Phb by (intros f x H; exact H).
  match goal with |- context [_sif_write_header host ?f0] => set (start := f0) end.
  assert (P start) as Hstart.
  { split.
    - eexists. split; [reflexivity | reflexivity].
    - subst start. cbn. apply Forall_replicate. reflexivity. }
  assert (forall (_ f : sif_file) (x : FILE), P f -> P (set_fp f x)) as Pfp'
    by (intros _ f x H; exact H).
  assert (forall (_ f : sif_file) (e : Z), P f -> P (set_error f e)) as Perr'
    by (intros _ f e H; exact H).
  pose proof (_sif_write_header_frame (fun _ f => P f) Pfp' Perr'
                (fun _ f v H => Pver f v H) (fun _ f x H => Phb f x H)
                host start start Hstart) as Hwh.
  cbv beta in Hwh.
  destruct (negb (error _ =? 0)); [discriminate |].
  assert (forall f x, P f -> P (set_base_location f x)) as Pbl
    by (intros f x H; exact H).
  match goal with |- context [_sif_write_tile_headers (set_base_location ?g ?x)] =>
    pose proof (Pbl g x Hwh) as Hbased; set (based := set_base_location g x) in *
  end.
  pose proof (_sif_write_tile_headers_frame (fun _ f => P f)
                Pfp' Perr' start based Hbased) as Hth.
  cbv beta in Hth. clearbody based start.
  destruct (negb (error _ =? 0)); [discriminate |].
  intros [= <-]. unfold sif_use_file_format_version.
  destruct (sif_get_version <? 1); exact Hth.
Qed.

(** C10.  Whatever [intrinsic_write] argument is passed, the handle that
    [sif_create] returns has [intrinsic_write = 1] in its header and no dirty
    tile; a uniform slice written through it is detected inline and stored in
    the tile header; and after any sequence of slice, raster and fill writes
    the flag is still 1 and no tile has been marked dirty. *)
Theorem create_forces_intrinsic_write (host : byte_order) (filename : option (list Z))
    (w h b dus udt consolidate_on_close defragment_on_close tw th iw : Z)
    (file : sif_file) :
  sif_create host filename w h b dus udt consolidate_on_close defragment_on_close
    tw th iw = Some file ->
  has_intrinsic_write file
  /\ Forall (fun d => d = 0) (dirty_tiles file)
  /\ forall ops : list write_op,
       let file' := run_writes file ops in
       has_intrinsic_write file'
       /\ dirty_tiles file' = dirty_tiles file
       /\ forall hd buffer tx ty band,
            header file' = Some hd -> version hd <= SIF_VERSION -> read_only file' = 0 ->
            0 <= tx < n_tiles_across hd -> 0 <= ty -> 0 <= band < bands hd ->
            _sif_is_uniform file' buffer
              (MIN (tile_width hd) (width hd - tx * tile_width hd))
              (MIN (tile_height hd) (height hd - ty * tile_height hd)) = true ->
            let tile_num := n_tiles_across hd * ty + tx in
            let marked :=
              release_if_uniform (mark_band_uniform file' tile_num band buffer) tile_num in
            sif_set_tile_slice file' (Some buffer) tx ty band
            = fst (_sif_write_tile_header marked (tile_at marked tile_num) tile_num).
Proof.
  intros Hc. destruct (create_has_intrinsic_write _ _ _ _ _ _ _ _ _ _ _ _ _ Hc)
    as [(hd0 & Hh0 & Hi0) Hd0].
  split; [exists hd0; auto |]. split; [exact Hd0 |].
  intros ops file'.
  assert (keeps_policy file file') as [Hh Hd].
  { apply keeps_run_writes; [| apply keeps_refl].
    unfold hdr. rewrite Hh0. simpl. lia. }
  split; [exists hd0; split; [congruence | exact Hi0] |].
  split; [exact Hd |].
  intros hd buffer tx ty band Hhd Hv Hro Htx Hty Hband Hu.
  apply set_tile_slice_checks_uniformity; try assumption.
  assert (hd = hd0) as -> by congruence. lia.
Qed.

(** The handle of a 2 x 1 image created with [intrinsic_write = 0]. *)
Lemma create_forces_intrinsic_write_witness :
  exists file,
    sif_create LITTLE_ENDIAN (Some [102]) 2 1 1 1 0 0 0 2 1 0 = Some file
    /\ has_intrinsic_write file
    /\ (let file' := run_writes file [SetTileSlice (Some [1; 2]) 0 0 0] in
        has_intrinsic_write file' /\ dirty_tiles file' = dirty_tiles file).
Proof.
  eexists. split; [vm_compute; reflexivity |].
  match goal with |- has_intrinsic_write ?f /\ _ =>
    destruct (create_forces_intrinsic_write LITTLE_ENDIAN (Some [102])
                2 1 1 1 0 0 0 2 1 0 f ltac:(vm_compute; reflexivity))
      as (H1 & H2 & H3)
  end.
  split; [exact H1 |].
  destruct (H3 [SetTileSlice (Some [1; 2]) 0 0 0]) as (H4 & H5 & _).
  split; [exact H4 | exact H5].
Defined.

(** ** Arrays *)

Lemma arr_set_neg (a : list Z) (i v : Z) : i < 0 -> arr_set a i v = a.
Proof. intros H. unfold arr_set. destruct (i <? 0) eqn:E; [reflexivity | lia]. Qed.

Lemma arr_set_ge (a : list Z) (i v : Z) :
  Z.of_nat (length a) <= i -> arr_set a i v = a.
Proof.
  intros H. unfold arr_set. destruct (i <? 0); [reflexivity |].
  apply list_insert_ge. lia.
Qed.

Lemma arr_set_length (a : list Z) (i v : Z) : length (arr_set a i v) = length a.
Proof. unfold arr_set. destruct (i <? 0); [reflexivity | apply length_insert]. Qed.

Lemma arr_get_set_eq (a : list Z) (i v : Z) :
  0 <= i < Z.of_nat (length a) -> arr_get (arr_set a i v) i = v.
Proof.
  intros H. unfold arr_get, arr_set. destruct (i <? 0) eqn:E; [lia |].
  rewrite list_lookup_insert_eq by lia. reflexivity.
Qed.

Lemma arr_get_set_ne (a : list Z) (i j v : Z) :
  i <> j -> arr_get (arr_set a i v) j = arr_get a j.
Proof.
  intros H. unfold arr_get, arr_set.
  destruct (j <? 0) eqn:Ej; [reflexivity |]. destruct (i <? 0) eqn:Ei; [reflexivity |].
  rewrite list_lookup_insert_ne by lia. reflexivity.
Qed.

Lemma arr_set_set (a : list Z) (i v w : Z) :
  arr_set (arr_set a i v) i w = arr_set a i w.
Proof.
  unfold arr_set. destruct (i <? 0); [reflexivity |]. apply list_insert_insert_eq.
Qed.

Lemma arr_set_comm (a : list Z) (i j v w : Z) :
  i <> j -> arr_set (arr_set a i v) j w = arr_set (arr_set a j w) i v.
Proof.
  intros H. unfold arr_set.
  destruct (j <? 0) eqn:Ej; destruct (i <? 0) eqn:Ei; try reflexivity.
  apply list_insert_insert_ne. lia.
Qed.

(** In-place update of one cell, the shape of [uca[j] |= m]. *)
Lemma arr_update_twice (a : list Z) (j : Z) (g g' : Z -> Z) :
  arr_set (arr_set a j (g' (arr_get a j))) j (g (arr_get (arr_set a j (g' (arr_get a j))) j))
  = arr_set a j (g (g' (arr_get a j))).
Proof.
  destruct (decide (0 <= j < Z.of_nat (length a))) as [Hin | Hout].
  - rewrite arr_get_set_eq by assumption. apply arr_set_set.
  - destruct (decide (j < 0)).
    + rewrite !arr_set_neg by assumption. reflexivity.
    + rewrite !arr_set_ge by (rewrite ?arr_set_length; lia). reflexivity.
Qed.

Lemma poke_insert_comm (src dst : list Z) (o o' : nat) (b : Z) :
  (o < o')%nat -> <[o := b]> (poke dst o' src) = poke (<[o := b]> dst) o' src.
Proof.
  revert dst o'. induction src as [| c src IH]; intros dst o' H; simpl; [reflexivity |].
  rewrite IH by lia. f_equal. apply list_insert_insert_ne. lia.
Qed.

Lemma poke_idem (src dst : list Z) (o : nat) :
  poke (poke dst o src) o src = poke dst o src.
Proof.
  revert dst o. induction src as [| b src IH]; intros dst o; simpl; [reflexivity |].
  rewrite poke_insert_comm by lia. rewrite list_insert_insert_eq. apply IH.
Qed.

Lemma memcpy_idem (dst : list Z) (doff : Z) (src : list Z) (soff n : Z) :
  memcpy (memcpy dst doff src soff n) doff src soff n = memcpy dst doff src soff n.
Proof. unfold memcpy. destruct (doff <? 0); [reflexivity | apply poke_idem]. Qed.

(** ** Flag bytes *)

Lemma set_bit_byte_idem (x m : Z) :
  Z.land (Z.lor (Z.land (Z.lor x m) 255) m) 255 = Z.land (Z.lor x m) 255.
Proof.
  apply Z.bits_inj'. intros n Hn.
  rewrite !Z.land_spec, !Z.lor_spec, !Z.land_spec, !Z.lor_spec.
  destruct (Z.testbit x n), (Z.testbit m n), (Z.testbit 255 n); reflexivity.
Qed.

Lemma pad_byte_idem (x mk : Z) : Z.lor mk (Z.lor mk x) = Z.lor mk x.
Proof.
  apply Z.bits_inj'. intros n Hn. rewrite !Z.lor_spec.
  destruct (Z.testbit x n), (Z.testbit mk n); reflexivity.
Qed.

Lemma pad_set_byte_idem (x m mk : Z) :
  Z.lor (Z.land mk 255) (Z.land (Z.lor (Z.lor (Z.land mk 255) (Z.land (Z.lor x m) 255)) m) 255)
  = Z.lor (Z.land mk 255) (Z.land (Z.lor x m) 255).
Proof.
  apply Z.bits_inj'. intros n Hn.
  rewrite !Z.lor_spec, !Z.land_spec, !Z.lor_spec, !Z.land_spec, !Z.lor_spec.
  destruct (Z.testbit x n), (Z.testbit m n), (Z.testbit mk n), (Z.testbit 255 n);
    reflexivity.
Qed.

(** Setting the flag of a band and padding the last byte, done twice, is the
    same as done once. *)
Lemma set_and_pad_idem (flags : list Z) (band last mk : Z) :
  let pad l := arr_set l last (Z.lor (Z.land mk 255) (arr_get l last)) in
  pad (SIF_SET_BIT (pad (SIF_SET_BIT flags band)) band) = pad (SIF_SET_BIT flags band).
Proof.
  intros pad. unfold SIF_SET_BIT.
  set (q := Z.quot band 8). set (m := Z.shiftl 1 (7 - Z.rem band 8)).
  set (gs := fun x => Z.land (Z.lor x m) 255).
  set (gm := fun x => Z.lor (Z.land mk 255) x).
  change (arr_set flags q (Z.land (Z.lor (arr_get flags q) m) 255))
    with (arr_set flags q (gs (arr_get flags q))).
  set (l1 := arr_set flags q (gs (arr_get flags q))).
  change (pad l1) with (arr_set l1 last (gm (arr_get l1 last))).
  set (l2 := arr_set l1 last (gm (arr_get l1 last))).
  change (Z.land (Z.lor (arr_get l2 q) m) 255) with (gs (arr_get l2 q)).
  set (l3 := arr_set l2 q (gs (arr_get l2 q))).
  change (pad l3) with (arr_set l3 last (gm (arr_get l3 last))).
  destruct (decide (q = last)) as [-> | Hne].
  - subst l3 l2 l1.
    rewrite (arr_update_twice flags last gm gs).
    rewrite (arr_update_twice flags last gs (fun x => gm (gs x))).
    rewrite (arr_update_twice flags last gm (fun x => gs (gm (gs x)))).
    f_equal. subst gs gm. cbv beta. apply pad_set_byte_idem.
  - assert (arr_get l2 q = arr_get l1 q) as E1
      by (subst l2; apply arr_get_set_ne; congruence).
    assert (l3 = arr_set l1 last (gm (arr_get l1 last))) as E3.
    { subst l3. rewrite E1. subst l2.
      rewrite arr_set_comm by congruence. f_equal.
      subst l1. rewrite (arr_update_twice flags q gs gs).
      f_equal. subst gs. cbv beta. apply set_bit_byte_idem. }
    rewrite E3. fold l2.
    subst l2. rewrite (arr_update_twice l1 last gm gm).
    f_equal. subst gm. cbv beta. apply pad_byte_idem.
Qed.

(** ** Filling a tile slice *)

Lemma tile_at_tiles (f g : sif_file) (n : Z) : tiles f = tiles g -> tile_at f n = tile_at g n.
Proof. intros H. unfold tile_at. rewrite H. reflexivity. Qed.

Lemma put_tile_tiles (f : sif_file) (n : Z) (t : sif_tile) :
  tiles (put_tile f n t) = if n <? 0 then tiles f else <[Z.to_nat n := t]> (tiles f).
Proof. unfold put_tile. destruct (n <? 0); reflexivity. Qed.

Lemma put_tile_length (f : sif_file) (n : Z) (t : sif_tile) :
  length (tiles (put_tile f n t)) = length (tiles f).
Proof. rewrite put_tile_tiles. destruct (n <? 0); [reflexivity | apply length_insert]. Qed.

Lemma put_tile_hdr (f : sif_file) (n : Z) (t : sif_tile) : hdr (put_tile f n t) = hdr f.
Proof. unfold put_tile. destruct (n <? 0); reflexivity. Qed.

Lemma tile_at_put_tile (f : sif_file) (n : Z) (t : sif_tile) :
  0 <= n < Z.of_nat (length (tiles f)) -> tile_at (put_tile f n t) n = t.
Proof.
  intros H. unfold tile_at. rewrite put_tile_tiles.
  destruct (n <? 0) eqn:E; [lia |].
  rewrite list_lookup_insert_eq by lia. reflexivity.
Qed.

Lemma tile_at_put_tile_ne (f : sif_file) (n m : Z) (t : sif_tile) :
  n <> m -> tile_at (put_tile f n t) m = tile_at f m.
Proof.
  intros H. unfold tile_at. rewrite put_tile_tiles.
  destruct (m <? 0) eqn:Em; [reflexivity |]. destruct (n <? 0) eqn:En; [reflexivity |].
  rewrite list_lookup_insert_ne by lia. reflexivity.
Qed.

Lemma put_tile_out (f : sif_file) (n : Z) (t : sif_tile) :
  ~ 0 <= n < Z.of_nat (length (tiles f)) -> tiles (put_tile f n t) = tiles f.
Proof.
  intros H. rewrite put_tile_tiles. destruct (n <? 0) eqn:E; [reflexivity |].
  apply list_insert_ge. lia.
Qed.

Lemma put_tile_put_tile (f : sif_file) (n : Z) (t t' : sif_tile) :
  tiles (put_tile (put_tile f n t) n t') = tiles (put_tile f n t').
Proof.
  rewrite !put_tile_tiles. destruct (n <? 0); [reflexivity |].
  apply list_insert_insert_eq.
Qed.

(** What the two steps of a fill leave in the tile table. *)
Lemma release_mark_tiles (f : sif_file) (n band : Z) (v : list Z) :
  tiles (release_if_uniform (mark_band_uniform f n band v) n)
  = tiles (put_tile f n (filled_tile (hdr f) band v (tile_at f n))).
Proof.
  destruct (decide (0 <= n < Z.of_nat (length (tiles f)))) as [Hin | Hout].
  - unfold release_if_uniform, _sif_completely_uniform_shallow, mark_band_uniform.
    rewrite !put_tile_hdr.
    set (t1 := tile_set_flags _ _).
    rewrite (tile_at_put_tile f n t1 Hin).
    set (t2 := tile_set_flags t1 _).
    assert (tile_at (put_tile (put_tile f n t1) n t2) n = t2) as E2
      by (apply tile_at_put_tile; rewrite put_tile_length; exact Hin).
    rewrite E2.
    unfold filled_tile.
    change (block_num t2) with (block_num (tile_at f n)).
    change (uniform_flags t1) with (SIF_SET_BIT (uniform_flags (tile_at f n)) band).
    destruct (_ && _).
    + match goal with |- tiles (put_tile ?g n ?t) = _ =>
        rewrite (put_tile_tiles g n t) end.
      cbn [tiles set_blocks_to_tiles].
      rewrite put_tile_put_tile, !put_tile_tiles.
      destruct (n <? 0) eqn:E; [lia |].
      rewrite list_insert_insert_eq.
      match goal with |- <[_ := tile_set_block_num (tile_at ?g n) _]> _ = _ =>
        assert (tile_at g n = t2) as -> end.
      { unfold tile_at in E2 |- *. exact E2. }
      reflexivity.
    + rewrite put_tile_put_tile. reflexivity.
  - unfold release_if_uniform, _sif_completely_uniform_shallow.
    destruct (_ && _).
    + rewrite put_tile_out by (cbn [tiles set_blocks_to_tiles]; rewrite put_tile_length;
        unfold mark_band_uniform; rewrite put_tile_length; exact Hout).
      cbn [tiles set_blocks_to_tiles].
      rewrite put_tile_out by (unfold mark_band_uniform; rewrite put_tile_length; exact Hout).
      unfold mark_band_uniform. rewrite !put_tile_out by exact Hout. reflexivity.
    + rewrite put_tile_out by (unfold mark_band_uniform; rewrite put_tile_length; exact Hout).
      unfold mark_band_uniform. rewrite !put_tile_out by exact Hout. reflexivity.
Qed.

Lemma filled_tile_idem (hd : sif_header) (band : Z) (v : list Z) (t : sif_tile) :
  filled_tile hd band v (filled_tile hd band v t) = filled_tile hd band v t.
Proof.
  unfold filled_tile at 1 3.
  set (once := filled_tile hd band v t).
  assert (uniform_pixel_values once
          = memcpy (uniform_pixel_values t) (data_unit_size hd * band) v 0 (data_unit_size hd))
    as Eu by reflexivity.
  pose proof (set_and_pad_idem (uniform_flags t) band (n_uniform_flags hd - 1)
                (Z.shiftr 255 (8 - Z.rem (bands hd) 8))) as Ef.
  cbv zeta in Ef.
  set (flags1 := arr_set (SIF_SET_BIT (uniform_flags t) band) (n_uniform_flags hd - 1)
                   (Z.lor (Z.land (Z.shiftr 255 (8 - Z.rem (bands hd) 8)) 255)
                      (arr_get (SIF_SET_BIT (uniform_flags t) band) (n_uniform_flags hd - 1))))
    in *.
  assert (uniform_flags once = flags1) as Ef1 by reflexivity.
  rewrite Ef1, Ef, Eu, memcpy_idem.
  set (all := foldl _ 255 _ =? 255).
  assert (block_num once = if all && negb (block_num t =? -1) then -1 else block_num t)
    as Eb by reflexivity.
  rewrite Eb. f_equal.
  destruct all; cbn [andb]; [| reflexivity].
  destruct (negb (block_num t =? -1)) eqn:E; cbn; [reflexivity |].
  rewrite E. reflexivity.
Qed.

Lemma same_mode_put_tile (f f' : sif_file) (i : Z) (t : sif_tile) :
  same_mode f f' -> same_mode f (put_tile f' i t).
Proof. intros H. unfold put_tile. destruct (i <? 0); exact H. Qed.

Lemma same_mode_mark_release (f : sif_file) (n band : Z) (v : list Z) :
  same_mode f (release_if_uniform (mark_band_uniform f n band v) n).
Proof.
  unfold release_if_uniform, _sif_completely_uniform_shallow, mark_band_uniform.
  assert (same_mode f f) as H0 by (split; reflexivity).
  destruct (_ && _); repeat apply same_mode_put_tile; try exact H0.
Qed.

Lemma fill_guard_same_mode (f f' : sif_file) (tx ty band : Z) (v : option (list Z)) :
  same_mode f f' -> fill_guard f' tx ty band v = fill_guard f tx ty band v.
Proof. intros [Hh Hr]. unfold fill_guard. rewrite Hh, Hr. reflexivity. Qed.

Lemma fill_tile_slice_refused (f : sif_file) (tx ty band : Z) (v : option (list Z)) :
  fill_guard f tx ty band v = None ->
  exists e, sif_fill_tile_slice f tx ty band v = set_error f e.
Proof.
  unfold fill_guard, sif_fill_tile_slice, SIF_CHECK_FILE_, void_ret.
  destruct (header f) as [hd |]; [| eauto].
  destruct (version hd >? SIF_VERSION); [eauto |].
  destruct ((tx <? 0) || (ty <? 0) || (tx >=? n_tiles_across hd)); [eauto |].
  destruct ((band <? 0) || (band >=? bands hd)); [eauto |].
  destruct v as [v |]; [| eauto].
  destruct (negb (read_only f =? 0)); [eauto | discriminate].
Qed.

Lemma fill_tile_slice_admitted_eq (f : sif_file) (tx ty band : Z) (v : option (list Z))
    (hd : sif_header) (v' : list Z) :
  fill_guard f tx ty band v = Some (hd, v') ->
  let n := n_tiles_across hd * ty + tx in
  let g := release_if_uniform (mark_band_uniform f n band v') n in
  header f = Some hd
  /\ sif_fill_tile_slice f tx ty band v = fst (_sif_write_tile_header g (tile_at g n) n).
Proof.
  unfold fill_guard, sif_fill_tile_slice, SIF_CHECK_FILE_, void_ret.
  destruct (header f) as [hd0 |]; [| discriminate].
  destruct v as [v0 |]; [| discriminate].
  destruct (version hd0 >? SIF_VERSION); [discriminate |].
  destruct ((tx <? 0) || (ty <? 0) || (tx >=? n_tiles_across hd0)); [discriminate |].
  destruct ((band <? 0) || (band >=? bands hd0)); [discriminate |].
  destruct (negb (read_only f =? 0)); [discriminate |].
  cbn [orb]. intros [= <- <-]. split; reflexivity.
Qed.

(** The tile table after a fill that gets through. *)
Lemma fill_tile_slice_tiles (f : sif_file) (tx ty band : Z) (v : option (list Z))
    (hd : sif_header) (v' : list Z) :
  fill_guard f tx ty band v = Some (hd, v') ->
  let n := n_tiles_across hd * ty + tx in
  same_mode f (sif_fill_tile_slice f tx ty band v)
  /\ tiles (sif_fill_tile_slice f tx ty band v)
     = tiles (put_tile f n (filled_tile hd band v' (tile_at f n))).
Proof.
  intros Hg n. destruct (fill_tile_slice_admitted_eq _ _ _ _ _ _ _ Hg) as [Hhd ->].
  fold n. set (g := release_if_uniform (mark_band_uniform f n band v') n).
  assert (same_tiles g (fst (_sif_write_tile_header g (tile_at g n) n))) as (Hh & Hr & Ht).
  { apply _sif_write_tile_header_frame with (R := same_tiles).
    - intros ? ? ? H; exact H.
    - intros ? ? ? H; exact H.
    - repeat split. }
  destruct (same_mode_mark_release f n band v') as [Hh' Hr']. fold g in Hh', Hr'.
  split; [split; congruence |].
  rewrite Ht. subst g. rewrite release_mark_tiles.
  unfold hdr. rewrite Hhd. reflexivity.
Qed.

(** C9.  Filling a tile slice twice with the same value leaves the tile
    headers (flags, uniform pixel values and block numbers of all tiles) as
    one fill leaves them, and a tile without a block before the fill has none
    after it. *)
Theorem fill_tile_slice_idempotent (file : sif_file) (tx ty band : Z)
    (v : option (list Z)) :
  let once := sif_fill_tile_slice file tx ty band v in
  let twice := sif_fill_tile_slice once tx ty band v in
  tiles twice = tiles once
  /\ forall t, block_num (tile_at file t) = -1 -> block_num (tile_at once t) = -1.
Proof.
  intros once twice.
  destruct (fill_guard file tx ty band v) as [[hd v'] |] eqn:Hg.
  - destruct (fill_tile_slice_tiles _ _ _ _ _ _ _ Hg) as [Hm Ht]. fold once in Hm, Ht.
    set (n := n_tiles_across hd * ty + tx) in *.
    set (F := filled_tile hd band v') in *.
    assert (fill_guard once tx ty band v = Some (hd, v')) as Hg'
      by (rewrite (fill_guard_same_mode file once) by exact Hm; exact Hg).
    destruct (fill_tile_slice_tiles _ _ _ _ _ _ _ Hg') as [_ Ht']. fold twice n F in Ht'.
    split.
    + rewrite Ht'.
      destruct (decide (0 <= n < Z.of_nat (length (tiles file)))) as [Hin | Hout].
      * rewrite (tile_at_tiles once (put_tile file n (F (tile_at file n))) n Ht).
        rewrite tile_at_put_tile by exact Hin.
        unfold F at 1. rewrite filled_tile_idem. fold F.
        rewrite put_tile_tiles, Ht, put_tile_tiles.
        destruct (n <? 0); [reflexivity | apply list_insert_insert_eq].
      * apply put_tile_out. rewrite Ht, put_tile_length. exact Hout.
    + intros t Hb.
      rewrite (tile_at_tiles once (put_tile file n (F (tile_at file n))) t Ht).
      destruct (decide (n = t)) as [-> | Hne].
      * destruct (decide (0 <= t < Z.of_nat (length (tiles file)))) as [Hin | Hout].
        -- rewrite tile_at_put_tile by exact Hin.
           unfold F, filled_tile. cbn [block_num]. rewrite Hb.
           destruct (_ && _); reflexivity.
        -- rewrite (tile_at_tiles _ file t (put_tile_out _ _ _ Hout)). exact Hb.
      * rewrite tile_at_put_tile_ne by exact Hne. exact Hb.
  - destruct (fill_tile_slice_refused _ _ _ _ _ Hg) as [e He]. fold once in He.
    assert (same_mode file once) as Hm by (rewrite He; split; reflexivity).
    assert (fill_guard once tx ty band v = None) as Hg'
      by (rewrite (fill_guard_same_mode file once) by exact Hm; exact Hg).
    destruct (fill_tile_slice_refused _ _ _ _ _ Hg') as [e' He']. fold twice in He'.
    split.
    + rewrite He'. reflexivity.
    + intros t Hb. rewrite He. exact Hb.
Qed.

(** ** The error field *)




(** Two runs of a macro, one entered with the field cleared and one with the
    field at [e]. *)
Section TwoRuns.
Context {A : Type}.
Variable e : Z.
Variable EA : A -> A -> Prop.
Variable ret : sif_file -> A.
Hypothesis ret_error : forall g c, c <> 0 -> EA (ret (set_error g c)) (ret (set_error g c)).






End TwoRuns.














(** ** Defragmentation *)

Lemma FREAD64_ok {A} (ret : sif_file -> A) (file : sif_file) (els nel : Z)
    (k : sif_file -> list Z -> A) :
  0 < els -> 0 < nel -> 0 <= position (fp file) ->
  position (fp file) + els * nel <= Z.of_nat (length (contents (fp file))) ->
  FREAD64_ ret file els nel k
  = k (set_fp file (mkFILE (contents (fp file)) (position (fp file) + els * nel)))
      (take (Z.to_nat (els * nel)) (drop (Z.to_nat (position (fp file))) (contents (fp file)))).
Proof.
  intros H1 H2 H3 H4. unfold FREAD64_, fread.
  destruct (els <=? 0) eqn:E1; [lia |]. destruct (nel <=? 0) eqn:E2; [lia |].
  cbn [orb].
  assert (Z.of_nat (length (take (Z.to_nat (els * nel))
            (drop (Z.to_nat (position (fp file))) (contents (fp file))))) = els * nel) as El.
  { rewrite length_take, length_drop. lia. }
  rewrite El. rewrite Z.mul_comm, Z.quot_mul by lia. rewrite Z.eqb_refl.
  rewrite (Z.mul_comm nel els). reflexivity.
Qed.

(** A handle that differs from [g] in the file only, and holds at least the
    bytes [g] holds. *)
Lemma write_tile_header_succeeds (g : sif_file) (tile : sif_tile) (tile_num : Z) :
  0 <= header_bytes g + tile_num * tile_header_bytes (hdr g) ->
  0 < data_unit_size (hdr g) -> 0 < bands (hdr g) -> 0 < n_uniform_flags (hdr g) ->
  exists x,
    _sif_write_tile_header g tile tile_num = (set_fp g x, 1)
    /\ (length (contents (fp g)) <= length (contents x))%nat.
Proof.
  intros Hloc Hd Hb Hn. unfold _sif_write_tile_header, write_tile_record.
  rewrite FSEEK64_ok by exact Hloc.
  change (hdr (set_fp g _)) with (hdr g).
  rewrite FWRITE64_ok by assumption.
  rewrite FWRITE64_ok by lia.
  rewrite FWRITE64INT32_ok.
  eexists. split; [reflexivity |].
  cbn [fp set_fp].
  etransitivity; [| apply fwrite_contents_length].
  etransitivity; [| apply fwrite_contents_length].
  etransitivity; [| apply fwrite_contents_length].
  cbn [contents]. lia.
Qed.





Lemma put_tile_header (f : sif_file) (n : Z) (t : sif_tile) :
  header (put_tile f n t) = header f.
Proof. unfold put_tile. destruct (n <? 0); reflexivity. Qed.

Lemma put_tile_read_only (f : sif_file) (n : Z) (t : sif_tile) :
  read_only (put_tile f n t) = read_only f.
Proof. unfold put_tile. destruct (n <? 0); reflexivity. Qed.

Lemma put_tile_base_location (f : sif_file) (n : Z) (t : sif_tile) :
  base_location (put_tile f n t) = base_location f.
Proof. unfold put_tile. destruct (n <? 0); reflexivity. Qed.

Lemma put_tile_header_bytes (f : sif_file) (n : Z) (t : sif_tile) :
  header_bytes (put_tile f n t) = header_bytes f.
Proof. unfold put_tile. destruct (n <? 0); reflexivity. Qed.



Lemma put_tile_fp (f : sif_file) (n : Z) (t : sif_tile) : fp (put_tile f n t) = fp f.
Proof. unfold put_tile. destruct (n <? 0); reflexivity. Qed.


Lemma arr_get_set (a : list Z) (i j v : Z) :
  0 <= i < Z.of_nat (length a) ->
  arr_get (arr_set a i v) j = if decide (j = i) then v else arr_get a j.
Proof.
  intros H. destruct (decide (j = i)) as [-> | Hne].
  - apply arr_get_set_eq, H.
  - apply arr_get_set_ne. congruence.
Qed.



Lemma seqZ_snoc (i : Z) : 0 <= i -> seqZ 0 (i + 1) = seqZ 0 i ++ [i].
Proof.
  intros H. rewrite seqZ_app by lia. f_equal.
Qed.

Lemma geometry_ok_spec (f : sif_file) :
  geometry_ok f = true ->
  0 < bands (hdr f) /\ 0 < data_unit_size (hdr f) /\ 0 < n_uniform_flags (hdr f)
  /\ 0 < tile_bytes (hdr f) /\ 0 <= tile_header_bytes (hdr f)
  /\ 0 <= header_bytes f /\ 0 <= base_location f /\ 0 <= n_tiles (hdr f)
  /\ length (tiles f) = Z.to_nat (n_tiles (hdr f))
  /\ length (blocks_to_tiles f) = Z.to_nat (n_tiles (hdr f)).
Proof.
  unfold geometry_ok. rewrite !andb_true_iff. lia.
Qed.

Lemma blocks_consistent_spec (f : sif_file) :
  blocks_consistent f = true ->
  tiles_to_blocks_ok (block_of f) (tile_of f) (n_tiles (hdr f))
  /\ blocks_to_tiles_ok (block_of f) (tile_of f) (n_tiles (hdr f)).
Proof.
  unfold blocks_consistent. rewrite andb_true_iff, !forallb_forall.
  intros [H1 H2]. split.
  - intros t Ht. specialize (H1 t). rewrite <- list_elem_of_In, elem_of_seqZ in H1.
    specialize (H1 ltac:(lia)). unfold block_of, tile_of.
    rewrite orb_true_iff, !andb_true_iff in H1. lia.
  - intros b Hb. specialize (H2 b). rewrite <- list_elem_of_In, elem_of_seqZ in H2.
    specialize (H2 ltac:(lia)). unfold block_of, tile_of.
    rewrite orb_true_iff, !andb_true_iff in H2. lia.
Qed.

Lemma blocks_on_disk_spec (f : sif_file) :
  blocks_on_disk f = true ->
  forall b, 0 <= b < n_tiles (hdr f) -> tile_of f b <> -1 ->
    base_location f + (b + 1) * tile_bytes (hdr f) <= Z.of_nat (length (contents (fp f))).
Proof.
  unfold blocks_on_disk. rewrite forallb_forall. intros H b Hb Ht.
  specialize (H b). rewrite <- list_elem_of_In, elem_of_seqZ in H.
  specialize (H ltac:(lia)). unfold tile_of in Ht.
  rewrite orb_true_iff in H. lia.
Qed.




















(** The outcome on the fragmented file: blocks 0, 1 and 2 hold tiles 0, 1
    and 3. *)
Example defragment_fragmented_file :
  option_map (fun file => (blocks_to_tiles (sif_defragment file),
                           map block_num (tiles (sif_defragment file)),
                           error (sif_defragment file)))
             fragmented_file
  = Some ([0; 1; 3; -1], [0; 1; -1; 2], 0).
Proof. vm_compute. reflexivity. Qed.


(** The same with the field set by hand. *)
Example defragment_stops_on_stale_error :
  option_map (fun file => (blocks_to_tiles (sif_defragment (set_error file 5)),
                           map block_num (tiles (sif_defragment (set_error file 5)))))
             fragmented_file
  = Some ([0; 3; -1; 1], [0; 3; -1; 1]).
Proof. vm_compute. reflexivity. Qed.

(** ** Packed integers *)

Lemma testbit_255 (n : Z) : 0 <= n -> Z.testbit 255 n = (n <? 8).
Proof.
  intros Hn. change 255 with (Z.ones 8).
  destruct (n <? 8) eqn:E.
  - apply Z.ones_spec_low. lia.
  - apply Z.ones_spec_high. lia.
Qed.

(** The four packed bytes hold the low 32 bits of the value. *)
Lemma packed_bytes_low_bits (v : Z) :
  Z.lor (Z.lor (Z.lor (Z.shiftl (Z.land (Z.shiftr v 24) 255) 24)
                      (Z.shiftl (Z.land (Z.shiftr v 16) 255) 16))
               (Z.shiftl (Z.land (Z.shiftr v 8) 255) 8))
        (Z.land v 255)
  = v mod 2 ^ 32.
Proof.
  apply Z.bits_inj'. intros n Hn.
  rewrite !Z.lor_spec, !Z.shiftl_spec, !Z.land_spec by lia.
  destruct (Z_lt_le_dec n 32) as [H32 | H32].
  - rewrite Z.mod_pow2_bits_low by lia.
    destruct (Z_lt_le_dec n 8) as [H8 | H8].
    { rewrite !(Z.testbit_neg_r _ (n - 24)), !(Z.testbit_neg_r _ (n - 16)),
        !(Z.testbit_neg_r _ (n - 8)) by lia.
      rewrite (testbit_255 n) by lia. rewrite (proj2 (Z.ltb_lt (n) 8)) by lia.
      cbn. apply andb_true_r. }
    rewrite (testbit_255 n) by lia. rewrite (proj2 (Z.ltb_ge (n) 8)) by lia.
    rewrite andb_false_r, orb_false_r.
    destruct (Z_lt_le_dec n 16) as [H16 | H16].
    { rewrite !(Z.testbit_neg_r _ (n - 24)), !(Z.testbit_neg_r _ (n - 16)) by lia.
      rewrite (Z.shiftr_spec v 8), (testbit_255 (n - 8)) by lia.
      rewrite (proj2 (Z.ltb_lt (n - 8) 8)) by lia. replace (n - 8 + 8) with n by lia.
      cbn. apply andb_true_r. }
    rewrite (Z.shiftr_spec v 8), (testbit_255 (n - 8)) by lia.
    rewrite (proj2 (Z.ltb_ge (n - 8) 8)) by lia. rewrite andb_false_r, orb_false_r.
    destruct (Z_lt_le_dec n 24) as [H24 | H24].
    { rewrite !(Z.testbit_neg_r _ (n - 24)) by lia.
      rewrite (Z.shiftr_spec v 16), (testbit_255 (n - 16)) by lia.
      rewrite (proj2 (Z.ltb_lt (n - 16) 8)) by lia. replace (n - 16 + 16) with n by lia.
      cbn. apply andb_true_r. }
    rewrite (Z.shiftr_spec v 16), (testbit_255 (n - 16)) by lia.
    rewrite (proj2 (Z.ltb_ge (n - 16) 8)) by lia. rewrite andb_false_r, orb_false_r.
    rewrite (Z.shiftr_spec v 24), (testbit_255 (n - 24)) by lia.
    rewrite (proj2 (Z.ltb_lt (n - 24) 8)) by lia. replace (n - 24 + 24) with n by lia.
    apply andb_true_r.
  - rewrite Z.mod_pow2_bits_high by lia.
    rewrite !Z.shiftr_spec, !testbit_255 by lia.
    rewrite (proj2 (Z.ltb_ge (n) 8)) by lia. rewrite (proj2 (Z.ltb_ge (n - 8) 8)) by lia.
    rewrite (proj2 (Z.ltb_ge (n - 16) 8)) by lia. rewrite (proj2 (Z.ltb_ge (n - 24) 8)) by lia.
    rewrite !andb_false_r. reflexivity.
Qed.

Lemma packed_int32_decode_encode (v : Z) :
  _sif_packed_bytes_to_int32 (_sif_int32_to_packed_bytes v) = wrap32 v.
Proof.
  unfold _sif_packed_bytes_to_int32, _sif_int32_to_packed_bytes.
  change (arr_get [Z.land (Z.shiftr v 24) 255; Z.land (Z.shiftr v 16) 255;
                   Z.land (Z.shiftr v 8) 255; Z.land v 255] 0)
    with (Z.land (Z.shiftr v 24) 255).
  change (arr_get [Z.land (Z.shiftr v 24) 255; Z.land (Z.shiftr v 16) 255;
                   Z.land (Z.shiftr v 8) 255; Z.land v 255] 1)
    with (Z.land (Z.shiftr v 16) 255).
  change (arr_get [Z.land (Z.shiftr v 24) 255; Z.land (Z.shiftr v 16) 255;
                   Z.land (Z.shiftr v 8) 255; Z.land v 255] 2)
    with (Z.land (Z.shiftr v 8) 255).
  change (arr_get [Z.land (Z.shiftr v 24) 255; Z.land (Z.shiftr v 16) 255;
                   Z.land (Z.shiftr v 8) 255; Z.land v 255] 3)
    with (Z.land v 255).
  rewrite packed_bytes_low_bits. unfold wrap32.
  rewrite Zplus_mod_idemp_l. reflexivity.
Qed.

Lemma wrap32_id (v : Z) : - 2 ^ 31 <= v < 2 ^ 31 -> wrap32 v = v.
Proof. intros H. unfold wrap32. rewrite Z.mod_small by lia. lia. Qed.

Lemma land_255_range (x : Z) : 0 <= Z.land x 255 < 256.
Proof.
  change 255 with (Z.ones 8). rewrite Z.land_ones by lia.
  apply Z.mod_pos_bound. lia.
Qed.

(** X1.  With a 32-bit [long], a value written by [_sif_int32_to_packed_bytes]
    is the value [_sif_packed_bytes_to_int32] reads: four bytes, most
    significant first, each in [0, 256). *)
Theorem packed_int32_round_trip (v : Z) :
  - 2 ^ 31 <= v < 2 ^ 31 ->
  _sif_packed_bytes_to_int32 (_sif_int32_to_packed_bytes v) = v
  /\ length (_sif_int32_to_packed_bytes v) = 4%nat
  /\ Forall (fun b => 0 <= b < 256) (_sif_int32_to_packed_bytes v).
Proof.
  intros H. split; [| split].
  - rewrite packed_int32_decode_encode. apply wrap32_id, H.
  - reflexivity.
  - unfold _sif_int32_to_packed_bytes.
    repeat (constructor; [apply land_255_range |]). constructor.
Qed.

Lemma packed_int32_round_trip_witness :
  _sif_packed_bytes_to_int32 (_sif_int32_to_packed_bytes (-1)) = -1
  /\ length (_sif_int32_to_packed_bytes (-1)) = 4%nat
  /\ Forall (fun b => 0 <= b < 256) (_sif_int32_to_packed_bytes (-1)).
Proof. apply (packed_int32_round_trip (-1)). lia. Defined.

(** ** The decoder and the width of [long] *)

Lemma packed_value_decode_encode (v : Z) :
  Z.lor (Z.lor (Z.lor (Z.shiftl (arr_get (_sif_int32_to_packed_bytes v) 0) 24)
                      (Z.shiftl (arr_get (_sif_int32_to_packed_bytes v) 1) 16))
               (Z.shiftl (arr_get (_sif_int32_to_packed_bytes v) 2) 8))
        (arr_get (_sif_int32_to_packed_bytes v) 3)
  = v mod 2 ^ 32.
Proof. apply packed_bytes_low_bits. Qed.

Lemma wrap_long_id (bits x : Z) :
  0 < bits -> - 2 ^ (bits - 1) <= x < 2 ^ (bits - 1) -> wrap_long bits x = x.
Proof.
  intros Hb Hx. unfold wrap_long.
  assert (2 ^ bits = 2 * 2 ^ (bits - 1)) as E.
  { replace bits with (Z.succ (bits - 1)) at 1 by lia. apply Z.pow_succ_r. lia. }
  rewrite Z.mod_small by lia. lia.
Qed.

(** X27.  What [_sif_packed_bytes_to_int32] returns depends on the width of
    [long].  Where [long] has more than 32 bits, the four bytes written by
    [_sif_int32_to_packed_bytes] are read as an unsigned number: a value in
    [0, 2^31) comes back as written, and a negative value [v] comes back as
    [v + 2^32], so that the block number -1 of a tile without a block is
    read as 4294967295.  Where [long] has 32 bits the function is the
    decoder of this development. *)
Theorem packed_decoder_depends_on_long (bits v : Z) :
  32 < bits -> - 2 ^ 31 <= v < 2 ^ 31 ->
  packed_bytes_to_long bits (_sif_int32_to_packed_bytes v) = v mod 2 ^ 32
  /\ (0 <= v -> packed_bytes_to_long bits (_sif_int32_to_packed_bytes v) = v)
  /\ (v < 0 -> packed_bytes_to_long bits (_sif_int32_to_packed_bytes v) = v + 2 ^ 32)
  /\ (forall ptr, packed_bytes_to_long 32 ptr = _sif_packed_bytes_to_int32 ptr).
Proof.
  intros Hb Hv.
  assert (packed_bytes_to_long bits (_sif_int32_to_packed_bytes v) = v mod 2 ^ 32) as E.
  { unfold packed_bytes_to_long. rewrite packed_value_decode_encode.
    apply wrap_long_id; [lia |].
    pose proof (Z.mod_pos_bound v (2 ^ 32) ltac:(lia)) as Hm.
    assert (2 ^ 32 <= 2 ^ (bits - 1)) as Hp by (apply Z.pow_le_mono_r; lia).
    assert (0 < 2 ^ (bits - 1)) by lia. lia. }
  split; [exact E |]. split; [| split].
  - intros H0. rewrite E. apply Z.mod_small. lia.
  - intros H0. rewrite E. symmetry. apply Z.mod_unique with (-1); lia.
  - intros ptr. reflexivity.
Qed.

Lemma packed_decoder_depends_on_long_witness :
  packed_bytes_to_long 64 (_sif_int32_to_packed_bytes (-1)) = 4294967295
  /\ _sif_packed_bytes_to_int32 (_sif_int32_to_packed_bytes (-1)) = -1.
Proof.
  destruct (packed_decoder_depends_on_long 64 (-1)) as (_ & _ & H & _); [lia | lia |].
  split; [rewrite H by lia; reflexivity | vm_compute; reflexivity].
Defined.

(** ** Doubles *)

(** X2.  [_sif_swap_double64] reverses the eight bytes of a double, and
    [_sif_ntoh_double64] undoes [_sif_hton_double64] on either host. *)
Theorem double64_network_round_trip (host : byte_order) (d : double) :
  length d = 8%nat ->
  _sif_swap_double64 d = reverse d
  /\ _sif_ntoh_double64 host (_sif_hton_double64 host d) = d.
Proof.
  intros H.
  do 8 (destruct d as [| ? d]; [discriminate H |]).
  destruct d; [| discriminate H].
  split; [reflexivity |]. destruct host; reflexivity.
Qed.

Lemma double64_network_round_trip_witness :
  _sif_swap_double64 [1; 2; 3; 4; 5; 6; 7; 8] = reverse [1; 2; 3; 4; 5; 6; 7; 8]
  /\ _sif_ntoh_double64 LITTLE_ENDIAN
       (_sif_hton_double64 LITTLE_ENDIAN [1; 2; 3; 4; 5; 6; 7; 8])
     = [1; 2; 3; 4; 5; 6; 7; 8].
Proof. apply (double64_network_round_trip LITTLE_ENDIAN [1; 2; 3; 4; 5; 6; 7; 8]). reflexivity. Defined.

(** ** Flag bits *)

Lemma land_1_testbit (y : Z) : Z.land y 1 = Z.b2z (Z.testbit y 0).
Proof.
  change 1 with (Z.ones 1). rewrite Z.land_ones by lia.
  rewrite Z.bit0_mod. reflexivity.
Qed.

Lemma get_bit_testbit (uca : list Z) (j : Z) :
  0 <= j ->
  SIF_GET_BIT uca j = Z.b2z (Z.testbit (arr_get uca (Z.quot j 8)) (7 - Z.rem j 8)).
Proof.
  intros Hj. unfold SIF_GET_BIT. rewrite land_1_testbit.
  pose proof (Z.rem_bound_pos j 8 Hj ltac:(lia)).
  rewrite Z.shiftr_spec by lia. f_equal.
Qed.

Lemma testbit_shiftl_1 (s t : Z) : 0 <= s -> 0 <= t -> Z.testbit (Z.shiftl 1 s) t = (s =? t).
Proof.
  intros Hs Ht. rewrite Z.shiftl_1_l. apply Z.pow2_bits_eqb. exact Hs.
Qed.

Lemma quot_rem_inj (i j : Z) :
  0 <= i -> 0 <= j -> Z.quot i 8 = Z.quot j 8 -> Z.rem i 8 = Z.rem j 8 -> i = j.
Proof.
  intros Hi Hj Hq Hr.
  rewrite (Z.quot_rem' i 8), (Z.quot_rem' j 8). congruence.
Qed.

(** X3.  Setting or clearing flag [i] of a flag array makes [SIF_GET_BIT]
    read 1 or 0 at [i] and leaves every other flag as it was. *)
Theorem flag_bits_set_clear (uca : list Z) (i j : Z) :
  0 <= i < 8 * Z.of_nat (length uca) -> 0 <= j ->
  SIF_GET_BIT (SIF_SET_BIT uca i) j
  = (if decide (j = i) then 1 else SIF_GET_BIT uca j)
  /\ SIF_GET_BIT (SIF_CLEAR_BIT uca i) j
     = (if decide (j = i) then 0 else SIF_GET_BIT uca j).
Proof.
  intros Hi Hj.
  pose proof (Z.rem_bound_pos i 8 ltac:(lia) ltac:(lia)) as Hri.
  pose proof (Z.rem_bound_pos j 8 Hj ltac:(lia)) as Hrj.
  assert (0 <= Z.quot i 8 < Z.of_nat (length uca)) as Hq.
  { split; [apply Z.quot_pos; lia |]. apply Z.quot_lt_upper_bound; lia. }
  rewrite !get_bit_testbit by exact Hj.
  unfold SIF_SET_BIT, SIF_CLEAR_BIT.
  destruct (decide (Z.quot j 8 = Z.quot i 8)) as [Eq | Nq].
  - rewrite Eq, !arr_get_set_eq by exact Hq.
    rewrite !Z.land_spec, Z.lor_spec, Z.lnot_spec, !testbit_shiftl_1,
      !testbit_255 by lia.
    rewrite (proj2 (Z.ltb_lt (7 - Z.rem j 8) 8)) by lia. rewrite !andb_true_r.
    destruct (decide (j = i)) as [-> | Hne].
    + rewrite Z.eqb_refl, orb_true_r, andb_false_r. split; reflexivity.
    + destruct (7 - Z.rem i 8 =? 7 - Z.rem j 8) eqn:E.
      * exfalso. apply Hne. apply quot_rem_inj; lia.
      * rewrite orb_false_r, andb_true_r. split; reflexivity.
  - rewrite !arr_get_set_ne by congruence.
    destruct (decide (j = i)) as [-> | Hne]; [contradiction |]. split; reflexivity.
Qed.

Lemma flag_bits_set_clear_witness :
  SIF_GET_BIT (SIF_SET_BIT [0; 0] 9) 9 = 1
  /\ SIF_GET_BIT (SIF_CLEAR_BIT [0; 0] 9) 9 = 0.
Proof. apply (flag_bits_set_clear [0; 0] 9 9); simpl; lia. Defined.

(** ** The uniformity scan *)

Lemma forallb_seqZ (f : Z -> bool) (m n : Z) :
  forallb f (seqZ m n) = true <-> forall x, m <= x < m + n -> f x = true.
Proof.
  rewrite forallb_forall. split.
  - intros H x Hx. apply H. apply list_elem_of_In, elem_of_seqZ. exact Hx.
  - intros H x Hx. apply H. apply list_elem_of_In, elem_of_seqZ in Hx. exact Hx.
Qed.

Lemma scan_units_spec (hd : sif_header) (extentX extentY : Z) (same : Z -> bool) :
  0 < tile_width hd ->
  scan_units hd extentX extentY same = true
  <-> forall r k, 0 <= r < extentY -> 0 <= k < extentX ->
        same (r * tile_width hd + k) = true.
Proof.
  intros Htw. unfold scan_units. rewrite forallb_seqZ. split.
  - intros H r k Hr Hk. specialize (H r ltac:(lia)).
    rewrite (proj2 (Z.ltb_lt (r * tile_width hd) (extentY * tile_width hd))) in H by nia.
    rewrite forallb_seqZ in H. apply H. lia.
  - intros H r Hr.
    rewrite (proj2 (Z.ltb_lt (r * tile_width hd) (extentY * tile_width hd))) by nia.
    apply forallb_seqZ. intros k Hk. apply H; lia.
Qed.

Lemma sub_bytes_cons (data : list Z) (j n : Z) :
  0 <= j -> 0 <= n ->
  sub_bytes data j (n + 1) = arr_get data j :: sub_bytes data (j + 1) n.
Proof.
  intros Hj Hn. unfold sub_bytes, arr_get.
  destruct (j <? 0) eqn:E1; [lia |]. destruct (j + 1 <? 0) eqn:E2; [lia |].
  replace (Z.to_nat (n + 1)) with (S (Z.to_nat n)) by lia.
  replace (Z.to_nat (j + 1)) with (S (Z.to_nat j)) by lia.
  destruct (data !! Z.to_nat j) as [x |] eqn:L.
  - rewrite (drop_S _ _ _ L). reflexivity.
  - rewrite !drop_ge by (apply lookup_ge_None in L; lia).
    rewrite !resize_nil. reflexivity.
Qed.

Lemma sub_bytes_0 (data : list Z) (j : Z) : sub_bytes data j 0 = [].
Proof.
  unfold sub_bytes. change (Z.to_nat 0) with 0%nat.
  destruct (j <? 0); [reflexivity | apply resize_0].
Qed.

Lemma sub_bytes_1 (data : list Z) (j : Z) :
  0 <= j -> sub_bytes data j 1 = [arr_get data j].
Proof.
  intros Hj. change 1 with (0 + 1).
  rewrite sub_bytes_cons, sub_bytes_0 by lia. reflexivity.
Qed.

Lemma sub_bytes_2 (data : list Z) (j : Z) :
  0 <= j -> sub_bytes data j 2 = [arr_get data j; arr_get data (j + 1)].
Proof.
  intros Hj. change 2 with (1 + 1).
  rewrite sub_bytes_cons, sub_bytes_1 by lia. reflexivity.
Qed.

(** X4.  [_sif_is_uniform] answers whether every data unit of the scanned
    window (the first [extentX] units of the first [extentY] rows of the tile
    buffer) equals the first unit of the buffer. *)
Theorem is_uniform_spec (file : sif_file) (data : list Z) (extentX extentY : Z) :
  0 < data_unit_size (hdr file) -> 0 < tile_width (hdr file) ->
  _sif_is_uniform file data extentX extentY = true
  <-> forall r k, 0 <= r < extentY -> 0 <= k < extentX ->
        unit_at (data_unit_size (hdr file)) data (r * tile_width (hdr file) + k)
        = unit_at (data_unit_size (hdr file)) data 0.
Proof.
  intros Hd Htw. unfold _sif_is_uniform, unit_at.
  destruct (data_unit_size (hdr file) =? 1) eqn:E1.
  - apply Z.eqb_eq in E1. rewrite E1, scan_units_spec by exact Htw.
    split; intros H r k Hr Hk; specialize (H r k Hr Hk).
    + rewrite !sub_bytes_1 by nia. rewrite !Z.mul_1_l.
      apply Z.eqb_eq in H. rewrite H. reflexivity.
    + rewrite !sub_bytes_1 in H by nia. rewrite !Z.mul_1_l in H.
      apply Z.eqb_eq. congruence.
  - destruct (data_unit_size (hdr file) =? 2) eqn:E2.
    + apply Z.eqb_eq in E2. rewrite E2, scan_units_spec by exact Htw.
      split; intros H r k Hr Hk; specialize (H r k Hr Hk).
      * rewrite !sub_bytes_2 by nia.
        apply andb_true_iff in H. destruct H as [Ha Hb].
        apply Z.eqb_eq in Ha, Hb.
        rewrite (Z.mul_comm 2 (r * tile_width (hdr file) + k)).
        rewrite <- Ha, <- Hb. reflexivity.
      * rewrite !sub_bytes_2 in H by nia.
        rewrite (Z.mul_comm 2 (r * tile_width (hdr file) + k)) in H.
        injection H as Ha Hb.
        apply andb_true_iff. split; apply Z.eqb_eq; symmetry; assumption.
    + rewrite scan_units_spec by exact Htw. unfold memcmp_eq.
      rewrite Z.mul_0_r.
      split; intros H r k Hr Hk; specialize (H r k Hr Hk).
      * apply bool_decide_eq_true in H. congruence.
      * apply bool_decide_eq_true. congruence.
Qed.

Lemma is_uniform_spec_witness :
  exists file,
    one_tile_file 1 = Some file
    /\ (0 < data_unit_size (hdr file) /\ 0 < tile_width (hdr file))
    /\ (_sif_is_uniform file [7; 7] 2 1 = true
        <-> forall r k, 0 <= r < 1 -> 0 <= k < 2 ->
              unit_at (data_unit_size (hdr file)) [7; 7] (r * tile_width (hdr file) + k)
              = unit_at (data_unit_size (hdr file)) [7; 7] 0).
Proof.
  eexists. split; [vm_compute; reflexivity |].
  split; [split; vm_compute; reflexivity |].
  apply is_uniform_spec; vm_compute; reflexivity.
Defined.

(** ** The meta-data store as a map *)

Lemma _sif_hash_from_nonneg (s : list Z) (h : Z) : 0 <= h -> 0 <= _sif_hash_from h s.
Proof.
  revert h. induction s as [| c s IH]; intros h Hh; simpl; [exact Hh |].
  destruct (c =? 0); [exact Hh |]. apply IH. apply Z.mod_pos_bound. lia.
Qed.

Lemma hash_index_range (k : list Z) :
  0 <= Z.rem (_sif_hash k) SIF_HASH_TABLE_SIZE < SIF_HASH_TABLE_SIZE.
Proof.
  apply Z.rem_bound_pos; [| unfold SIF_HASH_TABLE_SIZE; lia].
  apply _sif_hash_from_nonneg. lia.
Qed.

Lemma SIF_CHECK_FILE_pass {A} (ret : sif_file -> A) (file : sif_file)
    (k : sif_header -> A) :
  passes_check file -> SIF_CHECK_FILE_ ret file k = k (hdr file).
Proof.
  unfold passes_check, SIF_CHECK_FILE_, hdr. destruct (header file) as [hd |]; [| tauto].
  intros H. destruct (version hd >? SIF_VERSION) eqn:E; [lia | reflexivity].
Qed.

Lemma cstr_sub_bytes (k : list Z) : cstr (sub_bytes k 0 (strlen k + 1)) = cstr k.
Proof.
  unfold sub_bytes, strlen. cbn [Z.ltb Z.compare]. rewrite drop_0.
  induction k as [| c k IH].
  - reflexivity.
  - cbn [cstr]. destruct (c =? 0) eqn:E.
    + apply Z.eqb_eq in E. subst c. reflexivity.
    + cbn [length].
      replace (Z.to_nat (Z.of_nat (S (length (cstr k))) + 1))
        with (S (Z.to_nat (Z.of_nat (length (cstr k)) + 1))) by lia.
      cbn [resize cstr]. rewrite E, IH. reflexivity.
Qed.

Lemma chain_insert (file : sif_file) (h j : Z) (q : list sif_meta_data) :
  0 <= h < Z.of_nat (length (meta_data file)) -> 0 <= j ->
  chain (set_meta_data file (<[Z.to_nat h := q]> (meta_data file))) j
  = if decide (j = h) then q else chain file j.
Proof.
  intros Hh Hj. unfold chain. cbn [meta_data set_meta_data].
  destruct (decide (j = h)) as [-> | Hne].
  - rewrite list_lookup_insert_eq by lia. reflexivity.
  - rewrite list_lookup_insert_ne by lia. reflexivity.
Qed.

Lemma chain_find_lt (k : list Z) (q : list sif_meta_data) (n : nat) :
  chain_find k q = Some n ->
  exists r, q !! n = Some r /\ cstr k = cstr (key r).
Proof.
  revert n. induction q as [| r q IH]; intros n H; [discriminate |].
  cbn [chain_find] in H. destruct (strcmp_eq k (key r)) eqn:E.
  - injection H as <-. exists r. split; [reflexivity |].
    unfold strcmp_eq in E. apply bool_decide_eq_true in E. exact E.
  - destruct (chain_find k q) as [m |]; [| discriminate].
    injection H as <-. apply (IH m eq_refl).
Qed.

(** Overwriting a record by one with the same key does not change what a
    search finds. *)
Lemma chain_find_insert_same_key (k : list Z) (q : list sif_meta_data) (n : nat)
    (r r' : sif_meta_data) :
  q !! n = Some r -> key r' = key r -> chain_find k (<[n := r']> q) = chain_find k q.
Proof.
  revert n. induction q as [| a q IH]; intros n Hn Hk; [reflexivity |].
  destruct n as [| n].
  - injection Hn as ->. change (<[0%nat := r']> (r :: q)) with (r' :: q).
    cbn [chain_find]. rewrite Hk. reflexivity.
  - change (<[S n := r']> (a :: q)) with (a :: <[n := r']> q).
    cbn [chain_find]. rewrite (IH n Hn Hk). reflexivity.
Qed.

Lemma stored_get_binary (file : sif_file) (k : list Z) (m : Z) :
  passes_check file ->
  sif_get_meta_data_binary file k m
  = match stored file k with
    | Some q => (file, Some (value q), value_length q)
    | None => (set_error file SIF_ERROR_META_DATA_KEY, None, 0)
    end.
Proof.
  intros Hc. unfold sif_get_meta_data_binary, _sif_get_meta_data_pair, stored.
  rewrite !SIF_CHECK_FILE_pass by exact Hc.
  unfold md_deref.
  destruct (chain_find k _) as [n |]; reflexivity.
Qed.

(** What a set leaves behind under its own key. *)
Lemma stored_set_same (file : sif_file) (k buf : list Z) (n : Z) :
  passes_check file -> table_allocated file ->
  stored (sif_set_meta_data_binary file k buf n) k
  = Some match stored file k with
         | Some i =>
             if n =? value_length i then i
             else mk_meta_data (key i) (sub_bytes buf 0 n) (key_length i) n
         | None =>
             mk_meta_data (sub_bytes k 0 (strlen k + 1)) (sub_bytes buf 0 n)
                          (strlen k + 1) n
         end.
Proof.
  intros Hc Ht. pose proof (hash_index_range k) as Hh.
  unfold table_allocated in Ht.
  unfold sif_set_meta_data_binary, _sif_set_meta_data_len, _sif_get_meta_data_pair,
    _sif_insert_meta_data_pair.
  rewrite !SIF_CHECK_FILE_pass by exact Hc.
  unfold stored at 2.
  set (h := Z.rem (_sif_hash k) SIF_HASH_TABLE_SIZE) in *.
  destruct (chain_find k (chain file h)) as [p |] eqn:F; cbn [fmap option_fmap option_map mbind option_bind].
  - destruct (chain_find_lt _ _ _ F) as (r & Hr & Hk).
    unfold md_deref. cbn [fst snd]. rewrite Hr.
    destruct (n =? value_length r) eqn:E; cbn [negb].
    + unfold stored. fold h. rewrite F. cbn. exact Hr.
    + unfold md_store, stored. cbn [fst snd]. fold h.
      rewrite chain_insert by lia.
      destruct (decide (h = h)); [| contradiction].
      rewrite (chain_find_insert_same_key k _ p r) by (exact Hr || reflexivity).
      rewrite F. cbn.
      apply list_lookup_insert_eq. apply lookup_lt_Some in Hr. exact Hr.
  - unfold stored, upd_header.
    change (chain (set_header ?f ?x) ?j) with (chain f j).
    fold h. rewrite chain_insert by lia.
    destruct (decide (h = h)); [| contradiction].
    cbn [chain_find key]. unfold strcmp_eq.
    rewrite cstr_sub_bytes, bool_decide_eq_true_2 by reflexivity.
    reflexivity.
Qed.

(** A set under one key leaves every other key as it was. *)
Lemma stored_set_other (file : sif_file) (k k' buf : list Z) (n : Z) :
  passes_check file -> table_allocated file -> cstr k' <> cstr k ->
  stored (sif_set_meta_data_binary file k buf n) k' = stored file k'.
Proof.
  intros Hc Ht Hne. pose proof (hash_index_range k) as Hh.
  pose proof (hash_index_range k') as Hh'.
  unfold table_allocated in Ht.
  unfold sif_set_meta_data_binary, _sif_set_meta_data_len, _sif_get_meta_data_pair,
    _sif_insert_meta_data_pair.
  rewrite !SIF_CHECK_FILE_pass by exact Hc.
  set (h := Z.rem (_sif_hash k) SIF_HASH_TABLE_SIZE) in *.
  set (h' := Z.rem (_sif_hash k') SIF_HASH_TABLE_SIZE) in *.
  destruct (chain_find k (chain file h)) as [p |] eqn:F; cbn [fmap option_fmap option_map].
  - destruct (chain_find_lt _ _ _ F) as (r & Hr & Hk).
    unfold md_deref. cbn [fst snd]. rewrite Hr.
    destruct (n =? value_length r) eqn:E; cbn [negb]; [reflexivity |].
    unfold md_store, stored. cbn [fst snd]. fold h'.
    rewrite chain_insert by lia.
    destruct (decide (h' = h)) as [Eh | ?]; [| reflexivity].
    rewrite Eh.
    rewrite (chain_find_insert_same_key k' _ p r) by (exact Hr || reflexivity).
    destruct (chain_find k' (chain file h)) as [m |] eqn:F'; [| reflexivity].
    cbn. destruct (chain_find_lt _ _ _ F') as (r' & Hr' & Hk').
    apply list_lookup_insert_ne. intros ->. congruence.
  - unfold stored, upd_header.
    change (chain (set_header ?f ?x) ?j) with (chain f j).
    fold h'. rewrite chain_insert by lia.
    destruct (decide (h' = h)) as [Eh | ?]; [| reflexivity].
    rewrite Eh. cbn [chain_find key]. unfold strcmp_eq.
    rewrite cstr_sub_bytes, bool_decide_eq_false_2 by exact Hne.
    destruct (chain_find k' (chain file h)) as [m |]; reflexivity.
Qed.

Lemma passes_check_set_meta_data (file : sif_file) (x : list (list sif_meta_data)) :
  passes_check file -> passes_check (set_meta_data file x).
Proof. intros H. exact H. Qed.

Lemma passes_check_n_keys (file : sif_file) (x : Z) :
  passes_check file -> passes_check (upd_header file (hd_set_n_keys x)).
Proof.
  unfold passes_check, upd_header, hdr. cbn [header set_header].
  destruct (header file); [| tauto]. intros H. exact H.
Qed.

(** The shape of the handle after a set: the table with one chain replaced,
    and the count advanced when a record is added. *)
Lemma set_meta_data_shape (file : sif_file) (k buf : list Z) (n : Z) :
  passes_check file ->
  let h := Z.rem (_sif_hash k) SIF_HASH_TABLE_SIZE in
  let file' := sif_set_meta_data_binary file k buf n in
  (file' = file)
  \/ (exists p r r',
        chain file h !! p = Some r
        /\ file' = set_meta_data file
                     (<[Z.to_nat h := <[p := r']> (chain file h)]> (meta_data file)))
  \/ (exists r,
        file' = upd_header
                  (set_meta_data file
                     (<[Z.to_nat h := r :: chain file h]> (meta_data file)))
                  (hd_set_n_keys (n_keys (hdr file) + 1))).
Proof.
  intros Hc h file'. subst file'.
  unfold sif_set_meta_data_binary, _sif_set_meta_data_len, _sif_get_meta_data_pair,
    _sif_insert_meta_data_pair.
  rewrite !SIF_CHECK_FILE_pass by exact Hc. fold h.
  destruct (chain_find k (chain file h)) as [p |] eqn:F; cbn [fmap option_fmap option_map].
  - destruct (chain_find_lt _ _ _ F) as (r & Hr & Hk).
    unfold md_deref. cbn [fst snd]. rewrite Hr.
    destruct (n =? value_length r); cbn [negb]; [left; reflexivity |].
    right. left. eexists p, r, _. split; [exact Hr | reflexivity].
  - right. right. eexists. reflexivity.
Qed.

Lemma meta_records_concat (file : sif_file) :
  table_allocated file -> meta_records file = concat (meta_data file).
Proof.
  unfold table_allocated, meta_records. intros Ht. f_equal.
  apply list_eq. intros i. rewrite list_lookup_fmap.
  destruct (decide (i < Z.to_nat SIF_HASH_TABLE_SIZE)%nat) as [Hi | Hi].
  - rewrite lookup_seqZ_lt by lia. cbn [fmap option_fmap option_map]. unfold chain.
    replace (Z.to_nat (0 + Z.of_nat i)) with i by lia.
    destruct (lookup_lt_is_Some_2 (meta_data file) i ltac:(lia)) as [x Hx].
    rewrite Hx. reflexivity.
  - rewrite lookup_seqZ_ge by lia. symmetry. apply lookup_ge_None. lia.
Qed.

Lemma concat_length_insert {A} (l : list (list A)) (i : nat) (q q' : list A) :
  l !! i = Some q ->
  (length (concat (<[i := q']> l)) + length q = length (concat l) + length q')%nat.
Proof.
  intros H. pose proof (lookup_lt_Some _ _ _ H) as Hlt.
  rewrite insert_take_drop by exact Hlt.
  rewrite <- (take_drop_middle l i q H) at 3.
  rewrite !concat_app, !concat_cons, !length_app. lia.
Qed.

Lemma chain_lookup (file : sif_file) (h : Z) :
  0 <= h < Z.of_nat (length (meta_data file)) ->
  meta_data file !! Z.to_nat h = Some (chain file h).
Proof.
  intros H. unfold chain.
  destruct (lookup_lt_is_Some_2 (meta_data file) (Z.to_nat h) ltac:(lia)) as [x Hx].
  rewrite Hx. reflexivity.
Qed.

(** X5.  A set of [n] bytes, [0 < n], under a key that is not stored, or is
    stored with a value of another length, makes [sif_get_meta_data_binary]
    return the [n] bytes written, with length [n]; the binary value may
    hold NUL bytes.  (With [n <= 0] the allocation of the value fails or is
    left to the allocator, and nothing is said.) *)
Theorem meta_data_set_then_get (file : sif_file) (k buf : list Z) (n m : Z) :
  passes_check file -> table_allocated file -> 0 < n ->
  (snd (fst (sif_get_meta_data_binary file k m)) = None
   \/ snd (sif_get_meta_data_binary file k m) <> n) ->
  sif_get_meta_data_binary (sif_set_meta_data_binary file k buf n) k m
  = (sif_set_meta_data_binary file k buf n, Some (sub_bytes buf 0 n), n).
Proof.
  intros Hc Ht Hn Hold.
  assert (passes_check (sif_set_meta_data_binary file k buf n)) as Hc'.
  { destruct (set_meta_data_shape file k buf n Hc) as [E | [(p & r & r' & _ & E) | (r & E)]];
      rewrite E; [exact Hc | exact Hc | apply passes_check_n_keys; exact Hc]. }
  rewrite stored_get_binary in Hold by exact Hc.
  rewrite stored_get_binary by exact Hc'.
  rewrite stored_set_same by assumption.
  destruct (stored file k) as [i |]; [| reflexivity].
  cbn [fst snd] in Hold. destruct Hold as [? | Hlen]; [discriminate |].
  destruct (n =? value_length i) eqn:E; [lia | reflexivity].
Qed.

(** X6.  A set under one key changes neither the value nor the length that
    [sif_get_meta_data_binary] returns for any other key. *)
Theorem meta_data_set_keeps_other_keys (file : sif_file) (k k' buf : list Z) (n m : Z) :
  passes_check file -> table_allocated file -> cstr k' <> cstr k ->
  snd (fst (sif_get_meta_data_binary (sif_set_meta_data_binary file k buf n) k' m))
  = snd (fst (sif_get_meta_data_binary file k' m))
  /\ snd (sif_get_meta_data_binary (sif_set_meta_data_binary file k buf n) k' m)
     = snd (sif_get_meta_data_binary file k' m).
Proof.
  intros Hc Ht Hne.
  assert (passes_check (sif_set_meta_data_binary file k buf n)) as Hc'.
  { destruct (set_meta_data_shape file k buf n Hc) as [E | [(p & r & r' & _ & E) | (r & E)]];
      rewrite E; [exact Hc | exact Hc | apply passes_check_n_keys; exact Hc]. }
  rewrite (stored_get_binary file) by exact Hc.
  rewrite !stored_get_binary by exact Hc'.
  rewrite stored_set_other by assumption.
  destruct (stored file k'); split; reflexivity.
Qed.

(** X7.  [sif_remove_meta_data_item] unlinks the record and leaves the header
    alone: a key that was missing, is set to a value of [n] bytes, [0 < n],
    and is removed again is missing again, the table is the one before the
    set, and [n_keys] still counts the removed record. *)
Theorem meta_data_remove_keeps_count (file : sif_file) (k buf : list Z) (n m : Z) :
  passes_check file -> table_allocated file -> 0 < n ->
  snd (fst (sif_get_meta_data_binary file k m)) = None ->
  let file' := sif_remove_meta_data_item (sif_set_meta_data_binary file k buf n) k in
  file' = upd_header file (hd_set_n_keys (n_keys (hdr file) + 1))
  /\ sif_get_meta_data_num_items file' = sif_get_meta_data_num_items file + 1
  /\ sif_get_meta_data_binary file' k m
     = (set_error file' SIF_ERROR_META_DATA_KEY, None, 0).
Proof.
  intros Hc Ht Hn Hold file'.
  pose proof (hash_index_range k) as Hh.
  rewrite stored_get_binary in Hold by exact Hc.
  assert (stored file k = None) as Hs.
  { destruct (stored file k); [discriminate | reflexivity]. }
  assert (file' = upd_header file (hd_set_n_keys (n_keys (hdr file) + 1))) as E.
  { subst file'. unfold stored in Hs.
    unfold sif_set_meta_data_binary, _sif_set_meta_data_len, _sif_get_meta_data_pair,
      _sif_insert_meta_data_pair.
    rewrite !SIF_CHECK_FILE_pass by exact Hc.
    set (h := Z.rem (_sif_hash k) SIF_HASH_TABLE_SIZE) in *.
    destruct (chain_find k (chain file h)) as [p |] eqn:F.
    { destruct (chain_find_lt _ _ _ F) as (r & Hr & _).
      cbn in Hs. rewrite Hr in Hs. discriminate. }
    cbn [fmap option_fmap option_map].
    set (x := mk_meta_data _ _ _ _).
    set (g := upd_header _ _).
    assert (passes_check g) as Hg by (apply passes_check_n_keys; exact Hc).
    unfold sif_remove_meta_data_item, _sif_unlink_meta_data_pair.
    rewrite !SIF_CHECK_FILE_pass by exact Hg. fold h.
    assert (chain g h = x :: chain file h) as Eg.
    { subst g. unfold upd_header.
      change (chain (set_header ?f ?y) ?j) with (chain f j).
      unfold table_allocated in Ht.
      rewrite chain_insert by lia. destruct (decide (h = h)); [reflexivity | contradiction]. }
    rewrite Eg. cbn [chain_find]. subst x. cbn [key]. unfold strcmp_eq.
    rewrite cstr_sub_bytes, bool_decide_eq_true_2 by reflexivity.
    cbn [fst delete list_delete].
    subst g. unfold upd_header.
    cbn [meta_data set_meta_data set_header hdr header].
    unfold table_allocated in Ht.
    rewrite list_insert_insert_eq.
    rewrite (list_insert_id (meta_data file) (Z.to_nat h) (chain file h))
      by (apply chain_lookup; lia).
    destruct file as [? hdq ? ? ? ? ? ? ? ? ? ? ? ? ?]. reflexivity. }
  split; [exact E |]. split.
  - rewrite E. unfold sif_get_meta_data_num_items, upd_header, hdr.
    cbn [header set_header default n_keys hd_set_n_keys]. reflexivity.
  - rewrite stored_get_binary by (rewrite E; apply passes_check_n_keys; exact Hc).
    replace (stored file' k) with (stored file k); [rewrite Hs; reflexivity |].
    rewrite E. reflexivity.
Qed.

(** X8.  [sif_set_meta_data_binary] keeps the header's [n_keys] equal to the
    number of records in the table, and keeps the handle checkable and the
    table allocated. *)
Theorem meta_data_set_keeps_count (file : sif_file) (k buf : list Z) (n : Z) :
  passes_check file -> table_allocated file -> meta_count_ok file ->
  passes_check (sif_set_meta_data_binary file k buf n)
  /\ table_allocated (sif_set_meta_data_binary file k buf n)
  /\ meta_count_ok (sif_set_meta_data_binary file k buf n).
Proof.
  intros Hc Ht Hn. pose proof (hash_index_range k) as Hh.
  assert (0 <= Z.rem (_sif_hash k) SIF_HASH_TABLE_SIZE
          < Z.of_nat (length (meta_data file))) as Hh'.
  { unfold table_allocated in Ht. rewrite Ht. lia. }
  destruct (set_meta_data_shape file k buf n Hc) as [E | [(p & r & r' & Hr & E) | (r & E)]];
    rewrite E.
  - tauto.
  - split; [exact Hc |].
    assert (table_allocated
              (set_meta_data file
                 (<[Z.to_nat (Z.rem (_sif_hash k) SIF_HASH_TABLE_SIZE) :=
                      <[p := r']> (chain file (Z.rem (_sif_hash k) SIF_HASH_TABLE_SIZE))]>
                    (meta_data file)))) as Ht'.
    { unfold table_allocated. cbn [meta_data set_meta_data]. rewrite length_insert. exact Ht. }
    split; [exact Ht' |].
    unfold meta_count_ok in *. rewrite meta_records_concat by exact Ht'.
    rewrite meta_records_concat in Hn by exact Ht.
    cbn [meta_data set_meta_data].
    change (hdr (set_meta_data file ?x)) with (hdr file).
    pose proof (concat_length_insert (meta_data file) _ _
                  (<[p := r']> (chain file (Z.rem (_sif_hash k) SIF_HASH_TABLE_SIZE)))
                  (chain_lookup file _ Hh')) as L.
    rewrite length_insert in L. lia.
  - split; [apply passes_check_n_keys; exact Hc |].
    assert (table_allocated
              (upd_header
                 (set_meta_data file
                    (<[Z.to_nat (Z.rem (_sif_hash k) SIF_HASH_TABLE_SIZE) :=
                         r :: chain file (Z.rem (_sif_hash k) SIF_HASH_TABLE_SIZE)]>
                       (meta_data file)))
                 (hd_set_n_keys (n_keys (hdr file) + 1)))) as Ht'.
    { unfold table_allocated, upd_header. cbn [meta_data set_meta_data set_header].
      rewrite length_insert. exact Ht. }
    split; [exact Ht' |].
    unfold meta_count_ok in *. rewrite meta_records_concat by exact Ht'.
    rewrite meta_records_concat in Hn by exact Ht.
    unfold upd_header, hdr.
    cbn [meta_data set_meta_data set_header header default n_keys hd_set_n_keys].
    pose proof (concat_length_insert (meta_data file) _ _
                  (r :: chain file (Z.rem (_sif_hash k) SIF_HASH_TABLE_SIZE))
                  (chain_lookup file _ Hh')) as L.
    cbn [length] in L. fold (hdr file).
    change (n_keys (id (hd_set_n_keys (n_keys (hdr file) + 1) (hdr file))))
      with (n_keys (hdr file) + 1). lia.
Qed.

Lemma meta_data_set_then_get_witness :
  exists file,
    one_tile_file 1 = Some file
    /\ passes_check file /\ table_allocated file
    /\ (snd (fst (sif_get_meta_data_binary file [107; 0] 0)) = None
        \/ snd (sif_get_meta_data_binary file [107; 0] 0) <> 2)
    /\ sif_get_meta_data_binary (sif_set_meta_data_binary file [107; 0] [0; 255] 2) [107; 0] 0
       = (sif_set_meta_data_binary file [107; 0] [0; 255] 2, Some (sub_bytes [0; 255] 0 2), 2).
Proof.
  eexists. split; [vm_compute; reflexivity |].
  split; [vm_compute; congruence |].
  split; [vm_compute; reflexivity |].
  split; [left; vm_compute; reflexivity |].
  apply meta_data_set_then_get.
  - vm_compute. congruence.
  - vm_compute. reflexivity.
  - lia.
  - left. vm_compute. reflexivity.
Defined.

Lemma meta_data_set_keeps_other_keys_witness :
  exists file,
    one_tile_file 1 = Some file
    /\ passes_check file /\ table_allocated file /\ cstr [108; 0] <> cstr [107; 0]
    /\ snd (fst (sif_get_meta_data_binary
                   (sif_set_meta_data_binary file [107; 0] [0; 255] 2) [108; 0] 0))
       = snd (fst (sif_get_meta_data_binary file [108; 0] 0))
    /\ snd (sif_get_meta_data_binary
              (sif_set_meta_data_binary file [107; 0] [0; 255] 2) [108; 0] 0)
       = snd (sif_get_meta_data_binary file [108; 0] 0).
Proof.
  eexists. split; [vm_compute; reflexivity |].
  split; [vm_compute; congruence |].
  split; [vm_compute; reflexivity |].
  split; [vm_compute; congruence |].
  apply meta_data_set_keeps_other_keys.
  - vm_compute. congruence.
  - vm_compute. reflexivity.
  - vm_compute. congruence.
Defined.

Lemma meta_data_remove_keeps_count_witness :
  exists file,
    one_tile_file 1 = Some file
    /\ passes_check file /\ table_allocated file
    /\ snd (fst (sif_get_meta_data_binary file [107; 0] 0)) = None
    /\ (let file' :=
          sif_remove_meta_data_item (sif_set_meta_data_binary file [107; 0] [0; 255] 2)
                                    [107; 0] in
        file' = upd_header file (hd_set_n_keys (n_keys (hdr file) + 1))
        /\ sif_get_meta_data_num_items file' = sif_get_meta_data_num_items file + 1
        /\ sif_get_meta_data_binary file' [107; 0] 0
           = (set_error file' SIF_ERROR_META_DATA_KEY, None, 0)).
Proof.
  eexists. split; [vm_compute; reflexivity |].
  split; [vm_compute; congruence |].
  split; [vm_compute; reflexivity |].
  split; [vm_compute; reflexivity |].
  apply meta_data_remove_keeps_count.
  - vm_compute. congruence.
  - vm_compute. reflexivity.
  - lia.
  - vm_compute. reflexivity.
Defined.

Lemma meta_data_set_keeps_count_witness :
  exists file,
    one_tile_file 1 = Some file
    /\ (passes_check file /\ table_allocated file /\ meta_count_ok file)
    /\ passes_check (sif_set_meta_data_binary file [107; 0] [0; 255] 2)
    /\ table_allocated (sif_set_meta_data_binary file [107; 0] [0; 255] 2)
    /\ meta_count_ok (sif_set_meta_data_binary file [107; 0] [0; 255] 2).
Proof.
  eexists. split; [vm_compute; reflexivity |].
  split; [split; [vm_compute; congruence | split; vm_compute; reflexivity] |].
  apply meta_data_set_keeps_count.
  - vm_compute. congruence.
  - vm_compute. reflexivity.
  - vm_compute. reflexivity.
Defined.

(** ** Projection and agreement strings *)

Lemma stored_get (file : sif_file) (k : list Z) :
  passes_check file ->
  sif_get_meta_data file k
  = match stored file k with
    | Some q =>
        if _sif_null_terminator_check (value q) (value_length q) =? 0
        then (set_error file SIF_ERROR_META_DATA_VALUE, Some (value q))
        else (file, Some (value q))
    | None => (set_error file SIF_ERROR_META_DATA_KEY, None)
    end.
Proof.
  intros Hc. unfold sif_get_meta_data, _sif_get_meta_data_pair, stored.
  rewrite !SIF_CHECK_FILE_pass by exact Hc.
  unfold md_deref.
  destruct (chain_find k _) as [n |]; reflexivity.
Qed.

(** X9.  Without a stored projection (agreement), [sif_get_projection]
    ([sif_get_agreement]) returns the empty string and leaves
    [SIF_ERROR_NONE] in the error field, whatever the field held before the
    call. *)
Theorem get_projection_of_missing_key (file : sif_file) (e : Z) :
  passes_check file ->
  snd (fst (sif_get_meta_data_binary file str_sif_proj 0)) = None ->
  snd (fst (sif_get_meta_data_binary file str_sif_agree 0)) = None ->
  sif_get_projection (set_error file e) = (set_error file SIF_ERROR_NONE, Some str_empty)
  /\ sif_get_agreement (set_error file e) = (set_error file SIF_ERROR_NONE, Some str_empty).
Proof.
  intros Hc Hp Ha.
  assert (forall k, snd (fst (sif_get_meta_data_binary file k 0)) = None ->
                    get_string_or_empty (set_error file e) k
                    = (set_error file SIF_ERROR_NONE, Some str_empty)) as H.
  { intros k Hk. rewrite stored_get_binary in Hk by exact Hc.
    assert (stored file k = None) as Hs
      by (destruct (stored file k); [discriminate | reflexivity]).
    unfold get_string_or_empty.
    rewrite SIF_CHECK_FILE_pass by exact Hc.
    rewrite stored_get by exact Hc.
    change (stored (set_error file e) k) with (stored file k). rewrite Hs.
    reflexivity. }
  split; apply H; assumption.
Qed.

Lemma get_projection_of_missing_key_witness :
  exists file,
    one_tile_file 1 = Some file
    /\ passes_check file
    /\ snd (fst (sif_get_meta_data_binary file str_sif_proj 0)) = None
    /\ snd (fst (sif_get_meta_data_binary file str_sif_agree 0)) = None
    /\ sif_get_projection (set_error file SIF_ERROR_READ)
       = (set_error file SIF_ERROR_NONE, Some str_empty)
    /\ sif_get_agreement (set_error file SIF_ERROR_READ)
       = (set_error file SIF_ERROR_NONE, Some str_empty).
Proof.
  eexists. split; [vm_compute; reflexivity |].
  split; [vm_compute; congruence |].
  split; [vm_compute; reflexivity |].
  split; [vm_compute; reflexivity |].
  apply get_projection_of_missing_key.
  - vm_compute. congruence.
  - vm_compute. reflexivity.
  - vm_compute. reflexivity.
Defined.

(** ** Files as byte sequences *)

Lemma sub_bytes_all (buf : list Z) (n : Z) :
  Z.of_nat (length buf) = n -> sub_bytes buf 0 n = buf.
Proof.
  intros H. unfold sub_bytes. cbn [Z.ltb Z.compare]. rewrite drop_0.
  replace (Z.to_nat n) with (length buf) by lia. apply resize_all.
Qed.

Lemma pwrite_app (c : list Z) (p : Z) (a b : list Z) :
  0 <= p ->
  pwrite (pwrite c p a) (p + Z.of_nat (length a)) b = pwrite c p (a ++ b).
Proof.
  intros Hp. unfold pwrite.
  replace (Z.to_nat (p + Z.of_nat (length a))) with (Z.to_nat p + length a)%nat by lia.
  set (n := Z.to_nat p).
  assert (length (resize n 0 c) = n) as Ln by apply length_resize.
  rewrite (app_assoc (resize n 0 c) a).
  rewrite resize_app_le by (rewrite length_app; lia).
  rewrite resize_all_alt by (rewrite length_app; lia).
  rewrite drop_app_ge by (rewrite length_app; lia).
  rewrite drop_drop, !length_app, Ln.
  rewrite <- !app_assoc. do 3 f_equal. f_equal. lia.
Qed.

Lemma pwrite_0 (c : list Z) (a : list Z) : pwrite c 0 a = a ++ drop (length a) c.
Proof. unfold pwrite. change (Z.to_nat 0) with 0%nat. rewrite resize_0. reflexivity. Qed.

Lemma pwrite_0_overwrite (c a a' b : list Z) :
  length a' = length a -> pwrite (pwrite c 0 (a ++ b)) 0 a' = pwrite c 0 (a' ++ b).
Proof.
  intros H. rewrite !pwrite_0. rewrite <- !app_assoc. f_equal.
  rewrite H, drop_app_length. f_equal. rewrite !length_app, H. reflexivity.
Qed.

(** Writing a chunk after the chunks [acc] written from offset [p]. *)
Lemma fwrite_acc (buf : list Z) (els nel : Z) (c : list Z) (p : Z) (acc : list Z) :
  0 <= p -> 0 < els -> 0 < nel -> Z.of_nat (length buf) = els * nel ->
  snd (fwrite buf els nel (mkFILE (pwrite c p acc) (p + Z.of_nat (length acc))))
  = mkFILE (pwrite c p (acc ++ buf)) (p + Z.of_nat (length (acc ++ buf))).
Proof.
  intros Hp H1 H2 Hl. unfold fwrite.
  destruct (els <=? 0) eqn:E1; [lia |]. destruct (nel <=? 0) eqn:E2; [lia |].
  cbn [orb snd contents position]. rewrite sub_bytes_all by exact Hl.
  rewrite pwrite_app by exact Hp. f_equal. rewrite length_app. lia.
Qed.

Lemma FWRITE64_acc {A} (ret : sif_file -> A) (file : sif_file) (buf : list Z)
    (els nel : Z) (k : sif_file -> A) (c : list Z) (p : Z) (acc : list Z) :
  fp file = mkFILE (pwrite c p acc) (p + Z.of_nat (length acc)) ->
  0 <= p -> 0 < els -> 0 < nel -> Z.of_nat (length buf) = els * nel ->
  FWRITE64_ ret file buf els nel k
  = k (set_fp file (mkFILE (pwrite c p (acc ++ buf)) (p + Z.of_nat (length (acc ++ buf))))).
Proof.
  intros Hf Hp H1 H2 Hl. rewrite FWRITE64_ok by assumption.
  rewrite Hf, fwrite_acc by assumption. reflexivity.
Qed.

Lemma FWRITE64INT32_acc {A} (ret : sif_file -> A) (file : sif_file) (vv : Z)
    (k : sif_file -> A) (c : list Z) (p : Z) (acc : list Z) :
  fp file = mkFILE (pwrite c p acc) (p + Z.of_nat (length acc)) -> 0 <= p ->
  FWRITE64INT32_ ret file vv k
  = k (set_fp file (mkFILE (pwrite c p (acc ++ _sif_int32_to_packed_bytes vv))
                           (p + Z.of_nat (length (acc ++ _sif_int32_to_packed_bytes vv))))).
Proof.
  intros Hf Hp. rewrite FWRITE64INT32_ok.
  rewrite Hf, fwrite_acc by (try assumption; try reflexivity; lia). reflexivity.
Qed.

Lemma write_int32s_acc {A} (ret : sif_file -> A) (vs : list Z) :
  forall (file : sif_file) (k : sif_file -> A) (c : list Z) (p : Z) (acc : list Z),
    fp file = mkFILE (pwrite c p acc) (p + Z.of_nat (length acc)) -> 0 <= p ->
    write_int32s ret file vs k
    = k (set_fp file
           (mkFILE (pwrite c p (acc ++ concat (map _sif_int32_to_packed_bytes vs)))
                   (p + Z.of_nat (length (acc ++ concat (map _sif_int32_to_packed_bytes vs)))))).
Proof.
  induction vs as [| v vs IH]; intros file k c p acc Hf Hp.
  - cbn [write_int32s map concat]. rewrite app_nil_r. rewrite <- Hf.
    destruct file. reflexivity.
  - cbn [write_int32s map concat].
    rewrite (FWRITE64INT32_acc ret file v _ c p acc Hf Hp).
    rewrite (IH _ k c p (acc ++ _sif_int32_to_packed_bytes v)) by (try reflexivity; assumption).
    rewrite <- app_assoc. reflexivity.
Qed.

Lemma take_drop_chunk (pre chunk todo : list Z) :
  take (length chunk) (drop (length pre) (pre ++ chunk ++ todo)) = chunk.
Proof. rewrite drop_app_length. apply take_app_length. Qed.

(** Reading the chunk under the cursor: the file holds [pre ++ chunk ++ todo]
    and stands after [pre]. *)
Lemma FREAD64_cursor {A} (ret : sif_file -> A) (file : sif_file) (els nel : Z)
    (k : sif_file -> list Z -> A) (pre chunk todo : list Z) :
  fp file = mkFILE (pre ++ chunk ++ todo) (Z.of_nat (length pre)) ->
  0 < els -> 0 < nel -> Z.of_nat (length chunk) = els * nel ->
  FREAD64_ ret file els nel k
  = k (set_fp file (mkFILE ((pre ++ chunk) ++ todo) (Z.of_nat (length (pre ++ chunk)))))
      chunk.
Proof.
  intros Hf H1 H2 Hl.
  rewrite FREAD64_ok; rewrite ?Hf; cbn [contents position]; try lia.
  - rewrite Nat2Z.id. replace (Z.to_nat (els * nel)) with (length chunk) by lia.
    rewrite take_drop_chunk. rewrite <- app_assoc. rewrite length_app.
    repeat f_equal. lia.
  - rewrite !length_app. lia.
Qed.

Lemma read_int32_cursor (file : sif_file) (v : Z) (pre todo : list Z) :
  fp file = mkFILE (pre ++ _sif_int32_to_packed_bytes v ++ todo) (Z.of_nat (length pre)) ->
  _sif_read_int32 file
  = (set_fp file (mkFILE ((pre ++ _sif_int32_to_packed_bytes v) ++ todo)
                         (Z.of_nat (length (pre ++ _sif_int32_to_packed_bytes v)))),
     1, wrap32 v).
Proof.
  intros Hf. unfold _sif_read_int32, fread. rewrite Hf. cbn [orb Z.leb Z.compare contents position].
  rewrite Nat2Z.id. change (Z.to_nat (1 * 4)) with (length (_sif_int32_to_packed_bytes v)).
  rewrite take_drop_chunk. cbn [length Z.of_nat Pos.of_succ_nat Pos.succ Z.quot Z.quotrem
                                Z.pos_div_eucl Z.eqb].
  change (Z.quot 4 1 =? 4) with true. cbn match.
  rewrite packed_int32_decode_encode, <- app_assoc, length_app.
  repeat f_equal. cbn [length]. lia.
Qed.

Lemma FREAD64INT32_cursor {A} (ret : sif_file -> A) (file : sif_file)
    (k : sif_file -> Z -> A) (v : Z) (pre todo : list Z) :
  fp file = mkFILE (pre ++ _sif_int32_to_packed_bytes v ++ todo) (Z.of_nat (length pre)) ->
  FREAD64INT32_ ret file k
  = k (set_fp file (mkFILE ((pre ++ _sif_int32_to_packed_bytes v) ++ todo)
                           (Z.of_nat (length (pre ++ _sif_int32_to_packed_bytes v)))))
      (wrap32 v).
Proof.
  intros Hf. unfold FREAD64INT32_. rewrite (read_int32_cursor file v pre todo Hf).
  reflexivity.
Qed.

Lemma read_int32s_cursor {A} (ret : sif_file -> A) (vs : list Z) :
  forall (file : sif_file) (k : sif_file -> list Z -> A) (pre todo : list Z),
    fp file = mkFILE (pre ++ concat (map _sif_int32_to_packed_bytes vs) ++ todo)
                     (Z.of_nat (length pre)) ->
    read_int32s ret file (length vs) k
    = k (set_fp file
           (mkFILE ((pre ++ concat (map _sif_int32_to_packed_bytes vs)) ++ todo)
                   (Z.of_nat (length (pre ++ concat (map _sif_int32_to_packed_bytes vs))))))
        (map wrap32 vs).
Proof.
  induction vs as [| v vs IH]; intros file k pre todo Hf.
  - cbn [read_int32s map concat length]. cbn [map concat app] in Hf.
    rewrite app_nil_r. rewrite <- Hf. destruct file. reflexivity.
  - cbn [read_int32s map concat length].
    cbn [map concat] in Hf. rewrite <- app_assoc in Hf.
    rewrite (FREAD64INT32_cursor ret file _ v pre _ Hf).
    rewrite (IH _ _ (pre ++ _sif_int32_to_packed_bytes v) todo) by reflexivity.
    rewrite <- !app_assoc. reflexivity.
Qed.

Lemma hton_length (host : byte_order) (d : double) :
  length d = 8%nat -> length (_sif_hton_double64 host d) = 8%nat.
Proof. intros H. destruct host; [reflexivity | exact H]. Qed.

Lemma ntoh_hton (host : byte_order) (d : double) :
  length d = 8%nat -> _sif_ntoh_double64 host (_sif_hton_double64 host d) = d.
Proof.
  intros H. do 8 (destruct d as [| ? d]; [discriminate H |]).
  destruct d; [| discriminate H]. destruct host; reflexivity.
Qed.

Lemma write_raw_doubles_acc {A} (ret : sif_file -> A) (ds : list double) :
  forall (file : sif_file) (k : sif_file -> A) (c : list Z) (p : Z) (acc : list Z),
    Forall (fun d => length d = 8%nat) ds ->
    fp file = mkFILE (pwrite c p acc) (p + Z.of_nat (length acc)) -> 0 <= p ->
    write_raw_doubles ret file ds k
    = k (set_fp file (mkFILE (pwrite c p (acc ++ concat ds))
                             (p + Z.of_nat (length (acc ++ concat ds))))).
Proof.
  induction ds as [| d ds IH]; intros file k c p acc Hd Hf Hp.
  - cbn [write_raw_doubles concat]. rewrite app_nil_r. rewrite <- Hf.
    destruct file. reflexivity.
  - apply Forall_cons_1 in Hd as [Hd Hds]. cbn [write_raw_doubles concat].
    rewrite (FWRITE64_acc ret file d 8 1 _ c p acc Hf Hp) by lia.
    rewrite (IH _ k c p (acc ++ d)) by (try reflexivity; assumption).
    rewrite <- app_assoc. reflexivity.
Qed.

Lemma write_net_doubles_acc {A} (host : byte_order) (ret : sif_file -> A)
    (ds : list double) :
  forall (file : sif_file) (k : sif_file -> A) (c : list Z) (p : Z) (acc : list Z),
    Forall (fun d => length d = 8%nat) ds ->
    fp file = mkFILE (pwrite c p acc) (p + Z.of_nat (length acc)) -> 0 <= p ->
    write_net_doubles host ret file ds k
    = k (set_fp file
           (mkFILE (pwrite c p (acc ++ concat (map (_sif_hton_double64 host) ds)))
                   (p + Z.of_nat (length (acc ++ concat (map (_sif_hton_double64 host) ds)))))).
Proof.
  induction ds as [| d ds IH]; intros file k c p acc Hd Hf Hp.
  - cbn [write_net_doubles map concat]. rewrite app_nil_r. rewrite <- Hf.
    destruct file. reflexivity.
  - apply Forall_cons_1 in Hd as [Hd Hds]. cbn [write_net_doubles map concat].
    unfold FWRITE64DOUBLE64_, _sif_write_double64.
    rewrite Hf.
    pose proof (fwrite_acc (_sif_hton_double64 host d) 1 8 c p acc Hp ltac:(lia) ltac:(lia)
                  ltac:(rewrite hton_length by exact Hd; reflexivity)) as Hw.
    destruct (fwrite (_sif_hton_double64 host d) 1 8 _) as [n fp'] eqn:Ew.
    assert (n = 8) as ->.
    { unfold fwrite in Ew. cbn [orb Z.leb Z.compare] in Ew. congruence. }
    cbn [snd] in Hw. subst fp'. cbn [Z.eqb Pos.eqb].
    rewrite (IH _ k c p (acc ++ _sif_hton_double64 host d)) by (try reflexivity; assumption).
    rewrite <- app_assoc. reflexivity.
Qed.

Lemma read_raw_doubles_cursor {A} (ret : sif_file -> A) (ds : list double) :
  forall (file : sif_file) (k : sif_file -> list double -> A) (pre todo : list Z),
    Forall (fun d => length d = 8%nat) ds ->
    fp file = mkFILE (pre ++ concat ds ++ todo) (Z.of_nat (length pre)) ->
    read_raw_doubles ret file (length ds) k
    = k (set_fp file (mkFILE ((pre ++ concat ds) ++ todo)
                             (Z.of_nat (length (pre ++ concat ds)))))
        ds.
Proof.
  induction ds as [| d ds IH]; intros file k pre todo Hd Hf.
  - cbn [read_raw_doubles concat length]. cbn [concat app] in Hf.
    rewrite app_nil_r. rewrite <- Hf. destruct file. reflexivity.
  - apply Forall_cons_1 in Hd as [Hd Hds]. cbn [read_raw_doubles concat length].
    cbn [concat] in Hf. rewrite <- app_assoc in Hf.
    rewrite (FREAD64_cursor ret file 8 1 _ pre d _ Hf) by lia.
    rewrite (IH _ _ (pre ++ d) todo) by (try reflexivity; assumption).
    rewrite <- !app_assoc. reflexivity.
Qed.

Lemma read_double64_cursor (host : byte_order) (file : sif_file) (d : double)
    (pre todo : list Z) :
  length d = 8%nat ->
  fp file = mkFILE (pre ++ _sif_hton_double64 host d ++ todo) (Z.of_nat (length pre)) ->
  _sif_read_double64 host file
  = (set_fp file (mkFILE ((pre ++ _sif_hton_double64 host d) ++ todo)
                         (Z.of_nat (length (pre ++ _sif_hton_double64 host d)))),
     1, d).
Proof.
  intros Hd Hf. unfold _sif_read_double64, fread. rewrite Hf.
  cbn [orb Z.leb Z.compare contents position].
  rewrite Nat2Z.id.
  replace (Z.to_nat (1 * 8)) with (length (_sif_hton_double64 host d))
    by (rewrite hton_length by exact Hd; reflexivity).
  rewrite take_drop_chunk. rewrite hton_length by exact Hd.
  change (Z.quot (Z.of_nat 8) 1 =? 8) with true. cbn match.
  rewrite ntoh_hton by exact Hd. rewrite <- app_assoc, length_app.
  repeat f_equal. rewrite hton_length by exact Hd. lia.
Qed.

Lemma read_net_doubles_cursor {A} (host : byte_order) (ret : sif_file -> A)
    (ds : list double) :
  forall (file : sif_file) (k : sif_file -> list double -> A) (pre todo : list Z),
    Forall (fun d => length d = 8%nat) ds ->
    fp file = mkFILE (pre ++ concat (map (_sif_hton_double64 host) ds) ++ todo)
                     (Z.of_nat (length pre)) ->
    read_net_doubles host ret file (length ds) k
    = k (set_fp file
           (mkFILE ((pre ++ concat (map (_sif_hton_double64 host) ds)) ++ todo)
                   (Z.of_nat (length (pre ++ concat (map (_sif_hton_double64 host) ds))))))
        ds.
Proof.
  induction ds as [| d ds IH]; intros file k pre todo Hd Hf.
  - cbn [read_net_doubles map concat length]. cbn [map concat app] in Hf.
    rewrite app_nil_r. rewrite <- Hf. destruct file. reflexivity.
  - apply Forall_cons_1 in Hd as [Hd Hds]. cbn [read_net_doubles map concat length].
    cbn [map concat] in Hf. rewrite <- app_assoc in Hf.
    unfold FREAD64DOUBLE64_.
    rewrite (read_double64_cursor host file d pre _ Hd Hf). cbn [Z.eqb].
    rewrite (IH _ _ (pre ++ _sif_hton_double64 host d) todo) by (try reflexivity; assumption).
    rewrite <- !app_assoc. reflexivity.
Qed.

(** ** The header on disk *)

Lemma pwrite_nil (c : list Z) : pwrite c 0 [] = c.
Proof. rewrite pwrite_0. cbn [length app]. apply drop_0. Qed.

Lemma header_image_length (host : byte_order) (ver : Z) (hd : sif_header) :
  length (magic_number hd) = 8%nat ->
  length (affine_geo_transform hd) = 6%nat ->
  Forall (fun d => length d = 8%nat) (affine_geo_transform hd) ->
  length (header_image host ver hd) = 128%nat.
Proof.
  intros Hm Hg Hd. unfold header_image.
  rewrite !length_app, Hm.
  assert (forall ds : list double,
            Forall (fun d => length d = 8%nat) ds ->
            length (concat ds) = (8 * length ds)%nat) as Hc.
  { induction 1 as [| d ds Hd' _ IH]; [reflexivity |].
    cbn [concat length]. rewrite length_app, IH, Hd'. lia. }
  assert (length (concat (if ver <? 2 then affine_geo_transform hd
                          else map (_sif_hton_double64 host) (affine_geo_transform hd)))
          = 48%nat) as ->.
  { destruct (ver <? 2).
    - rewrite Hc, Hg by exact Hd. reflexivity.
    - rewrite Hc, length_map, Hg; [reflexivity |].
      apply Forall_fmap. eapply Forall_impl; [| exact Hd].
      intros d Hl. apply hton_length, Hl. }
  reflexivity.
Qed.

Lemma use_file_version_set_fp (f : sif_file) (x : FILE) :
  use_file_version (set_fp f x) = use_file_version f.
Proof. reflexivity. Qed.

Lemma use_file_version_upd_header (f : sif_file) (g : sif_header -> sif_header) :
  use_file_version (upd_header f g) = use_file_version f.
Proof. reflexivity. Qed.

Lemma hdr_set_fp (f : sif_file) (x : FILE) : hdr (set_fp f x) = hdr f.
Proof. reflexivity. Qed.

Lemma hdr_upd_header (f : sif_file) (g : sif_header -> sif_header) :
  hdr (upd_header f g) = g (hdr f).
Proof. reflexivity. Qed.

(** What [_sif_write_header] leaves: the image at the start of the file, the
    rest of the file as it was, and the version and size fields set. *)
Lemma write_header_result (host : byte_order) (file : sif_file) (hd : sif_header) :
  header file = Some hd ->
  length (magic_number hd) = 8%nat ->
  length (affine_geo_transform hd) = 6%nat ->
  Forall (fun d => length d = 8%nat) (affine_geo_transform hd) ->
  _sif_write_header host file
  = (set_header_bytes
       (set_fp (upd_header file (hd_set_version (use_file_version file)))
               (mkFILE (header_image host (use_file_version file) hd
                        ++ drop 128 (contents (fp file))) 4))
       128, 1).
Proof.
  intros Hh Hm Hg Hd.
  unfold _sif_write_header, int_ret.
  assert (hdr file = hd) as Ehd by (unfold hdr; rewrite Hh; reflexivity).
  rewrite Ehd. cbv zeta.
  set (c := contents (fp file)). set (ver := use_file_version file).
  rewrite FSEEK64_ok by lia. fold c.
  rewrite (FWRITE64INT32_acc _ _ 0 _ c 0 [])
    by (cbn [fp set_fp length Z.of_nat]; rewrite ?pwrite_nil; reflexivity || lia).
  rewrite (FWRITE64_acc _ _ (magic_number hd) 8 1 _ c 0 ([] ++ _sif_int32_to_packed_bytes 0))
    by (try reflexivity; rewrite ?Hm; lia).
  change (use_file_version (set_fp ?f ?x)) with (use_file_version f). fold ver.
  rewrite (FWRITE64INT32_acc _ _ ver _ c 0
             (([] ++ _sif_int32_to_packed_bytes 0) ++ magic_number hd))
    by (reflexivity || lia).
  rewrite (write_int32s_acc _ (header_ints hd) _ _ c 0
             ((([] ++ _sif_int32_to_packed_bytes 0) ++ magic_number hd)
              ++ _sif_int32_to_packed_bytes ver))
    by (reflexivity || lia).
  set (acc := ((([] ++ _sif_int32_to_packed_bytes 0) ++ magic_number hd)
               ++ _sif_int32_to_packed_bytes ver)
              ++ concat (map _sif_int32_to_packed_bytes (header_ints hd))).
  rewrite ?hdr_set_fp, ?hdr_upd_header, ?use_file_version_set_fp,
    ?use_file_version_upd_header, ?use_file_version_set_fp.
  fold ver. change (version (hd_set_version ver (hdr file))) with ver.
  rewrite orb_diag.
  set (g := upd_header _ _).
  assert (forall (f : sif_file) (ds : list Z),
            fp f = mkFILE (pwrite c 0 (acc ++ ds)) (0 + Z.of_nat (length (acc ++ ds))) ->
            FSEEK64_ (fun file0 => (file0, 0)) f 0
              (fun file0 =>
                 FWRITE64INT32_ (fun file1 => (file1, 0)) file0 (4 + 8 + 4 + 4 * 16 + 8 * 6)
                   (fun file1 => (set_header_bytes file1 (4 + 8 + 4 + 4 * 16 + 8 * 6), 1)))
            = (set_header_bytes
                 (set_fp f
                    (mkFILE (pwrite c 0 (_sif_int32_to_packed_bytes 128
                                         ++ magic_number hd ++ _sif_int32_to_packed_bytes ver
                                         ++ concat (map _sif_int32_to_packed_bytes (header_ints hd))
                                         ++ ds)) 4))
                 128, 1)) as Hend.
  { intros f ds Hf. rewrite FSEEK64_ok by lia.
    rewrite FWRITE64INT32_ok. cbn [fp set_fp contents]. rewrite Hf.
    unfold fwrite. cbn [orb Z.leb Z.compare snd contents position].
    rewrite sub_bytes_all by reflexivity.
    subst acc. rewrite <- !app_assoc. cbn [app].
    rewrite (pwrite_0_overwrite c (_sif_int32_to_packed_bytes 0)) by reflexivity.
    reflexivity. }
  assert (length (_sif_int32_to_packed_bytes 128 ++ magic_number hd
                  ++ _sif_int32_to_packed_bytes ver
                  ++ concat (map _sif_int32_to_packed_bytes (header_ints hd))
                  ++ concat (if ver <? 2 then affine_geo_transform hd
                             else map (_sif_hton_double64 host) (affine_geo_transform hd)))
          = 128%nat) as Hlen by (apply (header_image_length host ver hd Hm Hg Hd)).
  destruct (ver <? 2) eqn:Ev.
  - rewrite (write_raw_doubles_acc _ (affine_geo_transform hd) _ _ c 0 acc)
      by (assumption || reflexivity || lia).
    rewrite (Hend _ (concat (affine_geo_transform hd))) by reflexivity.
    cbv iota in Hlen. rewrite !pwrite_0, Hlen. unfold header_image. rewrite Ev.
    subst g. destruct file. reflexivity.
  - rewrite (write_net_doubles_acc host _ (affine_geo_transform hd) _ _ c 0 acc)
      by (assumption || reflexivity || lia).
    rewrite (Hend _ (concat (map (_sif_hton_double64 host) (affine_geo_transform hd))))
      by reflexivity.
    cbv iota in Hlen. rewrite !pwrite_0, Hlen. unfold header_image. rewrite Ev.
    subst g. destruct file. reflexivity.
Qed.

Lemma header_of_ints_wrap (magic : list Z) (ver : Z) (hd : sif_header) (geo : list double) :
  Forall int32 (header_ints hd) ->
  header_of_ints magic ver (map wrap32 (header_ints hd)) geo
  = mk_header magic ver (width hd) (height hd) (bands hd) (n_keys hd) (n_tiles hd)
      (tile_width hd) (tile_height hd) (tile_bytes hd) (n_tiles_across hd)
      (data_unit_size hd) (user_data_type hd) (defragment hd) (consolidate hd)
      (intrinsic_write hd) (tile_header_bytes hd) (n_uniform_flags hd) geo.
Proof.
  intros H. unfold header_ints in H.
  repeat (apply Forall_cons_1 in H as [?%wrap32_id H]).
  unfold header_of_ints, header_ints. cbn [map].
  repeat match goal with
         | |- context [arr_get ?l ?i] =>
             let v := eval cbv [arr_get Z.ltb Z.compare Z.to_nat Pos.to_nat Pos.iter_op
                                Init.Nat.add lookup list_lookup default id] in (arr_get l i) in
             change (arr_get l i) with v
         end.
  repeat match goal with
         | E : wrap32 _ = _ |- _ => rewrite E; clear E
         end.
  reflexivity.
Qed.

Lemma sif_file_ext (a b : sif_file) :
  fp a = fp b -> header a = header b -> tiles a = tiles b ->
  meta_data a = meta_data b -> read_only a = read_only b ->
  blocks_to_tiles a = blocks_to_tiles b -> dirty_tiles a = dirty_tiles b ->
  buffer0 a = buffer0 b -> buffer1 a = buffer1 b ->
  base_location a = base_location b -> error a = error b ->
  units_per_slice a = units_per_slice b -> units_per_tile a = units_per_tile b ->
  header_bytes a = header_bytes b -> use_file_version a = use_file_version b ->
  a = b.
Proof. destruct a, b. cbn. intros. subst. reflexivity. Qed.

(** What [_sif_read_header] finds in a file that starts with the image of a
    header. *)
Lemma read_header_result (host : byte_order) (g : sif_file) (ver : Z) (hd : sif_header)
    (rest : list Z) :
  header_fits ver hd ->
  contents (fp g) = header_image host ver hd ++ rest ->
  _sif_read_header host g
  = (mk_file (mkFILE (contents (fp g)) 128) (Some (hd_set_version ver hd)) (tiles g)
       (meta_data g) (read_only g) (blocks_to_tiles g) (dirty_tiles g) (buffer0 g)
       (buffer1 g) (base_location g) (error g) (units_per_slice g) (units_per_tile g)
       128 ver, 1).
Proof.
  intros Hfit Hc. pose proof Hfit as (Hm & Hg & Hd & Hi).
  pose proof (header_image_length host ver hd Hm Hg Hd) as Hlen.
  assert (wrap32 ver = ver) as Wv.
  { apply Forall_cons_1 in Hi as [Hv _]. apply wrap32_id, Hv. }
  unfold _sif_read_header, int_ret.
  rewrite FSEEK64_ok by lia. rewrite Hc. unfold header_image.
  rewrite (FREAD64INT32_cursor _ _ _ (4 + 8 + 4 + 4 * 16 + 8 * 6) [] _)
    by (cbn [fp set_fp app length Z.of_nat]; rewrite <- !app_assoc; reflexivity).
  rewrite (FREAD64_cursor _ _ 8 1 _ ([] ++ _sif_int32_to_packed_bytes 128) (magic_number hd) _)
    by (try reflexivity; rewrite ?Hm; lia).
  rewrite (FREAD64INT32_cursor _ _ _ ver
             (([] ++ _sif_int32_to_packed_bytes 128) ++ magic_number hd) _)
    by reflexivity.
  change 16%nat with (length (header_ints hd)).
  rewrite (read_int32s_cursor _ (header_ints hd) _ _
             ((([] ++ _sif_int32_to_packed_bytes 128) ++ magic_number hd)
              ++ _sif_int32_to_packed_bytes ver) _)
    by reflexivity.
  cbv zeta. rewrite Wv.
  rewrite <- Hg.
  assert (forall geo : list Z,
            length (_sif_int32_to_packed_bytes (4 + 8 + 4 + 4 * 16 + 8 * 6)
                    ++ magic_number hd ++ _sif_int32_to_packed_bytes ver
                    ++ concat (map _sif_int32_to_packed_bytes (header_ints hd)) ++ geo)
            = 128%nat ->
            mkFILE ((((([] ++ _sif_int32_to_packed_bytes 128) ++ magic_number hd)
                      ++ _sif_int32_to_packed_bytes ver)
                     ++ concat (map _sif_int32_to_packed_bytes (header_ints hd)) ++ geo)
                    ++ rest)
                   (Z.of_nat (length
                      (((([] ++ _sif_int32_to_packed_bytes 128) ++ magic_number hd)
                        ++ _sif_int32_to_packed_bytes ver)
                       ++ concat (map _sif_int32_to_packed_bytes (header_ints hd)) ++ geo)))
            = mkFILE ((_sif_int32_to_packed_bytes (4 + 8 + 4 + 4 * 16 + 8 * 6)
                       ++ magic_number hd ++ _sif_int32_to_packed_bytes ver
                       ++ concat (map _sif_int32_to_packed_bytes (header_ints hd)) ++ geo)
                      ++ rest) 128) as Hfp.
  { intros geo Hl.
    change (4 + 8 + 4 + 4 * 16 + 8 * 6) with 128 in *.
    rewrite <- !app_assoc. cbn [app].
    f_equal. rewrite Hl. reflexivity. }
  unfold header_image in Hlen.
  destruct (ver <? 2) eqn:Ev.
  - rewrite (read_raw_doubles_cursor _ (affine_geo_transform hd) _ _
               (((([] ++ _sif_int32_to_packed_bytes 128) ++ magic_number hd)
                 ++ _sif_int32_to_packed_bytes ver)
                ++ concat (map _sif_int32_to_packed_bytes (header_ints hd))) rest)
      by (assumption || reflexivity).
    f_equal. apply sif_file_ext; try reflexivity.
    + cbn [fp set_header set_fp]. rewrite <- (Hfp _ Hlen).
      rewrite <- !app_assoc. reflexivity.
    + cbn [header set_header].
      rewrite header_of_ints_wrap by (apply Forall_cons_1 in Hi as [_ Hi]; exact Hi).
      destruct hd. reflexivity.
  - rewrite (read_net_doubles_cursor host _ (affine_geo_transform hd) _ _
               (((([] ++ _sif_int32_to_packed_bytes 128) ++ magic_number hd)
                 ++ _sif_int32_to_packed_bytes ver)
                ++ concat (map _sif_int32_to_packed_bytes (header_ints hd))) rest)
      by (assumption || reflexivity).
    f_equal. apply sif_file_ext; try reflexivity.
    + cbn [fp set_header set_fp]. rewrite <- (Hfp _ Hlen).
      rewrite <- !app_assoc. reflexivity.
    + cbn [header set_header].
      rewrite header_of_ints_wrap by (apply Forall_cons_1 in Hi as [_ Hi]; exact Hi).
      destruct hd. reflexivity.
Qed.

(** X10.  [_sif_write_header] succeeds, writes the 128 bytes of the header
    image at the start of the file and leaves the bytes after them as they
    were; the handle then records 128 header bytes and the version in use. *)
Theorem write_header_layout (host : byte_order) (file : sif_file) (hd : sif_header) :
  header file = Some hd -> header_fits (use_file_version file) hd ->
  let written := fst (_sif_write_header host file) in
  snd (_sif_write_header host file) = 1
  /\ contents (fp written)
     = header_image host (use_file_version file) hd ++ drop 128 (contents (fp file))
  /\ length (header_image host (use_file_version file) hd) = 128%nat
  /\ header_bytes written = 128
  /\ header written = Some (hd_set_version (use_file_version file) hd)
  /\ error written = error file.
Proof.
  intros Hh Hfit written. subst written.
  destruct Hfit as (Hm & Hg & Hd & _).
  rewrite (write_header_result host file hd Hh Hm Hg Hd). cbn [fst snd].
  split; [reflexivity |]. split; [reflexivity |].
  split; [apply header_image_length; assumption |].
  split; [reflexivity |]. split; [| reflexivity].
  unfold upd_header, hdr. cbn [header set_header_bytes set_fp set_header].
  rewrite Hh. reflexivity.
Qed.

(** X11.  With a 32-bit [long], a header written by [_sif_write_header] is
    read back by [_sif_read_header] from any handle on the same bytes: the
    same fields, with the version in use as its version, 128 header bytes,
    and the file left after the header.  (The fields may be negative; with
    a wider [long] a negative field is not read back: the decoder is then
    [packed_bytes_to_long].) *)
Theorem header_round_trip (host : byte_order) (file g : sif_file) (hd : sif_header) :
  header file = Some hd -> header_fits (use_file_version file) hd ->
  contents (fp g) = contents (fp (fst (_sif_write_header host file))) ->
  snd (_sif_read_header host g) = 1
  /\ header (fst (_sif_read_header host g))
     = Some (hd_set_version (use_file_version file) hd)
  /\ header_bytes (fst (_sif_read_header host g)) = 128
  /\ use_file_version (fst (_sif_read_header host g)) = use_file_version file
  /\ position (fp (fst (_sif_read_header host g))) = 128.
Proof.
  intros Hh Hfit Hc.
  rewrite (write_header_result host file hd Hh (proj1 Hfit) (proj1 (proj2 Hfit))
             (proj1 (proj2 (proj2 Hfit)))) in Hc. cbn [fst fp set_header_bytes set_fp contents] in Hc.
  rewrite (read_header_result host g _ hd _ Hfit Hc). cbn [fst snd].
  repeat split; reflexivity.
Qed.

Lemma write_header_layout_witness :
  exists file hd,
    one_tile_file 1 = Some file
    /\ header file = Some hd
    /\ header_fits (use_file_version file) hd
    /\ (let written := fst (_sif_write_header LITTLE_ENDIAN file) in
        snd (_sif_write_header LITTLE_ENDIAN file) = 1
        /\ contents (fp written)
           = header_image LITTLE_ENDIAN (use_file_version file) hd
             ++ drop 128 (contents (fp file))
        /\ length (header_image LITTLE_ENDIAN (use_file_version file) hd) = 128%nat
        /\ header_bytes written = 128
        /\ header written = Some (hd_set_version (use_file_version file) hd)
        /\ error written = error file).
Proof.
  eexists _, _. split; [vm_compute; reflexivity |].
  split; [vm_compute; reflexivity |].
  assert (forall P Q : Prop, P -> (P -> Q) -> P /\ Q) as both by tauto.
  apply both.
  - unfold header_fits.
    split; [vm_compute; reflexivity |]. split; [vm_compute; reflexivity |].
    split; [vm_compute; repeat constructor |].
    cbv [header_ints use_file_version width height bands n_keys n_tiles tile_width
         tile_height tile_bytes n_tiles_across data_unit_size user_data_type defragment
         consolidate intrinsic_write tile_header_bytes n_uniform_flags].
    repeat (constructor; [unfold int32; lia |]). constructor.
  - intros Hfit. apply write_header_layout; [vm_compute; reflexivity | exact Hfit].
Defined.

Lemma header_round_trip_witness :
  exists file hd,
    one_tile_file 1 = Some file
    /\ header file = Some hd
    /\ header_fits (use_file_version file) hd
    /\ (let g := fst (_sif_write_header BIG_ENDIAN file) in
        snd (_sif_read_header BIG_ENDIAN g) = 1
        /\ header (fst (_sif_read_header BIG_ENDIAN g))
           = Some (hd_set_version (use_file_version file) hd)
        /\ header_bytes (fst (_sif_read_header BIG_ENDIAN g)) = 128
        /\ use_file_version (fst (_sif_read_header BIG_ENDIAN g)) = use_file_version file
        /\ position (fp (fst (_sif_read_header BIG_ENDIAN g))) = 128).
Proof.
  eexists _, _. split; [vm_compute; reflexivity |].
  split; [vm_compute; reflexivity |].
  assert (forall P Q : Prop, P -> (P -> Q) -> P /\ Q) as both by tauto.
  apply both.
  - unfold header_fits.
    split; [vm_compute; reflexivity |]. split; [vm_compute; reflexivity |].
    split; [vm_compute; repeat constructor |].
    cbv [header_ints use_file_version width height bands n_keys n_tiles tile_width
         tile_height tile_bytes n_tiles_across data_unit_size user_data_type defragment
         consolidate intrinsic_write tile_header_bytes n_uniform_flags].
    repeat (constructor; [unfold int32; lia |]). constructor.
  - intros Hfit. eapply header_round_trip; [vm_compute; reflexivity | exact Hfit | reflexivity].
Defined.

(** ** Reading back a uniform slice *)

Lemma poke_length (src dst : list Z) (o : nat) : length (poke dst o src) = length dst.
Proof.
  revert dst o. induction src as [| b src IH]; intros dst o; cbn [poke]; [reflexivity |].
  rewrite IH. apply length_insert.
Qed.

Lemma poke_app (src pre old rest : list Z) :
  length old = length src ->
  poke (pre ++ old ++ rest) (length pre) src = pre ++ src ++ rest.
Proof.
  revert pre old. induction src as [| b src IH]; intros pre old H.
  - destruct old; [reflexivity | discriminate].
  - destruct old as [| a old]; [discriminate |]. cbn [poke].
    rewrite insert_app_r_alt by lia. rewrite Nat.sub_diag.
    change (<[0%nat := b]> ((a :: old) ++ rest)) with ([b] ++ old ++ rest).
    rewrite (app_assoc pre [b]).
    replace (S (length pre)) with (length (pre ++ [b])) by (rewrite length_app; simpl; lia).
    rewrite IH by (simpl in H; lia). rewrite <- app_assoc. reflexivity.
Qed.

Lemma poke_all (dst src : list Z) : length dst = length src -> poke dst 0 src = src.
Proof.
  intros H. pose proof (poke_app src [] dst [] H) as E.
  cbn [app length] in E. rewrite !app_nil_r in E. exact E.
Qed.

Lemma split_at (l : list Z) (o n : nat) :
  l = take o l ++ take n (drop o l) ++ drop (o + n) l.
Proof.
  rewrite <- (take_drop o l) at 1. f_equal.
  rewrite <- (take_drop n (drop o l)) at 1. f_equal.
  rewrite drop_drop. reflexivity.
Qed.

Lemma poke_inside (dst src : list Z) (o : nat) :
  (o + length src <= length dst)%nat ->
  poke dst o src = take o dst ++ src ++ drop (o + length src) dst.
Proof.
  intros H.
  pose proof (poke_app src (take o dst) (take (length src) (drop o dst))
                (drop (o + length src) dst)) as E.
  rewrite <- split_at in E.
  replace (length (take o dst)) with o in E by (rewrite length_take; lia).
  apply E. rewrite length_take, length_drop. lia.
Qed.

(** The bytes stored by a [memcpy] are the bytes found at its target. *)
Lemma sub_bytes_memcpy (dst : list Z) (doff : Z) (src : list Z) (n : Z) :
  0 <= doff -> 0 <= n -> doff + n <= Z.of_nat (length dst) ->
  sub_bytes (memcpy dst doff src 0 n) doff n = sub_bytes src 0 n.
Proof.
  intros Hd Hn Hl. unfold memcpy.
  destruct (doff <? 0) eqn:E; [lia |].
  set (s := sub_bytes src 0 n).
  assert (length s = Z.to_nat n) as Ls by apply sub_bytes_length.
  rewrite poke_inside by lia.
  unfold sub_bytes at 1. rewrite E.
  rewrite drop_app_length' by (rewrite length_take; lia).
  rewrite resize_app_le by lia. rewrite <- Ls. apply resize_all.
Qed.

Lemma concat_replicate_snoc (i : nat) (v : list Z) :
  concat (replicate i v) ++ v = concat (replicate (S i) v).
Proof.
  induction i as [| i IH]; cbn [replicate concat].
  - rewrite app_nil_r. reflexivity.
  - rewrite <- app_assoc, IH. reflexivity.
Qed.

Lemma concat_replicate_length (i : nat) (v : list Z) :
  length (concat (replicate i v)) = (i * length v)%nat.
Proof.
  induction i as [| i IH]; cbn [replicate concat]; [reflexivity |].
  rewrite length_app, IH. lia.
Qed.

(** The unit-by-unit copy loop of [sif_get_tile_slice]. *)
Lemma fill_units_prefix (buffer upv : list Z) (uoff size : Z) (i : nat) :
  0 < size -> (i * Z.to_nat size <= length buffer)%nat ->
  fill_units buffer 0 upv uoff size (Z.of_nat i)
  = concat (replicate i (sub_bytes upv uoff size)) ++ drop (i * Z.to_nat size) buffer.
Proof.
  intros Hs. unfold fill_units. set (v := sub_bytes upv uoff size).
  assert (length v = Z.to_nat size) as Lv by apply sub_bytes_length.
  induction i as [| i IH]; intros Hl.
  - reflexivity.
  - replace (Z.of_nat (S i)) with (Z.of_nat i + 1) by lia.
    rewrite seqZ_snoc by lia. rewrite foldl_app. cbn [foldl].
    rewrite IH by lia. unfold memcpy.
    destruct (0 + Z.of_nat i * size <? 0) eqn:E; [lia |].
    fold v.
    replace (Z.to_nat (0 + Z.of_nat i * size)) with (i * Z.to_nat size)%nat by nia.
    assert (length (concat (replicate i v)) = (i * Z.to_nat size)%nat) as Lc
      by (rewrite concat_replicate_length; lia).
    rewrite poke_inside by (rewrite length_app, length_drop; lia).
    rewrite take_app_length' by (symmetry; exact Lc).
    rewrite drop_app_ge by lia. rewrite drop_drop.
    rewrite <- concat_replicate_snoc, <- app_assoc. do 3 f_equal. lia.
Qed.

Lemma fill_units_all (buffer upv : list Z) (uoff size count : Z) :
  0 < size -> 0 <= count -> Z.of_nat (length buffer) = size * count ->
  fill_units buffer 0 upv uoff size count
  = concat (replicate (Z.to_nat count) (sub_bytes upv uoff size)).
Proof.
  intros Hs Hc Hl. rewrite <- (Z2Nat.id count) at 1 by exact Hc.
  rewrite fill_units_prefix by nia.
  rewrite drop_ge by nia. apply app_nil_r.
Qed.

Lemma memset_all (buffer : list Z) (c n : Z) :
  Z.of_nat (length buffer) = n ->
  memset buffer 0 c n = replicate (Z.to_nat n) (Z.land c 255).
Proof.
  intros H. unfold memset. cbn [Z.ltb Z.compare]. change (Z.to_nat 0) with 0%nat.
  apply poke_all. rewrite length_replicate. lia.
Qed.

Lemma bzero_length (buffer : list Z) (n : Z) : length (bzero buffer n) = length buffer.
Proof. unfold bzero, memset. cbn [Z.ltb Z.compare]. apply poke_length. Qed.

Lemma concat_replicate_singleton (n : nat) (x : Z) :
  concat (replicate n [x]) = replicate n x.
Proof. induction n as [| n IH]; cbn [replicate concat app]; [| rewrite IH]; reflexivity. Qed.

Lemma land_255_id (x : Z) : 0 <= x < 256 -> Z.land x 255 = x.
Proof.
  intros H. change 255 with (Z.ones 8). rewrite Z.land_ones by lia.
  apply Z.mod_small. lia.
Qed.

(** A slice whose flag is set is served from the tile header: every data
    unit of the caller's buffer receives the band's uniform pixel value. *)
Lemma get_tile_slice_uniform (g : sif_file) (hd : sif_header) (buf : list Z)
    (tx ty band : Z) :
  header g = Some hd -> version hd <= SIF_VERSION ->
  0 <= tx < n_tiles_across hd -> 0 <= ty -> 0 <= band < bands hd ->
  SIF_GET_BIT (uniform_flags (tile_at g (n_tiles_across hd * ty + tx))) band = 1 ->
  0 < data_unit_size hd -> 0 <= units_per_slice g ->
  Z.of_nat (length buf) = data_unit_size hd * units_per_slice g ->
  Forall (fun b => 0 <= b < 256)
    (sub_bytes (uniform_pixel_values (tile_at g (n_tiles_across hd * ty + tx)))
       (data_unit_size hd * band) (data_unit_size hd)) ->
  sif_get_tile_slice g (Some buf) tx ty band
  = (g, Some (concat (replicate (Z.to_nat (units_per_slice g))
                (sub_bytes (uniform_pixel_values (tile_at g (n_tiles_across hd * ty + tx)))
                   (data_unit_size hd * band) (data_unit_size hd))))).
Proof.
  intros Hh Hv Htx Hty Hb Hbit Hd Hu Hl Hr.
  unfold sif_get_tile_slice, SIF_CHECK_FILE_. rewrite Hh.
  destruct (version hd >? SIF_VERSION) eqn:E; [lia |]. clear E.
  destruct (tx <? 0) eqn:E1; [lia |]. destruct (ty <? 0) eqn:E2; [lia |].
  destruct (tx >=? n_tiles_across hd) eqn:E3; [lia |].
  destruct (band <? 0) eqn:E4; [lia |]. destruct (band >=? bands hd) eqn:E5; [lia |].
  cbn [orb]. unfold _sif_band_of_tile_is_uniform_shallow. rewrite Hbit.
  cbn [Z.eqb negb].
  destruct (data_unit_size hd >? 1) eqn:E6.
  - rewrite fill_units_all; [reflexivity | lia | lia |].
    rewrite bzero_length. exact Hl.
  - assert (data_unit_size hd = 1) as E by lia.
    rewrite E in *. rewrite sub_bytes_1 in * by lia.
    rewrite memset_all by (rewrite bzero_length; lia).
    rewrite concat_replicate_singleton.
    apply Forall_cons_1 in Hr as [Hr _]. rewrite land_255_id by exact Hr. reflexivity.
Qed.

Lemma get_bit_one (uca : list Z) (j : Z) :
  0 <= j -> Z.testbit (arr_get uca (Z.quot j 8)) (7 - Z.rem j 8) = true ->
  SIF_GET_BIT uca j = 1.
Proof. intros Hj H. rewrite get_bit_testbit by exact Hj. rewrite H. reflexivity. Qed.

Lemma get_bit_set_same (uca : list Z) (i : Z) :
  0 <= i < 8 * Z.of_nat (length uca) ->
  Z.testbit (arr_get (SIF_SET_BIT uca i) (Z.quot i 8)) (7 - Z.rem i 8) = true.
Proof.
  intros Hi.
  pose proof (Z.rem_bound_pos i 8 ltac:(lia) ltac:(lia)) as Hri.
  assert (0 <= Z.quot i 8 < Z.of_nat (length uca)) as Hq.
  { split; [apply Z.quot_pos; lia |]. apply Z.quot_lt_upper_bound; lia. }
  unfold SIF_SET_BIT. rewrite arr_get_set_eq by exact Hq.
  rewrite Z.land_spec, Z.lor_spec, testbit_shiftl_1, testbit_255 by lia.
  rewrite Z.eqb_refl, orb_true_r. rewrite (proj2 (Z.ltb_lt (7 - Z.rem i 8) 8)) by lia.
  reflexivity.
Qed.

(** Padding the last flag byte sets bits and clears none. *)
Lemma testbit_padded (flags : list Z) (last m q s : Z) :
  Z.testbit (arr_get flags q) s = true ->
  Z.testbit (arr_get (arr_set flags last (Z.lor m (arr_get flags last))) q) s = true.
Proof.
  intros H. destruct (decide (0 <= last < Z.of_nat (length flags))) as [Hin | Hout].
  - rewrite arr_get_set by exact Hin. destruct (decide (q = last)) as [-> | _].
    + rewrite Z.lor_spec, H. apply orb_true_r.
    + exact H.
  - destruct (decide (last < 0)).
    + rewrite arr_set_neg by lia. exact H.
    + rewrite arr_set_ge by lia. exact H.
Qed.

Lemma filled_tile_flag (hd : sif_header) (band : Z) (v : list Z) (t : sif_tile) :
  0 <= band < 8 * Z.of_nat (length (uniform_flags t)) ->
  SIF_GET_BIT (uniform_flags (filled_tile hd band v t)) band = 1.
Proof.
  intros Hb. apply get_bit_one; [lia |].
  unfold filled_tile. cbn [uniform_flags].
  apply testbit_padded, get_bit_set_same, Hb.
Qed.

Lemma filled_tile_value (hd : sif_header) (band : Z) (v : list Z) (t : sif_tile) :
  0 <= band -> 0 < data_unit_size hd ->
  data_unit_size hd * band + data_unit_size hd
  <= Z.of_nat (length (uniform_pixel_values t)) ->
  sub_bytes (uniform_pixel_values (filled_tile hd band v t))
    (data_unit_size hd * band) (data_unit_size hd)
  = sub_bytes v 0 (data_unit_size hd).
Proof.
  intros Hb Hd Hl. unfold filled_tile. cbn [uniform_pixel_values].
  apply sub_bytes_memcpy; nia.
Qed.

Lemma units_per_slice_put_tile (f : sif_file) (i : Z) (t : sif_tile) :
  units_per_slice (put_tile f i t) = units_per_slice f.
Proof. unfold put_tile. destruct (i <? 0); reflexivity. Qed.

Lemma fill_tile_slice_units (f : sif_file) (tx ty band : Z) (v : option (list Z)) :
  units_per_slice (sif_fill_tile_slice f tx ty band v) = units_per_slice f.
Proof.
  destruct (fill_guard f tx ty band v) as [[hd v'] |] eqn:Hg.
  - destruct (fill_tile_slice_admitted_eq _ _ _ _ _ _ _ Hg) as [_ ->].
    set (n := n_tiles_across hd * ty + tx).
    set (g := release_if_uniform (mark_band_uniform f n band v') n).
    transitivity (units_per_slice g).
    + apply _sif_write_tile_header_frame
        with (R := fun a b => units_per_slice b = units_per_slice a);
        intros; cbn; congruence.
    + subst g. unfold release_if_uniform, _sif_completely_uniform_shallow, mark_band_uniform.
      destruct (_ && _); rewrite ?units_per_slice_put_tile; cbn [units_per_slice set_blocks_to_tiles];
        rewrite ?units_per_slice_put_tile; reflexivity.
  - destruct (fill_tile_slice_refused _ _ _ _ _ Hg) as [e ->]. reflexivity.
Qed.

Lemma fill_guard_admits (file : sif_file) (hd : sif_header) (tx ty band : Z) (v : list Z) :
  header file = Some hd -> version hd <= SIF_VERSION -> read_only file = 0 ->
  0 <= tx < n_tiles_across hd -> 0 <= ty -> 0 <= band < bands hd ->
  fill_guard file tx ty band (Some v) = Some (hd, v).
Proof.
  intros Hh Hv Hr Htx Hty Hb. unfold fill_guard. rewrite Hh, Hr.
  destruct (version hd >? SIF_VERSION) eqn:E; [lia |].
  destruct (tx <? 0) eqn:E1; [lia |]. destruct (ty <? 0) eqn:E2; [lia |].
  destruct (tx >=? n_tiles_across hd) eqn:E3; [lia |].
  destruct (band <? 0) eqn:E4; [lia |]. destruct (band >=? bands hd) eqn:E5; [lia |].
  reflexivity.
Qed.

Lemma sub_bytes_take (a : list Z) (n : Z) :
  0 <= n <= Z.of_nat (length a) -> sub_bytes a 0 n = take (Z.to_nat n) a.
Proof.
  intros H. unfold sub_bytes. cbn [Z.ltb Z.compare]. change (Z.to_nat 0) with 0%nat.
  rewrite drop_0. apply resize_le. lia.
Qed.

(** X12.  A slice filled with a value reads back as that value in every data
    unit: after [sif_fill_tile_slice] on a writable handle,
    [sif_get_tile_slice] on the same tile and band returns the first data
    unit of the value repeated [units_per_slice] times, whether or not the
    tile header could be written to the file. *)
Theorem fill_then_get_tile_slice (file : sif_file) (hd : sif_header)
    (tx ty band : Z) (v buf : list Z) :
  header file = Some hd -> version hd <= SIF_VERSION -> read_only file = 0 ->
  0 <= tx < n_tiles_across hd -> 0 <= ty -> 0 <= band < bands hd ->
  n_tiles_across hd * ty + tx < Z.of_nat (length (tiles file)) ->
  bands hd <= 8 * Z.of_nat (length (uniform_flags (tile_at file (n_tiles_across hd * ty + tx)))) ->
  data_unit_size hd * bands hd
  <= Z.of_nat (length (uniform_pixel_values (tile_at file (n_tiles_across hd * ty + tx)))) ->
  0 < data_unit_size hd -> 0 <= units_per_slice file ->
  data_unit_size hd <= Z.of_nat (length v) -> Forall (fun b => 0 <= b < 256) v ->
  Z.of_nat (length buf) = data_unit_size hd * units_per_slice file ->
  snd (sif_get_tile_slice (sif_fill_tile_slice file tx ty band (Some v))
         (Some buf) tx ty band)
  = Some (concat (replicate (Z.to_nat (units_per_slice file))
                    (take (Z.to_nat (data_unit_size hd)) v))).
Proof.
  intros Hh Hv Hr Htx Hty Hb Hn Hf Hp Hd Hu Hlv Hbv Hl.
  pose proof (fill_guard_admits file hd tx ty band v Hh Hv Hr Htx Hty Hb) as Hg.
  destruct (fill_tile_slice_tiles _ _ _ _ _ _ _ Hg) as [[Hh' _] Ht].
  set (g := sif_fill_tile_slice file tx ty band (Some v)) in *.
  set (n := n_tiles_across hd * ty + tx) in *.
  assert (0 <= n) as Hn0 by (subst n; nia).
  assert (tile_at g n = filled_tile hd band v (tile_at file n)) as Et.
  { rewrite (tile_at_tiles g _ n Ht). apply tile_at_put_tile. lia. }
  assert (sub_bytes (uniform_pixel_values (tile_at g n))
            (data_unit_size hd * band) (data_unit_size hd)
          = take (Z.to_nat (data_unit_size hd)) v) as Ev.
  { rewrite Et, filled_tile_value by nia. apply sub_bytes_take. lia. }
  rewrite (get_tile_slice_uniform g hd buf tx ty band); fold n.
  - cbn [snd]. rewrite Ev. subst g. rewrite fill_tile_slice_units. reflexivity.
  - rewrite Hh'. exact Hh.
  - exact Hv.
  - exact Htx.
  - exact Hty.
  - exact Hb.
  - rewrite Et. apply filled_tile_flag. lia.
  - exact Hd.
  - subst g. rewrite fill_tile_slice_units. exact Hu.
  - subst g. rewrite fill_tile_slice_units. exact Hl.
  - rewrite Ev. apply Forall_take. exact Hbv.
Qed.

Lemma fill_then_get_tile_slice_witness :
  exists file hd,
    one_tile_file 2 = Some file
    /\ header file = Some hd
    /\ read_only file = 0
    /\ snd (sif_get_tile_slice (sif_fill_tile_slice file 0 0 1 (Some [7; 8]))
              (Some [0; 0]) 0 0 1)
       = Some (concat (replicate (Z.to_nat (units_per_slice file))
                         (take (Z.to_nat (data_unit_size hd)) [7; 8]))).
Proof.
  eexists _, _. split; [vm_compute; reflexivity |].
  split; [vm_compute; reflexivity |].
  split; [vm_compute; reflexivity |].
  apply (fill_then_get_tile_slice _ _ 0 0 1 [7; 8] [0; 0]).
  - vm_compute. reflexivity.
  - vm_compute. congruence.
  - vm_compute. reflexivity.
  - split; [vm_compute; congruence | vm_compute; reflexivity].
  - vm_compute. congruence.
  - split; [vm_compute; congruence | vm_compute; reflexivity].
  - vm_compute. reflexivity.
  - vm_compute. congruence.
  - vm_compute. congruence.
  - vm_compute. reflexivity.
  - vm_compute. congruence.
  - vm_compute. congruence.
  - repeat constructor; lia.
  - vm_compute. reflexivity.
Defined.

(** ** Tile-header table *)

Lemma tile_at_lookup (f : sif_file) (i : nat) (t : sif_tile) :
  tiles f !! i = Some t -> tile_at f (Z.of_nat i) = t.
Proof.
  intros H. unfold tile_at. destruct (Z.of_nat i <? 0) eqn:E; [apply Z.ltb_lt in E; lia |].
  rewrite Nat2Z.id, H. reflexivity.
Qed.

Lemma drop_cons_lookup {X} (l : list X) (s : nat) (t : X) (ts : list X) :
  drop s l = t :: ts -> l !! s = Some t /\ drop (S s) l = ts.
Proof.
  intros H. split.
  - rewrite <- (Nat.add_0_r s), <- lookup_drop, H. reflexivity.
  - replace (S s) with (s + 1)%nat by lia. rewrite <- drop_drop, H. reflexivity.
Qed.

Lemma write_tile_records_acc {A} (ret : sif_file -> A) (ts : list sif_tile) :
  forall (s : nat) (file : sif_file) (k : sif_file -> A) (c : list Z) (p : Z)
         (acc : list Z),
    drop s (tiles file) = ts ->
    Forall (tile_fits (hdr file)) ts ->
    0 < data_unit_size (hdr file) -> 0 < bands (hdr file) ->
    0 < n_uniform_flags (hdr file) ->
    fp file = mkFILE (pwrite c p acc) (p + Z.of_nat (length acc)) -> 0 <= p ->
    for_each (seqZ (Z.of_nat s) (Z.of_nat (length ts)))
      (fun i file k => write_tile_record ret file (tile_at file i) k) file k
    = k (set_fp file
           (mkFILE (pwrite c p (acc ++ concat (map tile_image ts)))
                   (p + Z.of_nat (length (acc ++ concat (map tile_image ts)))))).
Proof.
  induction ts as [| t ts IH]; intros s file k c p acc Hdrop Hfit Hd Hb Hn Hf Hp.
  - cbn [length Z.of_nat map concat for_each seqZ]. rewrite app_nil_r, <- Hf.
    destruct file. reflexivity.
  - destruct (drop_cons_lookup _ _ _ _ Hdrop) as [Hl Hdrop'].
    apply Forall_cons_1 in Hfit as [[Hu Hg] Hfit].
    rewrite seqZ_cons by (cbn [length]; lia). cbn [for_each].
    rewrite (tile_at_lookup file s t Hl).
    unfold write_tile_record.
    rewrite (FWRITE64_acc ret file _ _ _ _ c p acc Hf Hp Hd Hb Hu).
    rewrite (FWRITE64_acc ret _ (uniform_flags t) 1 _ _ c p (acc ++ uniform_pixel_values t))
      by (try reflexivity; try assumption; lia).
    rewrite (FWRITE64INT32_acc ret _ (block_num t) _ c p
               ((acc ++ uniform_pixel_values t) ++ uniform_flags t))
      by (try reflexivity; assumption).
    replace (Z.succ (Z.of_nat s)) with (Z.of_nat (S s)) by lia.
    replace (Z.pred (Z.of_nat (length (t :: ts)))) with (Z.of_nat (length ts))
      by (cbn [length]; lia).
    rewrite (IH (S s) _ k c p
               (((acc ++ uniform_pixel_values t) ++ uniform_flags t)
                ++ _sif_int32_to_packed_bytes (block_num t)))
      by (try reflexivity; assumption).
    cbn [map concat].
    change (tile_image t) with (uniform_pixel_values t ++ uniform_flags t
                                ++ _sif_int32_to_packed_bytes (block_num t)).
    rewrite <- !app_assoc. reflexivity.
Qed.

Lemma pwrite_nil_inside (c : list Z) (p : Z) :
  p <= Z.of_nat (length c) -> pwrite c p [] = c.
Proof.
  intros H. unfold pwrite. cbn [app length]. rewrite Nat.add_0_r.
  rewrite resize_le by lia. apply take_drop.
Qed.

(** What [_sif_write_tile_headers] leaves in the file: the records of all
    tiles, one after the other, from [header_bytes] on. *)
Lemma write_tile_headers_result (file : sif_file) :
  0 <= header_bytes file <= Z.of_nat (length (contents (fp file))) ->
  Z.of_nat (length (tiles file)) = n_tiles (hdr file) ->
  Forall (tile_fits (hdr file)) (tiles file) ->
  0 < data_unit_size (hdr file) -> 0 < bands (hdr file) ->
  0 < n_uniform_flags (hdr file) ->
  _sif_write_tile_headers file
  = (set_fp file
       (mkFILE (pwrite (contents (fp file)) (header_bytes file)
                  (concat (map tile_image (tiles file))))
               (header_bytes file
                + Z.of_nat (length (concat (map tile_image (tiles file)))))), 0).
Proof.
  intros Hh Hl Hfit Hd Hb Hn. unfold _sif_write_tile_headers, int_ret.
  rewrite FSEEK64_ok by lia. rewrite <- Hl.
  change 0 with (Z.of_nat 0) at 1.
  rewrite (write_tile_records_acc _ (tiles file) 0 _ _ (contents (fp file))
             (header_bytes file) []).
  - cbn [app]. reflexivity.
  - reflexivity.
  - exact Hfit.
  - exact Hd.
  - exact Hb.
  - exact Hn.
  - cbn [fp set_fp length Z.of_nat]. rewrite pwrite_nil_inside by lia.
    f_equal. lia.
  - lia.
Qed.

Lemma put_tile_nat (f : sif_file) (i : nat) (t : sif_tile) :
  put_tile f (Z.of_nat i) t = set_tiles f (<[i := t]> (tiles f)).
Proof.
  unfold put_tile. destruct (Z.of_nat i <? 0) eqn:E; [apply Z.ltb_lt in E; lia |].
  rewrite Nat2Z.id. reflexivity.
Qed.

(** One turn of the loop of [_sif_read_tile_headers] over the record of [t]:
    the three reads land in the arrays of tile [i], which then equals [t]. *)
Lemma read_tile_record_cursor {A} (ret : sif_file -> A) (g : sif_file) (i : nat)
    (t o : sif_tile) (k : sif_file -> A) (pre todo : list Z) :
  tiles g !! i = Some o -> tile_fits (hdr g) o -> tile_fits (hdr g) t ->
  int32 (block_num t) ->
  0 < data_unit_size (hdr g) -> 0 < bands (hdr g) -> 0 < n_uniform_flags (hdr g) ->
  fp g = mkFILE (pre ++ tile_image t ++ todo) (Z.of_nat (length pre)) ->
  read_tile_record ret g (Z.of_nat i) k
  = k (set_fp (set_tiles g (<[i := t]> (tiles g)))
         (mkFILE ((pre ++ tile_image t) ++ todo)
                 (Z.of_nat (length (pre ++ tile_image t))))).
Proof.
  intros Hl [Hou Hof] [Htu Htf] Hbn Hd Hb Hn Hf.
  pose proof (lookup_lt_Some _ _ _ Hl) as Hi.
  unfold tile_image in *. rewrite <- !app_assoc in Hf.
  unfold read_tile_record.
  rewrite (FREAD64_cursor ret g _ _ _ pre (uniform_pixel_values t) _ Hf Hd Hb Htu).
  rewrite !put_tile_nat. cbn [tiles set_fp set_tiles].
  rewrite (tile_at_lookup (set_fp g _) i o) by exact Hl.
  rewrite (poke_all (uniform_pixel_values o)) by lia.
  set (t1 := tile_set_pixel_values o (uniform_pixel_values t)).
  match goal with |- FREAD64_ ret ?g1 _ _ _ = _ => set (f1 := g1) end.
  assert (tile_at f1 (Z.of_nat i) = t1) as E1.
  { apply tile_at_lookup. subst f1. cbn [tiles set_tiles set_fp].
    apply list_lookup_insert_eq. exact Hi. }
  rewrite (FREAD64_cursor ret f1 1 _ _ (pre ++ uniform_pixel_values t) (uniform_flags t)
             (_sif_int32_to_packed_bytes (block_num t) ++ todo))
    by (try reflexivity; try lia; subst f1; cbn [hdr header set_tiles set_fp]; fold (hdr g); lia).
  rewrite !put_tile_nat.
  change (tile_at (set_fp f1 ?x) ?n) with (tile_at f1 n). rewrite E1.
  subst t1. cbn [uniform_flags tile_set_pixel_values].
  rewrite (poke_all (uniform_flags o)) by lia.
  set (t2 := tile_set_flags _ _).
  match goal with |- FREAD64INT32_ ret ?g2 _ = _ => set (f2 := g2) end.
  assert (tile_at f2 (Z.of_nat i) = t2) as E2.
  { apply tile_at_lookup. subst f2 f1. cbn [tiles set_tiles set_fp].
    apply list_lookup_insert_eq. rewrite length_insert. exact Hi. }
  rewrite (FREAD64INT32_cursor ret f2 _ (block_num t)
             ((pre ++ uniform_pixel_values t) ++ uniform_flags t) todo)
    by (subst f2; cbn [fp set_tiles set_fp]; rewrite <- !app_assoc; reflexivity).
  rewrite !put_tile_nat.
  change (tile_at (set_fp f2 ?x) ?n) with (tile_at f2 n). rewrite E2.
  rewrite wrap32_id by exact Hbn.
  f_equal. subst f2 f1 t2. cbn [tiles set_tiles set_fp].
  rewrite !list_insert_insert_eq.
  apply sif_file_ext; try reflexivity.
  - cbn [fp set_fp set_tiles]. rewrite <- !app_assoc. reflexivity.
  - cbn [tiles set_fp set_tiles]. destruct t. reflexivity.
Qed.

Lemma read_tile_records_cursor {A} (ret : sif_file -> A) (ts : list sif_tile) :
  forall (s : nat) (g : sif_file) (k : sif_file -> A) (pre todo : list Z),
    Forall (fun t => tile_fits (hdr g) t /\ int32 (block_num t)) ts ->
    Forall (tile_fits (hdr g)) (tiles g) ->
    (s + length ts <= length (tiles g))%nat ->
    0 < data_unit_size (hdr g) -> 0 < bands (hdr g) -> 0 < n_uniform_flags (hdr g) ->
    fp g = mkFILE (pre ++ concat (map tile_image ts) ++ todo) (Z.of_nat (length pre)) ->
    for_each (seqZ (Z.of_nat s) (Z.of_nat (length ts)))
      (fun i file k => read_tile_record ret file i k) g k
    = k (set_fp (set_tiles g (take s (tiles g) ++ ts ++ drop (s + length ts) (tiles g)))
           (mkFILE ((pre ++ concat (map tile_image ts)) ++ todo)
                   (Z.of_nat (length (pre ++ concat (map tile_image ts)))))).
Proof.
  induction ts as [| t ts IH]; intros s g k pre todo Hts Hg Hlen Hd Hb Hn Hf.
  - cbn [length Z.of_nat map concat for_each seqZ app]. rewrite Nat.add_0_r, take_drop.
    rewrite app_nil_r. cbn [map concat app] in Hf. rewrite <- Hf.
    destruct g. reflexivity.
  - apply Forall_cons_1 in Hts as [[Ht Hbn] Hts]. cbn [length] in Hlen.
    destruct (lookup_lt_is_Some_2 (tiles g) s ltac:(lia)) as [o Ho].
    assert (tile_fits (hdr g) o) as Hfo.
    { apply (proj1 (list.Forall_lookup _ _) Hg s o Ho). }
    rewrite seqZ_cons by (cbn [length]; lia). cbn [for_each].
    cbn [map concat] in Hf. rewrite <- app_assoc in Hf.
    rewrite (read_tile_record_cursor ret g s t o _ pre _ Ho Hfo Ht Hbn Hd Hb Hn Hf).
    replace (Z.succ (Z.of_nat s)) with (Z.of_nat (S s)) by lia.
    replace (Z.pred (Z.of_nat (length (t :: ts)))) with (Z.of_nat (length ts))
      by (cbn [length]; lia).
    rewrite (IH (S s) _ k (pre ++ tile_image t) todo).
    + f_equal. apply sif_file_ext; try reflexivity.
      * cbn [fp set_fp set_tiles map concat]. rewrite <- !app_assoc. reflexivity.
      * cbn [tiles set_fp set_tiles length].
        rewrite (take_S_r _ _ t) by (apply list_lookup_insert_eq; lia).
        rewrite take_insert_ge by lia. rewrite drop_insert_lt by lia.
        rewrite <- app_assoc. cbn [app].
        replace (S s + length ts)%nat with (s + S (length ts))%nat by lia. reflexivity.
    + exact Hts.
    + cbn [tiles set_fp set_tiles]. apply Forall_insert; assumption.
    + cbn [tiles set_fp set_tiles]. rewrite length_insert. lia.
    + exact Hd.
    + exact Hb.
    + exact Hn.
    + reflexivity.
Qed.

(** X13.  With a 32-bit [long], the tile-header table written by
    [_sif_write_tile_headers] is read back by [_sif_read_tile_headers] from
    any handle on the same bytes that has the same header and a tile table
    allocated for it: every tile gets its uniform pixel values, its flags
    and its block number back, also the -1 of a tile without a block.
    (With a wider [long] that -1 is read as 4294967295: the decoder is then
    [packed_bytes_to_long].) *)
Theorem tile_headers_round_trip (file g : sif_file) :
  0 <= header_bytes file <= Z.of_nat (length (contents (fp file))) ->
  0 < data_unit_size (hdr file) -> 0 < bands (hdr file) ->
  0 < n_uniform_flags (hdr file) ->
  Z.of_nat (length (tiles file)) = n_tiles (hdr file) ->
  Forall (fun t => tile_fits (hdr file) t /\ int32 (block_num t)) (tiles file) ->
  hdr g = hdr file -> header_bytes g = header_bytes file ->
  length (tiles g) = length (tiles file) ->
  Forall (tile_fits (hdr file)) (tiles g) ->
  contents (fp g) = contents (fp (fst (_sif_write_tile_headers file))) ->
  snd (_sif_read_tile_headers g) = 1
  /\ tiles (fst (_sif_read_tile_headers g)) = tiles file
  /\ error (fst (_sif_read_tile_headers g)) = error g.
Proof.
  intros Hh Hd Hb Hn Hl Hts Hhd Hhb Hlg Hg Hc.
  assert (Forall (tile_fits (hdr file)) (tiles file)) as Hfit.
  { eapply Forall_impl; [| exact Hts]. intros t [H _]. exact H. }
  rewrite (write_tile_headers_result file Hh Hl Hfit Hd Hb Hn) in Hc.
  cbn [fst fp set_fp contents] in Hc.
  unfold _sif_read_tile_headers, int_ret.
  rewrite FSEEK64_ok by lia. rewrite Hhd, <- Hl, Hhb.
  change (seqZ 0) with (seqZ (Z.of_nat 0)).
  set (pre := take (Z.to_nat (header_bytes file)) (contents (fp file))).
  set (img := concat (map tile_image (tiles file))).
  assert (length pre = Z.to_nat (header_bytes file)) as Lp
    by (subst pre; rewrite length_take; lia).
  rewrite (read_tile_records_cursor _ (tiles file) 0 _ _ pre
             (drop (Z.to_nat (header_bytes file) + length img) (contents (fp file)))).
  - cbn [fst snd tiles set_fp set_tiles error take app].
    rewrite drop_ge by lia. rewrite app_nil_r. auto.
  - rewrite hdr_set_fp, Hhd. exact Hts.
  - rewrite hdr_set_fp, Hhd. exact Hg.
  - cbn [tiles set_fp]. lia.
  - rewrite hdr_set_fp, Hhd. exact Hd.
  - rewrite hdr_set_fp, Hhd. exact Hb.
  - rewrite hdr_set_fp, Hhd. exact Hn.
  - cbn [fp set_fp]. rewrite Hc. unfold pwrite. rewrite resize_le by lia.
    f_equal. lia.
Qed.

Lemma tile_headers_round_trip_witness :
  exists file,
    fragmented_file = Some file
    /\ map block_num (tiles file) = [2; 3; -1; 1]
    /\ (let g := _sif_alloc_tile_headers (fst (_sif_write_tile_headers file)) in
        snd (_sif_read_tile_headers g) = 1
        /\ tiles (fst (_sif_read_tile_headers g)) = tiles file
        /\ error (fst (_sif_read_tile_headers g)) = error g).
Proof.
  eexists. split; [vm_compute; reflexivity |].
  split; [vm_compute; reflexivity |].
  apply tile_headers_round_trip.
  - split; vm_compute; congruence.
  - vm_compute. reflexivity.
  - vm_compute. reflexivity.
  - vm_compute. reflexivity.
  - vm_compute. reflexivity.
  - repeat (constructor; [split; [split; vm_compute; reflexivity
                                 | split; vm_compute; congruence] |]).
    constructor.
  - vm_compute. reflexivity.
  - vm_compute. reflexivity.
  - vm_compute. reflexivity.
  - repeat (constructor; [split; vm_compute; reflexivity |]). constructor.
  - vm_compute. reflexivity.
Defined.

(** ** Creating a file *)

Lemma CEIL_DIV_pos (x y : Z) : 1 <= x -> 1 <= y -> 1 <= CEIL_DIV x y.
Proof.
  intros Hx Hy. unfold CEIL_DIV.
  pose proof (Z.quot_pos x y ltac:(lia) ltac:(lia)) as Hq.
  destruct (Z.rem x y =? 0) eqn:E; [| lia].
  apply Z.eqb_eq in E. pose proof (Z.quot_rem' x y) as H. nia.
Qed.

Lemma create_result (host : byte_order) (name : list Z)
    (w h nb dus udt con defrag tw th iw : Z) :
  1 <= nb -> 1 <= w -> 1 <= h -> 1 <= tw -> 1 <= th -> 1 <= dus ->
  let across := CEIL_DIV w tw in
  let n := across * CEIL_DIV h th in
  let s := CEIL_DIV nb 8 in
  let hd :=
    mk_header SIF_MAGIC_NUMBER 0 w h nb 0 n tw th (tw * th * nb * dus)
      across dus udt defrag con 1 (nb * dus + s + 4) s (replicate 6%nat zero_double) in
  sif_create host (Some name) w h nb dus udt con defrag tw th iw
  = Some (mk_file
            (mkFILE (header_image host 0 hd
                     ++ concat (replicate (Z.to_nat n) (tile_image (blank_tile hd))))
                    (128 + Z.of_nat (length (concat (replicate (Z.to_nat n)
                                                       (tile_image (blank_tile hd)))))))
            (Some hd) (replicate (Z.to_nat n) (blank_tile hd))
            _sif_alloc_meta_data_table 0
            (replicate (Z.to_nat n) (-1)) (replicate (Z.to_nat n) 0)
            (replicate (Z.to_nat (tw * th * nb * dus)) 0)
            (replicate (Z.to_nat (tw * th * nb * dus)) 0)
            (128 + (nb * dus + s + 4) * n) 0 (tw * th) (tw * th * nb) 128
            SIF_VERSION).
Proof.
  intros Hb Hw Hh Htw Hth Hd across n s hd.
  unfold sif_create.
  destruct (nb <? 1) eqn:E1; [lia |]. destruct (w <? 1) eqn:E2; [lia |].
  destruct (h <? 1) eqn:E3; [lia |]. destruct (tw <? 1) eqn:E4; [lia |].
  destruct (th <? 1) eqn:E5; [lia |]. destruct (dus <? 1) eqn:E6; [lia |].
  rewrite bool_decide_eq_false_2 by discriminate. cbn [orb]. cbv zeta.
  fold across. fold n.
  match goal with |- context [_sif_write_header host ?f] => set (f0 := f) end.
  assert (header f0 = Some (hd_set_version SIF_VERSION hd)) as H0 by reflexivity.
  assert (1 <= n) as Hn.
  { pose proof (CEIL_DIV_pos w tw Hw Htw). pose proof (CEIL_DIV_pos h th Hh Hth).
    subst n across. nia. }
  assert (1 <= s) as Hs by (apply CEIL_DIV_pos; lia).
  rewrite (write_header_result host f0 _ H0)
    by (try reflexivity; repeat constructor).
  cbn [fst].
  match goal with |- context [_sif_write_tile_headers ?f] => set (f1 := f) end.
  assert (length (header_image host 0 hd) = 128%nat) as L0
    by (apply header_image_length; try reflexivity; repeat constructor).
  assert (hdr f1 = hd) as Eh by reflexivity.
  assert (tiles f1 = replicate (Z.to_nat n) (blank_tile hd)) as Et by reflexivity.
  assert (contents (fp f1) = header_image host 0 hd) as Ec.
  { subst f1. cbn [fp set_base_location set_header_bytes set_fp contents].
    change (contents (fp f0)) with (@nil Z). rewrite drop_nil, app_nil_r. reflexivity. }
  rewrite (write_tile_headers_result f1).
  - cbn [fst]. change (error (set_fp f1 _)) with 0. cbn [Z.eqb negb].
    change (error f1) with 0. cbn [Z.eqb negb].
    unfold sif_use_file_format_version, sif_get_version.
    change (SIF_VERSION <? 1) with false. cbv iota.
    f_equal. apply sif_file_ext; try reflexivity.
    cbn [fp set_use_file_version set_fp]. rewrite Ec, Et.
    change (header_bytes f1) with 128.
    change (map tile_image) with (fmap (M := list) tile_image). rewrite fmap_replicate. unfold pwrite.
    change (Z.to_nat 128) with 128%nat.
    rewrite resize_all_alt by (symmetry; exact L0).
    rewrite drop_ge by lia. rewrite app_nil_r. reflexivity.
  - change (header_bytes f1) with 128. rewrite Ec, L0. lia.
  - rewrite Et, Eh, length_replicate. cbn [n_tiles hd]. lia.
  - rewrite Et, Eh. apply Forall_replicate. split.
    + cbn [blank_tile uniform_pixel_values bands data_unit_size hd].
      rewrite length_replicate. nia.
    + cbn [blank_tile uniform_flags bands n_uniform_flags hd].
      rewrite length_replicate. fold s. lia.
  - rewrite Eh. cbn [data_unit_size hd]. lia.
  - rewrite Eh. cbn [bands hd]. lia.
  - rewrite Eh. cbn [n_uniform_flags hd]. lia.
Qed.

Lemma tile_at_replicate (f : sif_file) (n : nat) (t : sif_tile) (i : Z) :
  tiles f = replicate n t -> 0 <= i < Z.of_nat n -> tile_at f i = t.
Proof.
  intros H Hi. unfold tile_at. destruct (i <? 0) eqn:E; [lia |].
  rewrite H, lookup_replicate_2 by lia. reflexivity.
Qed.

Lemma arr_get_replicate (n : nat) (x : Z) (i : Z) :
  0 <= i < Z.of_nat n -> arr_get (replicate n x) i = x.
Proof.
  intros Hi. unfold arr_get. destruct (i <? 0) eqn:E; [lia |].
  rewrite lookup_replicate_2 by lia. reflexivity.
Qed.

Lemma forallb_seqZ_intro (p : Z -> bool) (n : Z) :
  (forall i, 0 <= i < n -> p i = true) -> forallb p (seqZ 0 n) = true.
Proof.
  intros H. apply forallb_forall. intros i Hi.
  apply list_elem_of_In, elem_of_seqZ in Hi. apply H. lia.
Qed.

Lemma CEIL_DIV_8_covers (nb : Z) : 1 <= nb -> nb <= 8 * CEIL_DIV nb 8.
Proof.
  intros H. unfold CEIL_DIV.
  pose proof (Z.quot_rem' nb 8) as E.
  pose proof (Z.rem_bound_pos nb 8 ltac:(lia) ltac:(lia)) as R.
  destruct (Z.rem nb 8 =? 0) eqn:E0; [apply Z.eqb_eq in E0 |]; lia.
Qed.

(** A call of [sif_create] that returns a handle was given sizes of at
    least 1. *)
Lemma create_accepted (host : byte_order) (name : option (list Z))
    (w h nb dus udt con defrag tw th iw : Z) (file : sif_file) :
  sif_create host name w h nb dus udt con defrag tw th iw = Some file ->
  1 <= nb /\ 1 <= w /\ 1 <= h /\ 1 <= tw /\ 1 <= th /\ 1 <= dus.
Proof.
  unfold sif_create.
  destruct (nb <? 1) eqn:E1; [discriminate |]. destruct (w <? 1) eqn:E2; [discriminate |].
  destruct (h <? 1) eqn:E3; [discriminate |]. destruct (tw <? 1) eqn:E4; [discriminate |].
  destruct (th <? 1) eqn:E5; [discriminate |]. destruct (dus <? 1) eqn:E6; [discriminate |].
  intros _. apply Z.ltb_ge in E1, E2, E3, E4, E5, E6. lia.
Qed.



(** ** Reading a new file *)


Lemma sub_bytes_replicate (n : nat) (x off len : Z) :
  0 <= off -> 0 <= len -> off + len <= Z.of_nat n ->
  sub_bytes (replicate n x) off len = replicate (Z.to_nat len) x.
Proof.
  intros Ho Hl Hn. unfold sub_bytes. destruct (off <? 0) eqn:E; [lia |].
  rewrite drop_replicate, resize_le by (rewrite length_replicate; lia).
  rewrite take_replicate. f_equal. lia.
Qed.

Lemma get_bit_all_ones (n : nat) (j : Z) :
  0 <= j < 8 * Z.of_nat n -> SIF_GET_BIT (replicate n 255) j = 1.
Proof.
  intros Hj. apply get_bit_one; [lia |].
  pose proof (Z.rem_bound_pos j 8 ltac:(lia) ltac:(lia)) as R.
  rewrite arr_get_replicate.
  - rewrite testbit_255 by lia. apply Z.ltb_lt. lia.
  - split; [apply Z.quot_pos; lia |]. apply Z.quot_lt_upper_bound; lia.
Qed.

Lemma concat_replicate_replicate (n m : nat) (x : Z) :
  concat (replicate n (replicate m x)) = replicate (n * m) x.
Proof.
  induction n as [| n IH]; cbn [replicate concat Nat.mul]; [reflexivity |].
  rewrite IH, replicate_add. reflexivity.
Qed.

(** X15.  Every slice of a new file reads as zeros: on the handle a call of
    [sif_create] returns (with sizes that fit a [long]),
    [sif_get_tile_slice] of any tile and band fills the caller's buffer with
    zero bytes and changes nothing in the handle. *)
Theorem new_file_reads_zero (host : byte_order) (name : list Z)
    (w h nb dus udt con defrag tw th iw tx ty band : Z) (buf : list Z)
    (file : sif_file) :
  sif_create host (Some name) w h nb dus udt con defrag tw th iw = Some file ->
  create_sizes_fit w h nb dus udt con defrag tw th iw ->
  0 <= tx < CEIL_DIV w tw -> 0 <= ty < CEIL_DIV h th -> 0 <= band < nb ->
  Z.of_nat (length buf) = dus * (tw * th) ->
  sif_get_tile_slice file (Some buf) tx ty band
  = (file, Some (replicate (length buf) 0)).
Proof.
  intros Hcreate _ Htx Hty Hband Hl.
  destruct (create_accepted _ _ _ _ _ _ _ _ _ _ _ _ _ Hcreate)
    as (Hb & Hw & Hh & Htw & Hth & Hd).
  pose proof (create_result host name w h nb dus udt con defrag tw th iw
                Hb Hw Hh Htw Hth Hd) as Hc.
  cbv zeta in Hc. rewrite Hcreate in Hc. injection Hc as Hc. subst file.
  set (across := CEIL_DIV w tw) in *. set (n := across * CEIL_DIV h th) in *.
  set (s := CEIL_DIV nb 8) in *.
  set (hd := mk_header _ _ _ _ _ _ _ _ _ _ _ _ _ _ _ _ _ _ _) in *.
  match goal with |- sif_get_tile_slice ?x _ _ _ _ = _ => set (f := x) end.
  assert (tiles f = replicate (Z.to_nat n) (blank_tile hd)) as Et by reflexivity.
  assert (bands hd = nb /\ data_unit_size hd = dus /\ n_tiles_across hd = across
          /\ version hd = 0)
    as (Hf1 & Hf2 & Hf3 & Hf4) by (repeat split; reflexivity).
  assert (units_per_slice f = tw * th) as Eu by reflexivity.
  assert (1 <= s) as Hs by (apply CEIL_DIV_pos; lia).
  pose proof (CEIL_DIV_8_covers nb Hb) as Hcov. fold s in Hcov.
  assert (tile_at f (n_tiles_across hd * ty + tx) = blank_tile hd) as Etile.
  { apply (tile_at_replicate f (Z.to_nat n)); [exact Et |]. rewrite Hf3. subst n. nia. }
  rewrite (get_tile_slice_uniform f hd buf tx ty band); rewrite ?Etile, ?Hf1, ?Hf2, ?Hf3, ?Eu;
    try assumption; try reflexivity; try nia.
  - unfold blank_tile. cbn [uniform_pixel_values]. rewrite Hf1, Hf2.
    rewrite sub_bytes_replicate by nia.
    rewrite concat_replicate_replicate. do 3 f_equal. nia.
  - rewrite Hf4. unfold SIF_VERSION. lia.
  - unfold blank_tile. cbn [uniform_flags]. rewrite Hf1. fold s.
    apply get_bit_all_ones. lia.
  - unfold blank_tile. cbn [uniform_pixel_values]. rewrite Hf1, Hf2.
    rewrite sub_bytes_replicate by nia. apply Forall_replicate. lia.
Qed.

Lemma new_file_reads_zero_witness :
  exists file,
    sif_create BIG_ENDIAN (Some [102]) 5 3 2 2 0 0 0 2 2 0 = Some file
    /\ create_sizes_fit 5 3 2 2 0 0 0 2 2 0
    /\ sif_get_tile_slice file (Some [1; 2; 3; 4; 5; 6; 7; 8]) 2 1 1
       = (file, Some (replicate 8%nat 0)).
Proof.
  eexists. split; [vm_compute; reflexivity |].
  assert (create_sizes_fit 5 3 2 2 0 0 0 2 2 0) as Hfit.
  { split; [repeat (constructor; [unfold int32; lia |]); constructor |].
    split; vm_compute; reflexivity. }
  split; [exact Hfit |].
  apply (new_file_reads_zero BIG_ENDIAN [102] 5 3 2 2 0 0 0 2 2 0 2 1 1
           [1; 2; 3; 4; 5; 6; 7; 8]);
    [vm_compute; reflexivity | exact Hfit | | | |];
    try lia; vm_compute; split; congruence.
Defined.

(** ** Writing a slice and reading it back *)

Lemma pwrite_drop_after (c : list Z) (p : Z) (d : list Z) (q : nat) :
  (Z.to_nat p + length d <= q)%nat -> drop q (pwrite c p d) = drop q c.
Proof.
  intros H. unfold pwrite.
  rewrite drop_app_ge by (rewrite length_resize; lia). rewrite length_resize.
  rewrite drop_app_ge by lia. rewrite drop_drop. f_equal. lia.
Qed.

Lemma pwrite_read_back (c : list Z) (p : Z) (d : list Z) :
  take (length d) (drop (Z.to_nat p) (pwrite c p d)) = d.
Proof.
  unfold pwrite.
  rewrite drop_app_length' by (symmetry; apply length_resize). apply take_app_length.
Qed.

Lemma fwrite_drop_after (buf : list Z) (els nel : Z) (f : FILE) (q : nat) :
  0 <= position f -> (Z.to_nat (position f + els * nel) <= q)%nat ->
  drop q (contents (snd (fwrite buf els nel f))) = drop q (contents f).
Proof.
  intros Hp Hq. unfold fwrite.
  destruct (els <=? 0) eqn:E1; [reflexivity |]. destruct (nel <=? 0) eqn:E2; [reflexivity |].
  cbn [orb snd contents]. apply pwrite_drop_after. rewrite sub_bytes_length. lia.
Qed.

(** A tile header is written without touching the file from the end of the
    record on. *)
Lemma write_tile_header_keeps_rest (g : sif_file) (tile : sif_tile) (tile_num : Z)
    (q : nat) :
  0 <= header_bytes g + tile_num * tile_header_bytes (hdr g) ->
  0 < data_unit_size (hdr g) -> 0 < bands (hdr g) -> 0 < n_uniform_flags (hdr g) ->
  header_bytes g + tile_num * tile_header_bytes (hdr g)
  + data_unit_size (hdr g) * bands (hdr g) + n_uniform_flags (hdr g) + 4 <= Z.of_nat q ->
  exists x,
    _sif_write_tile_header g tile tile_num = (set_fp g x, 1)
    /\ drop q (contents x) = drop q (contents (fp g))
    /\ (length (contents (fp g)) <= length (contents x))%nat.
Proof.
  intros Hloc Hd Hb Hn Hq. unfold _sif_write_tile_header, write_tile_record.
  rewrite FSEEK64_ok by exact Hloc.
  change (hdr (set_fp g _)) with (hdr g).
  rewrite FWRITE64_ok by assumption.
  rewrite FWRITE64_ok by lia.
  rewrite FWRITE64INT32_ok.
  eexists. split; [reflexivity |].
  cbn [fp set_fp].
  set (f0 := mkFILE (contents (fp g)) _).
  set (f1 := snd (fwrite (uniform_pixel_values tile) _ _ f0)).
  set (f2 := snd (fwrite (uniform_flags tile) _ _ f1)).
  assert (position f1 = position f0 + data_unit_size (hdr g) * bands (hdr g)) as P1
    by (apply fwrite_position; assumption).
  assert (position f2 = position f1 + 1 * n_uniform_flags (hdr g)) as P2
    by (apply fwrite_position; lia).
  assert (position f0 = header_bytes g + tile_num * tile_header_bytes (hdr g)) as P0
    by reflexivity.
  split.
  - rewrite fwrite_drop_after by lia.
    unfold f2. rewrite fwrite_drop_after by lia.
    unfold f1. rewrite fwrite_drop_after by lia.
    reflexivity.
  - etransitivity; [| apply fwrite_contents_length].
    etransitivity; [| apply fwrite_contents_length].
    etransitivity; [| apply fwrite_contents_length].
    cbn [contents f0]. lia.
Qed.

Lemma get_bit_clear_same (uca : list Z) (i : Z) :
  0 <= i < 8 * Z.of_nat (length uca) -> SIF_GET_BIT (SIF_CLEAR_BIT uca i) i = 0.
Proof.
  intros Hi.
  pose proof (Z.rem_bound_pos i 8 ltac:(lia) ltac:(lia)) as Hri.
  assert (0 <= Z.quot i 8 < Z.of_nat (length uca)) as Hq.
  { split; [apply Z.quot_pos; lia |]. apply Z.quot_lt_upper_bound; lia. }
  rewrite get_bit_testbit by lia.
  unfold SIF_CLEAR_BIT. rewrite arr_get_set_eq by exact Hq.
  rewrite !Z.land_spec, Z.lnot_spec, testbit_shiftl_1 by lia.
  rewrite Z.eqb_refl. cbn [negb]. rewrite andb_false_r. reflexivity.
Qed.

(** A slice whose flag is clear is read from its place in the file. *)
Lemma get_tile_slice_from_block (g : sif_file) (hd : sif_header) (buf : list Z)
    (tx ty band : Z) :
  header g = Some hd -> version hd <= SIF_VERSION ->
  0 <= tx < n_tiles_across hd -> 0 <= ty -> 0 <= band < bands hd ->
  SIF_GET_BIT (uniform_flags (tile_at g (n_tiles_across hd * ty + tx))) band = 0 ->
  0 < data_unit_size hd -> 0 < units_per_slice g ->
  Z.of_nat (length buf) = data_unit_size hd * units_per_slice g ->
  0 <= slice_location g (n_tiles_across hd * ty + tx) band ->
  slice_location g (n_tiles_across hd * ty + tx) band
  + data_unit_size hd * units_per_slice g <= Z.of_nat (length (contents (fp g))) ->
  snd (sif_get_tile_slice g (Some buf) tx ty band)
  = Some (take (Z.to_nat (data_unit_size hd * units_per_slice g))
            (drop (Z.to_nat (slice_location g (n_tiles_across hd * ty + tx) band))
               (contents (fp g)))).
Proof.
  intros Hh Hv Htx Hty Hb Hbit Hd Hu Hl Hloc Hend.
  assert (hdr g = hd) as Eh by (unfold hdr; rewrite Hh; reflexivity).
  unfold slice_location in *. rewrite Eh in *.
  unfold sif_get_tile_slice, SIF_CHECK_FILE_. rewrite Hh.
  destruct (version hd >? SIF_VERSION) eqn:E; [lia |]. clear E.
  destruct (tx <? 0) eqn:E1; [lia |]. destruct (ty <? 0) eqn:E2; [lia |].
  destruct (tx >=? n_tiles_across hd) eqn:E3; [lia |].
  destruct (band <? 0) eqn:E4; [lia |]. destruct (band >=? bands hd) eqn:E5; [lia |].
  cbn [orb]. unfold _sif_band_of_tile_is_uniform_shallow. rewrite Hbit.
  cbn [Z.eqb negb].
  rewrite FSEEK64_ok by exact Hloc.
  rewrite FREAD64_ok by (cbn [fp set_fp position contents units_per_slice]; lia).
  cbn [snd fp set_fp position contents units_per_slice]. f_equal.
  apply poke_all. rewrite bzero_length, length_take, length_drop. lia.
Qed.

Lemma drop_eq_mono {X} (a b : list X) (q r : nat) :
  drop q a = drop q b -> (q <= r)%nat -> drop r a = drop r b.
Proof.
  intros H Hr. replace r with (q + (r - q))%nat by lia.
  rewrite <- !drop_drop, H. reflexivity.
Qed.

Lemma first_free_block_nonneg (file : sif_file) : 0 <= first_free_block file.
Proof.
  unfold first_free_block.
  destruct (list_find _ _) as [[i x] |] eqn:E; cbn; [| lia].
  apply list_find_Some in E as (Hl & _ & _).
  apply list_elem_of_lookup_2, elem_of_seqZ in Hl. lia.
Qed.

(** The loop that fills a new block: all writes go through. *)
Lemma write_slices_ok (buffer : list Z) (els : Z) (k : sif_file -> sif_file)
    (l : list Z) :
  0 < els ->
  forall file, 0 < units_per_slice file ->
    exists x,
      for_each l
        (fun i file k => FWRITE64_ void_ret file buffer els (units_per_slice file) k)
        file k
      = k (set_fp file x).
Proof.
  intros H1. induction l as [| i l IH]; intros file H2; cbn [for_each].
  - exists (fp file). destruct file. reflexivity.
  - rewrite FWRITE64_ok by assumption.
    destruct (IH (set_fp file (snd (fwrite buffer els (units_per_slice file) (fp file)))) H2)
      as [x Hx].
    exists x. rewrite Hx. reflexivity.
Qed.

(** The last steps of [sif_set_tile_slice]: the slice is written at its
    place, the flag of the band is cleared and the tile header is written. *)
Lemma slice_write_core (fa : sif_file) (hd : sif_header) (data : list Z) (n band : Z) :
  header fa = Some hd ->
  0 <= n < Z.of_nat (length (tiles fa)) -> n < n_tiles hd ->
  0 <= block_num (tile_at fa n) ->
  0 <= band < 8 * Z.of_nat (length (uniform_flags (tile_at fa n))) ->
  0 < data_unit_size hd -> 0 < bands hd -> 0 < n_uniform_flags hd ->
  0 < units_per_slice fa -> 0 < tile_bytes hd -> 0 <= tile_header_bytes hd ->
  0 <= header_bytes fa ->
  tile_header_bytes hd = data_unit_size hd * bands hd + n_uniform_flags hd + 4 ->
  base_location fa = header_bytes fa + tile_header_bytes hd * n_tiles hd ->
  Z.of_nat (length data) = data_unit_size hd * units_per_slice fa ->
  let g :=
    FSEEK64_ void_ret fa
      (_sif_get_block_location fa (block_num (tile_at fa n))
       + data_unit_size hd * units_per_slice fa * band)
      (fun file =>
       FWRITE64_ void_ret file data (data_unit_size hd) (units_per_slice file)
         (fun file =>
          fst (_sif_write_tile_header
                 (put_tile file n
                    (tile_set_flags (tile_at file n)
                       (SIF_CLEAR_BIT (uniform_flags (tile_at file n)) band)))
                 (tile_at
                    (put_tile file n
                       (tile_set_flags (tile_at file n)
                          (SIF_CLEAR_BIT (uniform_flags (tile_at file n)) band))) n)
                 n))) in
  header g = Some hd /\ units_per_slice g = units_per_slice fa
  /\ read_only g = read_only fa
  /\ slice_holds g n band data.
Proof.
  intros Hh Hn Hnt Hbn Hband Hd Hb Hf Hu Htb Hthb Hhb Hrec Hbase Hl g.
  assert (hdr fa = hd) as Eh by (unfold hdr; rewrite Hh; reflexivity).
  set (t := tile_at fa n) in *.
  set (loc := _sif_get_block_location fa (block_num t)
              + data_unit_size hd * units_per_slice fa * band) in *.
  assert (base_location fa <= loc) as Hloc.
  { subst loc. unfold _sif_get_block_location. rewrite Eh. nia. }
  assert (0 <= base_location fa) as Hbl by nia.
  subst g. rewrite FSEEK64_ok by lia.
  rewrite FWRITE64_ok by (cbn [units_per_slice set_fp]; assumption).
  cbn [units_per_slice set_fp fp].
  unfold fwrite.
  destruct (data_unit_size hd <=? 0) eqn:E1; [lia |].
  destruct (units_per_slice fa <=? 0) eqn:E2; [lia |].
  cbn [orb snd contents position]. rewrite sub_bytes_all by exact Hl.
  set (c3 := pwrite (contents (fp fa)) loc data).
  set (f3 := set_fp (set_fp fa _) (mkFILE c3 _)).
  assert (tile_at f3 n = t) as E3 by reflexivity. rewrite E3.
  set (t' := tile_set_flags t (SIF_CLEAR_BIT (uniform_flags t) band)).
  set (f4 := put_tile f3 n t').
  assert (tile_at f4 n = t') as E4 by (apply tile_at_put_tile; exact Hn).
  rewrite E4.
  assert (hdr f4 = hd) as Eh4 by (unfold f4; rewrite put_tile_hdr; exact Eh).
  assert (header_bytes f4 = header_bytes fa) as Ehb4
    by (unfold f4; rewrite put_tile_header_bytes; reflexivity).
  assert (fp f4 = mkFILE c3 (loc + Z.of_nat (length data))) as Efp4
    by (unfold f4; rewrite put_tile_fp; reflexivity).
  destruct (write_tile_header_keeps_rest f4 t' n (Z.to_nat (base_location fa)))
    as (x & Hw & Hdrop & Hlen).
  { rewrite Eh4, Ehb4. nia. }
  { rewrite Eh4. exact Hd. }
  { rewrite Eh4. exact Hb. }
  { rewrite Eh4. exact Hf. }
  { rewrite Eh4, Ehb4. nia. }
  rewrite Hw. cbn [fst].
  rewrite Efp4 in Hdrop, Hlen. cbn [contents] in Hdrop, Hlen.
  assert (tile_at (set_fp f4 x) n = t') as E5 by exact E4.
  split; [cbn [header set_fp]; unfold f4; rewrite put_tile_header; exact Hh |].
  split; [cbn [units_per_slice set_fp]; unfold f4; rewrite units_per_slice_put_tile; reflexivity |].
  split; [cbn [read_only set_fp]; unfold f4; rewrite put_tile_read_only; reflexivity |].
  assert (slice_location (set_fp f4 x) n band = loc) as Eloc.
  { unfold slice_location. rewrite E5. unfold _sif_get_block_location.
    cbn [base_location set_fp units_per_slice]. change (hdr (set_fp f4 x)) with (hdr f4).
    rewrite Eh4. unfold f4. rewrite put_tile_base_location, units_per_slice_put_tile.
    cbn [base_location units_per_slice set_fp f3].
    subst loc. unfold _sif_get_block_location. rewrite Eh. reflexivity. }
  unfold slice_holds. rewrite Eloc, E5. cbn [fp set_fp].
  split; [apply get_bit_clear_same; exact Hband |].
  split; [lia |].
  assert (length c3 = (length (contents (fp fa)) `max` (Z.to_nat loc + length data))%nat)
    as Lc3 by apply pwrite_length.
  split; [lia |].
  rewrite (drop_eq_mono _ _ _ (Z.to_nat loc) Hdrop) by lia.
  apply pwrite_read_back.
Qed.

Lemma set_tile_slice_stores (file : sif_file) (hd : sif_header) (data : list Z)
    (tx ty band : Z) :
  well_formed file -> header file = Some hd -> read_only file = 0 ->
  0 <= tx < n_tiles_across hd -> 0 <= ty -> 0 <= band < bands hd ->
  n_tiles_across hd * ty + tx < n_tiles hd ->
  (intrinsic_write hd = 0
   \/ _sif_is_uniform file data
        (MIN (tile_width hd) (width hd - tx * tile_width hd))
        (MIN (tile_height hd) (height hd - ty * tile_height hd)) = false) ->
  Z.of_nat (length data) = data_unit_size hd * units_per_slice file ->
  let g := sif_set_tile_slice file (Some data) tx ty band in
  header g = Some hd /\ units_per_slice g = units_per_slice file
  /\ read_only g = read_only file
  /\ slice_holds g (n_tiles_across hd * ty + tx) band data.
Proof.
  intros [Hck Hgeo Hblk Hdisk Hunits Hu Htb Hrec Hfl Hbase Hlen Hts]
    Hh Hro Htx Hty Hband Hn Hnu Hl.
  assert (hdr file = hd) as Eh by (unfold hdr; rewrite Hh; reflexivity).
  rewrite Eh in *.
  apply geometry_ok_spec in Hgeo. rewrite Eh in Hgeo.
  destruct Hgeo as (Gb & Gd & Gf & Gtb & Gthb & Ghb & Gbl & Gn & Gt & Gbt).
  apply blocks_consistent_spec in Hblk as [Hblk _]. rewrite Eh in Hblk.
  unfold passes_check in Hck. rewrite Hh in Hck.
  set (n := n_tiles_across hd * ty + tx) in *.
  assert (0 <= n) as Hn0 by (subst n; nia).
  assert (0 <= n < Z.of_nat (length (tiles file))) as Hnt by lia.
  assert (tile_fits hd (tile_at file n)) as [_ Htf].
  { assert (tiles file !! Z.to_nat n = Some (tile_at file n)) as Hlk.
    { unfold tile_at. destruct (n <? 0) eqn:E; [lia |].
      destruct (lookup_lt_is_Some_2 (tiles file) (Z.to_nat n)) as [t Ht]; [lia |].
      rewrite Ht. reflexivity. }
    apply (proj1 (list.Forall_lookup _ _) Hts _ _ Hlk). }
  intros g. subst g.
  unfold sif_set_tile_slice, SIF_CHECK_FILE_. rewrite Hh.
  destruct (version hd >? SIF_VERSION) eqn:E; [lia |]. clear E.
  destruct (tx <? 0) eqn:E1; [lia |]. destruct (ty <? 0) eqn:E2; [lia |].
  destruct (tx >=? n_tiles_across hd) eqn:E3; [lia |].
  destruct (band <? 0) eqn:E4; [lia |]. destruct (band >=? bands hd) eqn:E5; [lia |].
  destruct (negb (read_only file =? 0)) eqn:E6; [rewrite Hro in E6; discriminate |].
  cbn [orb]. cbv zeta. fold n.
  assert (negb (intrinsic_write hd =? 0)
          && _sif_is_uniform file data
               (MIN (tile_width hd) (width hd - tx * tile_width hd))
               (MIN (tile_height hd) (height hd - ty * tile_height hd)) = false) as ->.
  { destruct Hnu as [-> | ->]; [reflexivity | apply andb_false_r]. }
  pose proof slice_write_core as Hc. cbv zeta in Hc.
  destruct (block_num (tile_at file n) =? -1) eqn:Eb.
  - set (tB := tile_set_block_num (tile_at file n) (first_free_block file)).
    set (fB := set_blocks_to_tiles (put_tile file n tB) _).
    assert (tile_at fB n = tB) as EB by (apply (tile_at_put_tile file n tB); exact Hnt).
    rewrite EB.
    pose proof (first_free_block_nonneg file) as Hfree.
    rewrite FSEEK64_ok
      by (unfold _sif_get_block_location; change (hdr fB) with (hdr (put_tile file n tB));
          rewrite put_tile_hdr, Eh; cbn [block_num tB tile_set_block_num];
          change (base_location fB) with (base_location (put_tile file n tB));
          rewrite put_tile_base_location; nia).
    match goal with
    | |- context [for_each ?l ?body ?f ?k] =>
        destruct (write_slices_ok data (data_unit_size hd) k l Gd f) as [x Hx];
          [cbn [units_per_slice set_fp fB set_blocks_to_tiles];
           rewrite units_per_slice_put_tile; exact Hu |]
    end.
    rewrite Hx. clear Hx.
    set (f1 := set_fp (set_fp fB _) x).
    assert (tile_at f1 n = tB) as E1' by exact EB.
    assert (units_per_slice f1 = units_per_slice file) as Eu1
      by (unfold f1, fB; cbn [units_per_slice set_fp set_blocks_to_tiles];
          apply units_per_slice_put_tile).
    assert (header f1 = Some hd) as Eh1
      by (unfold f1, fB; cbn [header set_fp set_blocks_to_tiles];
          rewrite put_tile_header; exact Hh).
    assert (header_bytes f1 = header_bytes file) as Ehb1
      by (unfold f1, fB; cbn [header_bytes set_fp set_blocks_to_tiles];
          apply put_tile_header_bytes).
    assert (base_location f1 = base_location file) as Ebl1
      by (unfold f1, fB; cbn [base_location set_fp set_blocks_to_tiles];
          apply put_tile_base_location).
    assert (read_only f1 = read_only file) as Ero1
      by (unfold f1, fB; cbn [read_only set_fp set_blocks_to_tiles];
          apply put_tile_read_only).
    assert (length (tiles f1) = length (tiles file)) as Elt1
      by (unfold f1, fB; cbn [tiles set_fp set_blocks_to_tiles]; apply put_tile_length).
    destruct (intrinsic_write hd =? 0).
    + set (fa := set_dirty_tiles f1 _).
      assert (tile_at fa n = tB) as Ea by exact E1'.
      destruct (Hc fa hd data n band) as (C1 & C2 & C3 & C4);
        [> (rewrite ?Ea; cbn [header tiles units_per_slice header_bytes base_location
                              set_dirty_tiles fa];
            rewrite ?Eu1, ?Ehb1, ?Ebl1, ?Elt1;
            try assumption; try lia;
            try (cbn [block_num uniform_flags tB tile_set_block_num]; lia)) .. |].
      split; [exact C1 |]. split; [rewrite C2; exact Eu1 |].
      split; [rewrite C3; exact Ero1 | exact C4].
    + destruct (Hc f1 hd data n band) as (C1 & C2 & C3 & C4);
        [> (rewrite ?E1', ?Eu1, ?Ehb1, ?Ebl1, ?Elt1;
            try assumption; try lia;
            try (cbn [block_num uniform_flags tB tile_set_block_num]; lia)) .. |].
      split; [exact C1 |]. split; [rewrite C2; exact Eu1 |].
      split; [rewrite C3; exact Ero1 | exact C4].
  - assert (0 <= block_num (tile_at file n)) as Hbn.
    { destruct (Hblk n ltac:(lia)) as [Hm | [Hr _]]; unfold block_of in *; lia. }
    destruct (intrinsic_write hd =? 0).
    + set (fa := set_dirty_tiles file _).
      assert (tile_at fa n = tile_at file n) as Ea by reflexivity.
      destruct (Hc fa hd data n band) as (C1 & C2 & C3 & C4);
        [> (rewrite ?Ea; cbn [header tiles units_per_slice header_bytes base_location
                              set_dirty_tiles fa];
            try assumption; try lia) .. |].
      split; [exact C1 |]. split; [exact C2 |]. split; [exact C3 | exact C4].
    + apply (Hc file hd data n band); try assumption; try lia.
Qed.

(** X16.  A slice written with [sif_set_tile_slice] reads back byte for
    byte: on a writable handle in a consistent state, when the flag
    [intrinsic_write] is off or the buffer is not uniform over the tile's
    window, [sif_get_tile_slice] on the same tile and band returns the
    buffer that was written. *)
Theorem set_then_get_tile_slice (file : sif_file) (hd : sif_header)
    (tx ty band : Z) (data buf : list Z) :
  well_formed file -> header file = Some hd -> read_only file = 0 ->
  0 <= tx < n_tiles_across hd -> 0 <= ty -> 0 <= band < bands hd ->
  n_tiles_across hd * ty + tx < n_tiles hd ->
  (intrinsic_write hd = 0
   \/ _sif_is_uniform file data
        (MIN (tile_width hd) (width hd - tx * tile_width hd))
        (MIN (tile_height hd) (height hd - ty * tile_height hd)) = false) ->
  Z.of_nat (length data) = data_unit_size hd * units_per_slice file ->
  Z.of_nat (length buf) = data_unit_size hd * units_per_slice file ->
  snd (sif_get_tile_slice (sif_set_tile_slice file (Some data) tx ty band)
         (Some buf) tx ty band)
  = Some data.
Proof.
  intros Hwf Hh Hro Htx Hty Hband Hn Hnu Hl Hlb.
  destruct (set_tile_slice_stores file hd data tx ty band Hwf Hh Hro Htx Hty Hband Hn Hnu Hl)
    as (Gh & Gu & _ & Gbit & Gloc & Gend & Gdata).
  set (g := sif_set_tile_slice file (Some data) tx ty band) in *.
  pose proof (wf_check _ Hwf) as Hck. unfold passes_check in Hck. rewrite Hh in Hck.
  pose proof (geometry_ok_spec _ (wf_geometry _ Hwf)) as (_ & Gd & _).
  pose proof (wf_slice _ Hwf) as Hu.
  assert (hdr file = hd) as Eh by (unfold hdr; rewrite Hh; reflexivity).
  rewrite Eh in Gd.
  rewrite (get_tile_slice_from_block g hd buf tx ty band); rewrite ?Gu;
    try assumption; try lia.
  rewrite <- Hl, Nat2Z.id. rewrite Gdata. reflexivity.
Qed.

Lemma set_then_get_tile_slice_witness :
  exists file,
    one_tile_file 2 = Some file
    /\ well_formed file
    /\ snd (sif_get_tile_slice (sif_set_tile_slice file (Some [7; 9]) 0 0 1)
              (Some [0; 0]) 0 0 1)
       = Some [7; 9].
Proof.
  eexists. split; [vm_compute; reflexivity |].
  assert (forall P Q : Prop, P -> (P -> Q) -> P /\ Q) as both by tauto.
  apply both.
  - constructor; try (vm_compute; reflexivity); try (vm_compute; congruence).
    repeat (constructor; [split; vm_compute; reflexivity |]). constructor.
  - intros Hwf. eapply set_then_get_tile_slice.
    + exact Hwf.
    + vm_compute. reflexivity.
    + vm_compute. reflexivity.
    + split; vm_compute; [congruence | reflexivity].
    + vm_compute. congruence.
    + split; vm_compute; [congruence | reflexivity].
    + vm_compute. reflexivity.
    + right. vm_compute. reflexivity.
    + vm_compute. reflexivity.
    + vm_compute. reflexivity.
Defined.

Lemma set_uniform_slice_eq_fill (file : sif_file) (hd : sif_header)
    (tx ty band : Z) (data : list Z) :
  header file = Some hd -> intrinsic_write hd <> 0 ->
  _sif_is_uniform file data
    (MIN (tile_width hd) (width hd - tx * tile_width hd))
    (MIN (tile_height hd) (height hd - ty * tile_height hd)) = true ->
  sif_set_tile_slice file (Some data) tx ty band
  = sif_fill_tile_slice file tx ty band (Some data).
Proof.
  intros Hh Hiw Hu. unfold sif_set_tile_slice, sif_fill_tile_slice, SIF_CHECK_FILE_.
  rewrite Hh.
  destruct (version hd >? SIF_VERSION); [reflexivity |].
  destruct (_ || _); [reflexivity |]. destruct (_ || _); [reflexivity |].
  destruct (negb (read_only file =? 0)); [reflexivity |].
  cbv zeta. rewrite Hu.
  destruct (intrinsic_write hd =? 0) eqn:E; [apply Z.eqb_eq in E; contradiction |].
  reflexivity.
Qed.

(** X17.  With the flag [intrinsic_write] on, writing a slice whose window
    is uniform is the same as filling the slice from the buffer: nothing is
    written to a block, and the first data unit of the buffer becomes the
    band's uniform pixel value. *)
Theorem set_uniform_slice_is_fill (file : sif_file) (hd : sif_header)
    (tx ty band : Z) (data : list Z) :
  header file = Some hd -> intrinsic_write hd <> 0 ->
  _sif_is_uniform file data
    (MIN (tile_width hd) (width hd - tx * tile_width hd))
    (MIN (tile_height hd) (height hd - ty * tile_height hd)) = true ->
  sif_set_tile_slice file (Some data) tx ty band
  = sif_fill_tile_slice file tx ty band (Some data).
Proof. apply set_uniform_slice_eq_fill. Qed.

Lemma set_uniform_slice_is_fill_witness :
  exists file hd,
    one_tile_file 2 = Some file /\ header file = Some hd
    /\ sif_set_tile_slice file (Some [7; 7]) 0 0 1
       = sif_fill_tile_slice file 0 0 1 (Some [7; 7]).
Proof.
  eexists _, _. split; [vm_compute; reflexivity |]. split; [vm_compute; reflexivity |].
  eapply set_uniform_slice_is_fill.
  - vm_compute. reflexivity.
  - vm_compute. congruence.
  - vm_compute. reflexivity.
Defined.

(** ** The last used block *)

Lemma last_used_block_scan (T : Z -> Z) (n : nat) :
  let r := foldl (fun last i => if negb (T i =? -1) then i else last) (-1)
                 (seqZ 0 (Z.of_nat n)) in
  (r = -1 \/ (0 <= r < Z.of_nat n /\ T r <> -1))
  /\ forall b, r < b < Z.of_nat n -> 0 <= b -> T b = -1.
Proof.
  induction n as [| n IH].
  - cbn. split; [left; reflexivity | intros; lia].
  - replace (Z.of_nat (S n)) with (Z.of_nat n + 1) by lia.
    rewrite seqZ_snoc by lia. rewrite foldl_app. cbn [foldl].
    cbv zeta in IH. destruct IH as [IH1 IH2].
    destruct (T (Z.of_nat n) =? -1) eqn:E; cbn [negb].
    + apply Z.eqb_eq in E. split.
      * destruct IH1 as [-> | [Hr Ht]]; [left; reflexivity | right; split; [lia | exact Ht]].
      * intros b Hb Hb0. destruct (decide (b = Z.of_nat n)) as [-> | Hne]; [exact E |].
        apply IH2; lia.
    + apply Z.eqb_neq in E. split; [right; split; [lia | exact E] | intros; lia].
Qed.

(** X18.  [_sif_get_last_used_block_index] returns the largest index of a
    block in use, or -1 when no block is in use: the block at the result is
    assigned to a tile, and every block after it is free. *)
Theorem last_used_block_index_spec (file : sif_file) :
  let r := _sif_get_last_used_block_index file in
  (r = -1 \/ (0 <= r < n_tiles (hdr file) /\ arr_get (blocks_to_tiles file) r <> -1))
  /\ forall b, r < b < n_tiles (hdr file) -> arr_get (blocks_to_tiles file) b = -1.
Proof.
  unfold _sif_get_last_used_block_index.
  destruct (decide (0 <= n_tiles (hdr file))) as [Hn | Hn].
  - pose proof (last_used_block_scan (arr_get (blocks_to_tiles file))
                  (Z.to_nat (n_tiles (hdr file)))) as H.
    rewrite Z2Nat.id in H by exact Hn. cbv zeta in H |- *.
    destruct H as [H1 H2]. split; [exact H1 |].
    intros b Hb. apply H2; [exact Hb |].
    destruct H1 as [E | [Hr _]]; lia.
  - rewrite seqZ_nil by lia. cbn. split; [left; reflexivity | intros; lia].
Qed.

(** ** Simple type codes *)

Lemma check_upd_header (file : sif_file) (g : sif_header -> sif_header) :
  passes_check file -> version (g (hdr file)) = version (hdr file) ->
  passes_check (upd_header file g).
Proof.
  unfold passes_check, upd_header, hdr. cbn [header set_header].
  destruct (header file) as [hd |]; [| tauto]. cbn. intros H E. rewrite E. exact H.
Qed.

(** X19.  On a handle whose user data type is not negative and lies at
    least 9 below the largest [int] (so that the [int] sums of the setters
    do not overflow), the byte order and the base type of the simple type
    code are set independently: [sif_simple_set_endian] makes
    [sif_simple_get_endian] return the new order and keeps the base type,
    and [sif_simple_set_data_type] makes [sif_simple_get_data_type] return
    the new type and keeps the order. *)
Theorem simple_type_code_round_trip (file : sif_file) (endian dt : Z) :
  passes_check file -> 0 <= user_data_type (hdr file) < 2 ^ 31 - 9 ->
  0 <= endian <= 1 -> 0 <= dt <= 9 ->
  snd (sif_simple_get_endian (sif_simple_set_endian file endian)) = endian
  /\ snd (sif_simple_get_data_type (sif_simple_set_endian file endian))
     = snd (sif_simple_get_data_type file)
  /\ snd (sif_simple_get_data_type (sif_simple_set_data_type file dt)) = dt
  /\ snd (sif_simple_get_endian (sif_simple_set_data_type file dt))
     = snd (sif_simple_get_endian file).
Proof.
  intros Hc Hu He Hd.
  unfold sif_simple_set_endian, sif_simple_set_data_type.
  destruct (endian <? 0) eqn:E1; [lia |]. destruct (endian >? 1) eqn:E2; [lia |].
  destruct (dt <? 0) eqn:E3; [lia |]. destruct (dt >? 9) eqn:E4; [lia |].
  cbn [orb]. unfold void_ret. rewrite !SIF_CHECK_FILE_pass by exact Hc. cbv zeta.
  unfold sif_simple_get_endian, sif_simple_get_data_type.
  rewrite !SIF_CHECK_FILE_pass by (exact Hc || (apply check_upd_header; [exact Hc | reflexivity])).
  cbn [snd]. rewrite !hdr_upd_header. cbn [user_data_type hd_set_user_data_type].
  unfold SIF_SIMPLE_ENDIAN, SIF_SIMPLE_BASE_TYPE_CODE, int_of_long.
  set (u := user_data_type (hdr file)) in *.
  assert (0 <= u) as Hu0 by lia.
  pose proof (Z.rem_bound_pos u 10 Hu0 ltac:(lia)) as Hr.
  pose proof (Z.quot_pos u 10 Hu0 ltac:(lia)) as Hq.
  pose proof (Z.quot_rem' u 10) as Hqr.
  rewrite (wrap32_id u) by lia.
  rewrite (wrap32_id (Z.rem u 10 + 10 * endian)) by lia.
  rewrite (wrap32_id (dt + 10 * Z.quot u 10)) by lia.
  repeat split.
  - rewrite Z.add_comm, Z.mul_comm, Z.quot_add_l by lia.
    rewrite Z.quot_small by lia. lia.
  - rewrite Z.mul_comm, Z.rem_add by nia. apply Z.rem_small. lia.
  - rewrite Z.mul_comm, Z.rem_add by nia. apply Z.rem_small. lia.
  - rewrite Z.add_comm, Z.mul_comm, Z.quot_add_l by lia.
    rewrite (Z.quot_small dt) by lia. lia.
Qed.

Lemma simple_type_code_round_trip_witness :
  exists file,
    one_tile_file 1 = Some file
    /\ snd (sif_simple_get_endian (sif_simple_set_endian file 1)) = 1
    /\ snd (sif_simple_get_data_type (sif_simple_set_endian file 1))
       = snd (sif_simple_get_data_type file)
    /\ snd (sif_simple_get_data_type (sif_simple_set_data_type file 9)) = 9
    /\ snd (sif_simple_get_endian (sif_simple_set_data_type file 9))
       = snd (sif_simple_get_endian file).
Proof.
  eexists. split; [vm_compute; reflexivity |].
  apply simple_type_code_round_trip; try lia.
  - vm_compute. congruence.
  - vm_compute. split; [congruence | reflexivity].
Defined.

(** ** Shallow uniformity and reading *)

Lemma memcpy_all (dst src : list Z) (soff n : Z) :
  Z.of_nat (length dst) = n -> memcpy dst 0 src soff n = sub_bytes src soff n.
Proof.
  intros H. unfold memcpy. cbn [Z.ltb Z.compare]. change (Z.to_nat 0) with 0%nat.
  apply poke_all. rewrite sub_bytes_length. lia.
Qed.

Lemma sub_bytes_take_at (a : list Z) (off n : Z) :
  0 <= off -> 0 <= n -> off + n <= Z.of_nat (length a) ->
  sub_bytes a off n = take (Z.to_nat n) (drop (Z.to_nat off) a).
Proof.
  intros Ho Hn H. unfold sub_bytes. destruct (off <? 0) eqn:E; [lia |].
  apply resize_le. rewrite length_drop. lia.
Qed.

(** X20.  [sif_is_slice_shallow_uniform] and [sif_get_tile_slice] agree:
    the answer is 1 exactly when the flag of the band is set, the value
    handed back is then the band's uniform pixel value, and
    [sif_get_tile_slice] returns that value in every data unit of the
    slice; with the answer 0 the caller's value is left as it was. *)
Theorem shallow_uniform_agrees_with_get (file : sif_file) (hd : sif_header)
    (tx ty band : Z) (value buf : list Z) :
  header file = Some hd -> version hd <= SIF_VERSION ->
  0 <= tx < n_tiles_across hd -> 0 <= ty -> 0 <= band < bands hd ->
  0 < data_unit_size hd -> 0 <= units_per_slice file ->
  Z.of_nat (length value) = data_unit_size hd ->
  Z.of_nat (length buf) = data_unit_size hd * units_per_slice file ->
  Forall (fun b => 0 <= b < 256)
    (uniform_pixel_values (tile_at file (n_tiles_across hd * ty + tx))) ->
  data_unit_size hd * bands hd
  <= Z.of_nat (length (uniform_pixel_values (tile_at file (n_tiles_across hd * ty + tx)))) ->
  let r := sif_is_slice_shallow_uniform file tx ty band value in
  fst (fst r) = file
  /\ (snd (fst r) = 1 \/ snd (fst r) = 0)
  /\ (snd (fst r) = 1 <->
      SIF_GET_BIT (uniform_flags (tile_at file (n_tiles_across hd * ty + tx))) band <> 0)
  /\ (snd (fst r) = 1 ->
      sif_get_tile_slice file (Some buf) tx ty band
      = (file, Some (concat (replicate (Z.to_nat (units_per_slice file)) (snd r)))))
  /\ (snd (fst r) = 0 -> snd r = value).
Proof.
  intros Hh Hv Htx Hty Hb Hd Hu Hlv Hl Hr Hp.
  unfold sif_is_slice_shallow_uniform, SIF_CHECK_FILE_. rewrite Hh.
  destruct (version hd >? SIF_VERSION) eqn:E; [lia |]. clear E. cbv zeta.
  set (t := tile_at file (n_tiles_across hd * ty + tx)) in *.
  assert (SIF_GET_BIT (uniform_flags t) band = 0 \/ SIF_GET_BIT (uniform_flags t) band = 1)
    as Hbit.
  { unfold SIF_GET_BIT. rewrite land_1_testbit. destruct (Z.testbit _ _); auto. }
  destruct Hbit as [E | E]; rewrite E; cbn [Z.eqb negb fst snd].
  - split; [reflexivity |]. split; [right; reflexivity |].
    split; [split; [discriminate | congruence] |].
    split; [discriminate | reflexivity].
  - split; [reflexivity |]. split; [left; reflexivity |].
    split; [split; [discriminate | reflexivity] |].
    split; [| discriminate]. intros _.
    rewrite memcpy_all by exact Hlv. rewrite (Z.mul_comm band).
    apply (get_tile_slice_uniform file hd buf tx ty band); try assumption.
    fold t.
    assert (data_unit_size hd * band + data_unit_size hd <= data_unit_size hd * bands hd)
      by nia.
    rewrite sub_bytes_take_at by (try lia; nia).
    apply Forall_take, Forall_drop. exact Hr.
Qed.

Lemma shallow_uniform_agrees_with_get_witness :
  exists file hd,
    one_tile_file 2 = Some file /\ header file = Some hd
    /\ (let r := sif_is_slice_shallow_uniform file 0 0 1 [5] in
        fst (fst r) = file
        /\ (snd (fst r) = 1 \/ snd (fst r) = 0)
        /\ (snd (fst r) = 1 <->
            SIF_GET_BIT (uniform_flags (tile_at file (n_tiles_across hd * 0 + 0))) 1 <> 0)
        /\ (snd (fst r) = 1 ->
            sif_get_tile_slice file (Some [1; 2]) 0 0 1
            = (file, Some (concat (replicate (Z.to_nat (units_per_slice file)) (snd r)))))
        /\ (snd (fst r) = 0 -> snd r = [5])).
Proof.
  eexists _, _. split; [vm_compute; reflexivity |]. split; [vm_compute; reflexivity |].
  apply shallow_uniform_agrees_with_get.
  - vm_compute. reflexivity.
  - vm_compute. congruence.
  - split; vm_compute; [congruence | reflexivity].
  - vm_compute. congruence.
  - split; vm_compute; [congruence | reflexivity].
  - vm_compute. reflexivity.
  - vm_compute. congruence.
  - vm_compute. reflexivity.
  - vm_compute. reflexivity.
  - vm_compute. repeat constructor; congruence.
  - vm_compute. congruence.
Defined.

(** ** Read-only handles *)

Lemma same_but_error_refl (f : sif_file) : same_but_error f f.
Proof. unfold same_but_error. destruct f. reflexivity. Qed.

Lemma same_but_error_set (f : sif_file) (e : Z) : same_but_error f (set_error f e).
Proof. unfold same_but_error. reflexivity. Qed.

(** X21.  Nothing is written through a read-only handle: the slice
    writers, the raster writer, consolidation, defragmentation and the
    flush leave the file, the tile table and the block maps as they are and
    at most record an error; [sif_set_raster] does not even do that, and
    [sif_close] leaves the bytes of the file untouched. *)
Theorem read_only_handle_is_not_written (host : byte_order) (file : sif_file)
    (buffer v : option (list Z)) (data : list Z) (tx ty band x y w h : Z) :
  read_only file <> 0 ->
  same_but_error file (sif_set_tile_slice file buffer tx ty band)
  /\ same_but_error file (sif_fill_tile_slice file tx ty band v)
  /\ same_but_error file (sif_fill_tiles file band v)
  /\ same_but_error file (sif_set_raster file data x y w h band)
  /\ (header file <> None -> version (hdr file) <= SIF_VERSION ->
      sif_set_raster file data x y w h band = file)
  /\ sif_consolidate file = file
  /\ same_but_error file (sif_defragment file)
  /\ sif_flush host file = (file, 0)
  /\ snd (sif_close host file) = contents (fp file).
Proof.
  intros Hro.
  assert ((read_only file =? 0) = false) as E by (apply Z.eqb_neq; exact Hro).
  repeat split.
  - unfold sif_set_tile_slice, SIF_CHECK_FILE_, void_ret.
    destruct (header file) as [hd |]; [| apply same_but_error_set].
    destruct (version hd >? SIF_VERSION); [apply same_but_error_set |].
    destruct (_ || _); [apply same_but_error_set |].
    destruct (_ || _); [apply same_but_error_set |].
    destruct buffer; [| apply same_but_error_set].
    rewrite E. apply same_but_error_set.
  - unfold sif_fill_tile_slice, SIF_CHECK_FILE_, void_ret.
    destruct (header file) as [hd |]; [| apply same_but_error_set].
    destruct (version hd >? SIF_VERSION); [apply same_but_error_set |].
    destruct (_ || _); [apply same_but_error_set |].
    destruct (_ || _); [apply same_but_error_set |].
    destruct v; [| apply same_but_error_set].
    rewrite E. apply same_but_error_set.
  - unfold sif_fill_tiles, SIF_CHECK_FILE_, void_ret.
    destruct (header file) as [hd |]; [| apply same_but_error_set].
    destruct (version hd >? SIF_VERSION); [apply same_but_error_set |].
    destruct (_ || _); [apply same_but_error_set |].
    destruct v; [| apply same_but_error_set].
    rewrite E. apply same_but_error_set.
  - unfold sif_set_raster, SIF_CHECK_FILE_, void_ret.
    destruct (header file) as [hd |]; [| apply same_but_error_set].
    destruct (version hd >? SIF_VERSION); [apply same_but_error_set |].
    rewrite E. apply same_but_error_refl.
  - intros Hh Hv. unfold sif_set_raster, SIF_CHECK_FILE_, void_ret. unfold hdr in Hv.
    destruct (header file) as [hd |]; [| contradiction]. cbn in Hv.
    destruct (version hd >? SIF_VERSION) eqn:E'; [lia |].
    rewrite E. reflexivity.
  - unfold sif_consolidate. rewrite E. reflexivity.
  - unfold sif_defragment, SIF_CHECK_FILE_, void_ret.
    destruct (header file) as [hd |]; [| apply same_but_error_set].
    destruct (version hd >? SIF_VERSION); [apply same_but_error_set |].
    rewrite E. apply same_but_error_refl.
  - unfold sif_flush. rewrite E. reflexivity.
  - unfold sif_close, sif_flush. rewrite E. cbn [fst].
    destruct (negb (error file =? 0)); reflexivity.
Qed.

Lemma read_only_handle_is_not_written_witness :
  exists file,
    sif_open LITTLE_ENDIAN
      (Some (snd (sif_close LITTLE_ENDIAN
                    (default (_sif_alloc_fp fopen_wb) (one_tile_file 1))))) 1
    = Some file
    /\ read_only file <> 0
    /\ same_but_error file (sif_set_tile_slice file (Some [1; 2]) 0 0 0)
    /\ sif_flush LITTLE_ENDIAN file = (file, 0).
Proof.
  eexists. split; [vm_compute; reflexivity |].
  split; [vm_compute; congruence |].
  pose proof (fun f H => read_only_handle_is_not_written LITTLE_ENDIAN f
                (Some [1; 2]) None [] 0 0 0 0 0 0 0 H) as H.
  match goal with |- same_but_error ?f _ /\ _ =>
    destruct (H f) as (H1 & _ & _ & _ & _ & _ & _ & H8 & _); [vm_compute; congruence |]
  end.
  split; [exact H1 | exact H8].
Defined.

(** ** The block maps under allocation and release *)

Lemma blocks_consistent_intro (f : sif_file) :
  tiles_to_blocks_ok (block_of f) (tile_of f) (n_tiles (hdr f)) ->
  blocks_to_tiles_ok (block_of f) (tile_of f) (n_tiles (hdr f)) ->
  blocks_consistent f = true.
Proof.
  intros H1 H2. unfold blocks_consistent. apply andb_true_iff.
  split; apply forallb_seqZ_intro; intros i Hi.
  - destruct (H1 i Hi) as [E | [Hr E]]; unfold block_of, tile_of in *.
    + rewrite E. reflexivity.
    + apply orb_true_iff. right. rewrite !andb_true_iff.
      repeat split; [apply Z.leb_le | apply Z.ltb_lt | apply Z.eqb_eq]; lia.
  - destruct (H2 i Hi) as [E | [Hr E]]; unfold block_of, tile_of in *.
    + rewrite E. reflexivity.
    + apply orb_true_iff. right. rewrite !andb_true_iff.
      repeat split; [apply Z.leb_le | apply Z.ltb_lt | apply Z.eqb_eq]; lia.
Qed.

Lemma blocks_on_disk_intro (f : sif_file) :
  (forall b, 0 <= b < n_tiles (hdr f) -> tile_of f b <> -1 ->
     base_location f + (b + 1) * tile_bytes (hdr f)
     <= Z.of_nat (length (contents (fp f)))) ->
  blocks_on_disk f = true.
Proof.
  intros H. unfold blocks_on_disk. apply forallb_seqZ_intro. intros b Hb.
  unfold tile_of in H. destruct (arr_get (blocks_to_tiles f) b =? -1) eqn:E; [reflexivity |].
  apply Z.eqb_neq in E. cbn [orb]. apply Z.leb_le. apply H; assumption.
Qed.

(** A tile without a block leaves a block without a tile. *)
Lemma free_block_exists (B T : Z -> Z) (n t : Z) :
  blocks_to_tiles_ok B T n -> 0 <= t < n -> B t = -1 ->
  exists b, 0 <= b < n /\ T b = -1.
Proof.
  intros H2 Ht Hb.
  destruct (decide (Exists (fun b => T b = -1) (seqZ 0 n))) as [He | Hne].
  - apply Exists_exists in He as (b & Hin & Hfree).
    apply list_elem_of_In, elem_of_seqZ in Hin. exists b. split; [lia | exact Hfree].
  - exfalso. apply not_Exists_Forall in Hne; [| intros x; apply Z.eq_dec].
    assert (forall b, 0 <= b < n -> 0 <= T b < n /\ B (T b) = b) as Hall.
    { intros b Hrange. destruct (H2 b Hrange) as [E | H]; [| exact H].
      exfalso. rewrite Forall_forall in Hne.
      apply (Hne b); [apply list_elem_of_In, elem_of_seqZ; lia | exact E]. }
    assert (NoDup (T <$> seqZ 0 n)) as Hnd.
    { apply NoDup_fmap_2_strong; [| apply NoDup_seqZ].
      intros x y Hx Hy E. apply elem_of_seqZ in Hx, Hy.
      destruct (Hall x ltac:(lia)) as [_ Ex]. destruct (Hall y ltac:(lia)) as [_ Ey].
      congruence. }
    assert (T <$> seqZ 0 n ⊆ seqZ 0 t ++ seqZ (t + 1) (n - t - 1)) as Hsub.
    { intros x Hx. apply list_elem_of_fmap in Hx as (b & -> & Hin).
      apply elem_of_seqZ in Hin. destruct (Hall b ltac:(lia)) as [Hr Eb].
      assert (T b <> t) by (intros E; rewrite E in Eb; lia).
      apply elem_of_app. rewrite !elem_of_seqZ. lia. }
    pose proof (submseteq_length _ _ (NoDup_submseteq _ _ Hnd Hsub)) as Hlen.
    rewrite length_fmap, length_app, !length_seqZ in Hlen. lia.
Qed.

(** The search of [sif_set_tile_slice] for a free block: the first block
    without a tile, when there is one. *)
Lemma first_free_block_spec (file : sif_file) :
  (exists b, 0 <= b < n_tiles (hdr file) /\ tile_of file b = -1) ->
  0 <= first_free_block file < n_tiles (hdr file)
  /\ tile_of file (first_free_block file) = -1
  /\ forall b, 0 <= b < first_free_block file -> tile_of file b <> -1.
Proof.
  intros (b & Hb & Hfree). unfold first_free_block, tile_of in *.
  destruct (list_find_elem_of (fun i => arr_get (blocks_to_tiles file) i = -1)
              (seqZ 0 (n_tiles (hdr file))) b) as [[i x] Hfind].
  { apply elem_of_seqZ. lia. }
  { exact Hfree. }
  rewrite Hfind. cbn.
  apply list_find_Some in Hfind as (Hl & Hx & Hmin).
  pose proof Hl as Hl'. apply lookup_seqZ in Hl' as [-> Hi].
  split; [lia |]. split; [exact Hx |].
  intros b' Hb'. apply (Hmin (Z.to_nat b') b'); [| lia].
  apply lookup_seqZ. lia.
Qed.

(** Giving a free block to a tile without one keeps the maps inverse. *)
Lemma maps_assign (B T : Z -> Z) (n t f : Z) :
  tiles_to_blocks_ok B T n -> blocks_to_tiles_ok B T n ->
  0 <= t < n -> 0 <= f < n -> B t = -1 -> T f = -1 ->
  tiles_to_blocks_ok (fun x => if decide (x = t) then f else B x)
                     (fun y => if decide (y = f) then t else T y) n
  /\ blocks_to_tiles_ok (fun x => if decide (x = t) then f else B x)
                        (fun y => if decide (y = f) then t else T y) n.
Proof.
  intros H1 H2 Ht Hf Hb Hfree. split.
  - intros x Hx. destruct (decide (x = t)) as [-> | Hne].
    + right. rewrite decide_True by reflexivity. lia.
    + destruct (H1 x Hx) as [E | [Hr E]]; [left; exact E | right].
      split; [exact Hr |]. destruct (decide (B x = f)) as [Ef | _]; [| exact E].
      rewrite Ef in E. lia.
  - intros y Hy. destruct (decide (y = f)) as [-> | Hne].
    + right. rewrite decide_True by reflexivity. lia.
    + destruct (H2 y Hy) as [E | [Hr E]]; [left; exact E | right].
      split; [exact Hr |]. destruct (decide (T y = t)) as [Et | _]; [| exact E].
      rewrite Et in E. lia.
Qed.

(** Taking the block of a tile away keeps the maps inverse. *)
Lemma maps_release (B T : Z -> Z) (n t : Z) :
  tiles_to_blocks_ok B T n -> blocks_to_tiles_ok B T n ->
  0 <= t < n -> B t <> -1 ->
  tiles_to_blocks_ok (fun x => if decide (x = t) then -1 else B x)
                     (fun y => if decide (y = B t) then -1 else T y) n
  /\ blocks_to_tiles_ok (fun x => if decide (x = t) then -1 else B x)
                        (fun y => if decide (y = B t) then -1 else T y) n.
Proof.
  intros H1 H2 Ht Hb.
  destruct (H1 t Ht) as [E | [Hr Et]]; [contradiction |]. split.
  - intros x Hx. destruct (decide (x = t)) as [-> | Hne]; [left; reflexivity |].
    destruct (H1 x Hx) as [E | [Hrx E]]; [left; exact E | right].
    split; [exact Hrx |]. destruct (decide (B x = B t)) as [Eb | _]; [| exact E].
    rewrite Eb in E. congruence.
  - intros y Hy. destruct (decide (y = B t)) as [-> | Hne]; [left; reflexivity |].
    destruct (H2 y Hy) as [E | [Hry E]]; [left; exact E | right].
    split; [exact Hry |]. destruct (decide (T y = t)) as [Ety | _]; [| exact E].
    rewrite Ety in E. congruence.
Qed.

Lemma maps_ext (B B' T T' : Z -> Z) (n : Z) :
  (forall x, 0 <= x < n -> B' x = B x) -> (forall y, 0 <= y < n -> T' y = T y) ->
  tiles_to_blocks_ok B T n /\ blocks_to_tiles_ok B T n ->
  tiles_to_blocks_ok B' T' n /\ blocks_to_tiles_ok B' T' n.
Proof.
  intros HB HT [H1 H2]. split.
  - intros x Hx. rewrite HB by exact Hx.
    destruct (H1 x Hx) as [E | [Hr E]]; [left; exact E | right].
    split; [exact Hr |]. rewrite HT by exact Hr. exact E.
  - intros y Hy. rewrite HT by exact Hy.
    destruct (H2 y Hy) as [E | [Hr E]]; [left; exact E | right].
    split; [exact Hr |]. rewrite HB by exact Hr. exact E.
Qed.

(** ** The shape of a handle after a slice has been stored *)

Lemma put_tile_Z (f : sif_file) (n : Z) (t : sif_tile) :
  0 <= n -> put_tile f n t = set_tiles f (<[Z.to_nat n := t]> (tiles f)).
Proof.
  intros H. unfold put_tile. destruct (n <? 0) eqn:E; [lia | reflexivity].
Qed.

Lemma fwrite_trim (buf : list Z) (els nel : Z) (f : FILE) :
  0 < els -> 0 < nel ->
  fwrite buf els nel f = fwrite (sub_bytes buf 0 (els * nel)) els nel f.
Proof.
  intros H1 H2. unfold fwrite. destruct (_ || _); [reflexivity |].
  rewrite (sub_bytes_all (sub_bytes buf 0 (els * nel))); [reflexivity |].
  rewrite sub_bytes_length. nia.
Qed.

(** The loop that fills a new block writes one copy of the slice per band. *)
Lemma write_slices_acc (buffer : list Z) (els : Z) (k : sif_file -> sif_file)
    (l : list Z) :
  0 < els ->
  forall (file : sif_file) (c : list Z) (p : Z) (acc : list Z),
    0 < units_per_slice file -> 0 <= p ->
    fp file = mkFILE (pwrite c p acc) (p + Z.of_nat (length acc)) ->
    for_each l
      (fun i file k => FWRITE64_ void_ret file buffer els (units_per_slice file) k)
      file k
    = k (set_fp file
           (mkFILE
              (pwrite c p
                 (acc ++ concat (replicate (length l)
                                   (sub_bytes buffer 0 (els * units_per_slice file)))))
              (p + Z.of_nat
                     (length
                        (acc ++ concat (replicate (length l)
                                          (sub_bytes buffer 0
                                             (els * units_per_slice file)))))))).
Proof.
  intros H1. induction l as [| i l IH]; intros file c p acc H2 Hp Hf; cbn [for_each].
  - cbn [length replicate concat]. rewrite app_nil_r, <- Hf. destruct file. reflexivity.
  - unfold FWRITE64_ at 1. rewrite fwrite_trim by assumption.
    fold (FWRITE64_ void_ret file (sub_bytes buffer 0 (els * units_per_slice file)) els
            (units_per_slice file)
            (fun file0 =>
               for_each l
                 (fun _ file1 k0 =>
                    FWRITE64_ void_ret file1 buffer els (units_per_slice file1) k0)
                 file0 k)).
    rewrite (FWRITE64_acc _ _ _ _ _ _ c p acc Hf Hp H1 H2)
      by (rewrite sub_bytes_length; nia).
    rewrite (IH _ c p (acc ++ sub_bytes buffer 0 (els * units_per_slice file)))
      by (try reflexivity; assumption).
    cbn [units_per_slice set_fp length replicate concat].
    rewrite <- !app_assoc. reflexivity.
Qed.

(** The last steps of [sif_set_tile_slice] on a tile that has a block. *)
Lemma slice_write_shape (fa : sif_file) (hd : sif_header) (data : list Z) (n band : Z) :
  header fa = Some hd ->
  0 <= n < Z.of_nat (length (tiles fa)) -> n < n_tiles hd ->
  0 <= block_num (tile_at fa n) -> 0 <= band ->
  0 < data_unit_size hd -> 0 < bands hd -> 0 < n_uniform_flags hd ->
  0 < units_per_slice fa -> 0 < tile_bytes hd -> 0 <= tile_header_bytes hd ->
  0 <= header_bytes fa ->
  tile_header_bytes hd = data_unit_size hd * bands hd + n_uniform_flags hd + 4 ->
  base_location fa = header_bytes fa + tile_header_bytes hd * n_tiles hd ->
  exists x,
    FSEEK64_ void_ret fa
      (_sif_get_block_location fa (block_num (tile_at fa n))
       + data_unit_size hd * units_per_slice fa * band)
      (fun file =>
       FWRITE64_ void_ret file data (data_unit_size hd) (units_per_slice file)
         (fun file =>
          fst (_sif_write_tile_header
                 (put_tile file n
                    (tile_set_flags (tile_at file n)
                       (SIF_CLEAR_BIT (uniform_flags (tile_at file n)) band)))
                 (tile_at
                    (put_tile file n
                       (tile_set_flags (tile_at file n)
                          (SIF_CLEAR_BIT (uniform_flags (tile_at file n)) band))) n)
                 n)))
    = set_fp (put_tile fa n
                (tile_set_flags (tile_at fa n)
                   (SIF_CLEAR_BIT (uniform_flags (tile_at fa n)) band))) x
    /\ drop (Z.to_nat (base_location fa)) (contents x)
       = drop (Z.to_nat (base_location fa))
           (pwrite (contents (fp fa))
              (_sif_get_block_location fa (block_num (tile_at fa n))
               + data_unit_size hd * units_per_slice fa * band)
              (sub_bytes data 0 (data_unit_size hd * units_per_slice fa)))
    /\ (length (pwrite (contents (fp fa))
                  (_sif_get_block_location fa (block_num (tile_at fa n))
                   + data_unit_size hd * units_per_slice fa * band)
                  (sub_bytes data 0 (data_unit_size hd * units_per_slice fa)))
        <= length (contents x))%nat.
Proof.
  intros Hh Hn Hnt Hbn Hband Hd Hb Hf Hu Htb Hthb Hhb Hrec Hbase.
  assert (hdr fa = hd) as Eh by (unfold hdr; rewrite Hh; reflexivity).
  set (t := tile_at fa n) in *.
  set (loc := _sif_get_block_location fa (block_num t)
              + data_unit_size hd * units_per_slice fa * band) in *.
  assert (base_location fa <= loc) as Hloc.
  { subst loc. unfold _sif_get_block_location. rewrite Eh. nia. }
  assert (0 <= base_location fa) as Hbl by nia.
  rewrite FSEEK64_ok by lia.
  rewrite FWRITE64_ok by (cbn [units_per_slice set_fp]; assumption).
  cbn [units_per_slice set_fp fp].
  unfold fwrite.
  destruct (data_unit_size hd <=? 0) eqn:E1; [lia |].
  destruct (units_per_slice fa <=? 0) eqn:E2; [lia |].
  cbn [orb snd contents position].
  set (slice := sub_bytes data 0 (data_unit_size hd * units_per_slice fa)).
  set (c3 := pwrite (contents (fp fa)) loc slice).
  set (f3 := set_fp (set_fp fa _) (mkFILE c3 _)).
  assert (tile_at f3 n = t) as E3 by reflexivity. rewrite E3.
  set (t' := tile_set_flags t (SIF_CLEAR_BIT (uniform_flags t) band)).
  set (f4 := put_tile f3 n t').
  assert (tile_at f4 n = t') as E4 by (apply tile_at_put_tile; exact Hn).
  rewrite E4.
  assert (hdr f4 = hd) as Eh4 by (unfold f4; rewrite put_tile_hdr; exact Eh).
  assert (header_bytes f4 = header_bytes fa) as Ehb4
    by (unfold f4; rewrite put_tile_header_bytes; reflexivity).
  assert (fp f4 = mkFILE c3 (loc + Z.of_nat (length slice))) as Efp4
    by (unfold f4; rewrite put_tile_fp; reflexivity).
  destruct (write_tile_header_keeps_rest f4 t' n (Z.to_nat (base_location fa)))
    as (x & Hw & Hdrop & Hlen).
  { rewrite Eh4, Ehb4. nia. }
  { rewrite Eh4. exact Hd. }
  { rewrite Eh4. exact Hb. }
  { rewrite Eh4. exact Hf. }
  { rewrite Eh4, Ehb4. nia. }
  rewrite Hw. cbn [fst].
  rewrite Efp4 in Hdrop, Hlen. cbn [contents] in Hdrop, Hlen.
  exists x. split; [| split; [exact Hdrop | exact Hlen]].
  unfold f4, f3. rewrite !put_tile_Z by lia.
  apply sif_file_ext; reflexivity.
Qed.

Lemma tile_at_fits (file : sif_file) (n : Z) :
  Forall (tile_fits (hdr file)) (tiles file) ->
  0 <= n < Z.of_nat (length (tiles file)) -> tile_fits (hdr file) (tile_at file n).
Proof.
  intros Hts Hn.
  assert (tiles file !! Z.to_nat n = Some (tile_at file n)) as Hlk.
  { unfold tile_at. destruct (n <? 0) eqn:E; [lia |].
    destruct (lookup_lt_is_Some_2 (tiles file) (Z.to_nat n)) as [t Ht]; [lia |].
    rewrite Ht. reflexivity. }
  apply (proj1 (list.Forall_lookup _ _) Hts _ _ Hlk).
Qed.

(** The handle [sif_set_tile_slice] leaves when the slice goes to a block:
    the tile has its flag for the band cleared and holds the block
    [block_for]; a new block is entered in the block map; and the file holds
    the bytes [slice_stored] from the first block on. *)
Lemma set_tile_slice_shape (file : sif_file) (hd : sif_header) (data : list Z)
    (tx ty band : Z) :
  well_formed file -> header file = Some hd -> read_only file = 0 ->
  0 <= tx < n_tiles_across hd -> 0 <= ty -> 0 <= band < bands hd ->
  n_tiles_across hd * ty + tx < n_tiles hd ->
  (intrinsic_write hd = 0
   \/ _sif_is_uniform file data
        (MIN (tile_width hd) (width hd - tx * tile_width hd))
        (MIN (tile_height hd) (height hd - ty * tile_height hd)) = false) ->
  exists x d,
    sif_set_tile_slice file (Some data) tx ty band
    = mk_file x (Some hd)
        (<[Z.to_nat (n_tiles_across hd * ty + tx) :=
             mk_tile
               (SIF_CLEAR_BIT
                  (uniform_flags (tile_at file (n_tiles_across hd * ty + tx))) band)
               (uniform_pixel_values (tile_at file (n_tiles_across hd * ty + tx)))
               (block_for file (n_tiles_across hd * ty + tx))]> (tiles file))
        (meta_data file) (read_only file)
        (if block_num (tile_at file (n_tiles_across hd * ty + tx)) =? -1
         then arr_set (blocks_to_tiles file)
                (block_for file (n_tiles_across hd * ty + tx))
                (n_tiles_across hd * ty + tx)
         else blocks_to_tiles file)
        d (buffer0 file) (buffer1 file) (base_location file) (error file)
        (units_per_slice file) (units_per_tile file) (header_bytes file)
        (use_file_version file)
    /\ drop (Z.to_nat (base_location file)) (contents x)
       = drop (Z.to_nat (base_location file))
           (slice_stored file (n_tiles_across hd * ty + tx) band data)
    /\ (length (slice_stored file (n_tiles_across hd * ty + tx) band data)
        <= length (contents x))%nat.
Proof.
  intros [Hck Hgeo Hblk Hdisk Hunits Hu Htb Hrec Hfl Hbase Hlen Hts]
    Hh Hro Htx Hty Hband Hn Hnu.
  assert (hdr file = hd) as Eh by (unfold hdr; rewrite Hh; reflexivity).
  rewrite Eh in *.
  apply geometry_ok_spec in Hgeo. rewrite Eh in Hgeo.
  destruct Hgeo as (Gb & Gd & Gf & Gtb & Gthb & Ghb & Gbl & Gn & Gt & Gbt).
  apply blocks_consistent_spec in Hblk as [Hblk Hblk2]. rewrite Eh in Hblk, Hblk2.
  pose proof (blocks_on_disk_spec _ Hdisk) as Hon. rewrite Eh in Hon.
  unfold passes_check in Hck. rewrite Hh in Hck.
  set (n := n_tiles_across hd * ty + tx) in *.
  assert (0 <= n) as Hn0 by (subst n; nia).
  assert (0 <= n < Z.of_nat (length (tiles file))) as Hnt by lia.
  unfold sif_set_tile_slice, SIF_CHECK_FILE_. rewrite Hh.
  destruct (version hd >? SIF_VERSION) eqn:E; [lia |]. clear E.
  destruct (tx <? 0) eqn:E1; [lia |]. destruct (ty <? 0) eqn:E2; [lia |].
  destruct (tx >=? n_tiles_across hd) eqn:E3; [lia |].
  destruct (band <? 0) eqn:E4; [lia |]. destruct (band >=? bands hd) eqn:E5; [lia |].
  destruct (negb (read_only file =? 0)) eqn:E6; [rewrite Hro in E6; discriminate |].
  cbn [orb]. cbv zeta. fold n.
  assert (negb (intrinsic_write hd =? 0)
          && _sif_is_uniform file data
               (MIN (tile_width hd) (width hd - tx * tile_width hd))
               (MIN (tile_height hd) (height hd - ty * tile_height hd)) = false) as ->.
  { destruct Hnu as [-> | ->]; [reflexivity | apply andb_false_r]. }
  unfold slice_stored, block_for. rewrite Eh.
  set (t := tile_at file n) in *.
  set (slice := sub_bytes data 0 (data_unit_size hd * units_per_slice file)).
  destruct (block_num t =? -1) eqn:Eb.
  - apply Z.eqb_eq in Eb.
    destruct (first_free_block_spec file) as (Hfr & Hfree & Hmin).
    { rewrite Eh. apply (free_block_exists (block_of file) (tile_of file) _ n); try assumption.
      lia. }
    rewrite Eh in Hfr.
    set (fb := first_free_block file) in *.
    set (tB := tile_set_block_num t fb).
    set (fB := set_blocks_to_tiles (put_tile file n tB) _).
    assert (tile_at fB n = tB) as EB by (apply (tile_at_put_tile file n tB); exact Hnt).
    rewrite EB.
    assert (_sif_get_block_location fB (block_num tB)
            = base_location file + tile_bytes hd * fb) as EL.
    { unfold _sif_get_block_location. change (hdr fB) with (hdr (put_tile file n tB)).
      rewrite put_tile_hdr, Eh.
      change (base_location fB) with (base_location (put_tile file n tB)).
      rewrite put_tile_base_location. reflexivity. }
    assert (_sif_get_block_location file fb = base_location file + tile_bytes hd * fb) as EL'.
    { unfold _sif_get_block_location. rewrite Eh. reflexivity. }
    rewrite EL, EL'.
    set (L := base_location file + tile_bytes hd * fb) in *.
    assert (base_location file <= L <= Z.of_nat (length (contents (fp file)))) as HL.
    { split; [subst L; nia |].
      destruct (decide (fb = 0)) as [E0 | Hne]; [subst L; rewrite E0; lia |].
      pose proof (Hon (fb - 1) ltac:(lia) (Hmin (fb - 1) ltac:(lia))) as H.
      subst L. nia. }
    rewrite FSEEK64_ok by lia.
    assert (units_per_slice fB = units_per_slice file) as EuB
      by (unfold fB; cbn [units_per_slice set_blocks_to_tiles];
          apply units_per_slice_put_tile).
    assert (fp fB = fp file) as EfB
      by (unfold fB; cbn [fp set_blocks_to_tiles]; apply put_tile_fp).
    rewrite (write_slices_acc data (data_unit_size hd) _ (seqZ 0 (bands hd)) Gd
               _ (contents (fp file)) L [])
      by (cbn [units_per_slice fp set_fp length Z.of_nat];
          rewrite ?EuB, ?EfB, ?pwrite_nil_inside; try lia; f_equal; lia).
    cbn [app units_per_slice set_fp]. rewrite EuB, length_seqZ. fold slice.
    set (c1 := pwrite (contents (fp file)) L (concat (replicate (Z.to_nat (bands hd)) slice))).
    match goal with |- context [set_fp (set_fp fB ?a) ?b] => set (f1 := set_fp (set_fp fB a) b) end.
    assert (tile_at f1 n = tB) as E1' by exact EB.
    assert (units_per_slice f1 = units_per_slice file) as Eu1 by exact EuB.
    assert (header f1 = Some hd) as Eh1
      by (unfold f1, fB; cbn [header set_fp set_blocks_to_tiles];
          rewrite put_tile_header; exact Hh).
    assert (header_bytes f1 = header_bytes file) as Ehb1
      by (unfold f1, fB; cbn [header_bytes set_fp set_blocks_to_tiles];
          apply put_tile_header_bytes).
    assert (base_location f1 = base_location file) as Ebl1
      by (unfold f1, fB; cbn [base_location set_fp set_blocks_to_tiles];
          apply put_tile_base_location).
    assert (length (tiles f1) = length (tiles file)) as Elt1
      by (unfold f1, fB; cbn [tiles set_fp set_blocks_to_tiles]; apply put_tile_length).
    assert (contents (fp f1) = c1) as Ec1 by reflexivity.
    assert (forall fa,
              header fa = header f1 -> tiles fa = tiles f1 ->
              units_per_slice fa = units_per_slice f1 ->
              header_bytes fa = header_bytes f1 -> base_location fa = base_location f1 ->
              fp fa = fp f1 ->
              exists x,
                FSEEK64_ void_ret fa
                  (_sif_get_block_location fa (block_num (tile_at fa n))
                   + data_unit_size hd * units_per_slice fa * band)
                  (fun file =>
                   FWRITE64_ void_ret file data (data_unit_size hd) (units_per_slice file)
                     (fun file =>
                      fst (_sif_write_tile_header
                             (put_tile file n
                                (tile_set_flags (tile_at file n)
                                   (SIF_CLEAR_BIT (uniform_flags (tile_at file n)) band)))
                             (tile_at
                                (put_tile file n
                                   (tile_set_flags (tile_at file n)
                                      (SIF_CLEAR_BIT (uniform_flags (tile_at file n)) band))) n)
                             n)))
                = set_fp (put_tile fa n
                            (tile_set_flags tB (SIF_CLEAR_BIT (uniform_flags tB) band))) x
                /\ drop (Z.to_nat (base_location file)) (contents x)
                   = drop (Z.to_nat (base_location file))
                       (pwrite c1 (L + data_unit_size hd * units_per_slice file * band) slice)
                /\ (length (pwrite c1 (L + data_unit_size hd * units_per_slice file * band)
                              slice)
                    <= length (contents x))%nat) as Hcore.
    { intros fa Ha1 Ha2 Ha3 Ha4 Ha5 Ha6.
      assert (tile_at fa n = tB) as Ea by (rewrite (tile_at_tiles fa f1 n Ha2); exact E1').
      assert (hdr fa = hd) as Eha by (unfold hdr; rewrite Ha1, Eh1; reflexivity).
      destruct (slice_write_shape fa hd data n band) as (x & Hx1 & Hx2 & Hx3);
        [> (rewrite ?Ea, ?Ha1, ?Ha2, ?Ha3, ?Ha4, ?Ha5, ?Eu1, ?Ehb1, ?Ebl1, ?Elt1;
            try assumption; try lia;
            try (cbn [block_num uniform_flags tB tile_set_block_num]; lia)) .. |].
      rewrite Ea in Hx1, Hx2, Hx3.
      unfold _sif_get_block_location in Hx2, Hx3.
      rewrite Ha3, Ha5, Ha6, Eu1, Ebl1, Eha, Ec1 in Hx2, Hx3.
      cbn [block_num tB tile_set_block_num] in Hx2, Hx3. fold L slice in Hx2, Hx3.
      rewrite Ea.
      exists x. split; [exact Hx1 | split; [exact Hx2 | exact Hx3]]. }
    assert (forall (fa : sif_file) (x : FILE),
              header fa = header f1 -> tiles fa = tiles f1 ->
              units_per_slice fa = units_per_slice f1 ->
              header_bytes fa = header_bytes f1 -> base_location fa = base_location f1 ->
              meta_data fa = meta_data f1 -> read_only fa = read_only f1 ->
              blocks_to_tiles fa = blocks_to_tiles f1 ->
              buffer0 fa = buffer0 f1 -> buffer1 fa = buffer1 f1 -> error fa = error f1 ->
              units_per_tile fa = units_per_tile f1 ->
              use_file_version fa = use_file_version f1 ->
              set_fp (put_tile fa n
                        (tile_set_flags tB (SIF_CLEAR_BIT (uniform_flags tB) band))) x
              = mk_file x (Some hd)
                  (<[Z.to_nat n := mk_tile (SIF_CLEAR_BIT (uniform_flags t) band)
                                     (uniform_pixel_values t) fb]> (tiles file))
                  (meta_data file) (read_only file) (arr_set (blocks_to_tiles file) fb n)
                  (dirty_tiles fa) (buffer0 file) (buffer1 file) (base_location file)
                  (error file) (units_per_slice file) (units_per_tile file)
                  (header_bytes file) (use_file_version file)) as Hshape.
    { intros fa x K1 K2 K3 K4 K5 K6 K7 K8 K9 K10 K11 K12 K13.
      rewrite put_tile_Z by lia.
      apply sif_file_ext; cbn [fp header tiles meta_data read_only blocks_to_tiles
                               dirty_tiles buffer0 buffer1 base_location error
                               units_per_slice units_per_tile header_bytes
                               use_file_version set_fp set_tiles];
        rewrite ?K1, ?K2, ?K3, ?K4, ?K5, ?K6, ?K7, ?K8, ?K9, ?K10, ?K11, ?K12, ?K13;
        try reflexivity; try exact Eh1; unfold f1, fB;
        cbn [fp header tiles meta_data read_only blocks_to_tiles
             dirty_tiles buffer0 buffer1 base_location error
             units_per_slice units_per_tile header_bytes
             use_file_version set_fp set_tiles set_blocks_to_tiles];
        rewrite ?put_tile_Z by lia;
        cbn [fp header tiles meta_data read_only blocks_to_tiles
             dirty_tiles buffer0 buffer1 base_location error
             units_per_slice units_per_tile header_bytes
             use_file_version set_fp set_tiles set_blocks_to_tiles];
        try reflexivity.
      rewrite list_insert_insert_eq. reflexivity. }
    destruct (intrinsic_write hd =? 0).
    + match goal with |- context [FSEEK64_ _ ?fa0 _ _] => set (fa := fa0) end.
      destruct (Hcore fa) as (x & Hx1 & Hx2 & Hx3); try reflexivity.
      exists x, (dirty_tiles fa). rewrite Hx1.
      split; [apply Hshape; reflexivity |]. split; [exact Hx2 | exact Hx3].
    + destruct (Hcore f1) as (x & Hx1 & Hx2 & Hx3); try reflexivity.
      exists x, (dirty_tiles f1). rewrite Hx1.
      split; [apply Hshape; reflexivity |]. split; [exact Hx2 | exact Hx3].
  - apply Z.eqb_neq in Eb.
    assert (0 <= block_num t) as Hbn.
    { pose proof (Hblk n ltac:(lia)) as Hm.
      change (block_of file n) with (block_num t) in Hm. lia. }
    assert (forall fa,
              header fa = header file -> tiles fa = tiles file ->
              units_per_slice fa = units_per_slice file ->
              header_bytes fa = header_bytes file ->
              base_location fa = base_location file ->
              fp fa = fp file ->
              meta_data fa = meta_data file -> read_only fa = read_only file ->
              blocks_to_tiles fa = blocks_to_tiles file ->
              buffer0 fa = buffer0 file -> buffer1 fa = buffer1 file ->
              error fa = error file ->
              units_per_tile fa = units_per_tile file ->
              use_file_version fa = use_file_version file ->
              exists x d,
                FSEEK64_ void_ret fa
                  (_sif_get_block_location fa (block_num (tile_at fa n))
                   + data_unit_size hd * units_per_slice fa * band)
                  (fun file =>
                   FWRITE64_ void_ret file data (data_unit_size hd) (units_per_slice file)
                     (fun file =>
                      fst (_sif_write_tile_header
                             (put_tile file n
                                (tile_set_flags (tile_at file n)
                                   (SIF_CLEAR_BIT (uniform_flags (tile_at file n)) band)))
                             (tile_at
                                (put_tile file n
                                   (tile_set_flags (tile_at file n)
                                      (SIF_CLEAR_BIT (uniform_flags (tile_at file n)) band))) n)
                             n)))
                = mk_file x (Some hd)
                    (<[Z.to_nat n := mk_tile (SIF_CLEAR_BIT (uniform_flags t) band)
                                       (uniform_pixel_values t) (block_num t)]> (tiles file))
                    (meta_data file) (read_only file) (blocks_to_tiles file)
                    d (buffer0 file) (buffer1 file) (base_location file)
                    (error file) (units_per_slice file) (units_per_tile file)
                    (header_bytes file) (use_file_version file)
                /\ drop (Z.to_nat (base_location file)) (contents x)
                   = drop (Z.to_nat (base_location file))
                       (pwrite (contents (fp file))
                          (_sif_get_block_location file (block_num t)
                           + data_unit_size hd * units_per_slice file * band) slice)
                /\ (length (pwrite (contents (fp file))
                              (_sif_get_block_location file (block_num t)
                               + data_unit_size hd * units_per_slice file * band) slice)
                    <= length (contents x))%nat) as Hcore.
    { intros fa Ha1 Ha2 Ha3 Ha4 Ha5 Ha6 Ha7 Ha8 Ha9 Ha10 Ha11 Ha12 Ha13 Ha14.
      assert (tile_at fa n = t) as Ea by (apply (tile_at_tiles fa file n Ha2)).
      assert (hdr fa = hd) as Eha by (unfold hdr; rewrite Ha1, Hh; reflexivity).
      destruct (slice_write_shape fa hd data n band) as (x & Hx1 & Hx2 & Hx3);
        [> (rewrite ?Ea, ?Ha1, ?Ha2, ?Ha3, ?Ha4, ?Ha5; try assumption; try lia) .. |].
      rewrite Ea in Hx1, Hx2, Hx3.
      rewrite Ea, Hx1.
      unfold _sif_get_block_location in Hx2, Hx3 |- *.
      rewrite Ha3, Ha5, Ha6, Eha in Hx2, Hx3. rewrite Eh. fold slice in Hx2, Hx3.
      exists x, (dirty_tiles fa). split; [| split; [exact Hx2 | exact Hx3]].
      rewrite put_tile_Z by lia.
      apply sif_file_ext; cbn [fp header tiles meta_data read_only blocks_to_tiles
                               dirty_tiles buffer0 buffer1 base_location error
                               units_per_slice units_per_tile header_bytes
                               use_file_version set_fp set_tiles];
        rewrite ?Ha1, ?Ha2, ?Ha3, ?Ha4, ?Ha5, ?Ha7, ?Ha8, ?Ha9, ?Ha10, ?Ha11, ?Ha12,
          ?Ha13, ?Ha14; try reflexivity; exact Hh. }
    destruct (intrinsic_write hd =? 0).
    + match goal with |- context [FSEEK64_ _ ?fa0 _ _] => set (fa := fa0) end.
      destruct (Hcore fa) as (x & d & Hx); try reflexivity.
      exists x, d. exact Hx.
    + destruct (Hcore file) as (x & d & Hx); try reflexivity.
      exists x, d. exact Hx.
Qed.

(** ** The slice writers keep the handle consistent *)

Lemma release_mark_shape (f : sif_file) (n band : Z) (v : list Z) :
  0 <= n < Z.of_nat (length (tiles f)) ->
  release_if_uniform (mark_band_uniform f n band v) n
  = set_blocks_to_tiles
      (put_tile f n (filled_tile (hdr f) band v (tile_at f n)))
      (if block_num (filled_tile (hdr f) band v (tile_at f n))
          =? block_num (tile_at f n)
       then blocks_to_tiles f
       else arr_set (blocks_to_tiles f) (block_num (tile_at f n)) (-1)).
Proof.
  intros Hin.
  unfold release_if_uniform, _sif_completely_uniform_shallow, mark_band_uniform.
  rewrite !put_tile_hdr.
  set (t1 := tile_set_flags _ _).
  rewrite (tile_at_put_tile f n t1 Hin).
  set (t2 := tile_set_flags t1 _).
  assert (tile_at (put_tile (put_tile f n t1) n t2) n = t2) as E2
    by (apply tile_at_put_tile; rewrite put_tile_length; exact Hin).
  rewrite E2.
  unfold filled_tile. cbn [block_num].
  change (block_num t2) with (block_num (tile_at f n)).
  change (uniform_flags t1) with (SIF_SET_BIT (uniform_flags (tile_at f n)) band).
  set (all := foldl _ 255 _ =? 255).
  destruct (block_num (tile_at f n) =? -1) eqn:Eb.
  - rewrite andb_false_r. rewrite Z.eqb_refl.
    rewrite !put_tile_Z by lia. apply sif_file_ext; try reflexivity.
    cbn [tiles set_tiles set_blocks_to_tiles]. rewrite list_insert_insert_eq.
    subst t2 t1. reflexivity.
  - rewrite andb_true_r. destruct all.
    + cbn [andb]. apply Z.eqb_neq in Eb.
      destruct (-1 =? block_num (tile_at f n)) eqn:Eb'; [apply Z.eqb_eq in Eb'; lia |].
      match goal with |- put_tile ?g n (tile_set_block_num (tile_at ?g n) _) = _ =>
        assert (tile_at g n = t2) as -> by exact E2 end.
      rewrite !put_tile_Z by lia. apply sif_file_ext; try reflexivity.
      cbn [tiles set_tiles set_blocks_to_tiles]. rewrite !list_insert_insert_eq.
      subst t2 t1. reflexivity.
    + cbn [andb]. rewrite Z.eqb_refl.
      rewrite !put_tile_Z by lia. apply sif_file_ext; try reflexivity.
      cbn [tiles set_tiles set_blocks_to_tiles]. rewrite list_insert_insert_eq.
      subst t2 t1. reflexivity.
Qed.

Lemma memcpy_length (dst : list Z) (doff : Z) (src : list Z) (soff n : Z) :
  length (memcpy dst doff src soff n) = length dst.
Proof. unfold memcpy. destruct (doff <? 0); [reflexivity | apply poke_length]. Qed.

Lemma filled_tile_fits (hd : sif_header) (band : Z) (v : list Z) (t : sif_tile) :
  tile_fits hd t -> tile_fits hd (filled_tile hd band v t).
Proof.
  intros [H1 H2]. unfold filled_tile, tile_fits. cbn [uniform_pixel_values uniform_flags].
  rewrite memcpy_length, arr_set_length. unfold SIF_SET_BIT. rewrite arr_set_length.
  split; assumption.
Qed.

Lemma cleared_tile_fits (hd : sif_header) (band bn : Z) (t : sif_tile) :
  tile_fits hd t ->
  tile_fits hd (mk_tile (SIF_CLEAR_BIT (uniform_flags t) band) (uniform_pixel_values t) bn).
Proof.
  intros [H1 H2]. unfold tile_fits. cbn [uniform_pixel_values uniform_flags].
  unfold SIF_CLEAR_BIT. rewrite arr_set_length. split; assumption.
Qed.

Lemma block_of_insert (g f : sif_file) (n : Z) (t' : sif_tile) (x : Z) :
  0 <= n < Z.of_nat (length (tiles f)) ->
  tiles g = <[Z.to_nat n := t']> (tiles f) ->
  block_of g x = if decide (x = n) then block_num t' else block_of f x.
Proof.
  intros Hn Ht. unfold block_of, tile_at. rewrite Ht.
  destruct (decide (x = n)) as [-> | Hne].
  - destruct (n <? 0) eqn:E; [lia |]. rewrite list_lookup_insert_eq by lia. reflexivity.
  - destruct (x <? 0) eqn:E; [reflexivity |].
    rewrite list_lookup_insert_ne by lia. reflexivity.
Qed.

(** A handle that differs from a consistent one in the file, which has not
    shrunk, in one tile header and in the block map, is consistent when the
    new maps agree and the used blocks are in the file. *)
Lemma well_formed_update (f g : sif_file) (n : Z) (t' : sif_tile) :
  well_formed f ->
  header g = header f -> units_per_slice g = units_per_slice f ->
  header_bytes g = header_bytes f -> base_location g = base_location f ->
  0 <= n < n_tiles (hdr f) ->
  tiles g = <[Z.to_nat n := t']> (tiles f) -> tile_fits (hdr f) t' ->
  length (blocks_to_tiles g) = length (blocks_to_tiles f) ->
  (length (contents (fp f)) <= length (contents (fp g)))%nat ->
  tiles_to_blocks_ok (block_of g) (tile_of g) (n_tiles (hdr f)) ->
  blocks_to_tiles_ok (block_of g) (tile_of g) (n_tiles (hdr f)) ->
  (forall b, 0 <= b < n_tiles (hdr f) -> tile_of g b <> -1 ->
     base_location f + (b + 1) * tile_bytes (hdr f)
     <= Z.of_nat (length (contents (fp g)))) ->
  well_formed g.
Proof.
  intros [Hck Hgeo Hblk Hdisk Hunits Hu Htb Hrec Hfl Hbase Hlen Hts]
    Eh Eu Ehb Ebl Hn Et Hfit Eb2t Hlen' H1 H2 Hon.
  assert (hdr g = hdr f) as Ehdr by (unfold hdr; rewrite Eh; reflexivity).
  pose proof (geometry_ok_spec _ Hgeo)
    as (Gb & Gd & Gf & Gtb & Gthb & Ghb & Gbl & Gn & Gt & Gbt).
  constructor; rewrite ?Ehdr, ?Eu, ?Ehb, ?Ebl; try assumption.
  - unfold passes_check. rewrite Eh. exact Hck.
  - unfold geometry_ok in *. rewrite Ehdr, Ehb, Ebl, Et, length_insert, Eb2t. exact Hgeo.
  - apply blocks_consistent_intro; rewrite Ehdr; assumption.
  - apply blocks_on_disk_intro. rewrite Ehdr, Ebl. exact Hon.
  - lia.
  - rewrite Et. apply Forall_insert; assumption.
Qed.

Lemma well_formed_set_error (f : sif_file) (e : Z) :
  well_formed f -> well_formed (set_error f e).
Proof. intros []. constructor; assumption. Qed.

Lemma well_formed_set_fp (f : sif_file) (x : FILE) :
  well_formed f -> (length (contents (fp f)) <= length (contents x))%nat ->
  well_formed (set_fp f x).
Proof.
  intros [Hck Hgeo Hblk Hdisk Hunits Hu Htb Hrec Hfl Hbase Hlen Hts] Hx.
  constructor; try assumption.
  - apply blocks_on_disk_intro. intros b Hb Ht.
    pose proof (blocks_on_disk_spec _ Hdisk b Hb Ht) as H.
    cbn [fp set_fp base_location] in *. change (hdr (set_fp f x)) with (hdr f). lia.
  - cbn [fp set_fp base_location]. lia.
Qed.

Lemma filled_tile_block (hd : sif_header) (band : Z) (v : list Z) (t : sif_tile) :
  block_num (filled_tile hd band v t) = block_num t
  \/ (block_num (filled_tile hd band v t) = -1 /\ block_num t <> -1).
Proof.
  unfold filled_tile. cbn [block_num].
  destruct (_ =? 255); cbn [andb]; [| left; reflexivity].
  destruct (block_num t =? -1) eqn:E; cbn [negb]; [left; reflexivity |].
  right. apply Z.eqb_neq in E. split; [reflexivity | exact E].
Qed.

(** Marking a band uniform, and giving up the block of a tile that tests
    completely uniform, keeps the handle consistent. *)
Lemma release_mark_well_formed (file : sif_file) (n band : Z) (v : list Z) :
  well_formed file -> 0 <= n < n_tiles (hdr file) ->
  well_formed (release_if_uniform (mark_band_uniform file n band v) n)
  /\ fp (release_if_uniform (mark_band_uniform file n band v) n) = fp file
  /\ hdr (release_if_uniform (mark_band_uniform file n band v) n) = hdr file.
Proof.
  intros Hwf Hn.
  pose proof (geometry_ok_spec _ (wf_geometry _ Hwf))
    as (Gb & Gd & Gf & Gtb & Gthb & Ghb & Gbl & Gn & Gt & Gbt).
  destruct (blocks_consistent_spec _ (wf_blocks _ Hwf)) as [H1 H2].
  pose proof (blocks_on_disk_spec _ (wf_on_disk _ Hwf)) as Hon.
  assert (0 <= n < Z.of_nat (length (tiles file))) as Hnt by lia.
  rewrite release_mark_shape by exact Hnt.
  set (t := tile_at file n). set (t' := filled_tile (hdr file) band v t).
  set (g := set_blocks_to_tiles _ _).
  assert (tiles g = <[Z.to_nat n := t']> (tiles file)) as Et
    by (unfold g; cbn [tiles set_blocks_to_tiles]; rewrite put_tile_Z by lia; reflexivity).
  assert (fp g = fp file) as Efp
    by (unfold g; cbn [fp set_blocks_to_tiles]; apply put_tile_fp).
  assert (header g = header file) as Eh
    by (unfold g; cbn [header set_blocks_to_tiles]; apply put_tile_header).
  split; [| split; [exact Efp | unfold hdr; rewrite Eh; reflexivity]].
  assert (forall x, block_of g x = if decide (x = n) then block_num t' else block_of file x)
    as EB by (intros x; apply block_of_insert; assumption).
  pose proof (filled_tile_block (hdr file) band v t) as Hcase.
  change (filled_tile (hdr file) band v t) with t' in Hcase.
  destruct Hcase as [Ekeep | [Erel Hbn]].
  - assert (blocks_to_tiles g = blocks_to_tiles file) as Eb.
    { unfold g. cbn [blocks_to_tiles set_blocks_to_tiles]. fold t t'.
      rewrite Ekeep, Z.eqb_refl. reflexivity. }
    assert (forall y, tile_of g y = tile_of file y) as ET
      by (intros y; unfold tile_of; rewrite Eb; reflexivity).
    apply (well_formed_update file g n t'); try assumption.
    + unfold g. cbn [units_per_slice set_blocks_to_tiles]. apply units_per_slice_put_tile.
    + unfold g. cbn [header_bytes set_blocks_to_tiles]. apply put_tile_header_bytes.
    + unfold g. cbn [base_location set_blocks_to_tiles]. apply put_tile_base_location.
    + apply filled_tile_fits, tile_at_fits; [apply (wf_tiles _ Hwf) | exact Hnt].
    + rewrite Eb. reflexivity.
    + rewrite Efp. lia.
    + apply (maps_ext (block_of file) (block_of g) (tile_of file) (tile_of g)); auto.
      intros x _. rewrite EB. destruct (decide (x = n)) as [-> | _]; [exact Ekeep | reflexivity].
    + apply (maps_ext (block_of file) (block_of g) (tile_of file) (tile_of g)); auto.
      intros x _. rewrite EB. destruct (decide (x = n)) as [-> | _]; [exact Ekeep | reflexivity].
    + intros b Hb Ht. rewrite ET in Ht. rewrite Efp. apply Hon; assumption.
  - change (block_num t) with (block_of file n) in Hbn.
    destruct (H1 n Hn) as [E | [Hr Etn]]; [contradiction |].
    assert (blocks_to_tiles g = arr_set (blocks_to_tiles file) (block_of file n) (-1)) as Eb.
    { unfold g. cbn [blocks_to_tiles set_blocks_to_tiles]. fold t t'.
      rewrite Erel. destruct (-1 =? block_num t) eqn:E; [apply Z.eqb_eq in E |]; [| reflexivity].
      unfold block_of in Hbn. fold t in Hbn. lia. }
    assert (forall y, tile_of g y
                      = if decide (y = block_of file n) then -1 else tile_of file y) as ET.
    { intros y. unfold tile_of. rewrite Eb. apply arr_get_set. lia. }
    destruct (maps_release (block_of file) (tile_of file) _ n H1 H2 Hn Hbn) as [R1 R2].
    apply (well_formed_update file g n t'); try assumption.
    + unfold g. cbn [units_per_slice set_blocks_to_tiles]. apply units_per_slice_put_tile.
    + unfold g. cbn [header_bytes set_blocks_to_tiles]. apply put_tile_header_bytes.
    + unfold g. cbn [base_location set_blocks_to_tiles]. apply put_tile_base_location.
    + apply filled_tile_fits, tile_at_fits; [apply (wf_tiles _ Hwf) | exact Hnt].
    + rewrite Eb. apply arr_set_length.
    + rewrite Efp. lia.
    + refine (proj1 (maps_ext _ (block_of g) _ (tile_of g) _ _ _ (conj R1 R2))).
      * intros x _. rewrite EB. destruct (decide (x = n)); [exact Erel | reflexivity].
      * intros y _. apply ET.
    + refine (proj2 (maps_ext _ (block_of g) _ (tile_of g) _ _ _ (conj R1 R2))).
      * intros x _. rewrite EB. destruct (decide (x = n)); [exact Erel | reflexivity].
      * intros y _. apply ET.
    + intros b Hb Ht. rewrite ET in Ht. rewrite Efp.
      destruct (decide (b = block_of file n)); [contradiction |]. apply Hon; assumption.
Qed.

Lemma fill_guard_Some (file : sif_file) (tx ty band : Z) (v : option (list Z))
    (hd : sif_header) (v' : list Z) :
  fill_guard file tx ty band v = Some (hd, v') ->
  header file = Some hd /\ 0 <= tx < n_tiles_across hd /\ 0 <= ty.
Proof.
  unfold fill_guard. destruct (header file) as [hd0 |]; [| discriminate].
  destruct v as [v0 |]; [| discriminate].
  destruct (version hd0 >? SIF_VERSION); [discriminate |].
  destruct (tx <? 0) eqn:E1; [discriminate |]. destruct (ty <? 0) eqn:E2; [discriminate |].
  destruct (tx >=? n_tiles_across hd0) eqn:E3; [discriminate |].
  cbn [orb]. destruct ((band <? 0) || (band >=? bands hd0)); [discriminate |].
  cbn [orb]. destruct (negb _); [discriminate |].
  intros [= <- <-]. split; [reflexivity | lia].
Qed.

Lemma fill_tile_slice_well_formed (file : sif_file) (tx ty band : Z)
    (v : option (list Z)) :
  well_formed file ->
  (ty < 0 \/ n_tiles_across (hdr file) * ty + tx < n_tiles (hdr file)) ->
  well_formed (sif_fill_tile_slice file tx ty band v).
Proof.
  intros Hwf Hrow.
  destruct (fill_guard file tx ty band v) as [[hd v'] |] eqn:Hg.
  - destruct (fill_tile_slice_admitted_eq _ _ _ _ _ _ _ Hg) as [Hh ->].
    destruct (fill_guard_Some _ _ _ _ _ _ _ Hg) as (_ & Htx & Hty).
    assert (hdr file = hd) as Eh by (unfold hdr; rewrite Hh; reflexivity).
    rewrite Eh in Hrow.
    set (n := n_tiles_across hd * ty + tx) in *.
    assert (0 <= n < n_tiles (hdr file)) as Hn by (rewrite Eh; subst n; nia).
    destruct (release_mark_well_formed file n band v' Hwf Hn) as (Hwg & Efp & Ehg).
    set (g := release_if_uniform (mark_band_uniform file n band v') n) in *.
    pose proof (geometry_ok_spec _ (wf_geometry _ Hwg))
      as (Gb & Gd & Gf & Gtb & Gthb & Ghb & Gbl & Gn & Gt & Gbt).
    destruct (write_tile_header_succeeds g (tile_at g n) n) as (x & Hw & Hx);
      try assumption; [nia |].
    rewrite Hw. cbn [fst]. apply well_formed_set_fp; assumption.
  - destruct (fill_tile_slice_refused _ _ _ _ _ Hg) as [e ->].
    apply well_formed_set_error, Hwf.
Qed.

Lemma mark_release_write_well_formed (file : sif_file) (n band : Z) (v : list Z) :
  well_formed file -> 0 <= n < n_tiles (hdr file) ->
  well_formed
    (fst (_sif_write_tile_header
            (release_if_uniform (mark_band_uniform file n band v) n)
            (tile_at (release_if_uniform (mark_band_uniform file n band v) n) n) n)).
Proof.
  intros Hwf Hn.
  destruct (release_mark_well_formed file n band v Hwf Hn) as (Hwg & Efp & Ehg).
  set (g := release_if_uniform (mark_band_uniform file n band v) n) in *.
  pose proof (geometry_ok_spec _ (wf_geometry _ Hwg))
    as (Gb & Gd & Gf & Gtb & Gthb & Ghb & Gbl & Gn & Gt & Gbt).
  destruct (write_tile_header_succeeds g (tile_at g n) n) as (x & Hw & Hx);
    try assumption; [rewrite Ehg in *; nia |].
  rewrite Hw. cbn [fst]. apply well_formed_set_fp; assumption.
Qed.

(** The calls [sif_set_tile_slice] turns down leave an error and nothing
    else; the others have a buffer, a writable handle and a tile column and
    band in range. *)
Lemma set_tile_slice_cases (file : sif_file) (hd : sif_header)
    (buffer : option (list Z)) (tx ty band : Z) :
  header file = Some hd -> version hd <= SIF_VERSION ->
  (exists e, sif_set_tile_slice file buffer tx ty band = set_error file e)
  \/ (exists data,
        buffer = Some data /\ read_only file = 0
        /\ 0 <= tx < n_tiles_across hd /\ 0 <= ty /\ 0 <= band < bands hd).
Proof.
  intros Hh Hv. unfold sif_set_tile_slice, SIF_CHECK_FILE_, void_ret. rewrite Hh.
  destruct (version hd >? SIF_VERSION) eqn:E; [lia |]. clear E.
  destruct (tx <? 0) eqn:E1; [left; eauto |]. destruct (ty <? 0) eqn:E2; [left; eauto |].
  destruct (tx >=? n_tiles_across hd) eqn:E3; [left; eauto |].
  destruct (band <? 0) eqn:E4; [left; eauto |].
  destruct (band >=? bands hd) eqn:E5; [left; eauto |].
  destruct buffer as [data |]; [| left; eauto].
  destruct (read_only file =? 0) eqn:E6; [| left; eauto].
  right. exists data. apply Z.eqb_eq in E6. repeat split; try assumption; lia.
Qed.

Lemma set_tile_slice_well_formed (file : sif_file) (buffer : option (list Z))
    (tx ty band : Z) :
  well_formed file ->
  (ty < 0 \/ n_tiles_across (hdr file) * ty + tx < n_tiles (hdr file)) ->
  well_formed (sif_set_tile_slice file buffer tx ty band).
Proof.
  intros Hwf Hrow.
  pose proof (wf_check _ Hwf) as Hck. unfold passes_check in Hck.
  destruct (header file) as [hd |] eqn:Hh; [| contradiction].
  assert (hdr file = hd) as Eh by (unfold hdr; rewrite Hh; reflexivity).
  rewrite Eh in Hrow.
  destruct (set_tile_slice_cases file hd buffer tx ty band Hh Hck)
    as [[e ->] | (data & -> & Hro & Htx & Hty & Hband)];
    [apply well_formed_set_error, Hwf |].
  set (n := n_tiles_across hd * ty + tx) in *.
  assert (0 <= n < n_tiles hd) as Hn by (subst n; nia).
  destruct (negb (intrinsic_write hd =? 0)
            && _sif_is_uniform file data
                 (MIN (tile_width hd) (width hd - tx * tile_width hd))
                 (MIN (tile_height hd) (height hd - ty * tile_height hd))) eqn:Eu.
  - apply andb_true_iff in Eu as [Eiw Eun].
    rewrite (set_uniform_slice_eq_fill file hd tx ty band data Hh)
      by (try assumption; intros E; rewrite E in Eiw; discriminate).
    apply fill_tile_slice_well_formed; [exact Hwf |]. rewrite Eh. right. lia.
  - assert (intrinsic_write hd = 0
            \/ _sif_is_uniform file data
                 (MIN (tile_width hd) (width hd - tx * tile_width hd))
                 (MIN (tile_height hd) (height hd - ty * tile_height hd)) = false) as Hnu.
    { apply andb_false_iff in Eu as [E | E]; [left | right; exact E].
      apply negb_false_iff, Z.eqb_eq in E. exact E. }
    destruct (set_tile_slice_shape file hd data tx ty band Hwf Hh Hro Htx Hty Hband
                ltac:(lia) Hnu) as (x & d & Hs & Hd & Hl).
    fold n in Hs, Hd, Hl.
    set (g := sif_set_tile_slice file (Some data) tx ty band) in *.
    pose proof (geometry_ok_spec _ (wf_geometry _ Hwf))
      as (Gb & Gd & Gf & Gtb & Gthb & Ghb & Gbl & Gn & Gt & Gbt).
    rewrite Eh in *.
    destruct (blocks_consistent_spec _ (wf_blocks _ Hwf)) as [H1 H2]. rewrite Eh in H1, H2.
    pose proof (blocks_on_disk_spec _ (wf_on_disk _ Hwf)) as Hon. rewrite Eh in Hon.
    pose proof (wf_tile_bytes _ Hwf) as Htb. rewrite Eh in Htb.
    pose proof (wf_slice _ Hwf) as Hu.
    set (t := tile_at file n) in *.
    set (t' := mk_tile (SIF_CLEAR_BIT (uniform_flags t) band) (uniform_pixel_values t)
                 (block_for file n)) in *.
    assert (0 <= n < Z.of_nat (length (tiles file))) as Hnt by lia.
    assert (tiles g = <[Z.to_nat n := t']> (tiles file)) as Et by (rewrite Hs; reflexivity).
    assert (forall x, block_of g x
                      = if decide (x = n) then block_for file n else block_of file x) as EB.
    { intros y. rewrite (block_of_insert g file n t' y Hnt Et). reflexivity. }
    assert (length (contents (fp file)) <= length (contents x))%nat as Hlx.
    { etransitivity; [| exact Hl]. unfold slice_stored. rewrite pwrite_length.
      destruct (block_num (tile_at file n) =? -1); [rewrite pwrite_length |]; lia. }
    assert (fp g = x) as Efp by (rewrite Hs; reflexivity).
    apply (well_formed_update file g n t'); rewrite ?Eh; try assumption;
      try (rewrite Hs; reflexivity).
    + rewrite Hs. cbn [header]. symmetry. exact Hh.
    + apply cleared_tile_fits. rewrite <- Eh. apply tile_at_fits; [apply (wf_tiles _ Hwf) | exact Hnt].
    + rewrite Hs. cbn [blocks_to_tiles]. destruct (_ =? -1); [apply arr_set_length | reflexivity].
    + rewrite Efp. exact Hlx.
    + unfold block_for in EB. destruct (block_num (tile_at file n) =? -1) eqn:Eb.
      * apply Z.eqb_eq in Eb.
        destruct (first_free_block_spec file) as (Hfr & Hfree & Hmin).
        { rewrite Eh. apply (free_block_exists (block_of file) (tile_of file) _ n); assumption. }
        rewrite Eh in Hfr.
        destruct (maps_assign (block_of file) (tile_of file) _ n (first_free_block file)
                    H1 H2 Hn Hfr Eb Hfree) as [R1 R2].
        refine (proj1 (maps_ext _ (block_of g) _ (tile_of g) _ _ _ (conj R1 R2))).
        -- intros y _. apply EB.
        -- intros y _. unfold tile_of. rewrite Hs. cbn [blocks_to_tiles].
           unfold block_for. fold t. apply Z.eqb_eq in Eb. fold t in Eb. rewrite Eb.
           apply arr_get_set. lia.
      * refine (proj1 (maps_ext _ (block_of g) _ (tile_of g) _ _ _ (conj H1 H2))).
        -- intros y _. rewrite EB. destruct (decide (y = n)) as [-> | _]; reflexivity.
        -- intros y _. unfold tile_of. rewrite Hs. cbn [blocks_to_tiles].
           fold t. change (block_num t) with (block_num (tile_at file n)). rewrite Eb.
           reflexivity.
    + unfold block_for in EB. destruct (block_num (tile_at file n) =? -1) eqn:Eb.
      * apply Z.eqb_eq in Eb.
        destruct (first_free_block_spec file) as (Hfr & Hfree & Hmin).
        { rewrite Eh. apply (free_block_exists (block_of file) (tile_of file) _ n); assumption. }
        rewrite Eh in Hfr.
        destruct (maps_assign (block_of file) (tile_of file) _ n (first_free_block file)
                    H1 H2 Hn Hfr Eb Hfree) as [R1 R2].
        refine (proj2 (maps_ext _ (block_of g) _ (tile_of g) _ _ _ (conj R1 R2))).
        -- intros y _. apply EB.
        -- intros y _. unfold tile_of. rewrite Hs. cbn [blocks_to_tiles].
           unfold block_for. fold t. apply Z.eqb_eq in Eb. fold t in Eb. rewrite Eb.
           apply arr_get_set. lia.
      * refine (proj2 (maps_ext _ (block_of g) _ (tile_of g) _ _ _ (conj H1 H2))).
        -- intros y _. rewrite EB. destruct (decide (y = n)) as [-> | _]; reflexivity.
        -- intros y _. unfold tile_of. rewrite Hs. cbn [blocks_to_tiles].
           fold t. change (block_num t) with (block_num (tile_at file n)). rewrite Eb.
           reflexivity.
    + intros b Hb Ht. rewrite Efp.
      unfold tile_of in Ht. rewrite Hs in Ht. cbn [blocks_to_tiles] in Ht.
      unfold slice_stored, block_for in Hl. rewrite Eh in Hl. fold t in Hl, Ht.
      destruct (block_num t =? -1) eqn:Eb.
      * destruct (decide (b = first_free_block file)) as [-> | Hne].
        -- rewrite !pwrite_length in Hl.
           rewrite concat_replicate_length, sub_bytes_length in Hl.
           unfold _sif_get_block_location in Hl. rewrite Eh in Hl.
           pose proof (first_free_block_nonneg file). nia.
        -- unfold block_for in Ht. fold t in Ht. rewrite Eb in Ht.
           rewrite arr_get_set_ne in Ht by congruence.
           pose proof (Hon b Hb Ht). lia.
      * pose proof (Hon b Hb Ht). lia.
Qed.

Lemma fill_all_well_formed (band : Z) (v : list Z) (l : list Z) :
  forall file,
    well_formed file -> Forall (fun i => 0 <= i < n_tiles (hdr file)) l ->
    well_formed
      (foldl (fun file tile_num =>
                release_if_uniform (mark_band_uniform file tile_num band v) tile_num)
             file l).
Proof.
  induction l as [| i l IH]; intros file Hwf Hl; cbn [foldl]; [exact Hwf |].
  apply Forall_cons_1 in Hl as [Hi Hl].
  destruct (release_mark_well_formed file i band v Hwf Hi) as (Hwg & _ & Ehg).
  apply IH; [exact Hwg |]. rewrite Ehg. exact Hl.
Qed.

Lemma fill_tiles_well_formed (file : sif_file) (band : Z) (v : option (list Z)) :
  well_formed file -> well_formed (sif_fill_tiles file band v).
Proof.
  intros Hwf. unfold sif_fill_tiles, SIF_CHECK_FILE_, void_ret.
  destruct (header file) as [hd |] eqn:Hh; [| apply well_formed_set_error, Hwf].
  assert (hdr file = hd) as Eh by (unfold hdr; rewrite Hh; reflexivity).
  destruct (version hd >? SIF_VERSION); [apply well_formed_set_error, Hwf |].
  destruct (_ || _); [apply well_formed_set_error, Hwf |].
  destruct v as [v |]; [| apply well_formed_set_error, Hwf].
  destruct (negb _); [apply well_formed_set_error, Hwf |].
  set (g := foldl _ file _).
  assert (well_formed g) as Hwg.
  { apply fill_all_well_formed; [exact Hwf |]. rewrite Eh.
    apply list.Forall_forall. intros i Hi. apply elem_of_seqZ in Hi. lia. }
  pose proof (geometry_ok_spec _ (wf_geometry _ Hwg))
    as (Gb & Gd & Gf & Gtb & Gthb & Ghb & Gbl & Gn & Gt & Gbt).
  pose proof (wf_base _ Hwg) as Hbase. pose proof (wf_length _ Hwg) as Hlen.
  rewrite write_tile_headers_result; try assumption.
  - cbn [fst]. apply well_formed_set_fp; [exact Hwg |].
    cbn [contents]. rewrite pwrite_length. lia.
  - nia.
  - lia.
  - apply (wf_tiles _ Hwg).
Qed.

(** X22.  The slice writers keep a handle consistent, whatever their
    arguments: after [sif_set_tile_slice], [sif_fill_tile_slice] or
    [sif_fill_tiles] the block maps still agree, every used block still lies
    inside the file, and the tile headers keep their sizes and their place;
    a tile without a block that needs one always finds a free block.  (The
    tile row must exist: the functions do not test [ty] against the number
    of rows.) *)
Theorem slice_writers_keep_well_formed (file : sif_file)
    (buffer v : option (list Z)) (tx ty band : Z) :
  well_formed file ->
  (ty < 0 \/ n_tiles_across (hdr file) * ty + tx < n_tiles (hdr file)) ->
  well_formed (sif_set_tile_slice file buffer tx ty band)
  /\ well_formed (sif_fill_tile_slice file tx ty band v)
  /\ well_formed (sif_fill_tiles file band v).
Proof.
  intros Hwf Hrow. split; [| split].
  - apply set_tile_slice_well_formed; assumption.
  - apply fill_tile_slice_well_formed; assumption.
  - apply fill_tiles_well_formed; assumption.
Qed.

Lemma slice_writers_keep_well_formed_witness :
  exists file,
    fragmented_file = Some file
    /\ well_formed file
    /\ well_formed (sif_set_tile_slice file (Some [1; 2]) 2 0 0)
    /\ well_formed (sif_fill_tile_slice file 2 0 0 (Some [3]))
    /\ well_formed (sif_fill_tiles file 0 (Some [3])).
Proof.
  eexists. split; [vm_compute; reflexivity |].
  assert (forall P Q : Prop, P -> (P -> Q) -> P /\ Q) as both by tauto.
  apply both.
  - constructor; try (vm_compute; reflexivity); try (vm_compute; congruence).
    repeat (constructor; [split; vm_compute; reflexivity |]). constructor.
  - intros Hwf. apply slice_writers_keep_well_formed; [exact Hwf |].
    right. vm_compute. reflexivity.
Defined.

(** ** Writing a slice leaves the other slices alone *)

Lemma pwrite_take_drop_outside (c : list Z) (p : Z) (d : list Z) (q m : nat) :
  (q + m <= Z.to_nat p \/ Z.to_nat p + length d <= q)%nat -> (q + m <= length c)%nat ->
  take m (drop q (pwrite c p d)) = take m (drop q c).
Proof.
  intros [H | H] Hc.
  - rewrite !take_drop_commute. f_equal. unfold pwrite.
    rewrite take_app_le by (rewrite length_resize; lia).
    rewrite take_resize_le by lia. apply resize_le. lia.
  - rewrite pwrite_drop_after by lia. reflexivity.
Qed.

Lemma get_bit_clear_other (uca : list Z) (i j : Z) :
  0 <= i -> 0 <= j -> j <> i ->
  SIF_GET_BIT (SIF_CLEAR_BIT uca i) j = SIF_GET_BIT uca j.
Proof.
  intros Hi Hj Hne.
  pose proof (Z.rem_bound_pos i 8 ltac:(lia) ltac:(lia)) as Hri.
  pose proof (Z.rem_bound_pos j 8 Hj ltac:(lia)) as Hrj.
  pose proof (Z.quot_pos i 8 Hi ltac:(lia)) as Hqi.
  rewrite !get_bit_testbit by exact Hj. unfold SIF_CLEAR_BIT.
  destruct (decide (Z.quot i 8 < Z.of_nat (length uca))) as [Hin | Hout];
    [| rewrite arr_set_ge by lia; reflexivity].
  destruct (decide (Z.quot j 8 = Z.quot i 8)) as [Eq | Nq].
  - rewrite Eq, arr_get_set_eq by lia.
    rewrite !Z.land_spec, Z.lnot_spec, testbit_shiftl_1, testbit_255 by lia.
    rewrite (proj2 (Z.ltb_lt (7 - Z.rem j 8) 8)) by lia. rewrite andb_true_r.
    destruct (7 - Z.rem i 8 =? 7 - Z.rem j 8) eqn:E.
    + exfalso. apply Hne. apply Z.eqb_eq in E. apply quot_rem_inj; lia.
    + cbn [negb]. apply f_equal. apply andb_true_r.
  - rewrite arr_get_set_ne by congruence. reflexivity.
Qed.

Lemma get_bit_0_or_1 (uca : list Z) (j : Z) :
  SIF_GET_BIT uca j = 0 \/ SIF_GET_BIT uca j = 1.
Proof.
  unfold SIF_GET_BIT. rewrite land_1_testbit. destruct (Z.testbit _ _); auto.
Qed.

(** What [sif_get_tile_slice] hands back for a slice served from the tile
    header depends on the header of the file, the slice size and the tile
    header only. *)
Lemma get_tile_slice_header_only (g f : sif_file) (hd : sif_header) (buf : list Z)
    (tx ty band : Z) :
  header g = Some hd -> header f = Some hd ->
  units_per_slice g = units_per_slice f ->
  uniform_pixel_values (tile_at g (n_tiles_across hd * ty + tx))
  = uniform_pixel_values (tile_at f (n_tiles_across hd * ty + tx)) ->
  SIF_GET_BIT (uniform_flags (tile_at g (n_tiles_across hd * ty + tx))) band = 1 ->
  SIF_GET_BIT (uniform_flags (tile_at f (n_tiles_across hd * ty + tx))) band = 1 ->
  snd (sif_get_tile_slice g (Some buf) tx ty band)
  = snd (sif_get_tile_slice f (Some buf) tx ty band).
Proof.
  intros Hg Hf Hu Hp Bg Bf. unfold sif_get_tile_slice, SIF_CHECK_FILE_.
  rewrite Hg, Hf.
  destruct (version hd >? SIF_VERSION); [reflexivity |].
  destruct (_ || _); [reflexivity |]. destruct (_ || _); [reflexivity |].
  unfold _sif_band_of_tile_is_uniform_shallow. rewrite Bg, Bf, Hu, Hp.
  cbn [Z.eqb negb]. destruct (data_unit_size hd >? 1); reflexivity.
Qed.

Lemma mul_step (a x y : Z) : 0 <= a -> x < y -> a * x + a <= a * y.
Proof. intros. nia. Qed.

(** X23.  Storing a slice does not disturb any other slice: after
    [sif_set_tile_slice] has written a slice to a block,
    [sif_get_tile_slice] returns for every other tile or band what it
    returned before, whether that slice is uniform or stored in a block. *)
Theorem set_tile_slice_keeps_other_slices (file : sif_file) (hd : sif_header)
    (tx ty band tx' ty' band' : Z) (data buf : list Z) :
  well_formed file -> header file = Some hd -> read_only file = 0 ->
  0 <= tx < n_tiles_across hd -> 0 <= ty -> 0 <= band < bands hd ->
  n_tiles_across hd * ty + tx < n_tiles hd ->
  (intrinsic_write hd = 0
   \/ _sif_is_uniform file data
        (MIN (tile_width hd) (width hd - tx * tile_width hd))
        (MIN (tile_height hd) (height hd - ty * tile_height hd)) = false) ->
  0 <= tx' < n_tiles_across hd -> 0 <= ty' -> 0 <= band' < bands hd ->
  n_tiles_across hd * ty' + tx' < n_tiles hd ->
  (n_tiles_across hd * ty' + tx' <> n_tiles_across hd * ty + tx \/ band' <> band) ->
  (SIF_GET_BIT (uniform_flags (tile_at file (n_tiles_across hd * ty' + tx'))) band' <> 0
   \/ block_num (tile_at file (n_tiles_across hd * ty' + tx')) <> -1) ->
  Z.of_nat (length buf) = data_unit_size hd * units_per_slice file ->
  snd (sif_get_tile_slice (sif_set_tile_slice file (Some data) tx ty band)
         (Some buf) tx' ty' band')
  = snd (sif_get_tile_slice file (Some buf) tx' ty' band').
Proof.
  intros Hwf Hh Hro Htx Hty Hband Hn Hnu Htx' Hty' Hband' Hn' Hother Hstored Hlb.
  destruct (set_tile_slice_shape file hd data tx ty band Hwf Hh Hro Htx Hty Hband Hn Hnu)
    as (x & d & Hs & Hd & Hl).
  assert (hdr file = hd) as Eh by (unfold hdr; rewrite Hh; reflexivity).
  pose proof (geometry_ok_spec _ (wf_geometry _ Hwf))
    as (Gb & Gd & Gf & Gtb & Gthb & Ghb & Gbl & Gn & Gt & Gbt).
  destruct (blocks_consistent_spec _ (wf_blocks _ Hwf)) as [H1 H2].
  pose proof (blocks_on_disk_spec _ (wf_on_disk _ Hwf)) as Hon.
  pose proof (wf_tile_bytes _ Hwf) as Htb. pose proof (wf_slice _ Hwf) as Hu.
  pose proof (wf_check _ Hwf) as Hck. unfold passes_check in Hck. rewrite Hh in Hck.
  rewrite Eh in *.
  set (n := n_tiles_across hd * ty + tx) in *.
  set (n' := n_tiles_across hd * ty' + tx') in *.
  assert (0 <= n) as Hn0 by (subst n; nia).
  assert (0 <= n') as Hn0' by (subst n'; nia).
  assert (0 <= n < Z.of_nat (length (tiles file))) as Hnt by lia.
  set (g := sif_set_tile_slice file (Some data) tx ty band) in *.
  set (t := tile_at file n) in *.
  set (t' := mk_tile (SIF_CLEAR_BIT (uniform_flags t) band) (uniform_pixel_values t)
               (block_for file n)) in *.
  assert (header g = Some hd) as Hhg by (rewrite Hs; reflexivity).
  assert (units_per_slice g = units_per_slice file) as Eug by (rewrite Hs; reflexivity).
  assert (base_location g = base_location file) as Ebg by (rewrite Hs; reflexivity).
  assert (fp g = x) as Efp by (rewrite Hs; reflexivity).
  assert (tile_at g n' = if decide (n' = n) then t' else tile_at file n') as Etg.
  { unfold tile_at at 1. rewrite Hs. cbn [tiles].
    destruct (n' <? 0) eqn:E; [lia |].
    destruct (decide (n' = n)) as [-> | Hne].
    - rewrite list_lookup_insert_eq by lia. reflexivity.
    - rewrite list_lookup_insert_ne by lia. unfold tile_at. rewrite E. reflexivity. }
  assert (uniform_pixel_values (tile_at g n') = uniform_pixel_values (tile_at file n')) as Eupv.
  { rewrite Etg. destruct (decide (n' = n)) as [-> | _]; reflexivity. }
  assert (SIF_GET_BIT (uniform_flags (tile_at g n')) band'
          = SIF_GET_BIT (uniform_flags (tile_at file n')) band') as Ebit.
  { rewrite Etg. destruct (decide (n' = n)) as [E | _]; [| reflexivity].
    rewrite E. cbn [uniform_flags t']. fold t.
    apply get_bit_clear_other; lia. }
  destruct (get_bit_0_or_1 (uniform_flags (tile_at file n')) band') as [B0 | B1].
  2:{ apply (get_tile_slice_header_only g file hd buf tx' ty' band'); try assumption.
      fold n'. rewrite Ebit. exact B1. }
  destruct Hstored as [Hbit | Hblock]; [contradiction |].
  change (block_num (tile_at file n')) with (block_of file n') in Hblock.
  destruct (H1 n' ltac:(lia)) as [E | [Hr' Et']]; [contradiction |].
  pose proof (Hon _ Hr' ltac:(rewrite Et'; lia)) as Hdisk'.
  assert (block_num (tile_at g n') = block_of file n') as Ebn.
  { rewrite Etg. destruct (decide (n' = n)) as [E | _]; [| reflexivity].
    cbn [block_num t']. unfold block_for. rewrite E in Hblock. unfold block_of in Hblock.
    destruct (block_num (tile_at file n) =? -1) eqn:Eb; [apply Z.eqb_eq in Eb; contradiction |].
    rewrite E. reflexivity. }
  set (S := data_unit_size hd * units_per_slice file) in *.
  assert (0 < S) as HS by (subst S; nia).
  assert (tile_bytes hd = S * bands hd) as Htb' by (subst S; lia).
  set (bn' := block_of file n') in *.
  set (loc' := base_location file + tile_bytes hd * bn' + S * band').
  assert (slice_location g n' band' = loc') as Elg.
  { unfold slice_location, _sif_get_block_location.
    assert (hdr g = hd) as -> by (unfold hdr; rewrite Hhg; reflexivity).
    rewrite Ebn, Ebg, Eug. reflexivity. }
  assert (slice_location file n' band' = loc') as Elf.
  { unfold slice_location, _sif_get_block_location. rewrite Eh. reflexivity. }
  assert (base_location file <= loc') as Hbase' by (subst loc'; nia).
  assert (loc' + S <= Z.of_nat (length (contents (fp file)))) as Hend'.
  { subst loc'. rewrite Htb' in *. nia. }
  assert (length (contents (fp file)) <= length (contents x))%nat as Hlx.
  { etransitivity; [| exact Hl]. unfold slice_stored. rewrite pwrite_length.
    destruct (block_num (tile_at file n) =? -1); [rewrite pwrite_length |]; lia. }
  rewrite (get_tile_slice_from_block g hd buf tx' ty' band');
    fold n'; rewrite ?Eug, ?Elg, ?Efp, ?Ebit; try assumption; try lia.
  rewrite (get_tile_slice_from_block file hd buf tx' ty' band');
    fold n'; rewrite ?Elf; try assumption; try lia.
  f_equal. fold S.
  rewrite (drop_eq_mono _ _ _ (Z.to_nat loc') Hd) by lia.
  (* the bytes of the other slice are outside everything that was written *)
  unfold slice_stored. rewrite Eh. fold S t.
  unfold _sif_get_block_location. rewrite Eh.
  set (slice := sub_bytes data 0 S).
  assert (length slice = Z.to_nat S) as Lslice by apply sub_bytes_length.
  set (bnn := block_for file n).
  assert (0 <= bnn) as Hbnn.
  { subst bnn. unfold block_for. destruct (block_num (tile_at file n) =? -1) eqn:Eb.
    - apply first_free_block_nonneg.
    - apply Z.eqb_neq in Eb. pose proof (H1 n ltac:(lia)) as Hm. unfold block_of in Hm. lia. }
  assert (n' <> n -> bnn <> bn') as Hdiff.
  { intros Hne E. subst bnn. unfold block_for in E.
    destruct (block_num (tile_at file n) =? -1) eqn:Eb.
    - apply Z.eqb_eq in Eb.
      destruct (first_free_block_spec file) as (Hfr & Hfree & _).
      { rewrite Eh. apply (free_block_exists (block_of file) (tile_of file) _ n);
          try assumption; lia. }
      rewrite E in Hfree. lia.
    - apply Z.eqb_neq in Eb.
      assert (block_of file n = bn') as E' by exact E.
      destruct (H1 n ltac:(lia)) as [Hm | [_ Hm]]; [contradiction |].
      rewrite E' in Hm. congruence. }
  assert (n' = n -> bnn = bn' /\ band' <> band /\ block_num t <> -1) as Hsame.
  { intros E. destruct Hother as [H | H]; [contradiction |].
    assert (block_num (tile_at file n) <> -1) as Hb.
    { intros Hc. apply Hblock. unfold bn', block_of. rewrite E. exact Hc. }
    split; [| split; [exact H | exact Hb]].
    subst bnn. unfold block_for.
    destruct (block_num (tile_at file n) =? -1) eqn:Eb;
      [apply Z.eqb_eq in Eb; contradiction |].
    unfold bn', block_of. rewrite E. reflexivity. }
  set (c := contents (fp file)) in *.
  set (c' := if block_num t =? -1
             then pwrite c (base_location file + tile_bytes hd * bnn)
                    (concat (replicate (Z.to_nat (bands hd)) slice))
             else c).
  assert (length c <= length c')%nat as Hlc'.
  { subst c'. destruct (block_num t =? -1); [rewrite pwrite_length |]; lia. }
  assert (0 <= S * band /\ S * band + S <= tile_bytes hd) as Hsl.
  { rewrite Htb'. split; [apply Z.mul_nonneg_nonneg; lia | apply mul_step; lia]. }
  assert (0 <= S * band' /\ S * band' + S <= tile_bytes hd) as Hsl'.
  { rewrite Htb'. split; [apply Z.mul_nonneg_nonneg; lia | apply mul_step; lia]. }
  assert (0 <= bn') as Hbn' by lia.
  assert (0 <= tile_bytes hd * bn' /\ 0 <= tile_bytes hd * bnn) as Hpos
    by (split; apply Z.mul_nonneg_nonneg; lia).
  assert (bn' < bnn -> tile_bytes hd * bn' + tile_bytes hd <= tile_bytes hd * bnn)
    as Hlt by (intros; apply mul_step; lia).
  assert (bnn < bn' -> tile_bytes hd * bnn + tile_bytes hd <= tile_bytes hd * bn')
    as Hgt by (intros; apply mul_step; lia).
  assert (band' < band -> S * band' + S <= S * band) as Hblt
    by (intros; apply mul_step; lia).
  assert (band < band' -> S * band + S <= S * band') as Hbgt
    by (intros; apply mul_step; lia).
  assert (Z.of_nat (length (concat (replicate (Z.to_nat (bands hd)) slice))) = tile_bytes hd)
    as Lblock.
  { rewrite concat_replicate_length, Lslice, Htb'.
    rewrite Nat2Z.inj_mul, !Z2Nat.id by lia. apply Z.mul_comm. }
  subst loc'.
  set (A := S * band) in *. set (A' := S * band') in *.
  set (TB := tile_bytes hd) in *.
  set (Q := TB * bn') in *. set (Qn := TB * bnn) in *.
  rewrite pwrite_take_drop_outside.
  - subst c'. destruct (block_num t =? -1) eqn:Eb; [| reflexivity].
    apply Z.eqb_eq in Eb.
    assert (n' <> n) as Hne by (intros E; destruct (Hsame E) as (_ & _ & Hc); contradiction).
    specialize (Hdiff Hne).
    apply pwrite_take_drop_outside; [| lia].
    destruct (decide (bn' < bnn)) as [Hc | Hc]; [left; specialize (Hlt Hc) |
                                                  right; specialize (Hgt ltac:(lia))]; lia.
  - rewrite Lslice.
    destruct (decide (n' = n)) as [E | Hne].
    + destruct (Hsame E) as (Eb & Hbb & _).
      assert (Qn = Q) as EQ by (subst Qn Q; rewrite Eb; reflexivity).
      destruct (decide (band' < band)) as [Hc | Hc]; [left; specialize (Hblt Hc) |
                                                      right; specialize (Hbgt ltac:(lia))]; lia.
    + specialize (Hdiff Hne).
      destruct (decide (bn' < bnn)) as [Hc | Hc]; [left; specialize (Hlt Hc) |
                                                    right; specialize (Hgt ltac:(lia))]; lia.
  - lia.
Qed.

Lemma set_tile_slice_keeps_other_slices_witness :
  exists file,
    fragmented_file = Some file
    /\ well_formed file
    /\ snd (sif_get_tile_slice (sif_set_tile_slice file (Some [1; 2]) 2 0 0)
              (Some [0; 0]) 1 0 0)
       = snd (sif_get_tile_slice file (Some [0; 0]) 1 0 0).
Proof.
  eexists. split; [vm_compute; reflexivity |].
  assert (forall P Q : Prop, P -> (P -> Q) -> P /\ Q) as both by tauto.
  apply both.
  - constructor; try (vm_compute; reflexivity); try (vm_compute; congruence).
    repeat (constructor; [split; vm_compute; reflexivity |]). constructor.
  - intros Hwf. eapply set_tile_slice_keeps_other_slices.
    + exact Hwf.
    + vm_compute. reflexivity.
    + vm_compute. reflexivity.
    + split; vm_compute; [congruence | reflexivity].
    + vm_compute. congruence.
    + split; vm_compute; [congruence | reflexivity].
    + vm_compute. reflexivity.
    + right. vm_compute. reflexivity.
    + split; vm_compute; [congruence | reflexivity].
    + vm_compute. congruence.
    + split; vm_compute; [congruence | reflexivity].
    + vm_compute. reflexivity.
    + left. vm_compute. congruence.
    + right. vm_compute. congruence.
    + vm_compute. reflexivity.
Defined.

(** ** The meta-data region on disk *)







(** ** Opening a file *)














(** ** The meta-data table after a reload *)













(** ** Two handles that read the same slice *)


(** ** Closing and reopening *)




















